(* ===== verification/_CoqProject ===== *)
-Q . S2P
Prelude.v
Effects.v
Ioctl.v
Structs.v
World.v
Abi.v
Capability.v
Vm.v
Cpuid.v
Argv.v
ArchAmd64.v
ArchArm64.v
Path.v
Show.v
Machine.v
Boot.v
Load.v
Build.v
TestHost.v
Service.v
Container.v
ContainerSpec.v
Flag.v
Cmd.v
ArchSpec.v
MachineSpec.v
Termination.v
Signals.v
LoadSpec.v
CmdSpec.v
ServiceSpec.v
