(* ===== verification/Prelude.v ===== *)
(** * Revisor: a verification development for the Go hypervisor

    Revisor ([src/]) runs an unmodified program inside a KVM virtual machine:
    a Go program creates the machine, loads a small guest kernel and serves
    its hypercalls, which reach a few host files.  This development is a
    shallow embedding of the Go code: each function is a Rocq function with
    the name it has in the source, and the theorems are about those functions.

    ** The program and the files that model it

    - [Prelude] (this file): 64-bit integers with explicit wrap-around, bytes,
      little-endian words, windows of a byte list, the development's tactics
      and hint databases.
    - [Effects]: Go errors, panics and the monad [M W A]; [respects R m] (every
      run of [m] is a step of the preorder [R]) and [no_error m].
    - [Ioctl]: [kvm/ioctl.go], the constants of [kvm/kvm.go] and
      [kvm/exittype_string.go].
    - [Structs]: the Go layout rules (alignment, padding, [unsafe.Sizeof]) and
      every struct that crosses the kernel or the guest boundary.
    - [World]: the state.  The [Machine] with its [vm] and [vcpu]s; the shared
      mappings (guest memory and the [kvm_run] pages); the handler's state;
      the host's files; a trace of the requests made.  KVM and the host are
      the classes [KVM] and [HostOS], what is needed of them [KVMLaws] and
      [HostOSLaws].
    - [Abi]: what Linux's [<linux/kvm.h>] says of each request on each of the
      two targets (number, direction, size, type of the argument), as a check
      on the events of the trace, and the two requests of the program that do
      not pass it; a specification, with no counterpart in the source.
    - [Capability]: [kvm/capability.go].  [Vm]: [kvm/vm.go], [vcpu.go],
      [memory.go], [debug.go] and the accessors of guest memory; the class
      [Arch] is what the two targets offer, [ArchLaws] what the common code
      relies on.
    - [Cpuid]: [kvm/cpuid_amd64.go].  [ArchAmd64], [ArchArm64]: the other files
      of the two targets, as instances of [Arch] that satisfy [ArchLaws].
    - [Argv]: [kvm/argv.go].  [Machine]: [kvm/machine.go], construction,
      loading, the run loop and the goroutine of a vcpu.  [Boot]: [boot.go] and
      the goroutines as a transition system.  [Load], [Build]: lemmas on
      loading and construction.  [Show]: the printers of [machine.go].
    - [Path]: [path/filepath] as the program uses it.  [Container]:
      [container.go] and [hypercall.go].
    - [Service]: the file service the hypercalls promise, without addresses,
      encodings or tables; a specification.
    - [Flag]: the options of [main], the standard package [flag] as [main]
      uses it, and what a sequence of settings asks for.  [Cmd]: the rest of
      [cmd/revisor/revisor.go].
    - [TestHost]: a concrete kernel, host, disassembler and file format that
      satisfy the laws; all witnesses run on them.
    - [ContainerSpec], [ArchSpec], [MachineSpec], [LoadSpec], [CmdSpec],
      [ServiceSpec], [Termination], [Signals]: the theorems, the main ones
      numbered, with their witnesses in a module at the end of each.

    ** How the pieces interact

    [Cmd.main] reads the command line, makes a container for the directories
    of [-dir], parses the memory size, builds a machine, loads the kernel and boots.  A vcpu
    goroutine repeats [RunOnce]: the kernel runs the guest, which exits with a
    reason in the shared page; an I/O exit is a hypercall, whose number and
    arguments the target reads from the registers and hands to
    [Container.Hypercall]; the handler translates guest addresses through the
    target, reads and writes guest memory through bounds-checked slices, and
    calls the host.

    ** What the theorems show

    - Confinement: over any sequence of hypercalls, over any interleaving of
      the goroutines, and from the command line on, every file opened for the
      guest has a clean absolute name that [CanAccess] admits, that is, one
      that begins with a directory of [-dir] made absolute in the world of the
      start; what [CanAccess] admits is described element by element, including a neighbour directory
      that it should not admit.
    - Refinement: every hypercall is a request served by [Service], read off the
      registers and the memory of the guest, with the reply in the register
      and the data in the guest's buffers; so the whole program, over every
      interleaving, does to the host's files and to the descriptors what the
      service does for some sequence of requests.
    - Termination: when a budget bounds the exits after which a vcpu is run
      again, the loops of a goroutine return, and every interleaving has a
      bounded number of steps and can be run to the return of [Boot]; signals
      do not matter, not even inside a turn.
    - Descriptors: fresh, never given out twice, dead once closed, exhausted
      after [fdMax] opens.
    - Guest memory: a slice succeeds exactly inside RAM; each hypercall changes
      exactly the bytes it should; a window outside RAM is a panic.
    - Construction and loading: what a built machine looks like, what the
      loaded memory holds, that the argument vector can be read back by the
      guest, and what is refused.
    - Running: [RunOnce] on every exit reason; the nested loops of a goroutine
      against the life of a vcpu, written out from [RunOnce], [SingleStep] and
      [Inst]; the [WaitGroup] counts the live vcpus and [Boot] returns only
      when none is left; no reachable configuration is stuck.
    - The command line: what [main] boots is what the last setting of each
      option says, however it is written, or its default; how every stage of
      [main] fails; the memory size on every input.
    - The kernel interface: over the whole life of the program every ioctl is a
      request Linux defines on the target, with an argument of the right type
      and size, but for two that are named (the identity map address on amd64,
      single stepping on arm64); CPUID tables and addresses as round trips,
      register and interrupt encodings, the boot registers and the hypercall
      register convention of both targets, the CPUID table of the guest as the
      kernel's answer patched, the vcpu features on arm64.

    ** Modelling choices and bounds

    - [RunInfiniteLoop] and [vcpu_goroutine] take fuel because a guest may run
      for ever; [None] is a loop that has not ended.  They are proved
      equivalent to inductive relations of finite runs, and to return for a
      guest that stops as soon as the fuel exceeds the guest's budget.
      [parse_flags] takes as fuel the number of arguments, which is enough
      because each option uses one up.  All other functions are total.
    - A turn of a vcpu goroutine is one atomic step of the transition system.
      The program creates one vcpu, so this is exact except that a signal may
      be injected inside a turn; an injection is one ioctl.  [Signals] covers
      that case: the theorems hold for every kernel, and a kernel in which
      interrupts arrive before any request is one.
    - The Go [int] is 64 bits wide, as on both targets.
    - A reader of the kernel image is a pure function: the file is not
      modified while it is loaded.
    - Opening another kernel than the embedded one, the ELF parser, the x86
      disassembler, the host and KVM are parameters.

    ** Not modelled

    The usage text of the package [flag] and the line with the elapsed time at
    the end of [main], which only print; [runtime.LockOSThread]; the guest
    kernel ([rekernel/], in D and assembly) and its libraries, which are other
    programs. *)

From stdpp Require Export base list list_numbers gmap strings pretty.
From Stdlib Require Export ZArith Lia.
From Stdlib Require Export Strings.Byte.
#[export] Set Default Goal Selector "!".

Declare Scope go_scope.
Delimit Scope go_scope with go.
Global Open Scope Z_scope.

(** ** Hint databases and tactics of the development *)

Create HintDb go_arith.
Create Rewrite HintDb go_arith.
Create HintDb go_bytes.
Create Rewrite HintDb go_bytes.
Create HintDb respects.
Create HintDb abi.

(** Splits conjunctions in hypotheses and goal, substitutes, and tries the
    arithmetic solver. *)
Ltac go_crush :=
  repeat (destruct_and? || simplify_eq || case_match || case_decide);
  try done; try lia.

(** ** Machine integers

    A Go integer of width [w] is a [Z] kept in range by an explicit wrap at
    every operation that can leave the range. *)

Definition umod (w z : Z) : Z := z mod 2 ^ w.
Definition u8 : Z -> Z := umod 8.
Definition u16 : Z -> Z := umod 16.
Definition u32 : Z -> Z := umod 32.
Definition u64 : Z -> Z := umod 64.

(** Reinterpretation of an unsigned 64-bit pattern as [int64] (Go's [int] on
    both supported targets). *)
Definition i64 (z : Z) : Z :=
  let u := u64 z in if decide (u < 2 ^ 63) then u else u - 2 ^ 64.

Definition is_u (w z : Z) : Prop := 0 <= z < 2 ^ w.
Abbreviation is_u64 := (is_u 64).
Abbreviation is_u32 := (is_u 32).

#[export] Instance is_u_dec w z : Decision (is_u w z).
Proof. unfold is_u. apply _. Defined.

Lemma umod_range w z : 0 <= w -> is_u w (umod w z).
Proof. intros. unfold is_u, umod. apply Z.mod_pos_bound. lia. Qed.

Lemma umod_id w z : is_u w z -> umod w z = z.
Proof. apply Z.mod_small. Qed.

Lemma u64_range z : is_u64 (u64 z).
Proof. apply umod_range. lia. Qed.

Lemma u64_id z : is_u64 z -> u64 z = z.
Proof. apply umod_id. Qed.

Lemma u64_idemp z : u64 (u64 z) = u64 z.
Proof. apply u64_id, u64_range. Qed.

Lemma i64_range z : - 2 ^ 63 <= i64 z < 2 ^ 63.
Proof.
  unfold i64. pose proof (u64_range z) as H. unfold is_u in H.
  case_decide; lia.
Qed.

(** [uint64(int64(x)) = x] on 64-bit patterns: the conversions between the
    two types lose nothing. *)
Lemma u64_i64 z : u64 (i64 z) = u64 z.
Proof.
  unfold i64. case_decide; [apply u64_idemp|].
  unfold u64, umod. rewrite Zminus_mod, Z_mod_same_full, Z.sub_0_r.
  by rewrite !Z.mod_mod.
Qed.

Lemma i64_small z : 0 <= z < 2 ^ 63 -> i64 z = z.
Proof.
  intros. unfold i64. rewrite u64_id by (unfold is_u; lia).
  by rewrite decide_True by lia.
Qed.

#[export] Hint Resolve u64_range : go_arith.
#[export] Hint Rewrite u64_idemp u64_i64 : go_arith.

(** ** Bytes *)

Definition bval (b : byte) : Z := Z.of_N (Byte.to_N b).
Definition bof (z : Z) : byte := default x00 (Byte.of_N (Z.to_N (z mod 256))).

#[export] Instance byte_eq_dec : EqDecision byte := Byte.byte_eq_dec.

Lemma bval_range b : 0 <= bval b < 256.
Proof. unfold bval. pose proof (Byte.to_N_bounded b). lia. Qed.

Lemma bof_bval b : bof (bval b) = b.
Proof.
  unfold bof. rewrite Z.mod_small by apply bval_range.
  unfold bval. by rewrite N2Z.id, Byte.of_to_N.
Qed.

Lemma bval_bof z : bval (bof z) = z mod 256.
Proof.
  unfold bof, bval. pose proof (Z.mod_pos_bound z 256 ltac:(lia)).
  destruct (Byte.of_N _) as [b|] eqn:E; simpl.
  - apply Byte.to_of_N in E. rewrite E. lia.
  - apply Byte.of_N_None_iff in E. lia.
Qed.

#[export] Instance byte_countable : Countable byte := inj_countable' bval bof bof_bval.

Lemma bof_mod z : bof (z mod 256) = bof z.
Proof. unfold bof. by rewrite Z.mod_mod. Qed.

#[export] Hint Rewrite bof_bval bval_bof : go_bytes.

(** Go strings are byte sequences; literals are written as Rocq strings. *)
Abbreviation gostring := (list byte).
Definition str (s : string) : gostring := String.list_byte_of_string s.

(** ** Little-endian integers ([encoding/binary.LittleEndian]) *)

Fixpoint le_enc (n : nat) (z : Z) : list byte :=
  match n with
  | O => []
  | S n => bof z :: le_enc n (z / 256)
  end.

Fixpoint le_dec (bs : list byte) : Z :=
  match bs with
  | [] => 0
  | b :: bs => bval b + 256 * le_dec bs
  end.

Lemma length_le_enc n z : length (le_enc n z) = n.
Proof. revert z. induction n; intros; simpl; auto. Qed.

Lemma le_dec_enc n z : le_dec (le_enc n z) = z mod 2 ^ (8 * Z.of_nat n).
Proof.
  revert z. induction n as [|n IH]; intros z; simpl le_enc; simpl le_dec.
  { by rewrite Z.mod_1_r. }
  rewrite IH, bval_bof.
  replace (2 ^ (8 * Z.of_nat (S n))) with (256 * 2 ^ (8 * Z.of_nat n)).
  - rewrite Z.rem_mul_r by lia. done.
  - change 256 with (2 ^ 8). rewrite <- Z.pow_add_r by lia. f_equal. lia.
Qed.

Lemma le_dec_range bs : 0 <= le_dec bs < 2 ^ (8 * Z.of_nat (length bs)).
Proof.
  induction bs as [|b bs IH]; simpl le_dec; [simpl; lia|].
  pose proof (bval_range b).
  replace (8 * Z.of_nat (length (b :: bs))) with (8 + 8 * Z.of_nat (length bs)).
  - rewrite Z.pow_add_r by lia. change (2 ^ 8) with 256. nia.
  - simpl. lia.
Qed.

Lemma le_enc_dec bs : le_enc (length bs) (le_dec bs) = bs.
Proof.
  induction bs as [|b bs IH]; [done|].
  simpl length. cbn [le_enc le_dec]. pose proof (bval_range b). f_equal.
  - rewrite <- bof_mod.
    replace ((bval b + 256 * le_dec bs) mod 256) with (bval b); [apply bof_bval|].
    rewrite Z.mul_comm, Z.mod_add, Z.mod_small; lia.
  - replace ((bval b + 256 * le_dec bs) / 256) with (le_dec bs); [done|].
    rewrite Z.mul_comm, Z.div_add, Z.div_small; lia.
Qed.

Lemma le_dec_enc_id n z : is_u (8 * Z.of_nat n) z -> le_dec (le_enc n z) = z.
Proof. intros. rewrite le_dec_enc. by apply Z.mod_small. Qed.

#[export] Hint Rewrite length_le_enc : go_bytes.

(** ** Windows of a list

    [read_at off n l] is the Go slice expression [l[off:off+n]] read as a
    value; [write_at off bs l] stores [bs] over the window that starts at
    [off]; [copy_at] is the built-in [copy(l[off:], bs)], which stops at the
    end of the destination. *)

Section Windows.
Context {A : Type}.
Implicit Types (l bs : list A) (off n i : nat).

Definition read_at off n l : list A := take n (drop off l).

Definition write_at off bs l : list A :=
  take off l ++ bs ++ drop (off + length bs) l.

Definition copy_at off bs l : list A :=
  write_at off (take (length l - off) bs) l.

Lemma length_write_at off bs l :
  (off + length bs <= length l)%nat -> length (write_at off bs l) = length l.
Proof.
  intros. unfold write_at. rewrite !length_app, length_take, length_drop. lia.
Qed.

Lemma length_copy_at off bs l :
  (off <= length l)%nat -> length (copy_at off bs l) = length l.
Proof. intros. apply length_write_at. rewrite length_take. lia. Qed.

Lemma lookup_write_at_out off bs l i :
  (off + length bs <= length l)%nat ->
  (i < off \/ off + length bs <= i)%nat ->
  write_at off bs l !! i = l !! i.
Proof.
  intros Hle [Hi|Hi]; unfold write_at.
  - rewrite lookup_app_l by (rewrite length_take; lia).
    by rewrite lookup_take_lt by lia.
  - rewrite lookup_app_r by (rewrite length_take; lia).
    rewrite length_take, lookup_app_r by lia.
    rewrite lookup_drop. f_equal. lia.
Qed.

Lemma lookup_write_at_in off bs l i :
  (off + length bs <= length l)%nat ->
  (off <= i < off + length bs)%nat ->
  write_at off bs l !! i = bs !! (i - off)%nat.
Proof.
  intros Hle Hi. unfold write_at.
  rewrite lookup_app_r by (rewrite length_take; lia).
  rewrite length_take, lookup_app_l by lia. f_equal. lia.
Qed.

Lemma length_read_at off n l :
  (off + n <= length l)%nat -> length (read_at off n l) = n.
Proof. intros. unfold read_at. rewrite length_take, length_drop. lia. Qed.

Lemma lookup_read_at off n l i :
  (i < n)%nat -> read_at off n l !! i = l !! (off + i)%nat.
Proof. intros. unfold read_at. by rewrite lookup_take_lt, lookup_drop by lia. Qed.

(** A window read back right after it was written. *)
Lemma read_write_at off bs l :
  (off + length bs <= length l)%nat ->
  read_at off (length bs) (write_at off bs l) = bs.
Proof.
  intros. unfold read_at, write_at.
  rewrite drop_app_length' by (rewrite length_take; lia).
  by rewrite take_app_length.
Qed.

(** A write does not disturb a window that it does not overlap. *)
Lemma read_write_at_disjoint off bs l off' n :
  (off + length bs <= length l)%nat ->
  (off' + n <= off \/ off + length bs <= off')%nat ->
  read_at off' n (write_at off bs l) = read_at off' n l.
Proof.
  intros Hle Hd. apply list_eq. intros i.
  destruct (decide (i < n)%nat).
  - rewrite !lookup_read_at by done. apply lookup_write_at_out; lia.
  - unfold read_at. rewrite !lookup_take_ge by lia. done.
Qed.

(** A window inside the one that was written. *)
Lemma read_in_write_at off bs l a n :
  (off + length bs <= length l)%nat -> (a + n <= length bs)%nat ->
  read_at (off + a) n (write_at off bs l) = read_at a n bs.
Proof.
  intros Hle Ha. apply list_eq. intros i.
  destruct (decide (i < n)%nat).
  - rewrite !lookup_read_at by done. rewrite lookup_write_at_in by lia. f_equal. lia.
  - unfold read_at. rewrite !lookup_take_ge by lia. done.
Qed.

Lemma copy_at_fits off bs l :
  (off + length bs <= length l)%nat -> copy_at off bs l = write_at off bs l.
Proof. intros. unfold copy_at. by rewrite take_ge by lia. Qed.

(** A write whose window covers nothing of [l]'s prefix leaves it alone. *)
Lemma take_write_at off bs l n :
  (off + length bs <= length l)%nat -> (n <= off)%nat ->
  take n (write_at off bs l) = take n l.
Proof.
  intros. unfold write_at. rewrite take_app_le by (rewrite length_take; lia).
  rewrite take_take. f_equal. lia.
Qed.

(** Two adjacent writes are one. *)
Lemma write_at_app off bs cs l :
  (off + length bs + length cs <= length l)%nat ->
  write_at (off + length bs) cs (write_at off bs l) = write_at off (bs ++ cs) l.
Proof.
  intros Hle. apply list_eq. intros i.
  assert (H1 : length (write_at off bs l) = length l) by (apply length_write_at; lia).
  destruct (decide (off <= i < off + (length bs + length cs))%nat) as [Hi|Hi].
  - rewrite (lookup_write_at_in off (bs ++ cs)) by (rewrite ?length_app; lia).
    destruct (decide (i < off + length bs)%nat).
    + rewrite lookup_write_at_out, lookup_write_at_in by lia.
      by rewrite lookup_app_l by lia.
    + rewrite lookup_write_at_in, lookup_app_r by lia. f_equal. lia.
  - rewrite (lookup_write_at_out off (bs ++ cs)) by (rewrite ?length_app; lia).
    rewrite !lookup_write_at_out by lia. done.
Qed.

(** Writing nothing changes nothing. *)
Lemma write_at_nil off l : write_at off [] l = l.
Proof. unfold write_at. simpl. rewrite Nat.add_0_r. apply take_drop. Qed.

(** What lies behind the window is untouched. *)
Lemma drop_write_at off bs l n :
  (off + length bs <= length l)%nat -> (off + length bs <= n)%nat ->
  drop n (write_at off bs l) = drop n l.
Proof.
  intros. apply list_eq. intros i. rewrite !lookup_drop.
  apply lookup_write_at_out; lia.
Qed.

End Windows.

#[export] Hint Rewrite @length_write_at @length_read_at using lia : go_bytes.

(** ** Decimal and hexadecimal text ([%d], [%x]) *)

Definition hex_digit (d : Z) : byte := bof (if decide (d < 10) then 48 + d else 87 + d).

Fixpoint hex_digits (fuel : nat) (z : Z) (acc : gostring) : gostring :=
  match fuel with
  | O => acc
  | S fuel =>
      let acc := hex_digit (z mod 16) :: acc in
      if decide (z < 16) then acc else hex_digits fuel (z / 16) acc
  end.

(** [%x] of a [uint64]: at most sixteen digits. *)
Definition FormatHex (z : Z) : gostring := hex_digits 16 z [].
