(* ===== verification/Effects.v ===== *)
(** * Effects: Go errors, panics and the monad the model is written in

    A Go function of the program is a computation [M W A] over the world [W]:
    it returns a value, returns a non-nil [error], or panics, and in each case
    leaves a world behind (what was written before an error or a panic stays
    written).  [Err e] models [return ..., err] where the caller looks at the
    error only; a function whose other results are used next to a non-nil
    error returns the pair as a value instead. *)

From S2P Require Import Prelude.

(** ** Error values *)

(** The error values the program creates or compares against.  [Errno] is
    [syscall.Errno]; [ErrorString] is [errors.New] or [fmt.Errorf] without
    [%w]; [Wrap] is [fmt.Errorf] with one [%w]. *)
Inductive error :=
  | Errno (code : Z)
  | EOF
  | ErrUnexpectedEOF
  | ErrExit
  | ErrUnknownHypercall
  | ErrUnexpectedExitReason
  | ErrDebug
  | ErrorString (msg : gostring)
  | Wrap (msg : gostring) (inner : error).

#[export] Instance error_eq_dec : EqDecision error.
Proof. solve_decision. Defined.

(** [errors.Unwrap]. *)
Definition errors_Unwrap (e : error) : option error :=
  match e with Wrap _ i => Some i | _ => None end.

(** [errors.Is]: the target occurs in the chain of wrapped errors. *)
Fixpoint errors_Is (e target : error) : bool :=
  bool_decide (e = target) ||
  match e with Wrap _ i => errors_Is i target | _ => false end.

Definition EINTR : Z := 4.
Definition EAGAIN : Z := 11.

Lemma errors_Is_refl e : errors_Is e e = true.
Proof. destruct e; cbn [errors_Is]; by rewrite bool_decide_eq_true_2. Qed.

Lemma errors_Is_Wrap msg e t : errors_Is e t = true -> errors_Is (Wrap msg e) t = true.
Proof. intros H. simpl. rewrite H. apply orb_true_r. Qed.

(** ** Panics

    Run-time panics of the Go language and explicit calls of [panic(err)]. *)
Inductive panic :=
  | SliceOutOfRange
  | IndexOutOfRange
  | NilDereference
  | PanicError (e : error).

#[export] Instance panic_eq_dec : EqDecision panic.
Proof. solve_decision. Defined.

(** ** Computations *)

Inductive outcome (A : Type) :=
  | Ok (a : A)
  | Err (e : error)
  | Panic (p : panic).
Arguments Ok {A} a.
Arguments Err {A} e.
Arguments Panic {A} p.

Definition M (W A : Type) : Type := W -> outcome A * W.

#[export] Instance M_ret W : MRet (M W) := fun A a w => (Ok a, w).

#[export] Instance M_bind W : MBind (M W) := fun A B k m w =>
  match m w with
  | (Ok a, w') => k a w'
  | (Err e, w') => (Err e, w')
  | (Panic p, w') => (Panic p, w')
  end.

Section Primitives.
Context {W A B : Type}.

(** [return ..., err]. *)
Definition fail (e : error) : M W A := fun w => (Err e, w).

Definition panic_with (p : panic) : M W A := fun w => (Panic p, w).

Definition gets (f : W -> A) : M W A := fun w => (Ok (f w), w).

Definition modify (f : W -> W) : M W unit := fun w => (Ok tt, f w).

(** [v, err := m()] where the code goes on with both results. *)
Definition attempt (m : M W A) : M W (A + error) := fun w =>
  match m w with
  | (Ok a, w') => (Ok (inl a), w')
  | (Err e, w') => (Ok (inr e), w')
  | (Panic p, w') => (Panic p, w')
  end.

(** [if err != nil { return fmt.Errorf("...: %w", err) }]. *)
Definition wrap_err (msg : gostring) (m : M W A) : M W A := fun w =>
  match m w with
  | (Err e, w') => (Err (Wrap msg e), w')
  | r => r
  end.

(** [if err != nil { return err }] on an optional error. *)
Definition check (e : option error) : M W unit :=
  fun w => match e with Some e => (Err e, w) | None => (Ok tt, w) end.

(** [xs[i]] on a slice of Go values: an index outside the slice panics. *)
Definition index (l : list A) (i : Z) : M W A := fun w =>
  if decide (0 <= i) then
    match l !! Z.to_nat i with
    | Some a => (Ok a, w)
    | None => (Panic IndexOutOfRange, w)
    end
  else (Panic IndexOutOfRange, w).

End Primitives.

(** [for _, x := range l { f(x) }] with [return err] on the first error. *)
Fixpoint for_range {W A} (l : list A) (f : A -> M W unit) : M W unit :=
  match l with
  | [] => mret tt
  | x :: l => f x ;; for_range l f
  end.

(** ** Running a computation *)

Section Running.
Context {W A B : Type}.
Implicit Types (m : M W A) (k : A -> M W B) (w : W).

Lemma run_ret (a : A) w : (mret a : M W A) w = (Ok a, w).
Proof. done. Qed.

Lemma run_pair m w r : (m w).1 = r -> m w = (r, (m w).2).
Proof. intros <-. by destruct (m w). Qed.

Lemma run_bind_Ok m k w a w' : m w = (Ok a, w') -> (m ≫= k) w = k a w'.
Proof. intros H. unfold mbind, M_bind. by rewrite H. Qed.

Lemma run_bind_Err m k w e w' : m w = (Err e, w') -> (m ≫= k) w = (Err e, w').
Proof. intros H. unfold mbind, M_bind. by rewrite H. Qed.

Lemma run_bind_Panic m k w p w' : m w = (Panic p, w') -> (m ≫= k) w = (Panic p, w').
Proof. intros H. unfold mbind, M_bind. by rewrite H. Qed.

(** A computation that ends well ran each of its parts to a good end. *)
Lemma bind_Ok_inv m k w b w' :
  (m ≫= k) w = (Ok b, w') ->
  exists a w1, m w = (Ok a, w1) /\ k a w1 = (Ok b, w').
Proof.
  unfold mbind, M_bind. destruct (m w) as [[a|e|p] w1]; [eauto|done|done].
Qed.

Lemma bind_Err_inv m k w e w' :
  (m ≫= k) w = (Err e, w') ->
  m w = (Err e, w') \/
  exists a w1, m w = (Ok a, w1) /\ k a w1 = (Err e, w').
Proof.
  unfold mbind, M_bind. destruct (m w) as [[a|e'|p] w1]; [eauto| |done].
  intros [= -> ->]. auto.
Qed.

Lemma bind_assoc {C} m k (h : B -> M W C) w :
  ((m ≫= k) ≫= h) w = (m ≫= (fun a => k a ≫= h)) w.
Proof. unfold mbind, M_bind. by destruct (m w) as [[a|e|p] w1]. Qed.

Lemma index_Ok (l : list A) i w a :
  0 <= i -> l !! Z.to_nat i = Some a -> (index l i : M W A) w = (Ok a, w).
Proof. intros. unfold index. rewrite decide_True by done. by case_match; simplify_eq. Qed.

Lemma index_Panic (l : list A) i w :
  i < 0 \/ Z.of_nat (length l) <= i ->
  (index l i : M W A) w = (Panic IndexOutOfRange, w).
Proof.
  intros Hi. unfold index. case_decide; [|done].
  rewrite (lookup_ge_None_2 l) by lia. done.
Qed.

End Running.

(** ** Relations that every run respects

    [respects R m]: whatever [m] returns, the world it leaves is related by
    [R] to the world it started in.  With [R] a preorder this is closed under
    the control structure of the monad, so the frame properties and the
    invariants of a component are proved for its primitive steps and follow
    for the rest by [auto with respects]. *)

Definition respects {W A} (R : relation W) (m : M W A) : Prop :=
  forall w, R w (m w).2.

Lemma respects_run {W A} (R : relation W) (m : M W A) w r w' :
  respects R m -> m w = (r, w') -> R w w'.
Proof. intros Hm E. specialize (Hm w). by rewrite E in Hm. Qed.

Section Respects.
Context {W : Type} (R : relation W) `{!PreOrder R}.

Lemma respects_ret {A} (a : A) : respects R (mret a : M W A).
Proof using Type*. intros w. simpl. reflexivity. Qed.

Lemma respects_fail {A} e : respects R (fail e : M W A).
Proof using Type*. intros w. simpl. reflexivity. Qed.

Lemma respects_panic {A} p : respects R (panic_with p : M W A).
Proof using Type*. intros w. simpl. reflexivity. Qed.

Lemma respects_gets {A} (f : W -> A) : respects R (gets f).
Proof using Type*. intros w. simpl. reflexivity. Qed.

Lemma respects_check e : respects R (check e : M W unit).
Proof using Type*. intros w. destruct e; simpl; reflexivity. Qed.

Lemma respects_index {A} (l : list A) i : respects R (index l i : M W A).
Proof using Type*. intros w. unfold index. repeat case_match; simpl; reflexivity. Qed.

Lemma respects_bind {A B} (m : M W A) (k : A -> M W B) :
  respects R m -> (forall a, respects R (k a)) -> respects R (m ≫= k).
Proof using Type*.
  intros Hm Hk w. specialize (Hm w). unfold mbind, M_bind.
  destruct (m w) as [[a|e|p] w1]; simpl in *; [|done|done].
  etrans; [exact Hm|apply Hk].
Qed.

Lemma respects_attempt {A} (m : M W A) : respects R m -> respects R (attempt m).
Proof using Type. intros H w. specialize (H w). unfold attempt. by destruct (m w) as [[]?]. Qed.

Lemma respects_wrap_err {A} msg (m : M W A) : respects R m -> respects R (wrap_err msg m).
Proof using Type. intros H w. specialize (H w). unfold wrap_err. by destruct (m w) as [[]?]. Qed.

Lemma respects_modify (f : W -> W) : (forall w, R w (f w)) -> respects R (modify f).
Proof using Type. intros H w. apply H. Qed.

Lemma respects_for_range {A} (l : list A) (f : A -> M W unit) :
  (forall x, x ∈ l -> respects R (f x)) -> respects R (for_range l f).
Proof using Type*.
  induction l as [|x l IH]; intros Hf; simpl; [apply respects_ret|].
  apply respects_bind; [apply Hf; left|]. intros _. apply IH.
  intros y Hy. apply Hf. by right.
Qed.

(** A loop that ends well ran its body to a good end for every element,
    between worlds related to the first and the last. *)
Lemma for_range_Ok_inv {A} (l : list A) (f : A -> M W unit) w w' x :
  (forall y, respects R (f y)) -> for_range l f w = (Ok tt, w') -> x ∈ l ->
  exists w1 w2, R w w1 /\ f x w1 = (Ok tt, w2) /\ R w2 w'.
Proof using Type*.
  intros Hf. revert w. induction l as [|y l IH]; intros w E Hx; [by apply not_elem_of_nil in Hx|].
  cbn [for_range] in E. apply bind_Ok_inv in E as ([] & w1 & E1 & E).
  pose proof (Hf y w) as Hy. rewrite E1 in Hy. cbn in Hy.
  apply elem_of_cons in Hx as [->|Hx].
  - exists w, w1. split_and!; [reflexivity|done|].
    pose proof (respects_for_range l f (fun z _ => Hf z) w1) as Hl. by rewrite E in Hl.
  - destruct (IH w1 E Hx) as (w2 & w3 & H1 & H2 & H3). exists w2, w3.
    split_and!; [by etrans|done|done].
Qed.

End Respects.

(** ** Computations that return no error

    A Go function without an [error] result: it returns or panics. *)

Definition no_error {W A} (m : M W A) : Prop := forall w e w', m w ≠ (Err e, w').

Lemma no_error_ret {W A} (a : A) : no_error (mret a : M W A).
Proof. by intros w e w'. Qed.

Lemma no_error_panic {W A} p : no_error (panic_with p : M W A).
Proof. by intros w e w'. Qed.

Lemma no_error_gets {W A} (f : W -> A) : no_error (gets f).
Proof. by intros w e w'. Qed.

Lemma no_error_modify {W} (f : W -> W) : no_error (modify f).
Proof. by intros w e w'. Qed.

Lemma no_error_index {W A} (l : list A) i : no_error (index l i : M W A).
Proof. intros w e w'. unfold index. by repeat case_match. Qed.

Lemma no_error_attempt {W A} (m : M W A) : no_error (attempt m).
Proof. intros w e w'. unfold attempt. by repeat case_match. Qed.

Lemma no_error_bind {W A B} (m : M W A) (k : A -> M W B) :
  no_error m -> (forall a, no_error (k a)) -> no_error (m ≫= k).
Proof.
  intros Hm Hk w e w' Hr. apply bind_Err_inv in Hr as [Hr|(a & w1 & _ & Hr)].
  - by eapply Hm.
  - by eapply Hk.
Qed.

#[export] Hint Resolve no_error_ret no_error_panic no_error_gets no_error_modify
  no_error_index no_error_attempt no_error_bind : respects.

Ltac no_error_step :=
  match goal with
  | |- no_error (mbind _ _) => apply no_error_bind; [|intros ?; cbn beta]
  | |- no_error (match ?x with _ => _ end) => destruct x; cbn beta iota
  | |- no_error _ => solve [auto with respects typeclass_instances]
  end.
Ltac no_error_tac := repeat no_error_step.

#[export] Hint Resolve respects_ret respects_fail respects_panic respects_gets
  respects_check respects_index respects_bind respects_attempt
  respects_wrap_err respects_for_range : respects.

(** Walks through a computation built from the primitives, binds and branches
    on conditions, leaving the steps the hint database does not know. *)
Ltac respects_step :=
  match goal with
  | |- respects _ (mbind _ _) => apply respects_bind; [typeclasses eauto| |intros ?; cbn beta]
  | |- respects _ (attempt _) => apply respects_attempt
  | |- respects _ (wrap_err _ _) => apply respects_wrap_err
  | |- respects _ (for_range _ _) => apply respects_for_range; [typeclasses eauto|intros ? ?]
  | |- respects _ (match ?x with _ => _ end) => destruct x; cbn beta iota
  | |- respects _ (let _ := _ in _) => intros ?
  | |- respects _ _ => solve [auto with respects typeclass_instances]
  end.
Ltac respects_tac := repeat respects_step.
