(* ===== verification/Ioctl.v ===== *)
(** * Ioctl: request numbers, KVM constants and exit reasons

    Models [src/kvm/ioctl.go] (the request encoding), the constants of
    [src/kvm/kvm.go] and the generated [src/kvm/exittype_string.go].  The
    system call itself ([Ioctl]) is in [World.v]. *)

From S2P Require Import Prelude.

(** ** Request encoding ([ioctl.go]) *)

Definition nrbits : Z := 8.
Definition typebits : Z := 8.
Definition sizebits : Z := 14.
Definition dirbits : Z := 2.

Definition nrmask : Z := Z.shiftl 1 nrbits - 1.
Definition sizemask : Z := Z.shiftl 1 sizebits - 1.
Definition dirmask : Z := Z.shiftl 1 dirbits - 1.

Definition none : Z := 0.
Definition write : Z := 1.
Definition read : Z := 2.
Definition readwrite : Z := 3.

Definition nrshift : Z := 0.
Definition typeshift : Z := nrshift + nrbits.
Definition sizeshift : Z := typeshift + typebits.
Definition dirshift : Z := sizeshift + sizebits.

Definition KVMIO : Z := 0xAE.

(** The operands are masked before they are shifted, so no bit leaves the
    64-bit [uintptr] and no wrap is needed. *)
Definition IIOC (dir nr size : Z) : Z :=
  Z.lor (Z.lor (Z.lor (Z.shiftl (Z.land dir dirmask) dirshift)
                      (Z.shiftl KVMIO typeshift))
               (Z.shiftl (Z.land nr nrmask) nrshift))
        (Z.shiftl (Z.land size sizemask) sizeshift).

Definition IIOWR (nr size : Z) : Z := IIOC readwrite nr size.
Definition IIOR (nr size : Z) : Z := IIOC read nr size.
Definition IIOW (nr size : Z) : Z := IIOC write nr size.
Definition IIO (nr : Z) : Z := IIOC none nr 0.

(** ** Request and flag constants ([kvm.go]) *)

Definition kvmGetAPIVersion : Z := 0x00.
Definition kvmCreateVM : Z := 0x1.
Definition kvmCheckExtension : Z := 0x03.
Definition kvmGetVCPUMMapSize : Z := 0x04.
Definition kvmGetSupportedCPUID : Z := 0x05.
Definition kvmGetEmulatedCPUID : Z := 0x09.
Definition kvmCreateVCPU : Z := 0x41.
Definition kvmSetUserMemoryRegion : Z := 0x46.
Definition kvmSetTSSAddr : Z := 0x47.
Definition kvmSetIdentityMapAddr : Z := 0x48.
Definition kvmCreateIRQChip : Z := 0x60.
Definition kvmIRQLine : Z := 0x61.
Definition kvmCreateDevice : Z := 0xE0.
Definition kvmSetDeviceAttr : Z := 0xE1.
Definition kvmCreatePIT2 : Z := 0x77.
Definition kvmRun : Z := 0x80.
Definition kvmGetRegs : Z := 0x81.
Definition kvmSetRegs : Z := 0x82.
Definition kvmGetSregs : Z := 0x83.
Definition kvmSetSregs : Z := 0x84.
Definition kvmTranslate : Z := 0x85.
Definition kvmSetCPUID2 : Z := 0x90.
Definition kvmGetCPUID2 : Z := 0x91.
Definition kvmGetOneReg : Z := 0xAB.
Definition kvmSetOneReg : Z := 0xAC.
Definition kvmGetDebugRegs : Z := 0xA1.
Definition kvmSetDebugRegs : Z := 0xA2.
Definition kvmGetSRegs2 : Z := 0xCC.
Definition kvmSetSRegs2 : Z := 0xCD.
(** Declared next to them and not used by the program. *)
Definition kvmGetMSRIndexList : Z := 0x02.
Definition kvmGetMSRFeatureIndexList : Z := 0x0A.
Definition kvmGetDirtyLog : Z := 0x42.
Definition kvmSetNrMMUPages : Z := 0x44.
Definition kvmGetNrMMUPages : Z := 0x45.
Definition kvmGetIRQChip : Z := 0x62.
Definition kvmSetIRQChip : Z := 0x63.
Definition kvmIRQLineStatus : Z := 0x67.
Definition kvmGetDeviceAttr : Z := 0xE2.
Definition kvmHasDeviceAttr : Z := 0xE3.
Definition kvmResgisterCoalescedMMIO : Z := 0x67.
Definition kvmUnResgisterCoalescedMMIO : Z := 0x68.
Definition kvmSetGSIRouting : Z := 0x6A.
Definition kvmReinjectControl : Z := 0x71.
Definition kvmSetClock : Z := 0x7B.
Definition kvmGetClock : Z := 0x7C.
Definition kvmInterrupt : Z := 0x86.
Definition kvmGetMSRS : Z := 0x88.
Definition kvmSetMSRS : Z := 0x89.
Definition kvmGetLAPIC : Z := 0x8e.
Definition kvmSetLAPIC : Z := 0x8f.
Definition kvmTRPAccessReporting : Z := 0x92.
Definition kvmGetMPState : Z := 0x98.
Definition kvmSetMPState : Z := 0x99.
Definition kvmX86SetupMCE : Z := 0x9C.
Definition kvmX86GetMCECapSupported : Z := 0x9D.
Definition kvmGetPIT2 : Z := 0x9F.
Definition kvmSetPIT2 : Z := 0xA0.
Definition kvmGetVCPUEvents : Z := 0x9F.
Definition kvmSetVCPUEvents : Z := 0xA0.
Definition kvmSetTSCKHz : Z := 0xA2.
Definition kvmGetTSCKHz : Z := 0xA3.
Definition kvmGetXCRS : Z := 0xA6.
Definition kvmSetXCRS : Z := 0xA7.
Definition kvmSMI : Z := 0xB7.
Definition kvmCreateDev : Z := 0xE0.

Definition kvmMemReadonly : Z := Z.shiftl 1 1.
Definition kvmIdentityMapStart : Z := 0x10000.
Definition kvmIdentityMapSize : Z := Z.shiftl 4 10.
Definition numInterrupts : Z := 0x100.

(** ** Exit reasons ([kvm.go], [exittype_string.go])

    [ExitType] is Go's [uint]: every 64-bit pattern is a value of it. *)

Definition ExitUnknown : Z := 0.
Definition ExitException : Z := 1.
Definition ExitIO : Z := 2.
Definition ExitHypercall : Z := 3.
Definition ExitDebug : Z := 4.
Definition ExitHlt : Z := 5.
Definition ExitMMIO : Z := 6.
Definition ExitIRQWindowOpen : Z := 7.
Definition ExitShutdown : Z := 8.
Definition ExitFailEntry : Z := 9.
Definition ExitIntr : Z := 10.
Definition ExitSetTPR : Z := 11.
Definition ExitTPRAccess : Z := 12.
Definition ExitDCR : Z := 15.
Definition ExitNMI : Z := 16.
Definition ExitInternalError : Z := 17.

(** The check the generator adds: a constant index into an array of one element,
    which the compiler accepts exactly when the difference is zero. *)
Definition stringer_check : bool :=
  forallb (fun i => bool_decide (0 <= i < 1))
    [ ExitUnknown - 0; ExitException - 1; ExitIO - 2; ExitHypercall - 3; ExitDebug - 4;
      ExitHlt - 5; ExitMMIO - 6; ExitIRQWindowOpen - 7; ExitShutdown - 8; ExitFailEntry - 9;
      ExitIntr - 10; ExitSetTPR - 11; ExitTPRAccess - 12; ExitDCR - 15; ExitNMI - 16;
      ExitInternalError - 17 ].

Definition _ExitType_name_0 : gostring :=
  str "ExitUnknownExitExceptionExitIOExitHypercallExitDebugExitHltExitMMIOExitIRQWindowOpenExitShutdownExitFailEntryExitIntrExitSetTPRExitTPRAccess".
Definition _ExitType_name_1 : gostring := str "ExitDCRExitNMIExitInternalError".
Definition _ExitType_index_0 : list Z :=
  [0; 11; 24; 30; 43; 52; 59; 67; 84; 96; 109; 117; 127; 140].
Definition _ExitType_index_1 : list Z := [0; 7; 14; 31].

(** [name[idx[i]:idx[i+1]]] on the tables above; [None] is a run-time panic. *)
Definition name_slice (name : gostring) (idx : list Z) (i : Z) : option gostring :=
  lo ← idx !! Z.to_nat i;
  hi ← idx !! Z.to_nat (i + 1);
  if decide (lo <= hi /\ hi <= Z.of_nat (length name))
  then Some (read_at (Z.to_nat lo) (Z.to_nat (hi - lo)) name)
  else None.

(** [strconv.FormatInt(z, 10)]. *)
Definition FormatInt10 (z : Z) : gostring := str (pretty z).

Definition ExitType_String (i : Z) : option gostring :=
  if decide (i <= 12) then name_slice _ExitType_name_0 _ExitType_index_0 i
  else if decide (15 <= i /\ i <= 17)
  then name_slice _ExitType_name_1 _ExitType_index_1 (i - 15)
  else Some (str "ExitType(" ++ FormatInt10 (i64 i) ++ str ")").

(** The declared constants with the names the source gives them. *)
Definition exit_names : list (Z * gostring) :=
  [ (ExitUnknown, str "ExitUnknown"); (ExitException, str "ExitException");
    (ExitIO, str "ExitIO"); (ExitHypercall, str "ExitHypercall");
    (ExitDebug, str "ExitDebug"); (ExitHlt, str "ExitHlt");
    (ExitMMIO, str "ExitMMIO"); (ExitIRQWindowOpen, str "ExitIRQWindowOpen");
    (ExitShutdown, str "ExitShutdown"); (ExitFailEntry, str "ExitFailEntry");
    (ExitIntr, str "ExitIntr"); (ExitSetTPR, str "ExitSetTPR");
    (ExitTPRAccess, str "ExitTPRAccess"); (ExitDCR, str "ExitDCR");
    (ExitNMI, str "ExitNMI"); (ExitInternalError, str "ExitInternalError") ].

(** ** Reading a request number back *)

Definition ioc_dir (r : Z) : Z := Z.shiftr r dirshift.
Definition ioc_type (r : Z) : Z := Z.land (Z.shiftr r typeshift) nrmask.
Definition ioc_nr (r : Z) : Z := Z.land r nrmask.
Definition ioc_size (r : Z) : Z := Z.land (Z.shiftr r sizeshift) sizemask.

(** ** Lemmas *)

(** [a << n | b] is [a * 2^n + b] when [b] stays below the shift. *)
Lemma lor_shiftl_add a b n :
  0 <= n -> 0 <= b < 2 ^ n -> Z.lor (Z.shiftl a n) b = a * 2 ^ n + b.
Proof.
  intros Hn Hb. rewrite <- Z.add_nocarry_lor.
  - by rewrite Z.shiftl_mul_pow2.
  - apply Z.bits_inj'. intros i Hi. rewrite Z.land_spec, Z.bits_0.
    destruct (decide (i < n)).
    + by rewrite Z.shiftl_spec_low.
    + destruct (decide (b = 0)) as [->|]; [by rewrite Z.bits_0, andb_false_r|].
      rewrite (Z.bits_above_log2 b), andb_false_r; [done|lia|].
      apply Z.log2_lt_pow2; [lia|].
      apply Z.lt_le_trans with (2 ^ n); [lia|]. apply Z.pow_le_mono_r; lia.
Qed.

Lemma land_mask z n : 0 <= n -> Z.land z (Z.shiftl 1 n - 1) = z mod 2 ^ n.
Proof.
  intros. rewrite Z.shiftl_1_l, Z.sub_1_r, <- Z.ones_equiv.
  by apply Z.land_ones.
Qed.

(** The encoding is positional: direction, size, type byte, number. *)
Lemma IIOC_arith dir nr size :
  IIOC dir nr size =
  (dir mod 4) * 2 ^ 30 + (size mod 2 ^ 14) * 2 ^ 16 + KVMIO * 2 ^ 8 + nr mod 2 ^ 8.
Proof.
  unfold IIOC, dirmask, nrmask, sizemask. rewrite !land_mask by (vm_compute; discriminate).
  change (2 ^ dirbits) with 4. change (2 ^ sizebits) with (2 ^ 14).
  change (2 ^ nrbits) with (2 ^ 8).
  change dirshift with 30. change typeshift with 8. change nrshift with 0.
  change sizeshift with 16.
  pose proof (Z.mod_pos_bound size (2 ^ 14) ltac:(lia)).
  pose proof (Z.mod_pos_bound nr (2 ^ 8) ltac:(lia)).
  set (s := size mod 2 ^ 14) in *. set (n := nr mod 2 ^ 8) in *.
  rewrite Z.shiftl_0_r.
  assert (E1 : Z.lor (Z.shiftl KVMIO 8) n = KVMIO * 2 ^ 8 + n)
    by (apply lor_shiftl_add; lia).
  assert (E2 : Z.lor (Z.shiftl s 16) (KVMIO * 2 ^ 8 + n) = s * 2 ^ 16 + (KVMIO * 2 ^ 8 + n)).
  { apply lor_shiftl_add; unfold KVMIO; lia. }
  rewrite <- !Z.lor_assoc, (Z.lor_assoc (Z.shiftl KVMIO 8)), E1.
  rewrite (Z.lor_comm _ (Z.shiftl s 16)), E2.
  rewrite lor_shiftl_add; [lia|lia|]. unfold KVMIO. lia.
Qed.

Lemma IIOC_u32 dir nr size : is_u32 (IIOC dir nr size).
Proof.
  rewrite IIOC_arith. unfold is_u, KVMIO.
  pose proof (Z.mod_pos_bound dir 4 ltac:(lia)).
  pose proof (Z.mod_pos_bound size (2 ^ 14) ltac:(lia)).
  pose proof (Z.mod_pos_bound nr (2 ^ 8) ltac:(lia)). lia.
Qed.

Lemma IIOC_fields dir nr size :
  ioc_dir (IIOC dir nr size) = dir mod 4 /\
  ioc_type (IIOC dir nr size) = KVMIO /\
  ioc_nr (IIOC dir nr size) = nr mod 2 ^ 8 /\
  ioc_size (IIOC dir nr size) = size mod 2 ^ 14.
Proof.
  unfold ioc_dir, ioc_type, ioc_nr, ioc_size, nrmask, sizemask.
  rewrite !land_mask by (vm_compute; discriminate). rewrite !Z.shiftr_div_pow2 by (vm_compute; discriminate).
  rewrite IIOC_arith.
  change dirshift with 30. change typeshift with 8. change sizeshift with 16.
  change nrbits with 8. change sizebits with 14. unfold KVMIO.
  pose proof (Z.mod_pos_bound dir 4 ltac:(lia)).
  pose proof (Z.mod_pos_bound size (2 ^ 14) ltac:(lia)).
  pose proof (Z.mod_pos_bound nr (2 ^ 8) ltac:(lia)).
  generalize dependent (dir mod 4). intros d Hd.
  generalize dependent (size mod 2 ^ 14). intros s Hs.
  generalize dependent (nr mod 2 ^ 8). intros n Hn.
  repeat split; Z.div_mod_to_equations; lia.
Qed.
