(* ===== verification/Structs.v ===== *)
(** * Structs: Go struct layout and the structs shared with the kernel

    [gty], [sizeof], [alignof] and [offsets] are Go's struct layout on the
    64-bit targets (what [unsafe.Sizeof] and [unsafe.Offsetof] return);
    [encode] is the byte image of a struct, as the code obtains it through
    [unsafe.Pointer].  The records are the structs of [src/kvm/*.go] and
    [src/hypercall.go], with the source's field names; the pointer fields
    of [KvmOneReg] and [DeviceAttr] carry the value they point to. *)

From S2P Require Import Prelude Effects Ioctl.

(** ** Layout *)

#[warnings="-register-all"]
Inductive gty :=
  | U8 | U16 | U32 | U64
  | Ptr
  | Arr (n : nat) (t : gty)
  | Struct (fs : list gty).

Fixpoint alignof (t : gty) : Z :=
  match t with
  | U8 => 1 | U16 => 2 | U32 => 4 | U64 => 8 | Ptr => 8
  | Arr _ t => alignof t
  | Struct fs => fold_right (fun f a => Z.max (alignof f) a) 1 fs
  end.

(** The next multiple of [a] at or after [x]. *)
Definition align_up (x a : Z) : Z := ((x + a - 1) / a) * a.

Fixpoint sizeof (t : gty) : Z :=
  match t with
  | U8 => 1 | U16 => 2 | U32 => 4 | U64 => 8 | Ptr => 8
  | Arr n t => Z.of_nat n * sizeof t
  | Struct fs =>
      align_up (fold_left (fun off f => align_up off (alignof f) + sizeof f) fs 0)
               (alignof (Struct fs))
  end.

(** [unsafe.Offsetof] of each field, in order. *)
Fixpoint offsets_from (off : Z) (fs : list gty) : list Z :=
  match fs with
  | [] => []
  | f :: fs =>
      let o := align_up off (alignof f) in o :: offsets_from (o + sizeof f) fs
  end.
Definition offsets (fs : list gty) : list Z := offsets_from 0 fs.

(** The image of a struct of scalar fields: each value at its offset and of
    its width, zero bytes in the gaps. *)
Definition put_field (buf : list byte) (f : Z * Z * Z) : list byte :=
  let '(off, width, v) := f in
  write_at (Z.to_nat off) (le_enc (Z.to_nat width) v) buf.

Definition encode (fs : list gty) (vs : list Z) : list byte :=
  fold_left put_field (zip (zip (offsets fs) (sizeof <$> fs)) vs)
            (replicate (Z.to_nat (sizeof (Struct fs))) x00).

(** ** amd64 register structs ([regs_amd64.go]) *)

Record Regs := mkRegs {
  Rax : Z; Rbx : Z; Rcx : Z; Rdx : Z; Rsi : Z; Rdi : Z; Rsp : Z; Rbp : Z;
  R8 : Z; R9 : Z; R10 : Z; R11 : Z; R12 : Z; R13 : Z; R14 : Z; R15 : Z;
  Rip : Z; Rflags : Z }.

Definition Regs_ty : gty := Struct (replicate 18 U64).

(** [&Regs{}]. *)
Definition Regs_zero : Regs := mkRegs 0 0 0 0 0 0 0 0 0 0 0 0 0 0 0 0 0 0.

Record Segment := mkSegment {
  seg_Base : Z; seg_Limit : Z; seg_Selector : Z; seg_Typ : Z; seg_Present : Z;
  seg_Dpl : Z; seg_Db : Z; seg_S : Z; seg_L : Z; seg_G : Z; seg_AVL : Z;
  seg_Unusable : Z }.

Definition Segment_ty : gty :=
  Struct [U64; U32; U16; U8; U8; U8; U8; U8; U8; U8; U8; U8; U8].

Definition Segment_zero : Segment := mkSegment 0 0 0 0 0 0 0 0 0 0 0 0.

Record Descriptor := mkDescriptor { desc_Base : Z; desc_Limit : Z }.

Definition Descriptor_ty : gty := Struct [U64; U16; Arr 3 U16].

Record Sregs := mkSregs {
  Cs : Segment; Ds : Segment; Es : Segment; Fs : Segment; Gs : Segment;
  Ss : Segment; Tr : Segment; Ldt : Segment;
  Gdt : Descriptor; Idt : Descriptor;
  Cr0 : Z; Cr2 : Z; Cr3 : Z; Cr4 : Z; Cr8 : Z; Efer : Z; ApicBase : Z;
  InterruptBitmap : list Z }.

Definition Sregs_ty : gty :=
  Struct (replicate 8 Segment_ty ++ [Descriptor_ty; Descriptor_ty] ++
          replicate 7 U64 ++ [Arr (Z.to_nat ((numInterrupts + 63) / 64)) U64]).

Definition Sregs_zero : Sregs :=
  mkSregs Segment_zero Segment_zero Segment_zero Segment_zero Segment_zero
    Segment_zero Segment_zero Segment_zero (mkDescriptor 0 0) (mkDescriptor 0 0)
    0 0 0 0 0 0 0 (replicate (Z.to_nat ((numInterrupts + 63) / 64)) 0).

Record DebugRegs := mkDebugRegs {
  dbg_Db : list Z; dbg_Dr6 : Z; dbg_Dr7 : Z; dbg_Flags : Z }.

Definition DebugRegs_ty : gty := Struct [Arr 4 U64; U64; U64; U64; Arr 9 U64].

Record SRegs2 := mkSRegs2 {
  s2_Cs : Segment; s2_Ds : Segment; s2_Es : Segment; s2_Fs : Segment;
  s2_Gs : Segment; s2_Ss : Segment; s2_Tr : Segment; s2_Ldt : Segment;
  s2_Gdt : Descriptor; s2_Idt : Descriptor;
  s2_Cr0 : Z; s2_Cr2 : Z; s2_Cr3 : Z; s2_Cr4 : Z; s2_Cr8 : Z; s2_Efer : Z;
  s2_ApicBase : Z; s2_Flags : Z; s2_PdPtrs : list Z }.

Definition SRegs2_ty : gty :=
  Struct (replicate 8 Segment_ty ++ [Descriptor_ty; Descriptor_ty] ++
          replicate 8 U64 ++ [Arr 4 U64]).

(** ** Other kernel structs *)

(** [machine_amd64.go] *)
Record Translation := mkTranslation {
  LinearAddress : Z; PhysicalAddress : Z; Valid : Z; Writeable : Z; Usermode : Z }.

Definition Translation_ty : gty := Struct [U64; U64; U8; U8; U8; Arr 5 U8].

(** [debug.go] *)
Record debugControl := mkDebugControl { dc_Control : Z; dc_DebugReg : list Z }.

Definition debugControl_ty : gty := Struct [U32; U32; Arr 8 U64].

(** [memory.go] *)
Record UserspaceMemoryRegion := mkRegion {
  Slot : Z; Flags : Z; GuestPhysAddr : Z; MemorySize : Z; UserspaceAddr : Z }.

Definition UserspaceMemoryRegion_ty : gty := Struct [U32; U32; U64; U64; U64].

(** [irq_amd64.go], [irq_arm64.go] *)
Record IrqLevel := mkIrqLevel { irq : Z; level : Z }.

Definition IrqLevel_ty : gty := Struct [U32; U32].

(** Declared and not used ([irq_arm64.go]). *)
Record ArmDeviceAddr := mkArmDeviceAddr { ada_id : Z; ada_addr : Z }.

Definition ArmDeviceAddr_ty : gty := Struct [U64; U64].

Record PITConfig := mkPIT { pit_flags : Z; pit_pad : list Z }.

Definition PITConfig_ty : gty := Struct [U32; Arr 15 U32].

Record CreateDevice := mkCreateDevice { cd_typ : Z; cd_fd : Z; cd_flags : Z }.

Definition CreateDevice_ty : gty := Struct [U32; U32; U32].

Record DeviceAttr := mkDeviceAttr {
  da_flags : Z; da_group : Z; da_attr : Z; da_addr : option Z }.

Definition DeviceAttr_ty : gty := Struct [U32; U32; U64; U64].

(** [machine_arm64.go] *)
Record VcpuInit := mkVcpuInit { vi_target : Z; vi_features : list Z }.

Definition VcpuInit_ty : gty := Struct [U32; Arr 7 U32].

Definition VcpuInit_zero : VcpuInit := mkVcpuInit 0 (replicate 7 0).

(** [regs_arm64.go] *)
Definition UserRegs_fields : list gty := [Arr 31 U64; U64; U64; U64; U64; U64].

Record KvmOneReg := mkOneReg { or_id : Z; or_val : Z }.

Definition KvmOneReg_ty : gty := Struct [U64; Ptr].

(** [kvm.go] *)
Record RunData := mkRunData {
  RequestInterruptWindow : Z; ImmediateExit : Z; ExitReason : Z;
  ReadyForInterruptInjection : Z; IfFlag : Z; RunFlags : Z; RunCr8 : Z;
  RunApicBase : Z; RunDataWords : list Z }.

Definition RunData_ty : gty :=
  Struct [U8; U8; Arr 6 U8; U32; U8; U8; U16; U64; U64; Arr 32 U64].

(** ** What an ioctl argument can point to

    [TVal] is an argument passed by value; every other type is a pointer to a
    struct that the kernel reads and may write back. *)

Inductive ioty :=
  | TVal | TU32 | TRegs | TSregs | TDebugRegs | TSRegs2 | TTranslation
  | TDebugControl | TMemRegion | TIrqLevel | TPIT | TCreateDevice | TDeviceAttr
  | TVcpuInit | TOneReg | TBytes.

Definition denote (t : ioty) : Type :=
  match t with
  | TVal => Z | TU32 => Z | TRegs => Regs | TSregs => Sregs
  | TDebugRegs => DebugRegs | TSRegs2 => SRegs2 | TTranslation => Translation
  | TDebugControl => debugControl | TMemRegion => UserspaceMemoryRegion
  | TIrqLevel => IrqLevel | TPIT => PITConfig | TCreateDevice => CreateDevice
  | TDeviceAttr => DeviceAttr | TVcpuInit => VcpuInit | TOneReg => KvmOneReg
  | TBytes => list byte
  end.

(** Bytes the process owns behind the pointer; [None] for a value. *)
Definition arg_bytes (t : ioty) : denote t -> option Z :=
  match t with
  | TVal => fun _ => None
  | TU32 => fun _ => Some (sizeof U32)
  | TRegs => fun _ => Some (sizeof Regs_ty)
  | TSregs => fun _ => Some (sizeof Sregs_ty)
  | TDebugRegs => fun _ => Some (sizeof DebugRegs_ty)
  | TSRegs2 => fun _ => Some (sizeof SRegs2_ty)
  | TTranslation => fun _ => Some (sizeof Translation_ty)
  | TDebugControl => fun _ => Some (sizeof debugControl_ty)
  | TMemRegion => fun _ => Some (sizeof UserspaceMemoryRegion_ty)
  | TIrqLevel => fun _ => Some (sizeof IrqLevel_ty)
  | TPIT => fun _ => Some (sizeof PITConfig_ty)
  | TCreateDevice => fun _ => Some (sizeof CreateDevice_ty)
  | TDeviceAttr => fun _ => Some (sizeof DeviceAttr_ty)
  | TVcpuInit => fun _ => Some (sizeof VcpuInit_ty)
  | TOneReg => fun _ => Some (sizeof KvmOneReg_ty)
  | TBytes => fun bs => Some (Z.of_nat (length bs))
  end.

(** ** The structs of the hypercall interface ([hypercall.go]) *)

Record stat := mkStat {
  st_size : Z; st_mode : Z; st_mtim_sec : Z; st_mtim_nsec : Z;
  st_uid : Z; st_gid : Z; st_dev : Z; st_rdev : Z; st_ino : Z }.

Definition stat_fields : list gty := [U64; U32; U64; U64; U32; U32; U64; U64; U64].

(** [unsafe.Sizeof(stat{})]. *)
Definition stat_size : Z := sizeof (Struct stat_fields).

(** The bytes [stbuf] of a [stat] value. *)
Definition stat_bytes (st : stat) : list byte :=
  encode stat_fields
    [st_size st; st_mode st; st_mtim_sec st; st_mtim_nsec st; st_uid st;
     st_gid st; st_dev st; st_rdev st; st_ino st].

Definition dirent64_fields : list gty := [U64; U64; U16; U8; Arr 256 U8].
