(* ===== verification/World.v ===== *)
(** * World: the state the program runs in and the services it calls

    The program's own state is the [Machine] (with its [vm] and [vcpu]s,
    [src/kvm/machine.go], [vm.go], [vcpu.go]) and the state of the hypercall
    handler.  Guest memory and the per-vcpu [kvm_run] pages are mappings
    shared with the kernel: they live in [kview], and every [ioctl] may
    change them.  KVM and the host's files are not part of the program; they
    are the classes [KVM] and [HostOS], with abstract states, and what the
    theorems need of them is stated in [KVMLaws] and [HostOSLaws].

    [w_trace] records, newest first, the requests the program makes of its
    environment; it is not read by any definition of the model. *)

From S2P Require Import Prelude Effects Ioctl Structs.

(** ** Program data ([machine.go], [vm.go], [vcpu.go]) *)

Record vcpu := mkVcpu { vcpu_fd : Z }.

(** A mapping made by [gommap.MapAt]: its address and its length. *)
Record MMap := mkMMap { mm_addr : Z; mm_len : Z }.

(** [vm.mem] is the slice over guest RAM: its address is here, its bytes are
    [kv_mem] below.  [vm.sys] is mapped without access rights; only its
    address and length matter. *)
Record vm := mkVm { vm_fd : Z; vm_mem : Z; vm_sys : MMap; vm_vcpus : list vcpu }.

(** [runs] holds pointers to the shared [kvm_run] pages: the descriptor the
    page was mapped from, or [None] for nil. *)
Record Machine := mkMachine {
  kvmfd : Z; irqfd : Z; m_vm : vm; m_runs : list (option Z) }.

Definition vm_zero : vm := mkVm 0 0 (mkMMap 0 0) [].
Definition Machine_zero : Machine := mkMachine 0 0 vm_zero [].

(** ** Requests to the environment *)

(** [EPrintErr fd msg err] is a line printed to descriptor [fd] that ends in an
    error formatted with [%v]. *)
Inductive event :=
  | EIoctl (fd op : Z) (t : ioty) (arg : denote t)
  | EOpenFile (path : gostring) (flags mode : Z)
  | EWriteFile (data : gostring)
  | EStdout (msg : gostring)
  | EStderr (msg : gostring)
  | ELog (msg : gostring)
  | EPrintErr (fd : Z) (msg : gostring) (err : option error).

(** ** The kernel's view: its own state and the shared mappings *)

Record kview (K : Type) := mkView {
  kv_state : K;
  kv_mem : list byte;
  kv_runs : gmap Z RunData }.
Arguments mkView {K}.
Arguments kv_state {K}.
Arguments kv_mem {K}.
Arguments kv_runs {K}.

(** [syscall.Syscall(SYS_IOCTL, ...)] gives a result, an errno and the argument
    as the kernel left it.  [sys_open], [sys_mmap] and [gommap_MapAt] are the
    calls by which the program obtains the KVM descriptor, a [kvm_run] page
    and an anonymous mapping. *)
Class KVM (K : Type) := {
  sys_ioctl : Z -> Z -> forall t, denote t -> kview K -> (Z * Z * denote t) * kview K;
  sys_open : gostring -> K -> (Z + error) * K;
  sys_mmap : Z -> Z -> K -> (RunData + error) * K;
  gommap_MapAt : Z -> K -> (Z + error) * K;
  Getpagesize : Z }.

(** A system call does not resize or unmap what the process has mapped. *)
Class KVMLaws (K : Type) `{!KVM K} : Prop := {
  ioctl_keeps_mem_length : forall fd op t a (v : kview K),
    length (kv_mem (sys_ioctl fd op t a v).2) = length (kv_mem v);
  ioctl_keeps_runs : forall fd op t a (v : kview K),
    dom (kv_runs (sys_ioctl fd op t a v).2) = dom (kv_runs v) }.

(** ** Host files ([os.File] and the [os], [syscall], [time] calls on them) *)

(** What [f.Stat()] reports ([os.FileInfo] and the [syscall.Stat_t] in it). *)
Record FileInfo := mkFileInfo {
  fi_Size : Z; fi_MtimeUnix : Z; fi_MtimeNano : Z; fi_Mode : Z; fi_Dev : Z;
  fi_Uid : Z; fi_Gid : Z; fi_Rdev : Z; fi_Ino : Z }.

(** A read gives the bytes it stored at the start of the buffer and the error
    it returned, of a buffer of the length it is given. *)
Class HostOS (O F : Type) := {
  os_Stdin : F;
  os_Stdout : F;
  os_Stderr : F;
  os_Getwd : O -> (gostring + error) * O;
  os_OpenFile : gostring -> Z -> Z -> O -> (F + error) * O;
  os_Read : F -> Z -> O -> (list byte * option error) * O;
  os_Write : F -> list byte -> O -> (Z * option error) * O;
  os_Seek : F -> Z -> Z -> O -> (Z + error) * O;
  os_Stat : F -> O -> (FileInfo + error) * O;
  os_ReadDirent : F -> Z -> O -> (list byte * option error) * O;
  os_Now : O -> (Z * Z) * O }.

(** [io.Reader]: a read returns at most as many bytes as the buffer has.
    [os.Getwd]: the working directory is a rooted path name. *)
Class HostOSLaws (O F : Type) `{!HostOS O F} : Prop := {
  getwd_rooted : forall (o o' : O) wd,
    os_Getwd o = (inl wd, o') -> head wd = Some "/"%byte;
  read_bound : forall f n (o : O),
    0 <= n -> Z.of_nat (length (os_Read f n o).1.1) <= n;
  readdirent_bound : forall f n (o : O),
    0 <= n -> Z.of_nat (length (os_ReadDirent f n o).1.1) <= n }.

(** ** The world *)

Record World (K O H : Type) := mkWorld {
  w_kv : kview K;
  w_mach : Machine;
  w_hand : H;
  w_os : O;
  w_trace : list event }.
Arguments mkWorld {K O H}.
Arguments w_kv {K O H}.
Arguments w_mach {K O H}.
Arguments w_hand {K O H}.
Arguments w_os {K O H}.
Arguments w_trace {K O H}.

Section Access.
Context {K O H : Type}.
Abbreviation W := (World K O H).
Implicit Types (w : W).

Definition w_mem w : list byte := kv_mem (w_kv w).
Definition w_vcpus w : list vcpu := vm_vcpus (m_vm (w_mach w)).

Definition set_kv (kv : kview K) w : W :=
  mkWorld kv (w_mach w) (w_hand w) (w_os w) (w_trace w).
Definition set_mach (m : Machine) w : W :=
  mkWorld (w_kv w) m (w_hand w) (w_os w) (w_trace w).
Definition set_hand (h : H) w : W :=
  mkWorld (w_kv w) (w_mach w) h (w_os w) (w_trace w).
Definition set_os (o : O) w : W :=
  mkWorld (w_kv w) (w_mach w) (w_hand w) o (w_trace w).
Definition set_mem (mem : list byte) w : W :=
  set_kv (mkView (kv_state (w_kv w)) mem (kv_runs (w_kv w))) w.
Definition set_vm (v : vm) w : W :=
  let m := w_mach w in set_mach (mkMachine (kvmfd m) (irqfd m) v (m_runs m)) w.
Definition add_event (e : event) w : W :=
  mkWorld (w_kv w) (w_mach w) (w_hand w) (w_os w) (e :: w_trace w).

Definition emit (e : event) : M W unit := modify (add_event e).

(** A call into the host's files. *)
Definition on_os {A} (f : O -> A * O) : M W A := fun w =>
  let '(a, o) := f (w_os w) in (Ok a, set_os o w).

(** A call into the kernel that does not go through [ioctl]. *)
Definition on_kernel {A} (f : K -> A * K) : M W A := fun w =>
  let v := w_kv w in
  let '(a, k) := f (kv_state v) in
  (Ok a, set_kv (mkView k (kv_mem v) (kv_runs v)) w).

Definition lift_sum {A} (r : A + error) : M W A :=
  match r with inl a => mret a | inr e => fail e end.

(** ** [Ioctl] ([ioctl.go]) *)

Definition Ioctl `{!KVM K} (fd op : Z) (t : ioty) (arg : denote t)
    : M W (Z * denote t * option error) := fun w =>
  let '((res, errno, arg'), kv) := sys_ioctl fd op t arg (w_kv w) in
  (Ok (res, arg', if decide (errno = 0) then None else Some (Errno errno)),
   add_event (EIoctl fd op t arg) (set_kv kv w)).

(** [x, err := Ioctl(...)] followed by [return err] when it is not nil. *)
Definition Ioctl_checked `{!KVM K} (fd op : Z) (t : ioty) (arg : denote t)
    : M W (Z * denote t) :=
  '(res, arg', err) ← Ioctl fd op t arg;
  check err ;;
  mret (res, arg').

End Access.

(** ** Slices of guest memory

    A Go slice over [vm.mem]: a window given by its offset and length.  The
    bytes stay in the shared mapping, so two windows alias where they
    overlap. *)

Record slice := mkSlice { s_off : Z; s_len : Z }.

Section Slices.
Context {K O H : Type}.
Abbreviation W := (World K O H).

(** [vm.mem[lo:hi]]; [vm.mem[lo:]] is [mem_slice lo (len vm.mem)]. *)
Definition mem_slice (lo hi : Z) : M W slice := fun w =>
  if decide (0 <= lo /\ lo <= hi /\ hi <= Z.of_nat (length (w_mem w)))
  then (Ok (mkSlice lo (hi - lo)), w)
  else (Panic SliceOutOfRange, w).

Definition mem_slice_from (lo : Z) : M W slice := fun w =>
  mem_slice lo (Z.of_nat (length (w_mem w))) w.

Definition slice_bytes (s : slice) : M W (list byte) :=
  gets (fun w => read_at (Z.to_nat (s_off s)) (Z.to_nat (s_len s)) (w_mem w)).

(** [copy(s, bs)], which is also how a callee fills the buffer it is given. *)
Definition slice_copy (s : slice) (bs : list byte) : M W unit :=
  modify (fun w =>
    set_mem (write_at (Z.to_nat (s_off s)) (take (Z.to_nat (s_len s)) bs) (w_mem w)) w).

(** [binary.LittleEndian.PutUint64(s, v)]. *)
Definition PutUint64 (s : slice) (v : Z) : M W unit :=
  if decide (8 <= s_len s) then slice_copy s (le_enc 8 v)
  else panic_with IndexOutOfRange.

End Slices.

(** ** Lemmas *)

(** A window that [mem_slice] gave out, in a memory of [n] bytes. *)
Definition slice_in (n : nat) (s : slice) : Prop :=
  0 <= s_off s /\ 0 <= s_len s /\ s_off s + s_len s <= Z.of_nat n.

Section SliceFacts.
Context {K O H : Type}.
Abbreviation W := (World K O H).
Implicit Types (w : W).

Lemma no_error_emit e : no_error (emit e : M W unit).
Proof. apply no_error_modify. Qed.

Lemma no_error_on_os {A} (f : O -> A * O) : no_error (on_os f : M W A).
Proof. intros w e w'. unfold on_os. by destruct (f _). Qed.

Lemma w_mem_set_os o w : w_mem (set_os o w) = w_mem w.
Proof. done. Qed.

Lemma w_mem_set_mem mem w : w_mem (set_mem mem w) = mem.
Proof. done. Qed.

Lemma mem_slice_Ok lo hi w :
  0 <= lo <= hi -> hi <= Z.of_nat (length (w_mem w)) ->
  mem_slice lo hi w = (Ok (mkSlice lo (hi - lo)), w).
Proof. intros. unfold mem_slice. by rewrite decide_True by lia. Qed.

Lemma mem_slice_Panic lo hi w :
  ~ (0 <= lo <= hi /\ hi <= Z.of_nat (length (w_mem w))) ->
  mem_slice lo hi w = (Panic SliceOutOfRange, w).
Proof. intros. unfold mem_slice. by rewrite decide_False by lia. Qed.

Lemma mem_slice_inv lo hi w s w' :
  mem_slice lo hi w = (Ok s, w') ->
  w' = w /\ s = mkSlice lo (hi - lo) /\ slice_in (length (w_mem w)) s.
Proof.
  unfold mem_slice. case_decide; [|done]. intros [= <- <-].
  split_and!; [done|done|]. unfold slice_in; simpl; lia.
Qed.

End SliceFacts.

#[export] Hint Resolve no_error_emit no_error_on_os : respects.
