(* ===== verification/Abi.v ===== *)
(** * Abi: the part of Linux's KVM interface the program uses

    The requests of [<linux/kvm.h>] on the two targets, with what their
    argument points to, and the check an ioctl of the program is measured
    against: a request of the target, an argument of the type that goes with
    it, and a buffer that is not smaller than what the request announces.
    Two requests of the program do not pass; they are listed by name. *)

From S2P Require Import Prelude Effects Ioctl Structs World.

#[export] Instance ioty_eq_dec : EqDecision ioty.
Proof. solve_decision. Defined.

(** The target the program is built for, which is also the architecture of the
    kernel it runs on ([GOARCH] selects the files [*_amd64.go] or
    [*_arm64.go]). *)
Inductive target := amd64 | arm64.

#[export] Instance target_eq_dec : EqDecision target.
Proof. solve_decision. Defined.

Class GoArch := mkGoArch { GOARCH : target }.

Definition on_amd64 : GoArch := mkGoArch amd64.
Definition on_arm64 : GoArch := mkGoArch arm64.

(** What the kernel takes as the argument of a request: something of a type
    the program has, or an object of the given size for which the program
    declares no type of that layout. *)
Inductive linux_arg := HasType (t : ioty) | OtherType (bytes : Z).

#[export] Instance linux_arg_eq_dec : EqDecision linux_arg.
Proof. solve_decision. Defined.

(** Request numbers as Linux defines them: on every architecture, ... *)
Definition linux_common : list (Z * linux_arg) :=
  [ (0xae00, HasType TVal);          (* KVM_GET_API_VERSION *)
    (0xae01, HasType TVal);          (* KVM_CREATE_VM *)
    (0xae03, HasType TVal);          (* KVM_CHECK_EXTENSION *)
    (0xae04, HasType TVal);          (* KVM_GET_VCPU_MMAP_SIZE *)
    (0xae41, HasType TVal);          (* KVM_CREATE_VCPU *)
    (0xae80, HasType TVal);          (* KVM_RUN *)
    (0x4020ae46, HasType TMemRegion);    (* KVM_SET_USER_MEMORY_REGION *)
    (0x4008ae61, HasType TIrqLevel); (* KVM_IRQ_LINE *)
    (0xc00caee0, HasType TCreateDevice); (* KVM_CREATE_DEVICE *)
    (0x4018aee1, HasType TDeviceAttr) ]. (* KVM_SET_DEVICE_ATTR *)

(** ... on amd64, ... *)
Definition linux_amd64 : list (Z * linux_arg) :=
  [ (0xae47, HasType TVal);          (* KVM_SET_TSS_ADDR *)
    (0xae60, HasType TVal);          (* KVM_CREATE_IRQCHIP *)
    (0x4008ae48, OtherType 8);       (* KVM_SET_IDENTITY_MAP_ADDR: a u64 *)
    (0x8090ae81, HasType TRegs);     (* KVM_GET_REGS *)
    (0x4090ae82, HasType TRegs);     (* KVM_SET_REGS *)
    (0x8138ae83, HasType TSregs);    (* KVM_GET_SREGS *)
    (0x4138ae84, HasType TSregs);    (* KVM_SET_SREGS *)
    (0x8080aea1, HasType TDebugRegs);    (* KVM_GET_DEBUGREGS *)
    (0x4080aea2, HasType TDebugRegs);    (* KVM_SET_DEBUGREGS *)
    (0x8140aecc, HasType TSRegs2);   (* KVM_GET_SREGS2 *)
    (0x4140aecd, HasType TSRegs2);   (* KVM_SET_SREGS2 *)
    (0xc018ae85, HasType TTranslation);  (* KVM_TRANSLATE *)
    (0x4040ae77, HasType TPIT);      (* KVM_CREATE_PIT2 *)
    (0xc008ae05, HasType TBytes);    (* KVM_GET_SUPPORTED_CPUID *)
    (0xc008ae09, HasType TBytes);    (* KVM_GET_EMULATED_CPUID *)
    (0x4008ae90, HasType TBytes);    (* KVM_SET_CPUID2 *)
    (0xc008ae91, HasType TBytes);    (* KVM_GET_CPUID2 *)
    (0x4048ae9b, HasType TDebugControl) ]. (* KVM_SET_GUEST_DEBUG *)

(** ... and on arm64, where [struct kvm_guest_debug] ends in sixteen times four
    debug registers. *)
Definition linux_arm64 : list (Z * linux_arg) :=
  [ (0x4208ae9b, OtherType 520);     (* KVM_SET_GUEST_DEBUG *)
    (0x4010aeab, HasType TOneReg);   (* KVM_GET_ONE_REG *)
    (0x4010aeac, HasType TOneReg);   (* KVM_SET_ONE_REG *)
    (0x4020aeae, HasType TVcpuInit); (* KVM_ARM_VCPU_INIT *)
    (0x8020aeaf, HasType TVcpuInit) ]. (* KVM_ARM_PREFERRED_TARGET *)

Definition linux_abi (g : target) : list (Z * linux_arg) :=
  linux_common ++ match g with amd64 => linux_amd64 | arm64 => linux_arm64 end.

(** The two requests of the program that are not in these tables:
    [SetIdentityMapAddr] on amd64 announces eight bytes and gives the address
    of a [uint32], and [SingleStep] on arm64 uses amd64's request. *)
Definition known_defects : list (target * Z * ioty) :=
  [ (amd64, 0x4008ae48, TU32); (arm64, 0x4048ae9b, TDebugControl) ].

Definition known_request (g : target) (op : Z) (t : ioty) : bool :=
  bool_decide ((op, HasType t) ∈ linux_abi g).

(** The buffer holds what the request announces. *)
Definition fits_request (op : Z) (t : ioty) (a : denote t) : bool :=
  match arg_bytes t a with
  | Some n => bool_decide (0 < ioc_size op <= n)
  | None => bool_decide (ioc_size op = 0)
  end.

(** The check on an event; it lets the two defects through. *)
Definition ioctl_ok {g : GoArch} (e : event) : bool :=
  match e with
  | EIoctl _ op t a =>
      (known_request GOARCH op t && fits_request op t a) ||
      bool_decide ((GOARCH, op, t) ∈ known_defects)
  | _ => false
  end.

Definition is_ioctl (e : event) : bool :=
  match e with EIoctl _ _ _ _ => true | _ => false end.

Lemma ioctl_ok_is_ioctl {g : GoArch} e : ioctl_ok e = true -> is_ioctl e = true.
Proof. by destruct e. Qed.

(** The two halves of the check. *)
Lemma known_fits {g : GoArch} fd op t a :
  known_request GOARCH op t = true -> fits_request op t a = true ->
  ioctl_ok (EIoctl fd op t a) = true.
Proof. intros H1 H2. unfold ioctl_ok. by rewrite H1, H2. Qed.

Lemma ioctl_ok_inv {g : GoArch} fd op t a :
  ioctl_ok (EIoctl fd op t a) = true ->
  ((op, HasType t) ∈ linux_abi GOARCH /\
   match arg_bytes t a with Some n => 0 < ioc_size op <= n | None => ioc_size op = 0 end) \/
  (GOARCH, op, t) ∈ known_defects.
Proof.
  unfold ioctl_ok, known_request, fits_request. intros [Hk|Hk]%orb_true_iff.
  - left. apply andb_true_iff in Hk as [H1 H2]. apply bool_decide_eq_true in H1.
    split; [done|]. by destruct (arg_bytes t a); apply bool_decide_eq_true in H2.
  - right. by apply bool_decide_eq_true in Hk.
Qed.
