(* ===== verification/Capability.v ===== *)
(** * Capability: the KVM extensions the program can ask about

    Models [src/kvm/capability.go]: the numbers of the type [Capability],
    which is [uint8], and the query [CheckExtension]. *)

From S2P Require Import Prelude Effects Ioctl Structs World.

(** The declared constants with their names, in the order of the source: the
    first half and the second half of the block. *)
Definition capabilities_low : list (gostring * Z) :=
  [ (str "CapIRQChip", 0); (str "CapHLT", 1); (str "CapMMUShadowCacheControl", 2);
    (str "CapUserMemory", 3); (str "CapSetTSSAddr", 4); (str "CapVAPIC", 6);
    (str "CapEXTCPUID", 7); (str "CapClockSource", 8); (str "CapNRVCPUS", 9);
    (str "CapNRMemSlots", 10); (str "CapPIT", 11); (str "CapNopIODelay", 12);
    (str "CapPVMMU", 13); (str "CapMPState", 14); (str "CapCoalescedMMIO", 15);
    (str "CapSyncMMU", 16); (str "CapIOMMU", 18); (str "CapDestroyMemoryRegionWorks", 21);
    (str "CapUserNMI", 22); (str "CapSetGuestDebug", 23); (str "CapReinjectControl", 24);
    (str "CapIRQRouting", 25); (str "CapIRQInjectStatus", 26); (str "CapAssignDevIRQ", 29);
    (str "CapJoinMemoryRegionsWorks", 30); (str "CapMCE", 31); (str "CapIRQFD", 32);
    (str "CapPIT2", 33); (str "CapSetBootCPUID", 34); (str "CapPITState2", 35);
    (str "CapIOEventFD", 36); (str "CapSetIdentityMapAddr", 37); (str "CapXENHVM", 38);
    (str "CapAdjustClock", 39); (str "CapInternalErrorData", 40); (str "CapVCPUEvents", 41);
    (str "CapS390PSW", 42); (str "CapPPCSegState", 43); (str "CapHyperV", 44);
    (str "CapHyperVVAPIC", 45); (str "CapHyperVSPIN", 46); (str "CapPCISEgment", 47);
    (str "CapPPCPairedSingles", 48); (str "CapINTRShadow", 49); (str "CapDebugRegs", 50);
    (str "CapX86RobustSinglestep", 51); (str "CapPPCOSI", 52); (str "CapPPCUnsetIRQ", 53);
    (str "CapEnableCap", 54); (str "CapXSave", 55); (str "CapXCRS", 56);
    (str "CapPPCGetPVInfo", 57); (str "CapPPCIRQLevel", 58); (str "CapASYNCPF", 59);
    (str "CapTSCControl", 60); (str "CapGetTSCkHz", 61); (str "CapPPCBookeSREGS", 62);
    (str "CapSPAPRTCE", 63); (str "CapPPCSMT", 64); (str "CapPPCRMA", 65);
    (str "CapMAXVCPUS", 66); (str "CapPPCHIOR", 67); (str "CapPPCPAPR", 68);
    (str "CapSWTLB", 69); (str "CapONEREG", 70); (str "CapS390GMap", 71);
    (str "CapTSCDeadlineTimer", 72); (str "CapS390UControl", 73); (str "CapSyncRegs", 74);
    (str "CapPCI23", 75); (str "CapKVMClockCtrl", 76); (str "CapSignalMSI", 77);
    (str "CapPPCGetSMMUInfo", 78); (str "CapS390COW", 79); (str "CapPPCAllocHTAB", 80);
    (str "CapReadOnlyMem", 81); (str "CapIRQFDResample", 82);
    (str "CapPPCBokkeWatchdog", 83); (str "CapPPCHTABFD", 84); (str "CapS390CSSSupport", 85);
    (str "CapPPCEPR", 86); (str "CapARMPSCI", 87); (str "CapARMSetDeviceAddr", 88);
    (str "CapDeviceCtrl", 89); (str "CapIRQMPIC", 90); (str "CapPPCRTAS", 91);
    (str "CapIRQXICS", 92); (str "CapARMEL132BIT", 93); (str "CapSPAPRMultiTCE", 94);
    (str "CapEXTEmulCPUID", 95); (str "CapHyperVTIME", 96);
    (str "CapIOAPICPolarityIgnored", 97); (str "CapEnableCAPVM", 98);
    (str "CapS390IRQCHIP", 99); (str "CapIOEVENTFDNoLength", 100);
    (str "CapVMAttributes", 101); (str "CapARMPSCI02", 102); (str "CapPPCFixupHCALL", 103);
    (str "CapPPCEnableHCALL", 104); (str "CapCheckExtentionVM", 105);
    (str "CapS390UserSIGP", 106); (str "CapS390VectorRegisters", 107);
    (str "CapS390MemOp", 108); (str "CapS390UserSTSI", 109); (str "CapS390SKEYS", 110);
    (str "CapMIPSFPU", 111); (str "CapMIPSMSA", 112); (str "CapS390InjectIRQ", 113);
    (str "CapS390IRQState", 114) ].

Definition capabilities_high : list (gostring * Z) :=
  [ (str "CapPPCHWRNG", 115); (str "CapDisableQuirks", 116); (str "CapX86SMM", 117);
    (str "CapMultiAddressSpace", 118); (str "CapGuestDebugHWBPS", 119);
    (str "CapGuestDebugHWWPS", 120); (str "CapSplitIRQChip", 121);
    (str "CapIOEventFDAnyLength", 122); (str "CapHyperVSYNIC", 123); (str "CapS390RI", 124);
    (str "CapSPAPRTCE64", 125); (str "CapARMPMUV3", 126); (str "CapVCPUAttributes", 127);
    (str "CapMAXVCPUID", 128); (str "CapX2APICAPI", 129); (str "CapS390UserINSTR0", 130);
    (str "CapMSIDEVID", 131); (str "CapPPCHTM", 132); (str "CapSPAPRResizeHPT", 133);
    (str "CapPPCMMURADIX", 134); (str "CapPPCMMUHASHV3", 135); (str "CapImmediateExit", 136);
    (str "CapMIPSVZ", 137); (str "CapMIPSTE", 138); (str "CapMIPS64BIT", 139);
    (str "CapS390GS", 140); (str "CapS390AIS", 141); (str "CapSPAPRTCEVFIO", 142);
    (str "CapX86DisableExits", 143); (str "CapARMUserIRQ", 144);
    (str "CapS390CMMAMigration", 145); (str "CapPPCFWNMI", 146);
    (str "CapPPCSMTPossible", 147); (str "CapHyperVSYNIC2", 148);
    (str "CapHyperVVPIndex", 149); (str "CapS390AISMigration", 150);
    (str "CapPPCGetCPUChar", 151); (str "CapS390BPB", 152); (str "CapGETMSRFeatures", 153);
    (str "CapHyperVEventFD", 154); (str "CapHyperVTLBFlush", 155);
    (str "CapS390HPage1M", 156); (str "CapNestedState", 157);
    (str "CapARMInjectSErrorESR", 158); (str "CapMSRPlatformInfo", 159);
    (str "CapPPCNestedHV", 160); (str "CapHyperVSendIPI", 161); (str "CapCoalescedPIO", 162);
    (str "CapHyperVEnlightenedVMCS", 163); (str "CapExceptionPayload", 164);
    (str "CapARMVMIPASize", 165); (str "CapManualDirtyLogProtect", 166);
    (str "CapHyerVCPUID", 167); (str "CapManualDirtyLogProtect2", 168);
    (str "CapPPCIRQXive", 169); (str "CapARMSVE", 170); (str "CapARMPTRAuthAddress", 171);
    (str "CapARMPTRAuthGeneric", 172); (str "CapPMUEventFilter", 173);
    (str "CapARMIRQLineLayout2", 174); (str "CapHyperVDirectTLBFlush", 175);
    (str "CapPPCGuestDebugSStep", 176); (str "CapARMNISVToUser", 177);
    (str "CapARMInjectEXTDABT", 178); (str "CapS390VCPUResets", 179);
    (str "CapS390Protected", 180); (str "CapPPCSecureGuest", 181); (str "CapHALTPoll", 182);
    (str "CapASYNCPFInt", 183); (str "CapLastCPU", 184); (str "CapSmallerMaxPhyAddr", 185);
    (str "CapS390DIAG318", 186); (str "CapStealTime", 187); (str "CapX86UserSpaceMSR", 188);
    (str "CapX86MSRFilter", 189); (str "CapEnforcePVFeatureCPUID", 190);
    (str "CapSysHyperVCPUID", 191); (str "CapDirtyLogRing", 192);
    (str "CapX86BusLockExit", 193); (str "CapPPCDAWR1", 194); (str "CapSetGuestDebug2", 195);
    (str "CapSGXAttribute", 196); (str "CapVMCopyEncContextFrom", 197);
    (str "CapPTPKVM", 198); (str "CapHyperVEnforceCPUID", 199); (str "CapSREGS2", 200);
    (str "CapEXitHyperCall", 201); (str "CapPPCRPTInvalidate", 202);
    (str "CapBinaryStatsFD", 203); (str "CapExitOnEmulationFailure", 204);
    (str "CapARMMTE", 205); (str "CapVMMoveEncContextFrom", 206); (str "CapVMGPABits", 207);
    (str "CapXSave2", 208); (str "CapSysAttributes", 209); (str "CapPPCAILMode3", 210);
    (str "CapS390MemOpExtention", 211); (str "CapPMUCapability", 212);
    (str "CapDisableQuirks2", 213); (str "CapVMTSCControl", 214);
    (str "CapSystemEventData", 215); (str "CapARMSystemSuspend", 216);
    (str "CapS390ProtectedDump", 217); (str "CapX86TripleFaultEvent", 218);
    (str "CapX86NotifyVMExit", 219); (str "CapVMDisableNXHugePages", 220);
    (str "CapS390ZPCIOP", 221); (str "CapS390CPUTOPOLOGY", 222);
    (str "CapDirtyLogRingACQRel", 223) ].

Definition capabilities : list (gostring * Z) := capabilities_low ++ capabilities_high.

(** [const Cap... Capability = n] looked up by name. *)
Definition capability (name : gostring) : Z :=
  default 0 (snd <$> find (fun c => bool_decide (c.1 = name)) capabilities).

Section Query.
Context {K O H : Type} `{!KVM K}.

Definition CheckExtension (kfd c : Z) : M (World K O H) Z :=
  '(res, _) ← Ioctl_checked kfd (IIO kvmCheckExtension) TVal (c : denote TVal); mret res.

End Query.

(** Every constant is a value of its type and has a number of its own. *)
Lemma capabilities_distinct :
  Forall (fun c => 0 <= c.2 < 2 ^ 8) capabilities /\ NoDup capabilities.*2.
Proof. split; apply (bool_decide_unpack _); by vm_compute. Qed.
