(* ===== verification/Vm.v ===== *)
(** * Vm: the virtual machine, its vcpus and guest memory

    Models [src/kvm/vm.go], [vcpu.go], [memory.go], [debug.go], the
    descriptor queries of [kvm.go], and the accessors of
    guest memory in [machine.go].  What differs between the two targets is
    the class [Arch], instantiated in [ArchAmd64.v] and [ArchArm64.v]. *)

From S2P Require Import Prelude Effects Ioctl Structs World.
From S2P Require Import Abi Capability.

(** ** Guest-physical layout ([vm.go]) *)

Definition physSysBase : Z := 0x4000.
Definition physRamBase : Z := 0x40000000.
Definition physKernBase : Z := 0x40008000.

(** ** Frames

    [kernel_only w w']: the step from [w] to [w'] is a sequence of ioctls,
    each of which passes the check of [Abi], and what changed in the kernel is
    what these ioctls do.
    It leaves the program's own state and the host's files alone and does not
    resize a mapping. *)

Section Replay.
Context {K : Type} `{!KVM K}.

(** The effect on the kernel of a trace, whose last event comes first. *)
Definition replay_event (e : event) (v : kview K) : kview K :=
  match e with EIoctl fd op t a => (sys_ioctl fd op t a v).2 | _ => v end.

Definition replay (evs : list event) (v : kview K) : kview K := foldr replay_event v evs.

Lemma replay_app evs evs' v : replay (evs ++ evs') v = replay evs (replay evs' v).
Proof. apply foldr_app. Qed.

End Replay.

Definition kernel_only {K O H} `{!KVM K} {GA : GoArch} (w w' : World K O H) : Prop :=
  w_mach w' = w_mach w /\ w_hand w' = w_hand w /\ w_os w' = w_os w /\
  length (w_mem w') = length (w_mem w) /\
  dom (kv_runs (w_kv w')) = dom (kv_runs (w_kv w)) /\
  exists evs, Forall (fun e => ioctl_ok e = true) evs /\
              w_trace w' = evs ++ w_trace w /\ w_kv w' = replay evs (w_kv w).

#[export] Instance kernel_only_preorder K O H `{!KVM K, !GoArch} : PreOrder (@kernel_only K O H _ _).
Proof.
  split.
  - intros w. split_and!; try done. by exists [].
  - intros w1 w2 w3 (?&?&?&?&?&e1&?&T1&V1) (?&?&?&?&?&e2&?&T2&V2).
    split_and!; [congruence..|].
    exists (e2 ++ e1). rewrite T2, T1, V2, V1, app_assoc, replay_app. split; [|done].
    by apply Forall_app.
Qed.

(** [irq_frame]: the same, except that the descriptor of the interrupt
    controller may be set. *)
Definition forget_irqfd {K O H} (w : World K O H) : World K O H :=
  let m := w_mach w in set_mach (mkMachine (kvmfd m) 0 (m_vm m) (m_runs m)) w.

Definition irq_frame {K O H} `{!KVM K} {GA : GoArch} (w w' : World K O H) : Prop :=
  kernel_only (forget_irqfd w) (forget_irqfd w').

#[export] Instance irq_frame_preorder K O H `{!KVM K, !GoArch} : PreOrder (@irq_frame K O H _ _).
Proof.
  split; [intros w; apply kernel_only_preorder|].
  intros w1 w2 w3. apply kernel_only_preorder.
Qed.

Lemma kernel_only_irq_frame {K O H} `{!KVM K} {GA : GoArch} (w w' : World K O H) : kernel_only w w' -> irq_frame w w'.
Proof.
  intros (Hm & ? & ? & ? & ? & ?). split_and!; try done. unfold forget_irqfd. cbn. by rewrite Hm.
Qed.

(** ** What the two targets have in common *)

Definition handler_t (K O H : Type) : Type :=
  Z -> Z -> Z -> Z -> Z -> Z -> Z -> Z -> M (World K O H) Z.

Class Arch (K O H : Type) `{!KVM K} := {
  arch_target :: GoArch;
  ka2pa : Z -> Z;
  pa2ka : Z -> Z;
  SignalIRQ : Z;
  createVM : Z -> M (World K O H) Z;
  vm_init : M (World K O H) unit;
  machine_init : M (World K O H) unit;
  SetupRegs : Z -> Z -> Z -> M (World K O H) unit;
  do_hypercall : handler_t K O H -> Z -> M (World K O H) unit;
  VtoP : Z -> Z -> M (World K O H) Z;
  createIrqController : M (World K O H) unit;
  finalizeIrqController : M (World K O H) unit;
  InjectIrq : Z -> Z -> M (World K O H) unit;
  GetPc : Z -> M (World K O H) Z;
  Inst : Z -> M (World K O H) (Z * gostring) }.

(** What the architecture-independent code relies on. *)
Class ArchLaws (K O H : Type) `{!KVM K, !Arch K O H} : Prop := {
  ka2pa_pa2ka : forall p, 0 <= p < 2 ^ 46 -> ka2pa (pa2ka p) = p;
  pa2ka_u64 : forall p, is_u64 (pa2ka p);
  VtoP_frame : forall cpu v, respects (@kernel_only K O H _ _) (VtoP cpu v);
  InjectIrq_frame : forall i l, respects (@kernel_only K O H _ _) (InjectIrq i l);
  GetPc_frame : forall cpu, respects (@kernel_only K O H _ _) (GetPc cpu);
  Inst_frame : forall cpu, respects (@kernel_only K O H _ _) (Inst cpu);
  SetupRegs_frame : forall a b c, respects (@kernel_only K O H _ _) (SetupRegs a b c);
  createVM_frame : forall kfd, respects (@kernel_only K O H _ _) (createVM kfd);
  vm_init_frame : respects (@kernel_only K O H _ _) vm_init;
  machine_init_frame : respects (@kernel_only K O H _ _) machine_init;
  createIrqController_frame : respects (@irq_frame K O H _ _) createIrqController;
  finalizeIrqController_frame : respects (@kernel_only K O H _ _) finalizeIrqController;
  VtoP_no_error : forall cpu v, no_error (VtoP (K:=K) (O:=O) (H:=H) cpu v);
  GetPc_no_error : forall cpu, no_error (GetPc (K:=K) (O:=O) (H:=H) cpu);
  do_hypercall_respects : forall (R : relation (World K O H)) `{!PreOrder R} h cpu,
    (forall w w', kernel_only w w' -> R w w') ->
    (forall num a0 a1 a2 a3 a4 a5, respects R (h cpu num a0 a1 a2 a3 a4 a5)) ->
    respects R (do_hypercall h cpu) }.

Section Vm.
Context {K O H : Type} `{!KVM K}.
Abbreviation W := (World K O H).

(** ** Queries on the KVM descriptor ([kvm.go]) *)

Definition getAPIVersion (kfd : Z) : M W Z :=
  '(res, _) ← Ioctl_checked kfd (IIO kvmGetAPIVersion) TVal 0; mret res.

Definition getVCPUMMmapSize (kfd : Z) : M W Z :=
  '(res, _) ← Ioctl_checked kfd (IIO kvmGetVCPUMMapSize) TVal 0; mret res.

(** ** vcpus ([vcpu.go], [debug.go]) *)

(** [KVM_RUN]: an interrupted run is not an error. *)
Definition vcpu_Run (c : vcpu) : M W unit :=
  '(_, _, err) ← Ioctl (vcpu_fd c) (IIO kvmRun) TVal 0;
  match err with
  | Some e =>
      if errors_Is e (Errno EAGAIN) || errors_Is e (Errno EINTR)
      then mret tt else fail e
  | None => mret tt
  end.

Definition dbg_Enable : Z := 1.
Definition dbg_SingleStep : Z := 2.

Definition vcpu_SingleStep (c : vcpu) (onoff : bool) : M W unit :=
  let debug := mkDebugControl (if onoff then Z.lor dbg_Enable dbg_SingleStep else 0)
                              (replicate 8 0) in
  Ioctl_checked (vcpu_fd c) (IIOW 0x9b (sizeof debugControl_ty))
                TDebugControl (debug : denote TDebugControl) ;;
  mret tt.

(** ** The vm ([vm.go], [memory.go]) *)

Definition SetUserspaceMemoryRegion (region : UserspaceMemoryRegion) : M W unit :=
  v ← gets (fun w : W => m_vm (w_mach w));
  Ioctl_checked (vm_fd v)
    (IIOW kvmSetUserMemoryRegion (sizeof UserspaceMemoryRegion_ty))
    TMemRegion (region : denote TMemRegion) ;;
  mret tt.

(** [&s[0]] of a mapping of [len] bytes. *)
Definition first_byte_addr (addr len : Z) : M W Z :=
  if decide (0 < len) then mret addr else panic_with IndexOutOfRange.

Definition mem_len (w : W) : Z := Z.of_nat (length (w_mem w)).

Definition initMemory : M W unit :=
  v ← gets (fun w : W => m_vm (w_mach w));
  n ← gets mem_len;
  a ← first_byte_addr (vm_mem v) n;
  wrap_err (str "KVM_SET_USERSPACE_MEMORY_REGION")
    (SetUserspaceMemoryRegion (mkRegion 0 0 physRamBase (u64 n) (u64 a))) ;;
  s ← first_byte_addr (mm_addr (vm_sys v)) (mm_len (vm_sys v));
  wrap_err (str "KVM_SET_USERSPACE_MEMORY_REGION")
    (SetUserspaceMemoryRegion
       (mkRegion 1 kvmMemReadonly physSysBase (u64 (mm_len (vm_sys v))) (u64 s))).

Definition addVCPU : M W unit :=
  v ← gets (fun w : W => m_vm (w_mach w));
  '(fd, _) ← Ioctl_checked (vm_fd v) (IIO kvmCreateVCPU) TVal
               (Z.of_nat (length (vm_vcpus v)) : denote TVal);
  modify (set_vm (mkVm (vm_fd v) (vm_mem v) (vm_sys v)
                       (vm_vcpus v ++ [mkVcpu fd]))).

(** An anonymous mapping reads as zeros. *)
Definition map_guest_ram (memSize : Z) : M W Z :=
  r ← on_kernel (gommap_MapAt memSize);
  addr ← lift_sum r;
  modify (set_mem (replicate (Z.to_nat memSize) x00)) ;;
  mret addr.

Definition NewVM `{!Arch K O H} (kfd memSize : Z) : M W unit :=
  v ← getAPIVersion kfd;
  if decide (v ≠ 12) then
    fail (ErrorString (str "KVM_GET_API_VERSION: got " ++ FormatInt10 v ++
                       str ", expected 12"))
  else
    vmfd ← wrap_err (str "KVM_CREATE_VM") (createVM kfd);
    mem ← wrap_err (str "mmap") (map_guest_ram memSize);
    r ← on_kernel (gommap_MapAt Getpagesize);
    sys ← wrap_err (str "mmap") (lift_sum r);
    modify (set_vm (mkVm vmfd mem (mkMMap sys Getpagesize) [])).

(** ** Guest memory ([machine.go]) *)

(** [m.vm.mem[start-physRamBase:]]. *)
Definition SliceEnd (start : Z) : M W slice :=
  mem_slice_from (u64 (start - physRamBase)).

(** [m.vm.mem[start-physRamBase : end-physRamBase]]. *)
Definition Slice (start eend : Z) : M W slice :=
  mem_slice (u64 (start - physRamBase)) (u64 (eend - physRamBase)).

(** [bytes.NewReader(m).ReadAt(b, off)] for [len(b) = n]: the bytes stored in
    [b] and the error. *)
Definition reader_ReadAt (m : list byte) (n : nat) (off : Z) : list byte * option error :=
  if decide (off < 0) then ([], Some (ErrorString (str "bytes.Reader.ReadAt: negative offset")))
  else if decide (Z.of_nat (length m) <= off) then ([], Some EOF)
  else let data := read_at (Z.to_nat off) n m in
       (data, if decide (length data < n)%nat then Some EOF else None).

Definition ReadAt (n : nat) (off : Z) : M W (list byte * option error) :=
  gets (fun w => reader_ReadAt (w_mem w) n (i64 (off - physRamBase))).

(** [vtop] is the target's [m.VtoP]. *)
Definition ReadBytes (vtop : Z -> Z -> M W Z) (cpu : Z) (n : nat) (vaddr : Z)
    : M W (list byte * option error) :=
  pa ← vtop cpu vaddr;
  ReadAt n (i64 pa).

Definition NCPU : M W Z := gets (fun w => Z.of_nat (length (w_vcpus w))).

(** ** All vcpus ([machine.go]) *)

Definition SingleStep (onoff : bool) : M W unit :=
  cs ← gets w_vcpus;
  for_range cs (fun c =>
    wrap_err (str "single step {" ++ FormatInt10 (vcpu_fd c) ++ str "}")
      (vcpu_SingleStep c onoff)).

End Vm.

(** ** Lemmas *)

Section VmFacts.
Context {K O H : Type} `{!KVM K, !KVMLaws K, !GoArch}.
Abbreviation W := (World K O H).

Lemma Ioctl_kernel_only fd op t a :
  ioctl_ok (EIoctl fd op t a) = true -> respects (@kernel_only K O H _ _) (Ioctl fd op t a).
Proof.
  intros Hok w. unfold Ioctl.
  pose proof (ioctl_keeps_mem_length fd op t a (w_kv w)) as Hm.
  pose proof (ioctl_keeps_runs fd op t a (w_kv w)) as Hr.
  destruct (sys_ioctl fd op t a (w_kv w)) as [[[res errno] a'] kv] eqn:E; simpl in *.
  split_and!; try done. exists [EIoctl fd op t a]. split; [by repeat constructor|].
  split; [done|]. cbn. by rewrite E.
Qed.

Lemma Ioctl_checked_kernel_only fd op t a :
  ioctl_ok (EIoctl fd op t a) = true ->
  respects (@kernel_only K O H _ _) (Ioctl_checked fd op t a).
Proof.
  intros Hok. unfold Ioctl_checked. apply respects_bind; [apply _|by apply Ioctl_kernel_only|].
  intros [[res a'] err]. respects_tac.
Qed.

End VmFacts.

Lemma no_error_Ioctl {K O H} `{!KVM K} fd op t a :
  no_error (Ioctl (K:=K) (O:=O) (H:=H) fd op t a).
Proof. intros w e w'. unfold Ioctl. by repeat case_match. Qed.

(** The check of an ioctl whose request is a constant is a computation, on both
    targets where the code is common to them; for an argument of variable size
    it is left to the hint database [abi]. *)
Ltac ioctl_check :=
  first [solve [auto with abi nocore] | vm_compute; reflexivity
        | match goal with |- @ioctl_ok ?g _ = true => destruct g as [[|]]; vm_compute; reflexivity end].

(** The type of the argument may have been reduced by unification, so the two
    ioctl lemmas are applied up to conversion. *)
#[export] Hint Extern 1 (respects _ (Ioctl ?fd ?op ?t ?a)) =>
  simple refine (Ioctl_kernel_only fd op t a _); ioctl_check : respects.
#[export] Hint Extern 1 (respects _ (Ioctl_checked ?fd ?op ?t ?a)) =>
  simple refine (Ioctl_checked_kernel_only fd op t a _); ioctl_check : respects.
#[export] Hint Extern 1 (no_error (Ioctl ?fd ?op ?t ?a)) =>
  exact (no_error_Ioctl fd op t a) : respects.
#[export] Hint Resolve createVM_frame vm_init_frame machine_init_frame
  createIrqController_frame finalizeIrqController_frame : respects.
#[export] Hint Resolve VtoP_frame InjectIrq_frame GetPc_frame Inst_frame SetupRegs_frame
  VtoP_no_error GetPc_no_error : respects.

Section VmFrames.
Context {K O H : Type} `{!KVM K, !KVMLaws K, !GoArch}.
Abbreviation W := (World K O H).

Lemma vcpu_Run_kernel_only c : respects (@kernel_only K O H _ _) (vcpu_Run c).
Proof. unfold vcpu_Run. respects_tac. Qed.

Lemma vcpu_SingleStep_kernel_only c b :
  respects (@kernel_only K O H _ _) (vcpu_SingleStep c b).
Proof. unfold vcpu_SingleStep. respects_tac. Qed.

Lemma SingleStep_kernel_only b : respects (@kernel_only K O H _ _) (SingleStep b).
Proof.
  unfold SingleStep. respects_tac. apply vcpu_SingleStep_kernel_only.
Qed.

Lemma CheckExtension_kernel_only kfd c :
  respects (@kernel_only K O H _ _) (CheckExtension kfd c).
Proof. unfold CheckExtension. respects_tac. Qed.

End VmFrames.

#[export] Hint Resolve vcpu_Run_kernel_only vcpu_SingleStep_kernel_only
  SingleStep_kernel_only CheckExtension_kernel_only : respects.
