(* ===== verification/Cpuid.v ===== *)
(** * Cpuid: CPUID tables and their wire format

    Models [src/kvm/cpuid_amd64.go]: the tables, their little-endian image,
    the parser of that image, and the ioctls that carry it.  [binary.Write]
    into a [bytes.Buffer] of fixed-size values cannot fail, so [CPUID_Bytes]
    is total. *)

From S2P Require Import Prelude Effects Ioctl Structs World Abi Vm.

Definition CPUIDFeatures : Z := 0x40000001.
Definition CPUIDSignature : Z := 0x40000000.
Definition CPUIDFuncPerMon : Z := 0x0A.

Record CPUIDEntry2 := mkEntry {
  Function_ : Z; Index : Z; EFlags : Z; Eax : Z; Ebx : Z; Ecx : Z; Edx : Z;
  Pad0 : Z; Pad1 : Z; Pad2 : Z }.

Definition CPUIDEntry2_ty : gty := Struct [U32; U32; U32; U32; U32; U32; U32; Arr 3 U32].

Definition CPUIDEntry2_zero : CPUIDEntry2 := mkEntry 0 0 0 0 0 0 0 0 0 0.

Record CPUID := mkCPUID { Nent : Z; Padding : Z; Entries : list CPUIDEntry2 }.

(** ** The wire format *)

Definition entry_words (e : CPUIDEntry2) : list Z :=
  [Function_ e; Index e; EFlags e; Eax e; Ebx e; Ecx e; Edx e; Pad0 e; Pad1 e; Pad2 e].

Definition entry_bytes (e : CPUIDEntry2) : list byte :=
  concat (le_enc 4 <$> entry_words e).

Definition CPUID_Bytes (c : CPUID) : list byte :=
  le_enc 4 (Nent c) ++ le_enc 4 (Padding c) ++ concat (entry_bytes <$> Entries c).

(** [io.ReadFull] of [n] bytes from a buffer: what is read and what is left. *)
Definition ReadFull (n : nat) (buf : list byte) : (list byte * list byte) + error :=
  if decide (n <= length buf)%nat then inl (take n buf, drop n buf)
  else inr (if decide (length buf = 0)%nat then EOF else ErrUnexpectedEOF).

Definition word_at (bs : list byte) (i : nat) : Z := le_dec (read_at (4 * i) 4 bs).

Definition decode_entry (bs : list byte) : CPUIDEntry2 :=
  mkEntry (word_at bs 0) (word_at bs 1) (word_at bs 2) (word_at bs 3) (word_at bs 4)
          (word_at bs 5) (word_at bs 6) (word_at bs 7) (word_at bs 8) (word_at bs 9).

Fixpoint decode_entries (n : nat) (bs : list byte) : list CPUIDEntry2 :=
  match n with
  | O => []
  | S n => decode_entry (take 40 bs) :: decode_entries n (drop 40 bs)
  end.

(** [binary.Read] into a slice of [n] zeroed entries: an image without any
    byte for them is [io.EOF], which [NewCPUID] accepts. *)
Definition read_entries (n : nat) (buf : list byte) : list CPUIDEntry2 + error :=
  match ReadFull (40 * n) buf with
  | inl (bs, _) => inl (decode_entries n bs)
  | inr e => if errors_Is e EOF then inl (replicate n CPUIDEntry2_zero) else inr e
  end.

Definition NewCPUID (data : list byte) : CPUID + error :=
  match ReadFull 4 data with
  | inr e => inr e
  | inl (nb, buf) =>
      match ReadFull 4 buf with
      | inr e => inr e
      | inl (pb, buf) =>
          let nent := le_dec nb in
          match read_entries (Z.to_nat nent) buf with
          | inr e => inr e
          | inl es => inl (mkCPUID nent (le_dec pb) es)
          end
      end
  end.

(** ** The ioctls

    The request size is that of the Go pointer, [unsafe.Sizeof(kvmCPUID)],
    which is the size of the fixed part of the table. *)

Section Ioctls.
Context {K O H : Type} `{!KVM K}.
Abbreviation W := (World K O H).

Definition query_cpuid (fd op : Z) (c : CPUID) : M W CPUID :=
  '(_, data) ← Ioctl_checked fd op TBytes (CPUID_Bytes c : denote TBytes);
  lift_sum (NewCPUID data).

Definition GetSupportedCPUID (c : CPUID) : M W CPUID :=
  fd ← gets (fun w : W => kvmfd (w_mach w));
  query_cpuid fd (IIOWR kvmGetSupportedCPUID (sizeof Ptr)) c.

Definition GetEmulatedCPUID (c : CPUID) : M W CPUID :=
  fd ← gets (fun w : W => kvmfd (w_mach w));
  query_cpuid fd (IIOWR kvmGetEmulatedCPUID (sizeof Ptr)) c.

Definition GetCPUID2 (v : vcpu) (c : CPUID) : M W CPUID :=
  query_cpuid (vcpu_fd v) (IIOWR kvmGetCPUID2 8) c.

Definition SetCPUID2 (v : vcpu) (c : CPUID) : M W unit :=
  Ioctl_checked (vcpu_fd v) (IIOW kvmSetCPUID2 (sizeof Ptr)) TBytes
                (CPUID_Bytes c : denote TBytes) ;;
  mret tt.

End Ioctls.

(** ** Lemmas *)

(** Every field fits the width the source declares for it. *)
Definition entry_wf (e : CPUIDEntry2) : Prop := Forall is_u32 (entry_words e).

Definition cpuid_wf (c : CPUID) : Prop :=
  is_u32 (Nent c) /\ is_u32 (Padding c) /\
  Nent c = Z.of_nat (length (Entries c)) /\ Forall entry_wf (Entries c).

Lemma length_concat_le n (ws : list Z) :
  length (concat (le_enc n <$> ws)) = (n * length ws)%nat.
Proof.
  induction ws as [|w ws IH]; [simpl; lia|]. rewrite fmap_cons. cbn [concat length].
  rewrite length_app, length_le_enc, IH. lia.
Qed.

Lemma length_entry_bytes e : length (entry_bytes e) = 40%nat.
Proof. unfold entry_bytes. by rewrite length_concat_le. Qed.

Lemma length_entries_bytes es : length (concat (entry_bytes <$> es)) = (40 * length es)%nat.
Proof.
  induction es as [|e es IH]; [simpl; lia|]. rewrite fmap_cons. cbn [concat length].
  rewrite length_app, length_entry_bytes, IH. lia.
Qed.

Lemma read_at_concat_le (ws : list Z) (i : nat) w rest :
  ws !! i = Some w ->
  read_at (4 * i) 4 (concat (le_enc 4 <$> ws) ++ rest) = le_enc 4 w.
Proof.
  revert i. induction ws as [|x ws IH]; intros [|i] Hi; [done|done| |];
    rewrite fmap_cons; cbn [concat lookup list_lookup] in *.
  - simplify_eq. unfold read_at. rewrite drop_0, <- app_assoc.
    by rewrite take_app_length' by (by rewrite length_le_enc).
  - rewrite <- (IH i Hi). unfold read_at. rewrite <- app_assoc.
    replace (4 * S i)%nat with (length (le_enc 4 x) + 4 * i)%nat
      by (rewrite length_le_enc; lia).
    rewrite <- drop_drop, drop_app_length. done.
Qed.

Lemma word_at_entry e i w :
  entry_wf e -> entry_words e !! i = Some w -> word_at (entry_bytes e) i = w.
Proof.
  intros Hwf Hi. unfold word_at, entry_bytes.
  rewrite <- (app_nil_r (concat _)), (read_at_concat_le _ _ _ _ Hi).
  apply le_dec_enc_id. exact (Forall_lookup_1 _ _ _ _ Hwf Hi).
Qed.

Lemma decode_entry_bytes e : entry_wf e -> decode_entry (entry_bytes e) = e.
Proof.
  intros Hwf. unfold decode_entry.
  destruct e; f_equal; by apply word_at_entry.
Qed.

Lemma decode_entries_bytes es :
  Forall entry_wf es -> decode_entries (length es) (concat (entry_bytes <$> es)) = es.
Proof.
  induction 1 as [|e es He Hes IH]; [done|]. rewrite fmap_cons. cbn [concat length decode_entries].
  rewrite take_app_length', drop_app_length' by (by rewrite length_entry_bytes).
  by rewrite decode_entry_bytes, IH.
Qed.

Lemma ReadFull_app a b n : n = length a -> ReadFull n (a ++ b) = inl (a, b).
Proof.
  intros ->. unfold ReadFull. rewrite decide_True by (rewrite length_app; lia).
  by rewrite take_app_length, drop_app_length.
Qed.

Lemma length_decode_entries n bs : length (decode_entries n bs) = n.
Proof. revert bs. induction n; simpl; auto. Qed.

(** What [NewCPUID] accepts always has as many entries as it announces. *)
Lemma NewCPUID_length data c :
  NewCPUID data = inl c -> Z.of_nat (length (Entries c)) = Nent c.
Proof.
  unfold NewCPUID, read_entries. intros Hc.
  repeat case_match; simplify_eq/=;
    rewrite ?length_decode_entries, ?length_replicate; apply Z2Nat.id, le_dec_range.
Qed.

(** A table is at least as long as its fixed part. *)
Lemma CPUID_Bytes_ok {g : GoArch} fd op c :
  known_request GOARCH op TBytes = true -> ioc_size op = 8 ->
  ioctl_ok (EIoctl fd op TBytes (CPUID_Bytes c)) = true.
Proof.
  intros H1 H2. apply known_fits; [done|]. unfold fits_request. cbn [arg_bytes].
  apply bool_decide_eq_true. rewrite H2. unfold CPUID_Bytes.
  rewrite !length_app, !length_le_enc. lia.
Qed.

#[export] Hint Extern 1 (ioctl_ok (EIoctl _ _ TBytes (CPUID_Bytes _)) = true) =>
  apply CPUID_Bytes_ok; vm_compute; reflexivity : abi.

Lemma query_cpuid_kernel_only {K O H} `{!KVM K, !KVMLaws K, !GoArch} fd op c :
  known_request GOARCH op TBytes = true -> ioc_size op = 8 ->
  respects (@kernel_only K O H _ _) (query_cpuid fd op c).
Proof.
  intros H1 H2. unfold query_cpuid, lift_sum. respects_step.
  - exact (Ioctl_checked_kernel_only fd op TBytes (CPUID_Bytes c) (CPUID_Bytes_ok fd op c H1 H2)).
  - respects_tac.
Qed.
#[export] Hint Extern 1 (respects _ (query_cpuid _ _ _)) =>
  apply query_cpuid_kernel_only; vm_compute; reflexivity : respects.
