(* ===== verification/Argv.v ===== *)
(** * Argv: the argument vector handed to the guest kernel

    Models [src/kvm/argv.go]: the strings are laid out at the bottom of guest
    RAM, each with its terminating zero, and the array of pointers after
    them.  The theorems give the result of [WriteAt] on every branch and the
    round trip: a guest that walks the array as C does finds the arguments. *)

From S2P Require Import Prelude Effects Ioctl Structs World Abi Vm.

(** ** Operations *)

Section Argv.
Context {K O H : Type} `{!KVM K, !Arch K O H}.
Abbreviation W := (World K O H).

(** [[]byte(a)] with the zero appended. *)
Definition arg_cstring (a : gostring) : list byte := a ++ [x00].

(** The first loop: the pointers collected and the offset after the last
    string. *)
Fixpoint write_strings (args : list gostring) (off : Z) : M W (list Z * Z) :=
  match args with
  | [] => mret ([], off)
  | a :: args =>
      let b := arg_cstring a in
      s ← mem_slice_from off;
      slice_copy s b ;;
      let p := pa2ka (u64 (physRamBase + off)) in
      '(ps, off) ← write_strings args (u64 (off + Z.of_nat (length b)));
      mret (p :: ps, off)
  end.

(** The second loop. *)
Fixpoint write_pointers (argp : list Z) (off : Z) : M W Z :=
  match argp with
  | [] => mret off
  | p :: argp =>
      s ← mem_slice_from off;
      PutUint64 s p ;;
      write_pointers argp (u64 (off + 8))
  end.

Definition argv_too_large : error := ErrorString (str "argv too large").

Definition argv_WriteAt (args : list gostring) (off : Z) : M W Z :=
  '(argp, off) ← write_strings args off;
  let argv := off in
  off ← write_pointers (argp ++ [0]) off;
  if decide (physKernBase < u64 (physRamBase + off)) then fail argv_too_large
  else mret (pa2ka (u64 (physRamBase + argv))).

(** ** Reference layout *)

(** All strings with their terminators, one after the other. *)
Definition strings_image (args : list gostring) : list byte := concat (arg_cstring <$> args).

(** The address of each string when the first one is at offset [off]. *)
Fixpoint arg_pointers (args : list gostring) (off : Z) : list Z :=
  match args with
  | [] => []
  | a :: args =>
      pa2ka (physRamBase + off) ::
      arg_pointers args (off + Z.of_nat (length (arg_cstring a)))
  end.

Definition pointers_image (ps : list Z) : list byte := concat (le_enc 8 <$> ps).

(** The whole vector laid out at offset [off]. *)
Definition argv_image (args : list gostring) (off : Z) : list byte :=
  strings_image args ++ pointers_image (arg_pointers args off ++ [0]).

Definition strings_size (args : list gostring) : Z := Z.of_nat (length (strings_image args)).
Definition argv_size (args : list gostring) : Z :=
  strings_size args + 8 * (Z.of_nat (length args) + 1).

(** ** Lemmas *)

Lemma length_pointers_image ps : length (pointers_image ps) = (8 * length ps)%nat.
Proof.
  unfold pointers_image. induction ps as [|p ps IH]; [done|].
  rewrite fmap_cons. cbn [concat]. rewrite length_app, length_le_enc, IH. simpl. lia.
Qed.

Lemma length_arg_pointers args off : length (arg_pointers args off) = length args.
Proof. revert off. induction args; intros; simpl; auto. Qed.

Lemma length_argv_image args off : Z.of_nat (length (argv_image args off)) = argv_size args.
Proof.
  unfold argv_image, argv_size, strings_size.
  rewrite length_app, length_pointers_image, length_app, length_arg_pointers. simpl. lia.
Qed.

Lemma strings_size_cons a args :
  strings_size (a :: args) = Z.of_nat (length (arg_cstring a)) + strings_size args.
Proof.
  unfold strings_size, strings_image. rewrite fmap_cons. cbn [concat].
  rewrite length_app. lia.
Qed.

Lemma set_mem_same (w : W) : set_mem (w_mem w) w = w.
Proof. by destruct w as [[] ? ? ? ?]. Qed.

(** One store through [physMem[off:]]. *)
Lemma store_fits off bs (w : W) :
  0 <= off -> off + Z.of_nat (length bs) <= Z.of_nat (length (w_mem w)) ->
  (s ← mem_slice_from off; slice_copy s bs) w =
  (Ok tt, set_mem (write_at (Z.to_nat off) bs (w_mem w)) w).
Proof.
  intros H1 H2. unfold mbind, M_bind, mem_slice_from.
  rewrite mem_slice_Ok by lia. unfold slice_copy, modify. cbn [s_off s_len].
  by rewrite take_ge by lia.
Qed.

Lemma write_strings_fits args off (w : W) :
  0 <= off -> off + strings_size args <= Z.of_nat (length (w_mem w)) ->
  Z.of_nat (length (w_mem w)) < 2 ^ 63 ->
  write_strings args off w =
  (Ok (arg_pointers args off, off + strings_size args),
   set_mem (write_at (Z.to_nat off) (strings_image args) (w_mem w)) w).
Proof.
  revert off w. induction args as [|a args IH]; intros off w H1 H2 H3.
  { cbn [write_strings arg_pointers]. unfold strings_size, strings_image. simpl.
    by rewrite write_at_nil, set_mem_same, Z.add_0_r. }
  pose proof (strings_size_cons a args) as Hsz.
  assert (0 <= strings_size args) by (unfold strings_size; lia).
  assert (Hl : length (write_at (Z.to_nat off) (arg_cstring a) (w_mem w)) = length (w_mem w))
    by (apply length_write_at; lia).
  cbn [write_strings arg_pointers].
  rewrite <- bind_assoc. erewrite run_bind_Ok; [|apply store_fits; lia].
  rewrite !u64_id by (unfold is_u, physRamBase; lia).
  erewrite run_bind_Ok; [|apply IH; rewrite ?w_mem_set_mem, ?Hl; lia].
  unfold mret, M_ret. rewrite w_mem_set_mem. f_equal; [do 2 f_equal; lia|].
  change (set_mem ?m (set_mem _ w)) with (set_mem m w). f_equal.
  replace (Z.to_nat (off + _)) with (Z.to_nat off + length (arg_cstring a))%nat by lia.
  unfold strings_size, strings_image in *. rewrite fmap_cons. cbn [concat].
  apply write_at_app. lia.
Qed.

Lemma write_pointers_fits ps off (w : W) :
  0 <= off -> off + 8 * Z.of_nat (length ps) <= Z.of_nat (length (w_mem w)) ->
  Z.of_nat (length (w_mem w)) < 2 ^ 63 ->
  write_pointers ps off w =
  (Ok (off + 8 * Z.of_nat (length ps)),
   set_mem (write_at (Z.to_nat off) (pointers_image ps) (w_mem w)) w).
Proof.
  revert off w. induction ps as [|p ps IH]; intros off w H1 H2 H3.
  { cbn [write_pointers]. unfold pointers_image. simpl.
    by rewrite write_at_nil, set_mem_same, Z.add_0_r. }
  cbn [write_pointers length] in *.
  assert (Hput : mem_slice_from off w =
                 (Ok (mkSlice off (Z.of_nat (length (w_mem w)) - off)), w)).
  { unfold mem_slice_from. apply mem_slice_Ok; lia. }
  erewrite run_bind_Ok; [|exact Hput]. unfold PutUint64. cbn [s_len].
  rewrite decide_True by lia.
  pose proof (store_fits off (le_enc 8 p) w) as Hst.
  rewrite length_le_enc in Hst. specialize (Hst ltac:(lia) ltac:(lia)).
  unfold mbind at 1, M_bind in Hst. rewrite Hput in Hst.
  erewrite run_bind_Ok; [|exact Hst].
  rewrite u64_id by (unfold is_u; lia).
  rewrite IH; rewrite ?w_mem_set_mem, ?length_write_at by (rewrite length_le_enc; lia);
    [|lia..].
  f_equal; [f_equal; lia|]. change (set_mem ?m (set_mem _ w)) with (set_mem m w). f_equal.
  pose proof (length_pointers_image ps).
  change (pointers_image (p :: ps)) with (le_enc 8 p ++ pointers_image ps).
  rewrite <- (write_at_app (Z.to_nat off) (le_enc 8 p)) by (rewrite length_le_enc; lia).
  rewrite length_le_enc. f_equal. lia.
Qed.

(** Running out of guest memory in the second loop is a panic. *)
Lemma write_pointers_over ps off (w : W) :
  ps ≠ [] -> 0 <= off -> off + 8 < 2 ^ 64 ->
  Z.of_nat (length (w_mem w)) < 2 ^ 63 ->
  Z.of_nat (length (w_mem w)) < off + 8 * Z.of_nat (length ps) ->
  exists p w', write_pointers ps off w = (Panic p, w').
Proof.
  revert off w. induction ps as [|q ps IH]; intros off w Hne H1 Hb H2 H3; [done|].
  cbn [write_pointers length] in *.
  destruct (decide (off <= Z.of_nat (length (w_mem w)))) as [Ho|Ho].
  - unfold mbind, M_bind, mem_slice_from at 1. rewrite mem_slice_Ok by lia.
    unfold PutUint64. cbn [s_len]. case_decide; [|by do 2 eexists].
    unfold slice_copy, modify. cbn [s_off s_len].
    rewrite u64_id by (unfold is_u; lia). rewrite take_ge by (rewrite length_le_enc; lia).
    assert (length (write_at (Z.to_nat off) (le_enc 8 q) (w_mem w)) = length (w_mem w))
      by (apply length_write_at; rewrite length_le_enc; lia).
    apply IH; rewrite ?w_mem_set_mem; try lia. intros ->. simpl in *. lia.
  - do 2 eexists. apply run_bind_Panic. unfold mem_slice_from.
    apply mem_slice_Panic. lia.
Qed.

(** Running out of guest memory in the first loop is a panic there or leaves
    an offset outside guest memory. *)
Lemma write_strings_over args off (w : W) :
  0 <= off -> off + strings_size args < 2 ^ 63 ->
  Z.of_nat (length (w_mem w)) < off + strings_size args ->
  (exists p w', write_strings args off w = (Panic p, w')) \/
  (exists ps w', write_strings args off w = (Ok (ps, off + strings_size args), w') /\
     length (w_mem w') = length (w_mem w)).
Proof.
  revert off w. induction args as [|a args IH]; intros off w H1 H2 H3.
  { right. exists [], w. split; [|done]. unfold strings_size. simpl. by rewrite Z.add_0_r. }
  pose proof (strings_size_cons a args) as Hsz.
  assert (0 <= strings_size args) by (unfold strings_size; lia).
  cbn [write_strings].
  destruct (decide (off <= Z.of_nat (length (w_mem w)))) as [Ho|Ho].
  - erewrite run_bind_Ok; [|unfold mem_slice_from; apply mem_slice_Ok; lia].
    erewrite run_bind_Ok; [|reflexivity]. cbn [s_off s_len].
    rewrite (u64_id (off + _)) by (unfold is_u; lia).
    match goal with |- context [set_mem ?m w] => set (w1 := set_mem m w);
      assert (Hl : length (w_mem w1) = length (w_mem w)) end.
    { unfold w1. rewrite w_mem_set_mem. apply length_write_at. rewrite length_take. lia. }
    destruct (IH (off + Z.of_nat (length (arg_cstring a))) w1) as [(p & w' & E)|(ps & w' & E & E')];
      [lia|lia|lia| |].
    + left. do 2 eexists. by apply run_bind_Panic.
    + right. do 2 eexists. split; [|by rewrite E'].
      erewrite run_bind_Ok; [|exact E]. unfold mret, M_ret. do 3 f_equal. lia.
  - left. do 2 eexists. apply run_bind_Panic. unfold mem_slice_from.
    apply mem_slice_Panic. lia.
Qed.

(** ** Finding the arguments in the layout *)

Lemma arg_pointers_lookup args off i a :
  args !! i = Some a ->
  arg_pointers args off !! i = Some (pa2ka (physRamBase + (off + strings_size (take i args)))).
Proof.
  revert off i. induction args as [|b args IH]; intros off [|i] Hi; [done|done| |].
  { cbn. unfold strings_size. simpl. by rewrite Z.add_0_r. }
  cbn [arg_pointers lookup list_lookup take] in *. rewrite IH by done.
  rewrite strings_size_cons. do 2 f_equal. lia.
Qed.

(** The string of argument [i] starts where the strings before it end. *)
Lemma strings_image_drop args i a :
  args !! i = Some a ->
  drop (Z.to_nat (strings_size (take i args))) (strings_image args) =
  arg_cstring a ++ strings_image (drop (S i) args).
Proof.
  intros Hi. rewrite <- (take_drop_middle _ _ _ Hi) at 2.
  unfold strings_size, strings_image. rewrite fmap_app, concat_app, fmap_cons.
  rewrite Nat2Z.id, drop_app_length. done.
Qed.

Lemma strings_size_take args i a :
  args !! i = Some a ->
  strings_size (take i args) + Z.of_nat (length (arg_cstring a)) <= strings_size args.
Proof.
  intros Hi. unfold strings_size. pose proof (f_equal length (strings_image_drop _ _ _ Hi)) as E.
  unfold strings_size in E. rewrite length_drop, length_app, Nat2Z.id in E.
  assert (length (arg_cstring a) ≠ 0%nat) by (unfold arg_cstring; rewrite length_app; simpl; lia).
  lia.
Qed.

(** Pointer [i] of the array. *)
Lemma pointers_image_read ps i p :
  ps !! i = Some p -> read_at (8 * i) 8 (pointers_image ps) = le_enc 8 p.
Proof.
  intros Hi. rewrite <- (take_drop_middle _ _ _ Hi). unfold pointers_image, read_at.
  rewrite fmap_app, concat_app, fmap_cons. cbn [concat].
  rewrite drop_app_length', take_app_length'.
  - done.
  - by rewrite length_le_enc.
  - change (concat (le_enc 8 <$> take i ps)) with (pointers_image (take i ps)).
    rewrite length_pointers_image, length_take. apply lookup_lt_Some in Hi. lia.
Qed.

(** [WriteAt] when the vector lies inside guest memory. *)
Lemma argv_WriteAt_fits args off (w : W) :
  0 <= off -> off + argv_size args <= Z.of_nat (length (w_mem w)) ->
  Z.of_nat (length (w_mem w)) < 2 ^ 63 ->
  argv_WriteAt args off w =
  (if decide (physKernBase - physRamBase < off + argv_size args)
   then Err argv_too_large
   else Ok (pa2ka (physRamBase + (off + strings_size args))),
   set_mem (write_at (Z.to_nat off) (argv_image args off) (w_mem w)) w).
Proof.
  intros H1 H2 H3. unfold argv_WriteAt.
  assert (0 <= strings_size args) by (unfold strings_size; lia).
  assert (Hp : length (arg_pointers args off ++ [0]) = S (length args))
    by (rewrite length_app, length_arg_pointers; simpl; lia).
  pose proof (length_pointers_image (arg_pointers args off ++ [0])) as Hpi.
  unfold argv_size in *.
  erewrite run_bind_Ok; [|apply write_strings_fits; lia]. cbn beta iota zeta.
  assert (Hl : length (write_at (Z.to_nat off) (strings_image args) (w_mem w)) = length (w_mem w)).
  { apply length_write_at. unfold strings_size in *. lia. }
  erewrite run_bind_Ok; [|apply write_pointers_fits; rewrite ?w_mem_set_mem, ?Hl; lia].
  cbn beta. rewrite Hp, w_mem_set_mem.
  rewrite !u64_id by (unfold is_u, physRamBase; lia).
  assert (Hmem : write_at (Z.to_nat (off + strings_size args))
                   (pointers_image (arg_pointers args off ++ [0]))
                   (write_at (Z.to_nat off) (strings_image args) (w_mem w))
                 = write_at (Z.to_nat off) (argv_image args off) (w_mem w)).
  { unfold argv_image. rewrite <- write_at_app by (unfold strings_size in *; lia).
    f_equal. unfold strings_size in *. lia. }
  unfold physKernBase, physRamBase in *.
  case_decide as D1; case_decide as D2; try lia;
    (unfold fail, mret, M_ret; f_equal;
     change (set_mem ?m (set_mem _ w)) with (set_mem m w); by rewrite Hmem).
Qed.

(** [WriteAt] when it does not. *)
Lemma argv_WriteAt_over args off (w : W) :
  0 <= off -> Z.of_nat (length (w_mem w)) < off + argv_size args < 2 ^ 63 ->
  exists p w', argv_WriteAt args off w = (Panic p, w').
Proof.
  intros H1 [H2 H3]. unfold argv_WriteAt, argv_size in *.
  assert (0 <= strings_size args) by (unfold strings_size; lia).
  assert (Hp : length (arg_pointers args off ++ [0]) = S (length args))
    by (rewrite length_app, length_arg_pointers; simpl; lia).
  destruct (decide (off + strings_size args <= Z.of_nat (length (w_mem w)))) as [Hs|Hs].
  - erewrite run_bind_Ok; [|apply write_strings_fits; lia]. cbn beta iota zeta.
    assert (length (write_at (Z.to_nat off) (strings_image args) (w_mem w)) = length (w_mem w))
      by (apply length_write_at; unfold strings_size in *; lia).
    match goal with |- context [set_mem ?m w] =>
      destruct (write_pointers_over (arg_pointers args off ++ [0])
                  (off + strings_size args) (set_mem m w)) as (p & w' & E) end;
      [by destruct (arg_pointers args off)|lia|lia|rewrite w_mem_set_mem; lia..|].
    do 2 eexists. apply run_bind_Panic. exact E.
  - destruct (write_strings_over args off w) as [(p & w' & E)|(ps & w' & E & E')]; [lia..| |].
    + do 2 eexists. by apply run_bind_Panic.
    + erewrite run_bind_Ok; [|exact E]. cbn beta iota zeta.
      destruct (write_pointers_over (ps ++ [0]) (off + strings_size args) w')
        as (p & w'' & E2); [by destruct ps|lia|lia|lia|rewrite length_app; simpl; lia|].
      do 2 eexists. apply run_bind_Panic. exact E2.
Qed.

End Argv.
