(* ===== verification/ArchAmd64.v ===== *)
(** * ArchAmd64: the amd64 target

    Models [src/kvm/kvm_amd64.go], [machine_amd64.go], [regs_amd64.go],
    [irq_amd64.go], [vm_amd64.go] and [debug_amd64.go], and makes them an
    instance of [Arch].  The x86 disassembler is a library
    ([golang.org/x/arch]); it is the parameter [Disassembler]. *)

From S2P Require Import Prelude Effects Ioctl Structs World Abi Vm Cpuid.

(** [x86asm.Decode(insn, 64)] and [x86asm.GNUSyntax] of the result. *)
Class Disassembler := {
  x86_inst : Type;
  x86asm_Decode : list byte -> x86_inst + error;
  x86asm_GNUSyntax : x86_inst -> Z -> gostring }.

Module Amd64.

(** ** Constants ([kvm_amd64.go], [machine_amd64.go]) *)

Definition CR0xPE : Z := 1.
Definition CR0xMP : Z := Z.shiftl 1 1.
Definition CR0xEM : Z := Z.shiftl 1 2.
Definition CR0xPG : Z := Z.shiftl 1 31.
Definition CR4xOSFXSR : Z := Z.shiftl 1 9.
Definition CR4xOSXMMEXCPT : Z := Z.shiftl 1 10.

(** Bits the program names and does not use. *)
Definition CR0xTS : Z := Z.shiftl 1 3.
Definition CR0xET : Z := Z.shiftl 1 4.
Definition CR0xNE : Z := Z.shiftl 1 5.
Definition CR0xWP : Z := Z.shiftl 1 16.
Definition CR0xAM : Z := Z.shiftl 1 18.
Definition CR0xNW : Z := Z.shiftl 1 29.
Definition CR0xCD : Z := Z.shiftl 1 30.
Definition CR4xVME : Z := 1.
Definition CR4xPVI : Z := Z.shiftl 1 1.
Definition CR4xTSD : Z := Z.shiftl 1 2.
Definition CR4xDE : Z := Z.shiftl 1 3.
Definition CR4xPSE : Z := Z.shiftl 1 4.
Definition CR4xPAE : Z := Z.shiftl 1 5.
Definition CR4xMCE : Z := Z.shiftl 1 6.
Definition CR4xPGE : Z := Z.shiftl 1 7.
Definition CR4xPCE : Z := Z.shiftl 1 8.
Definition CR4xUMIP : Z := Z.shiftl 1 11.
Definition CR4xVMXE : Z := Z.shiftl 1 13.
Definition CR4xSMXE : Z := Z.shiftl 1 14.
Definition CR4xFSGSBASE : Z := Z.shiftl 1 16.
Definition CR4xPCIDE : Z := Z.shiftl 1 17.
Definition CR4xOSXSAVE : Z := Z.shiftl 1 18.
Definition CR4xSMEP : Z := Z.shiftl 1 20.
Definition CR4xSMAP : Z := Z.shiftl 1 21.
Definition EFERxSCE : Z := 1.
Definition EFERxLME : Z := Z.shiftl 1 8.
Definition EFERxLMA : Z := Z.shiftl 1 10.
Definition EFERxNXE : Z := Z.shiftl 1 11.
Definition PDE64xPRESENT : Z := 1.
Definition PDE64xRW : Z := Z.shiftl 1 1.
Definition PDE64xUSER : Z := Z.shiftl 1 2.
Definition PDE64xACCESSED : Z := Z.shiftl 1 5.
Definition PDE64xDIRTY : Z := Z.shiftl 1 6.
Definition PDE64xPS : Z := Z.shiftl 1 7.
Definition PDE64xG : Z := Z.shiftl 1 8.

Definition kernBase : Z := 0xffff800000000000.
Definition kernTextBase : Z := 0xffffffff80000000.
Definition SignalIRQ : Z := 1.
Definition kvmTSSStart : Z := kvmIdentityMapStart + kvmIdentityMapSize.

(** ** Addresses *)

Definition ka2pa (ka : Z) : Z :=
  if decide (kernTextBase <= ka) then u64 (ka - kernTextBase)
  else if decide (kernBase <= ka) then u64 (ka - kernBase)
  else ka.

Definition pa2ka (pa : Z) : Z := u64 (pa + kernBase).

(** ** Boot registers ([regs_amd64.go]) *)

(** The registers [initRegs] writes back. *)
Definition boot_regs (r : Regs) (rip argc argv memsz : Z) : Regs :=
  mkRegs (Rax r) (Rbx r) (Rcx r) (Rdx r) argc memsz (Rsp r) (Rbp r)
         (R8 r) (R9 r) (R10 r) (R11 r) (R12 r) (R13 r) (R14 r) argv
         rip 2.

(** [Base, Limit, G = 0, 0xFFFFFFFF, 1]. *)
Definition flat (s : Segment) : Segment :=
  mkSegment 0 0xFFFFFFFF (seg_Selector s) (seg_Typ s) (seg_Present s) (seg_Dpl s)
            (seg_Db s) (seg_S s) (seg_L s) 1 (seg_AVL s) (seg_Unusable s).

Definition set_Db (s : Segment) (db : Z) : Segment :=
  mkSegment (seg_Base s) (seg_Limit s) (seg_Selector s) (seg_Typ s) (seg_Present s)
            (seg_Dpl s) db (seg_S s) (seg_L s) (seg_G s) (seg_AVL s) (seg_Unusable s).

(** The three assignments to [sregs.Cr0]. *)
Definition boot_cr0 (cr0 : Z) : Z :=
  let c := Z.lor cr0 1 in
  let c := Z.land c 0xfffb in
  Z.lor c CR0xMP.

(** The special registers [initSregs] writes back. *)
Definition boot_sregs (s : Sregs) : Sregs :=
  mkSregs (set_Db (flat (Cs s)) 1) (flat (Ds s)) (flat (Es s)) (flat (Fs s))
          (flat (Gs s)) (set_Db (flat (Ss s)) 1) (Tr s) (Ldt s) (Gdt s) (Idt s)
          (boot_cr0 (Cr0 s)) (Cr2 s) (Cr3 s) (Z.lor CR4xOSFXSR CR4xOSXMMEXCPT)
          (Cr8 s) (Efer s) (ApicBase s) (InterruptBitmap s).

(** ** CPUID patching ([machine_amd64.go]) *)

Definition patch_entry (e : CPUIDEntry2) : CPUIDEntry2 :=
  if decide (Function_ e = CPUIDFuncPerMon) then
    mkEntry (Function_ e) (Index e) (EFlags e) 0 (Ebx e) (Ecx e) (Edx e)
            (Pad0 e) (Pad1 e) (Pad2 e)
  else if decide (Function_ e = CPUIDSignature) then
    mkEntry (Function_ e) (Index e) (EFlags e) CPUIDFeatures 0x4b4d564b 0x564b4d56
            0x4d (Pad0 e) (Pad1 e) (Pad2 e)
  else e.

(** [for i := 0; i < n; i++ { ... cpuid.Entries[i] ... }]; [None] is an index
    out of range. *)
Fixpoint patch_entries (n : nat) (es : list CPUIDEntry2) : option (list CPUIDEntry2) :=
  match n, es with
  | O, _ => Some es
  | S _, [] => None
  | S n, e :: es => cons (patch_entry e) <$> patch_entries n es
  end.

Section Ops.
Context {K O H : Type} `{!KVM K}.
Abbreviation W := (World K O H).

(** ** Register access *)

Definition GetRegs (c : vcpu) : M W (Regs * option error) :=
  '(_, regs, err) ← Ioctl (vcpu_fd c) (IIOR kvmGetRegs (sizeof Regs_ty)) TRegs
                      (Regs_zero : denote TRegs);
  mret (regs : Regs, err).

Definition SetRegs (c : vcpu) (regs : Regs) : M W unit :=
  Ioctl_checked (vcpu_fd c) (IIOW kvmSetRegs (sizeof Regs_ty)) TRegs
                (regs : denote TRegs) ;;
  mret tt.

Definition GetSregs (c : vcpu) : M W (Sregs * option error) :=
  '(_, sregs, err) ← Ioctl (vcpu_fd c) (IIOR kvmGetSregs (sizeof Sregs_ty)) TSregs
                       (Sregs_zero : denote TSregs);
  mret (sregs : Sregs, err).

Definition SetSregs (c : vcpu) (sregs : Sregs) : M W unit :=
  Ioctl_checked (vcpu_fd c) (IIOW kvmSetSregs (sizeof Sregs_ty)) TSregs
                (sregs : denote TSregs) ;;
  mret tt.

Definition GetDebugRegs (c : vcpu) (d : DebugRegs) : M W DebugRegs :=
  '(_, d) ← Ioctl_checked (vcpu_fd c) (IIOR kvmGetDebugRegs (sizeof DebugRegs_ty))
              TDebugRegs (d : denote TDebugRegs);
  mret (d : DebugRegs).

Definition SetDebugRegs (c : vcpu) (d : DebugRegs) : M W unit :=
  Ioctl_checked (vcpu_fd c) (IIOW kvmSetDebugRegs (sizeof DebugRegs_ty)) TDebugRegs
                (d : denote TDebugRegs) ;;
  mret tt.

Definition GetSRegs2 (c : vcpu) (s : SRegs2) : M W SRegs2 :=
  '(_, s) ← Ioctl_checked (vcpu_fd c) (IIOR kvmGetSRegs2 (sizeof SRegs2_ty)) TSRegs2
              (s : denote TSRegs2);
  mret (s : SRegs2).

Definition SetSRegs2 (c : vcpu) (s : SRegs2) : M W unit :=
  Ioctl_checked (vcpu_fd c) (IIOW kvmSetSRegs2 (sizeof SRegs2_ty)) TSRegs2
                (s : denote TSRegs2) ;;
  mret tt.

(** The error is dropped: what the kernel left in the struct is used. *)
Definition vcpu_GetPc (c : vcpu) : M W Z :=
  '(r, _) ← GetRegs c; mret (Rip r).

Definition GetPc (cpu : Z) : M W Z :=
  cs ← gets w_vcpus;
  c ← index cs cpu;
  vcpu_GetPc c.

(** ** Initialisation *)

Definition createVM (kfd : Z) : M W Z :=
  '(res, _) ← Ioctl_checked kfd (IIO kvmCreateVM) TVal 0; mret res.

(** The request announces eight bytes behind a pointer to a [uint32]. *)
Definition SetIdentityMapAddr (addr : Z) : M W unit :=
  v ← gets (fun w : W => m_vm (w_mach w));
  Ioctl_checked (vm_fd v) (IIOW kvmSetIdentityMapAddr 8) TU32 (addr : denote TU32) ;;
  mret tt.

Definition setTSSAddr (addr : Z) : M W unit :=
  v ← gets (fun w : W => m_vm (w_mach w));
  Ioctl_checked (vm_fd v) (IIO kvmSetTSSAddr) TVal (addr : denote TVal) ;;
  mret tt.

(** The exported twin of [setTSSAddr] ([vm_amd64.go]). *)
Definition SetTSSAddr (addr : Z) : M W unit :=
  v ← gets (fun w : W => m_vm (w_mach w));
  Ioctl_checked (vm_fd v) (IIO kvmSetTSSAddr) TVal (addr : denote TVal) ;;
  mret tt.

Definition vm_init : M W unit :=
  SetIdentityMapAddr kvmIdentityMapStart ;;
  setTSSAddr kvmTSSStart.

Definition initCPUID (cpu : Z) : M W unit :=
  c ← GetSupportedCPUID (mkCPUID 100 0 (replicate 100 CPUIDEntry2_zero));
  match patch_entries (Z.to_nat (Nent c)) (Entries c) with
  | None => panic_with IndexOutOfRange
  | Some es =>
      cs ← gets w_vcpus;
      v ← index cs cpu;
      SetCPUID2 v (mkCPUID (Nent c) (Padding c) es)
  end.

Definition machine_init : M W unit :=
  runs ← gets (fun w : W => m_runs (w_mach w));
  for_range (seqZ 0 (Z.of_nat (length runs))) initCPUID.

Definition initRegs (c : vcpu) (rip argc argv memsz : Z) : M W unit :=
  '(regs, err) ← GetRegs c;
  check err ;;
  SetRegs c (boot_regs regs rip argc argv memsz).

Definition initSregs (c : vcpu) : M W unit :=
  '(sregs, err) ← GetSregs c;
  check err ;;
  SetSregs c (boot_sregs sregs).

Definition SetupRegs (rip argc argv : Z) : M W unit :=
  cs ← gets w_vcpus;
  for_range cs (fun c =>
    n ← gets mem_len;
    initRegs c rip argc argv (u64 n) ;;
    initSregs c).

(** ** Interrupts ([irq_amd64.go]) *)

Definition createIrqController : M W unit :=
  v ← gets (fun w : W => m_vm (w_mach w));
  wrap_err (str "KVM_CREATE_IRQCHIP")
    (Ioctl_checked (vm_fd v) (IIO kvmCreateIRQChip) TVal 0) ;;
  wrap_err (str "KVM_CREATE_PIT2")
    (Ioctl_checked (vm_fd v) (IIOW kvmCreatePIT2 (sizeof PITConfig_ty)) TPIT
       (mkPIT 0 (replicate 15 0) : denote TPIT)) ;;
  mret tt.

Definition finalizeIrqController : M W unit := mret tt.

Definition InjectIrq (irq level : Z) : M W unit :=
  v ← gets (fun w : W => m_vm (w_mach w));
  wrap_err (str "KVM_IRQ_LINE")
    (Ioctl_checked (vm_fd v) (IIOW kvmIRQLine (sizeof IrqLevel_ty)) TIrqLevel
       (mkIrqLevel irq level : denote TIrqLevel)) ;;
  mret tt.

(** ** Hypercalls and translation ([machine_amd64.go]) *)

Definition hypercall (handler : handler_t K O H) (cpu : Z) : M W unit :=
  cs ← gets w_vcpus;
  c ← index cs cpu;
  '(regs, err) ← GetRegs c;
  check err ;;
  r0 ← handler cpu (Rax regs) (Rdi regs) (Rsi regs) (Rdx regs) (Rcx regs)
               (R8 regs) (R9 regs);
  SetRegs c (mkRegs r0 (Rbx regs) (Rcx regs) (Rdx regs) (Rsi regs) (Rdi regs)
                    (Rsp regs) (Rbp regs) (R8 regs) (R9 regs) (R10 regs) (R11 regs)
                    (R12 regs) (R13 regs) (R14 regs) (R15 regs) (Rip regs)
                    (Rflags regs)).

Definition Translate (c : vcpu) (t : Translation) : M W Translation :=
  '(_, t) ← Ioctl_checked (vcpu_fd c) (IIOWR kvmTranslate (sizeof Translation_ty))
              TTranslation (t : denote TTranslation);
  mret (t : Translation).

(** [panic(err)] when the ioctl fails; the [Valid] field is not looked at. *)
Definition VtoP (cpu v : Z) : M W Z :=
  cs ← gets w_vcpus;
  c ← index cs cpu;
  r ← attempt (Translate c (mkTranslation v 0 0 0 0));
  match r with
  | inl t => mret (PhysicalAddress t)
  | inr e => panic_with (PanicError e)
  end.

(** ** Instruction trace ([debug_amd64.go]) *)

Definition Inst `{!Disassembler} (cpu : Z) : M W (Z * gostring) :=
  cs ← gets w_vcpus;
  c ← index cs cpu;
  '(r, err) ← GetRegs c;
  wrap_err (str "Inst:Getregs") (check err) ;;
  let pc := Rip r in
  '(data, err) ← ReadBytes VtoP cpu 16 pc;
  wrap_err (str "reading PC at #" ++ FormatHex pc) (check err) ;;
  d ← wrap_err (str "decoding") (lift_sum (x86asm_Decode data));
  mret (pc, x86asm_GNUSyntax d pc).

#[export] Instance arch `{!Disassembler} : Arch K O H := {
  Vm.arch_target := on_amd64;
  Vm.ka2pa := ka2pa;
  Vm.pa2ka := pa2ka;
  Vm.SignalIRQ := SignalIRQ;
  Vm.createVM := createVM;
  Vm.vm_init := vm_init;
  Vm.machine_init := machine_init;
  Vm.SetupRegs := SetupRegs;
  Vm.do_hypercall := hypercall;
  Vm.VtoP := VtoP;
  Vm.createIrqController := createIrqController;
  Vm.finalizeIrqController := finalizeIrqController;
  Vm.InjectIrq := InjectIrq;
  Vm.GetPc := GetPc;
  Vm.Inst := Inst }.

End Ops.

(** ** Lemmas *)

(** The direct map covers every physical address below the kernel text
    window. *)
Lemma ka2pa_pa2ka_direct p :
  0 <= p < kernTextBase - kernBase -> ka2pa (pa2ka p) = p.
Proof.
  unfold pa2ka, ka2pa, kernTextBase, kernBase. intros Hp.
  rewrite (u64_id (p + _)) by (unfold is_u; lia).
  rewrite decide_False, decide_True by lia.
  rewrite u64_id by (unfold is_u; lia). lia.
Qed.

Lemma patch_entries_length es :
  patch_entries (length es) es = Some (patch_entry <$> es).
Proof. induction es as [|e es IH]; [done|]. simpl. by rewrite IH. Qed.

Section Facts.
Context {K O H : Type} `{!KVM K, !KVMLaws K}.
#[local] Existing Instance on_amd64.
Abbreviation W := (World K O H).

Lemma GetRegs_kernel_only c : respects (@kernel_only K O H _ _) (GetRegs c).
Proof. unfold GetRegs. respects_tac. Qed.

Lemma SetRegs_kernel_only c r : respects (@kernel_only K O H _ _) (SetRegs c r).
Proof. unfold SetRegs. respects_tac. Qed.

#[local] Hint Resolve GetRegs_kernel_only SetRegs_kernel_only : respects.

Lemma VtoP_kernel_only cpu v : respects (@kernel_only K O H _ _) (VtoP cpu v).
Proof. unfold VtoP, Translate. respects_tac. Qed.

#[local] Hint Resolve VtoP_kernel_only : respects.

Lemma SetupRegs_kernel_only a b c : respects (@kernel_only K O H _ _) (SetupRegs a b c).
Proof.
  unfold SetupRegs, initRegs, initSregs, GetSregs, SetSregs. respects_tac.
Qed.

Lemma InjectIrq_kernel_only i l : respects (@kernel_only K O H _ _) (InjectIrq i l).
Proof. unfold InjectIrq. respects_tac. Qed.

Lemma GetPc_kernel_only cpu : respects (@kernel_only K O H _ _) (GetPc cpu).
Proof. unfold GetPc, vcpu_GetPc. respects_tac. Qed.

Lemma Inst_kernel_only `{!Disassembler} cpu : respects (@kernel_only K O H _ _) (Inst cpu).
Proof. unfold Inst, ReadBytes, ReadAt, lift_sum. respects_tac. Qed.

Lemma initCPUID_kernel_only cpu : respects (@kernel_only K O H _ _) (initCPUID cpu).
Proof. unfold initCPUID, GetSupportedCPUID, SetCPUID2. respects_tac. Qed.

Lemma hypercall_respects (R : relation W) `{!PreOrder R} h cpu :
  (forall w w', kernel_only w w' -> R w w') ->
  (forall num a0 a1 a2 a3 a4 a5, respects R (h cpu num a0 a1 a2 a3 a4 a5)) ->
  respects R (hypercall h cpu).
Proof.
  intros Hk Hh.
  assert (Hl : forall A (m : M W A), respects kernel_only m -> respects R m)
    by (intros A m Hm w; apply Hk, Hm).
  unfold hypercall. respects_tac; apply Hl; auto with respects.
Qed.

#[export] Instance arch_laws `{!Disassembler} : ArchLaws K O H.
Proof.
  split.
  - intros p Hp. apply ka2pa_pa2ka_direct. unfold kernTextBase, kernBase. lia.
  - intros p. apply u64_range.
  - apply VtoP_kernel_only.
  - apply InjectIrq_kernel_only.
  - apply GetPc_kernel_only.
  - apply Inst_kernel_only.
  - apply SetupRegs_kernel_only.
  - intros kfd. cbn. unfold createVM. respects_tac.
  - cbn. unfold vm_init, SetIdentityMapAddr, setTSSAddr. respects_tac.
  - cbn. unfold machine_init. respects_tac. apply initCPUID_kernel_only.
  - intros w. apply kernel_only_irq_frame. revert w. change (respects (@kernel_only K O H _ _) createIrqController).
    unfold createIrqController. respects_tac.
  - apply respects_ret, _.
  - intros cpu v. cbn. unfold VtoP. no_error_tac.
  - intros cpu. cbn. unfold GetPc, vcpu_GetPc, GetRegs. no_error_tac.
  - apply hypercall_respects.
Qed.

End Facts.
End Amd64.
