(* ===== verification/ArchArm64.v ===== *)
(** * ArchArm64: the arm64 target

    Models [src/kvm/kvm_arm64.go], [machine_arm64.go], [regs_arm64.go],
    [irq_arm64.go] and [debug_arm64.go], and makes them an instance of
    [Arch]. *)

From S2P Require Import Prelude Effects Ioctl Structs World Abi Capability Vm.

(** The two capabilities the target asks for ([capability.go]). *)
Definition CapARMPMUV3 : Z := capability (str "CapARMPMUV3").
Definition CapARMVMIPASize : Z := capability (str "CapARMVMIPASize").

Module Arm64.

(** ** Constants ([kvm_arm64.go], [irq_arm64.go]) *)

Definition kvmRegArm64 : Z := 0x6000000000000000.
Definition kvmRegSizeU64 : Z := 0x0030000000000000.
Definition kvmRegArmCoprocShift : Z := 16.
Definition kvmRegArmCore : Z := Z.shiftl 0x0010 kvmRegArmCoprocShift.
Definition kvmArmVcpuInit : Z := 0xAE.
Definition kvmArmPreferredTarget : Z := 0xAF.
Definition kvmArmVCPUPSCI0_2 : Z := 2.
Definition kvmArmVCPUPMUV3 : Z := 2.
Definition kvmArmVCPUFinalize : Z := 0xC2.
Definition kvmArmSetDeviceAddr : Z := 0xAB.
Definition kvmVGICV2AddrTypeDist : Z := 0.
Definition kvmArmDeviceVGICV2 : Z := 0.
Definition kvmArmDeviceIDShift : Z := 16.
Definition kernBase : Z := 0xffff000000000000.
Definition SignalIRQ : Z := 16.

Definition _GIC_BASE : Z := 0x100000.
Definition _GIC_DIST_BASE : Z := _GIC_BASE.
Definition _GIC_DIST_SIZE : Z := 0x10000.
Definition _GIC_REDIST_CPUI_BASE : Z := _GIC_DIST_BASE + _GIC_DIST_SIZE.
Definition _GIC_REDIST_CPUI_SIZE : Z := 0x20000.
Definition _KVM_DEV_ARM_VGIC_GRP_ADDR : Z := 0.
Definition _KVM_VGIC_V3_ADDR_TYPE_DIST : Z := 2.
Definition _KVM_VGIC_V3_ADDR_TYPE_REDIST : Z := 3.
Definition _KVM_DEV_TYPE_ARM_VGIC_V3 : Z := 7.
Definition _KVM_DEV_ARM_VGIC_CTRL_INIT : Z := 0.
Definition _KVM_DEV_ARM_VGIC_GRP_CTRL : Z := 4.
Definition _KVM_VGIC_V2_ADDR_TYPE_DIST : Z := 0.
Definition _KVM_VGIC_V2_ADDR_TYPE_CPU : Z := 1.
Definition _KVM_DEV_TYPE_ARM_VGIC_V2 : Z := 5.
Definition _KVM_DEV_ARM_VGIC_GRP_NR_IRQS : Z := 3.

Inductive IrqType := GICv2 | GICv3.

#[export] Instance IrqType_eq_dec : EqDecision IrqType.
Proof. solve_decision. Defined.

(** ** Addresses *)

Definition ka2pa (ka : Z) : Z :=
  if decide (kernBase <= ka) then u64 (ka - kernBase) else ka.

Definition pa2ka (pa : Z) : Z := u64 (pa + kernBase).

(** ** Register identifiers ([regs_arm64.go]) *)

Definition reg_id (offset : Z) : Z :=
  Z.lor (Z.lor (Z.lor kvmRegArm64 kvmRegSizeU64) kvmRegArmCore) offset.

Definition offset_Regs : Z := default 0 (offsets UserRegs_fields !! 0%nat).
Definition offset_Pc : Z := default 0 (offsets UserRegs_fields !! 2%nat).

Definition pc_id : Z := reg_id (offset_Pc / 4).
Definition gpr_id (i : Z) : Z := reg_id (u64 (offset_Regs + u64 (i * 8)) / 4).

(** ** Interrupt line encoding ([irq_arm64.go]) *)

Definition irq_type (irq : Z) : Z :=
  if decide (irq <= 31) then 2 else if decide (irq <= 1019) then 1 else 0.

Definition irq_line (irq : Z) : Z :=
  Z.lor (u32 (Z.shiftl (irq_type irq) 24)) irq.

(** ** vcpu features ([machine_arm64.go]) *)

Definition set_feature (bit : Z) (i : VcpuInit) : VcpuInit :=
  mkVcpuInit (vi_target i) (alter (fun f => Z.lor f (Z.shiftl 1 bit)) 0%nat (vi_features i)).

(** The features asked for, given the answer to the PMU capability query. *)
Definition wanted_features (i : VcpuInit) (pmu : Z + error) : VcpuInit :=
  let i := set_feature kvmArmVCPUPSCI0_2 i in
  match pmu with
  | inl ok => if decide (ok = 1) then set_feature kvmArmVCPUPMUV3 i else i
  | inr _ => i
  end.

Section Ops.
Context {K O H : Type} `{!KVM K}.
Abbreviation W := (World K O H).

(** ** Register access *)

Definition setReg (c : vcpu) (id val : Z) : M W unit :=
  wrap_err (str "KVM_SET_ONE_REG")
    (Ioctl_checked (vcpu_fd c) (IIOW kvmSetOneReg (sizeof KvmOneReg_ty)) TOneReg
       (mkOneReg id val : denote TOneReg)) ;;
  mret tt.

Definition getReg (c : vcpu) (id : Z) : M W Z :=
  '(_, reg, err) ← Ioctl (vcpu_fd c) (IIOW kvmGetOneReg (sizeof KvmOneReg_ty)) TOneReg
                     (mkOneReg id 0 : denote TOneReg);
  match err with
  | Some e => panic_with (PanicError (Wrap (str "KVM_GET_ONE_REG") e))
  | None => mret (or_val reg)
  end.

Definition SetPc (c : vcpu) (pc : Z) : M W unit := setReg c pc_id pc.
Definition SetReg (c : vcpu) (i val : Z) : M W unit := setReg c (gpr_id i) val.
Definition vcpu_GetPc (c : vcpu) : M W Z := getReg c pc_id.
Definition GetReg (c : vcpu) (i : Z) : M W Z := getReg c (gpr_id i).

Definition GetPc (cpu : Z) : M W Z :=
  cs ← gets w_vcpus;
  c ← index cs cpu;
  vcpu_GetPc c.

(** ** Initialisation *)

Definition createVM (kfd : Z) : M W Z :=
  ipa ← wrap_err (str "ARM_VM_IPA_SIZE") (CheckExtension kfd CapARMVMIPASize);
  '(res, _) ← Ioctl_checked kfd (IIO kvmCreateVM) TVal (Z.land ipa 0xff : denote TVal);
  mret res.

Definition vm_init : M W unit := mret tt.

(** The loop passes a pointer to one [init] variable to every vcpu. *)
Fixpoint init_vcpus (cs : list vcpu) (init : VcpuInit) : M W unit :=
  match cs with
  | [] => mret tt
  | c :: cs =>
      '(_, init) ← wrap_err (str "KVM_ARM_VCPU_INIT")
        (Ioctl_checked (vcpu_fd c) (IIOW kvmArmVcpuInit (sizeof VcpuInit_ty)) TVcpuInit
           (init : denote TVcpuInit));
      init_vcpus cs init
  end.

Definition machine_init : M W unit :=
  m ← gets (fun w : W => w_mach w);
  '(_, init) ← wrap_err (str "KVM_ARM_PREFERRED_TARGET")
    (Ioctl_checked (vm_fd (m_vm m)) (IIOR kvmArmPreferredTarget (sizeof VcpuInit_ty))
       TVcpuInit (VcpuInit_zero : denote TVcpuInit));
  pmu ← attempt (CheckExtension (kvmfd m) CapARMPMUV3);
  init_vcpus (vm_vcpus (m_vm m)) (wanted_features init pmu).

Definition SetupRegs (pc argc argv : Z) : M W unit :=
  cs ← gets w_vcpus;
  for_range cs (fun c =>
    SetPc c pc ;;
    n ← gets mem_len;
    SetReg c 0 (u64 n) ;;
    SetReg c 1 argc ;;
    SetReg c 2 argv).

(** ** Interrupts *)

Definition set_irqfd (fd : Z) (w : W) : W :=
  let m := w_mach w in set_mach (mkMachine (kvmfd m) fd (m_vm m) (m_runs m)) w.

Definition SetDeviceAttr (a : DeviceAttr) : M W unit :=
  fd ← gets (fun w : W => irqfd (w_mach w));
  Ioctl_checked fd (IIOW kvmSetDeviceAttr (sizeof DeviceAttr_ty)) TDeviceAttr
                (a : denote TDeviceAttr) ;;
  mret tt.

Definition createDevice (irq : IrqType) : M W unit :=
  let distAttr := mkDeviceAttr 0 _KVM_DEV_ARM_VGIC_GRP_ADDR
                    _KVM_VGIC_V3_ADDR_TYPE_DIST (Some _GIC_DIST_BASE) in
  let redistAttr := mkDeviceAttr 0 _KVM_DEV_ARM_VGIC_GRP_ADDR
                      _KVM_VGIC_V3_ADDR_TYPE_REDIST (Some _GIC_REDIST_CPUI_BASE) in
  v ← gets (fun w : W => m_vm (w_mach w));
  '(_, device) ← wrap_err (str "KVM_CREATE_DEVICE")
    (Ioctl_checked (vm_fd v) (IIOWR kvmCreateDevice (sizeof CreateDevice_ty)) TCreateDevice
       (mkCreateDevice _KVM_DEV_TYPE_ARM_VGIC_V3 0 0 : denote TCreateDevice));
  modify (set_irqfd (cd_fd device)) ;;
  match irq with
  | GICv3 => wrap_err (str "GIC distributor") (SetDeviceAttr distAttr)
  | GICv2 => mret tt
  end ;;
  wrap_err (str "GIC redistributor") (SetDeviceAttr redistAttr).

Definition createIrqChip : M W unit := fail (ErrorString (str "GICv2: unimplemented")).

Definition createIrqController : M W unit :=
  let irq := GICv3 in
  r ← attempt (createDevice irq);
  match r with
  | inl _ => mret tt
  | inr e => if decide (irq = GICv2) then createIrqChip else fail e
  end.

Definition finalizeIrqController : M W unit :=
  wrap_err (str "VGIC_INIT_ATTR")
    (SetDeviceAttr (mkDeviceAttr 0 _KVM_DEV_ARM_VGIC_GRP_CTRL
                      _KVM_DEV_ARM_VGIC_CTRL_INIT None)).

Definition InjectIrq (irq level : Z) : M W unit :=
  v ← gets (fun w : W => m_vm (w_mach w));
  wrap_err (str "KVM_IRQ_LINE")
    (Ioctl_checked (vm_fd v) (IIOW kvmIRQLine (sizeof IrqLevel_ty)) TIrqLevel
       (mkIrqLevel (irq_line irq) level : denote TIrqLevel)) ;;
  mret tt.

(** ** Hypercalls and translation ([machine_arm64.go]) *)

Definition hypercall (handler : handler_t K O H) (cpu : Z) : M W unit :=
  cs ← gets w_vcpus;
  c ← index cs cpu;
  x8 ← GetReg c 8; x0 ← GetReg c 0; x1 ← GetReg c 1; x2 ← GetReg c 2;
  x3 ← GetReg c 3; x4 ← GetReg c 4; x5 ← GetReg c 5;
  r0 ← handler cpu x8 x0 x1 x2 x3 x4 x5;
  SetReg c 0 r0.

Definition VtoP (cpu v : Z) : M W Z := mret (ka2pa v).

(** ** Instruction trace ([debug_arm64.go]) *)

Definition Inst (cpu : Z) : M W (Z * gostring) := mret (0, []).

#[export] Instance arch : Arch K O H := {
  Vm.arch_target := on_arm64;
  Vm.ka2pa := ka2pa;
  Vm.pa2ka := pa2ka;
  Vm.SignalIRQ := SignalIRQ;
  Vm.createVM := createVM;
  Vm.vm_init := vm_init;
  Vm.machine_init := machine_init;
  Vm.SetupRegs := SetupRegs;
  Vm.do_hypercall := hypercall;
  Vm.VtoP := VtoP;
  Vm.createIrqController := createIrqController;
  Vm.finalizeIrqController := finalizeIrqController;
  Vm.InjectIrq := InjectIrq;
  Vm.GetPc := GetPc;
  Vm.Inst := Inst }.

End Ops.

(** ** Lemmas *)

Lemma arm_ka2pa_pa2ka_direct p : 0 <= p < 2 ^ 64 - kernBase -> ka2pa (pa2ka p) = p.
Proof.
  unfold pa2ka, ka2pa, kernBase. intros Hp.
  rewrite (u64_id (p + _)) by (unfold is_u; lia).
  rewrite decide_True by lia.
  rewrite u64_id by (unfold is_u; lia). lia.
Qed.

Section Facts.
Context {K O H : Type} `{!KVM K, !KVMLaws K}.
#[local] Existing Instance on_arm64.
Abbreviation W := (World K O H).

Lemma setReg_kernel_only c id v : respects (@kernel_only K O H _ _) (setReg c id v).
Proof. unfold setReg. respects_tac. Qed.

Lemma getReg_kernel_only c id : respects (@kernel_only K O H _ _) (getReg c id).
Proof. unfold getReg. respects_tac. Qed.

#[local] Hint Resolve setReg_kernel_only getReg_kernel_only : respects.

Lemma arm_SetupRegs_kernel_only a b c : respects (@kernel_only K O H _ _) (SetupRegs a b c).
Proof. unfold SetupRegs, SetPc, SetReg. respects_tac. Qed.

Lemma arm_InjectIrq_kernel_only i l : respects (@kernel_only K O H _ _) (InjectIrq i l).
Proof. unfold InjectIrq. respects_tac. Qed.

Lemma arm_GetPc_kernel_only cpu : respects (@kernel_only K O H _ _) (GetPc cpu).
Proof. unfold GetPc, vcpu_GetPc. respects_tac. Qed.

Lemma irq_kernel {A} (m : M W A) :
  respects (@kernel_only K O H _ _) m -> respects (@irq_frame K O H _ _) m.
Proof using Type. intros Hm w. apply kernel_only_irq_frame, Hm. Qed.

Lemma SetDeviceAttr_kernel_only a : respects (@kernel_only K O H _ _) (SetDeviceAttr a).
Proof. unfold SetDeviceAttr. respects_tac. Qed.

Lemma init_vcpus_kernel_only cs i : respects (@kernel_only K O H _ _) (init_vcpus cs i).
Proof.
  revert i. induction cs as [|c cs IH]; intros i; cbn [init_vcpus]; [respects_tac|].
  respects_step; [respects_tac|]. destruct a as [? init]. apply IH.
Qed.

Lemma createIrqController_irq_frame : respects (@irq_frame K O H _ _) createIrqController.
Proof.
  unfold createIrqController, createDevice, createIrqChip. respects_tac.
  - apply irq_kernel. respects_tac.
  - apply respects_modify. intros w. unfold irq_frame. by apply kernel_only_preorder.
  - apply irq_kernel, SetDeviceAttr_kernel_only.
  - apply irq_kernel, SetDeviceAttr_kernel_only.
Qed.

Lemma arm_hypercall_respects (R : relation W) `{!PreOrder R} h cpu :
  (forall w w', kernel_only w w' -> R w w') ->
  (forall num a0 a1 a2 a3 a4 a5, respects R (h cpu num a0 a1 a2 a3 a4 a5)) ->
  respects R (hypercall h cpu).
Proof.
  intros Hk Hh.
  assert (Hl : forall A (m : M W A), respects kernel_only m -> respects R m)
    by (intros A m Hm w; apply Hk, Hm).
  unfold hypercall, GetReg, SetReg. respects_tac; apply Hl; auto with respects.
Qed.

#[export] Instance arch_laws : ArchLaws K O H.
Proof.
  split.
  - intros p Hp. apply arm_ka2pa_pa2ka_direct. unfold kernBase. lia.
  - intros p. apply u64_range.
  - intros cpu v. apply respects_ret. apply _.
  - apply arm_InjectIrq_kernel_only.
  - apply arm_GetPc_kernel_only.
  - intros cpu. apply respects_ret. apply _.
  - apply arm_SetupRegs_kernel_only.
  - intros kfd. cbn. unfold createVM. respects_tac.
  - apply respects_ret, _.
  - cbn. unfold machine_init. respects_tac. apply init_vcpus_kernel_only.
  - apply createIrqController_irq_frame.
  - cbn. unfold finalizeIrqController. respects_tac. apply SetDeviceAttr_kernel_only.
  - intros cpu v. apply no_error_ret.
  - intros cpu. cbn. unfold GetPc, vcpu_GetPc, getReg. no_error_tac.
  - apply arm_hypercall_respects.
Qed.

End Facts.
End Arm64.
