(* ===== verification/Path.v ===== *)
(** * Path: the path functions the container relies on

    [strings.HasPrefix], [strings.Split] and the Unix [path/filepath]
    functions [IsAbs], [Clean], [Join] and [Abs] of Go's standard library, as
    [src/container.go], [src/hypercall.go] and [src/cmd/revisor/revisor.go]
    use them.  [Clean] is written over path components: it is the exhaustive
    application of the four rewriting rules of its documentation. *)

From S2P Require Import Prelude Effects Ioctl Structs World.

Definition slash : byte := "/"%byte.
Definition colon : byte := ":"%byte.
Definition dot : gostring := str ".".
Definition dotdot : gostring := str "..".

(** [strings.HasPrefix(s, prefix)]. *)
Fixpoint HasPrefix (s prefix : gostring) {struct prefix} : bool :=
  match prefix, s with
  | [], _ => true
  | _ :: _, [] => false
  | p :: prefix, b :: s => bool_decide (p = b) && HasPrefix s prefix
  end.

(** [strings.Split(s, sep)] for a one-byte separator. *)
Fixpoint split_on (sep : byte) (s : gostring) : list gostring :=
  match s with
  | [] => [[]]
  | b :: s =>
      if decide (b = sep) then [] :: split_on sep s
      else match split_on sep s with
           | [] => [[b]]
           | c :: cs => (b :: c) :: cs
           end
  end.

(** [strings.Join(cs, "/")]. *)
Fixpoint join_slash (cs : list gostring) : gostring :=
  match cs with
  | [] => []
  | [c] => c
  | c :: cs => c ++ slash :: join_slash cs
  end.

(** [filepath.IsAbs]. *)
Definition IsAbs (p : gostring) : bool := HasPrefix p [slash].

(** One path element on the stack of elements kept so far (innermost first):
    empty elements and ["."] are dropped, [".."] removes the element before
    it; at the root it disappears, and in a relative path with nothing left to
    remove it stays. *)
Definition clean_step (rooted : bool) (stack : list gostring) (c : gostring)
    : list gostring :=
  if decide (c = [] \/ c = dot) then stack
  else if decide (c = dotdot) then
    match stack with
    | [] => if rooted then [] else [dotdot]
    | top :: rest => if decide (top = dotdot) then dotdot :: stack else rest
    end
  else c :: stack.

Definition clean_comps (rooted : bool) (cs : list gostring) : list gostring :=
  rev (fold_left (clean_step rooted) cs []).

(** [filepath.Clean]. *)
Definition Clean (p : gostring) : gostring :=
  let rooted := IsAbs p in
  let cs := clean_comps rooted (split_on slash p) in
  if rooted then slash :: join_slash cs
  else match cs with [] => dot | _ => join_slash cs end.

(** [filepath.Join(a, b)]. *)
Definition Join2 (a b : gostring) : gostring :=
  match a, b with
  | [], [] => []
  | [], _ => Clean b
  | _, _ => Clean (a ++ slash :: b)
  end.

(** [filepath.Abs]: the working directory is asked for relative paths only. *)
Definition Abs {K O F H} `{!HostOS O F} (p : gostring) : M (World K O H) gostring :=
  if IsAbs p then mret (Clean p)
  else r ← on_os os_Getwd;
       wd ← lift_sum r;
       mret (Join2 wd p).

(** ** Clean absolute paths *)

(** A proper path element: non-empty, not ["."] or [".."], without a slash. *)
Definition elem_ok (c : gostring) : Prop :=
  c ≠ [] /\ c ≠ dot /\ c ≠ dotdot /\ slash ∉ c.

(** The absolute path with elements [cs]. *)
Definition render (cs : list gostring) : gostring := slash :: join_slash cs.

(** Absolute and in normal form. *)
Definition clean_abs (p : gostring) : Prop :=
  exists cs, Forall elem_ok cs /\ p = render cs.

(** ** Lemmas: prefixes and splitting *)

Lemma HasPrefix_app s t : HasPrefix (s ++ t) s = true.
Proof. induction s; simpl; [done|]. by rewrite bool_decide_eq_true_2. Qed.

Lemma HasPrefix_spec s p : HasPrefix s p = true <-> exists t, s = p ++ t.
Proof.
  split; [|intros [t ->]; apply HasPrefix_app].
  revert s. induction p as [|a p IH]; intros [|b s]; simpl; [by eexists|by eexists|done|].
  rewrite andb_true_iff, bool_decide_eq_true. intros [-> Hs].
  destruct (IH _ Hs) as [t ->]. by exists t.
Qed.

Lemma split_on_nonnil sep s : split_on sep s ≠ [].
Proof. destruct s; simpl; [done|]. by repeat case_match. Qed.

Lemma split_on_no_sep sep s c : c ∈ split_on sep s -> sep ∉ c.
Proof.
  revert c. induction s as [|b s IH]; simpl; intros c.
  { rewrite list_elem_of_singleton. intros ->. set_solver. }
  case_decide as Hb.
  { rewrite elem_of_cons. intros [->|Hc]; [set_solver|eauto]. }
  destruct (split_on sep s) as [|c0 cs] eqn:E; rewrite elem_of_cons.
  - intros [->|Hc]; set_solver.
  - intros [->|Hc]; [|apply IH; by right].
    specialize (IH c0 ltac:(left)). set_solver.
Qed.

Lemma split_on_app sep c s :
  sep ∉ c -> split_on sep (c ++ sep :: s) = c :: split_on sep s.
Proof.
  induction c as [|b c IH]; simpl; intros Hc.
  - by rewrite decide_True.
  - rewrite decide_False by set_solver. rewrite IH by set_solver. done.
Qed.

Lemma split_on_id sep c : sep ∉ c -> split_on sep c = [c].
Proof.
  induction c as [|b c IH]; simpl; intros Hc; [done|].
  rewrite decide_False by set_solver. by rewrite IH by set_solver.
Qed.

Lemma split_join cs :
  cs ≠ [] -> Forall (fun c => slash ∉ c) cs -> split_on slash (join_slash cs) = cs.
Proof.
  induction cs as [|c cs IH]; [done|]. intros _ [Hc Hcs]%Forall_cons.
  destruct cs as [|c' cs]; simpl.
  - by apply split_on_id.
  - rewrite split_on_app by done. f_equal. by apply IH.
Qed.

(** ** Lemmas: normal forms *)

Lemma elem_ok_no_slash cs : Forall elem_ok cs -> Forall (fun c => slash ∉ c) cs.
Proof. intros Hcs. eapply Forall_impl; [exact Hcs|]. by intros c (_ & _ & _ & ?). Qed.

Lemma clean_step_ok stack c :
  Forall elem_ok stack -> slash ∉ c -> Forall elem_ok (clean_step true stack c).
Proof.
  intros Hs Hc. unfold clean_step. case_decide as H1; [done|].
  case_decide as H2.
  - destruct stack as [|top rest]; [done|].
    apply Forall_cons in Hs as [(_ & _ & Ht & _) Hr]. by rewrite decide_False.
  - apply Forall_cons. split; [|done]. unfold elem_ok. naive_solver.
Qed.

Lemma clean_fold_ok cs stack :
  Forall (fun c => slash ∉ c) cs -> Forall elem_ok stack ->
  Forall elem_ok (fold_left (clean_step true) cs stack).
Proof.
  intros Hcs. revert stack. induction Hcs; simpl; intros; [done|].
  eauto using clean_step_ok.
Qed.

(** Proper elements go through [Clean] unchanged. *)
Lemma clean_fold_id rooted cs stack :
  Forall elem_ok cs -> fold_left (clean_step rooted) cs stack = rev cs ++ stack.
Proof.
  intros Hcs. revert stack. induction Hcs as [|c cs (Hn & Hd & Hdd & _) Hcs IH];
    intros stack; [done|].
  cbn [fold_left rev]. rewrite IH, <- app_assoc. f_equal. unfold clean_step.
  rewrite decide_False by naive_solver. by rewrite decide_False.
Qed.

Lemma clean_comps_id rooted cs : Forall elem_ok cs -> clean_comps rooted cs = cs.
Proof.
  intros. unfold clean_comps.
  by rewrite clean_fold_id, app_nil_r, rev_involutive by done.
Qed.

Lemma Clean_rooted p :
  IsAbs p = true ->
  Clean p = render (clean_comps true (split_on slash p)) /\
  Forall elem_ok (clean_comps true (split_on slash p)).
Proof.
  intros Hp. unfold Clean. rewrite Hp. split; [done|].
  unfold clean_comps. apply Forall_rev, clean_fold_ok; [|done].
  apply Forall_forall. intros c. apply split_on_no_sep.
Qed.

Lemma Clean_clean_abs p : IsAbs p = true -> clean_abs (Clean p).
Proof. intros Hp. destruct (Clean_rooted p Hp) as [E F]. eexists; eauto. Qed.

Lemma split_render cs :
  Forall elem_ok cs ->
  clean_comps true (split_on slash (render cs)) = cs.
Proof.
  intros Hcs. unfold render. change (slash :: join_slash cs) with ([] ++ slash :: join_slash cs).
  rewrite split_on_app by set_solver. unfold clean_comps. cbn [fold_left].
  change (clean_step true [] []) with (@nil gostring).
  destruct cs as [|c cs]; [done|].
  rewrite split_join by (done || by apply elem_ok_no_slash).
  by apply clean_comps_id.
Qed.

Lemma Clean_render cs : Forall elem_ok cs -> Clean (render cs) = render cs.
Proof. intros. unfold Clean. change (IsAbs (render cs)) with true. by rewrite split_render. Qed.

Lemma render_inj cs cs' :
  Forall elem_ok cs -> Forall elem_ok cs' -> render cs = render cs' -> cs = cs'.
Proof. intros H1 H2 E. rewrite <- (split_render cs H1), E. by apply split_render. Qed.

(** ** Lemmas: string prefixes of clean paths, element by element *)

(** What a string-prefix test between clean absolute paths decides: the
    directory is the root, or the elements agree up to the last one of the
    directory, which has only to be a prefix of the element in its place. *)
Definition covers (dc pc : list gostring) : Prop :=
  dc = [] \/
  exists pre d x rest, dc = pre ++ [d] /\ pc = pre ++ (d ++ x) :: rest.

Lemma join_cons c cs : cs ≠ [] -> join_slash (c :: cs) = c ++ slash :: join_slash cs.
Proof. by destruct cs. Qed.

Lemma slash_split_unique a b c d :
  slash ∉ a -> slash ∉ c -> a ++ slash :: b = c ++ slash :: d -> a = c /\ b = d.
Proof.
  intros Ha Hc E.
  assert (a = c) as ->.
  { apply (f_equal (split_on slash)) in E. rewrite !split_on_app in E by done. congruence. }
  split; [done|]. by apply app_inv_head in E as [= ->].
Qed.

Lemma prefix_before_slash a b d t :
  slash ∉ d -> a ++ slash :: b = d ++ t -> exists x, a = d ++ x.
Proof.
  revert a. induction d as [|y d IH]; intros a Hd E; [by exists a|].
  destruct a as [|z a]; simplify_eq/=; [set_solver|].
  destruct (IH a) as [x ->]; [set_solver|done|]. by exists x.
Qed.

Lemma prefix_join_inv dc pc t :
  dc ≠ [] -> Forall elem_ok dc -> Forall elem_ok pc ->
  join_slash pc = join_slash dc ++ t -> covers dc pc.
Proof.
  revert pc. induction dc as [|d dc IH]; [done|].
  intros pc _ [Hd Hdc]%Forall_cons Hpc E. right.
  destruct Hd as (Hne & _ & _ & Hs).
  destruct pc as [|p ps]; [by destruct d, dc|].
  apply Forall_cons in Hpc as [(_ & _ & _ & Hps') Hps].
  destruct dc as [|d' dc].
  - destruct ps as [|p' ps].
    + exists [], d, t, []. simpl in *. by rewrite E.
    + rewrite join_cons in E by done.
      destruct (prefix_before_slash _ _ _ _ Hs E) as [x ->].
      by exists [], d, x, (p' :: ps).
  - rewrite (join_cons d), <- app_assoc, <- app_comm_cons in E by done.
    destruct ps as [|p' ps].
    { simpl in E. subst p. set_solver. }
    rewrite join_cons in E by done.
    apply slash_split_unique in E as [-> E]; [|done..].
    destruct (IH (p' :: ps)) as [?|(pre & d0 & x & rest & E1 & E2)]; [done..|].
    exists (d :: pre), d0, x, rest. by rewrite E1, E2.
Qed.

Lemma covers_join pre d x rest :
  exists t, join_slash (pre ++ (d ++ x) :: rest) = join_slash (pre ++ [d]) ++ t.
Proof.
  induction pre as [|c pre [t IH]]; cbn [app].
  - destruct rest as [|r rest]; [by exists x|].
    exists (x ++ slash :: join_slash (r :: rest)). rewrite join_cons by done.
    by rewrite <- app_assoc.
  - exists t. rewrite !join_cons by (by destruct pre). rewrite IH.
    by rewrite <- app_assoc.
Qed.

Lemma HasPrefix_render dc pc :
  Forall elem_ok dc -> Forall elem_ok pc ->
  HasPrefix (render pc) (render dc) = true <-> covers dc pc.
Proof.
  intros Hdc Hpc. rewrite HasPrefix_spec. unfold render. split.
  - intros [t [= E]]. destruct dc as [|d dc]; [by left|].
    by eapply prefix_join_inv.
  - intros [->|(pre & d & x & rest & -> & ->)]; [by eexists|].
    destruct (covers_join pre d x rest) as [t E]. exists t. by rewrite E.
Qed.

(** The path lies in the directory: its elements extend the directory's. *)
Definition within (dc pc : list gostring) : Prop := exists rest, pc = dc ++ rest.

Lemma within_covers dc pc : within dc pc -> covers dc pc.
Proof.
  intros [rest ->]. destruct dc as [|d dc] using rev_ind; [by left|]. right.
  exists dc, d, [], rest. split; [done|]. by rewrite app_nil_r, <- app_assoc.
Qed.

(** [Abs] gives an absolute path in normal form. *)
Lemma Abs_clean {K O F H} `{!HostOS O F, !HostOSLaws O F} p q (w w' : World K O H) :
  Abs p w = (Ok q, w') -> clean_abs q.
Proof.
  unfold Abs. destruct (IsAbs p) eqn:Hp.
  - intros [= <- _]. by apply Clean_clean_abs.
  - unfold mbind, M_bind, on_os. destruct (os_Getwd (w_os w)) as [[wd|e] o] eqn:E; [|done].
    intros [= <- _]. apply getwd_rooted in E.
    destruct wd as [|b wd]; [done|]. injection E as [= ->].
    unfold Join2. apply Clean_clean_abs. done.
Qed.

(** Computations that only talk to the host's files. *)
Definition os_only {K O H} (w w' : World K O H) : Prop := w' = set_os (w_os w') w.

#[export] Instance os_only_preorder K O H : PreOrder (@os_only K O H).
Proof.
  split; unfold os_only.
  - by intros [].
  - intros w1 w2 w3 E1 E2. rewrite E2, E1. done.
Qed.

Lemma on_os_os_only {K O H A} (f : O -> A * O) : respects (@os_only K O H) (on_os f).
Proof. intros w. unfold on_os. by destruct (f (w_os w)). Qed.
#[export] Hint Resolve on_os_os_only : respects.

Lemma Abs_os_only {K O F H} `{!HostOS O F} p : respects (@os_only K O H) (Abs p).
Proof. unfold Abs, lift_sum. respects_tac. Qed.
