(* ===== verification/Show.v ===== *)
(** * Show: the printers of [machine.go]

    Models [showone] and [show] of [src/kvm/machine.go], which print the
    fields of structs, one a line, by reflection.  The argument is a pointer
    to a struct, given as its fields in order; a field has a name, a type,
    whether it is exported, and a value.  The values are those the structs of
    the package are made of; they have no methods of their own.  The indent
    is a text without a percent sign, since it is part of a format. *)

From S2P Require Import Prelude Path.

(** ** Values *)

(** Integers, strings, arrays and slices, of bytes and of other types, and
    structs. *)
Inductive value :=
  | VUint (n : Z)
  | VInt (n : Z)
  | VString (s : gostring)
  | VBytes (bs : list byte)
  | VList (vs : list value)
  | VStruct (vs : list value).

Record field := mkField {
  fd_name : gostring; fd_type : gostring; fd_exported : bool; fd_value : value }.

Definition newline : byte := x0a.

Definition joined_by (sep : byte) (l : list gostring) : gostring :=
  match l with
  | [] => []
  | s :: l => s ++ concat (cons sep <$> l)
  end.

(** Two digits for every byte; nothing at all for none. *)
Definition hex_bytes (bs : list byte) : gostring :=
  match bs with
  | [] => []
  | _ => str "0x" ++ concat ((fun b => [hex_digit (bval b / 16); hex_digit (bval b mod 16)]) <$> bs)
  end.

(** The verb [%#x]. *)
Fixpoint hex_verb (v : value) : gostring :=
  match v with
  | VUint n => str "0x" ++ FormatHex n
  | VInt n => if decide (n < 0) then str "-0x" ++ FormatHex (- n) else str "0x" ++ FormatHex n
  | VString s => hex_bytes s
  | VBytes bs => hex_bytes bs
  | VList vs => str "[" ++ joined_by " "%byte (hex_verb <$> vs) ++ str "]"
  | VStruct vs => str "{" ++ joined_by " "%byte (hex_verb <$> vs) ++ str "}"
  end.

(** ** [showone] and [show] *)

Definition field_text (v : value) : gostring :=
  match v with VString s => s | _ => hex_verb v end.

(** [f.Interface()] panics on a field that is not exported. *)
Definition show_field (indent : gostring) (f : field) : option gostring :=
  if fd_exported f then
    Some (indent ++ fd_name f ++ str " " ++ fd_type f ++ str " = " ++ field_text (fd_value f)
            ++ [newline])
  else None.

Fixpoint showone (indent : gostring) (fs : list field) : option gostring :=
  match fs with
  | [] => Some []
  | f :: fs => a ← show_field indent f; b ← showone indent fs; Some (a ++ b)
  end.

Fixpoint show (indent : gostring) (l : list (list field)) : option gostring :=
  match l with
  | [] => Some []
  | i :: l => a ← showone indent i; b ← show indent l; Some (a ++ b)
  end.

(** ** Lemmas *)

(** Induction on values through the lists in them. *)
Lemma value_ind' (P : value -> Prop) :
  (forall n, P (VUint n)) -> (forall n, P (VInt n)) -> (forall s, P (VString s)) ->
  (forall bs, P (VBytes bs)) -> (forall vs, Forall P vs -> P (VList vs)) ->
  (forall vs, Forall P vs -> P (VStruct vs)) -> forall v, P v.
Proof.
  intros H1 H2 H3 H4 H5 H6. fix IH 1. intros [n|n|s|bs|vs|vs]; [done..| |].
  - apply H5. induction vs as [|v vs IHvs]; constructor; [apply IH|exact IHvs].
  - apply H6. induction vs as [|v vs IHvs]; constructor; [apply IH|exact IHvs].
Qed.

Lemma hex_digit_no_newline d : 0 <= d < 16 -> hex_digit d ≠ newline.
Proof.
  intros Hd. assert (Forall (fun d => hex_digit d ≠ newline) (seqZ 0 16)) as H
    by (apply (bool_decide_unpack _); by vm_compute).
  rewrite Forall_forall in H. apply H, elem_of_seqZ. lia.
Qed.

Lemma hex_digits_no_newline fuel z acc :
  newline ∉ acc -> newline ∉ hex_digits fuel z acc.
Proof.
  revert z acc. induction fuel as [|fuel IH]; intros z acc Ha; [done|]. cbn [hex_digits].
  assert (newline ∉ hex_digit (z mod 16) :: acc).
  { apply not_elem_of_cons. split; [|done]. symmetry. apply hex_digit_no_newline.
    apply Z.mod_pos_bound. lia. }
  case_decide; auto.
Qed.

Lemma FormatHex_no_newline z : newline ∉ FormatHex z.
Proof. apply hex_digits_no_newline, not_elem_of_nil. Qed.

Lemma concat_no_newline (ls : list gostring) :
  Forall (fun s => newline ∉ s) ls -> newline ∉ concat ls.
Proof.
  induction 1 as [|s ls Hs _ IH]; [apply not_elem_of_nil|]. cbn. by apply not_elem_of_app.
Qed.

Lemma hex_bytes_no_newline bs : newline ∉ hex_bytes bs.
Proof.
  destruct bs as [|b bs]; [apply not_elem_of_nil|]. unfold hex_bytes. apply not_elem_of_app.
  split; [apply (bool_decide_unpack _); by vm_compute|]. apply concat_no_newline.
  apply Forall_fmap, Forall_true. intros c. pose proof (bval_range c) as Hc.
  unfold compose.
  rewrite !not_elem_of_cons. split_and!; [| |apply not_elem_of_nil]; symmetry;
    apply hex_digit_no_newline.
  - split; [apply Z.div_pos|apply Z.div_lt_upper_bound]; lia.
  - apply Z.mod_pos_bound. lia.
Qed.

Lemma joined_by_no_newline sep l :
  sep ≠ newline -> Forall (fun s => newline ∉ s) l -> newline ∉ joined_by sep l.
Proof.
  intros Hsep. destruct 1 as [|s l Hs Hl]; [apply not_elem_of_nil|]. cbn.
  apply not_elem_of_app. split; [done|]. apply concat_no_newline. apply Forall_fmap.
  eapply Forall_impl; [exact Hl|]. intros x Hx. unfold compose.
  apply not_elem_of_cons. by split.
Qed.

Lemma hex_verb_no_newline v : newline ∉ hex_verb v.
Proof.
  assert (Hlit : forall s : gostring, bool_decide (newline ∉ s) = true -> newline ∉ s)
    by (intros s Hs; by apply bool_decide_eq_true in Hs).
  induction v as [n|n|s|bs|vs IH|vs IH] using value_ind'; cbn [hex_verb].
  - apply not_elem_of_app. split; [by apply Hlit|apply FormatHex_no_newline].
  - case_decide; (apply not_elem_of_app; split; [by apply Hlit|apply FormatHex_no_newline]).
  - apply hex_bytes_no_newline.
  - apply hex_bytes_no_newline.
  - rewrite !not_elem_of_app. split_and!; [by apply Hlit| |by apply Hlit].
    apply joined_by_no_newline; [done|]. by apply Forall_fmap.
  - rewrite !not_elem_of_app. split_and!; [by apply Hlit| |by apply Hlit].
    apply joined_by_no_newline; [done|]. by apply Forall_fmap.
Qed.

(** The line for a field. *)
Definition field_line (indent : gostring) (f : field) : gostring :=
  indent ++ fd_name f ++ str " " ++ fd_type f ++ str " = " ++ field_text (fd_value f).

(** Nothing that is printed as it is breaks a line. *)
Definition one_line (f : field) : Prop :=
  (newline ∉ fd_name f) /\ (newline ∉ fd_type f) /\
  match fd_value f with VString s => newline ∉ s | _ => True end.

Lemma field_line_no_newline indent f :
  newline ∉ indent -> one_line f -> newline ∉ field_line indent f.
Proof.
  intros Hi (Hn & Ht & Hv). unfold field_line. rewrite !not_elem_of_app.
  assert (Hlit : forall s : gostring, bool_decide (newline ∉ s) = true -> newline ∉ s)
    by (intros s Hs; by apply bool_decide_eq_true in Hs).
  split_and!; try done; try (by apply Hlit).
  destruct (fd_value f); try apply hex_verb_no_newline. done.
Qed.

Lemma show_field_line indent f :
  fd_exported f = true -> show_field indent f = Some (field_line indent f ++ [newline]).
Proof. intros Hf. unfold show_field, field_line. rewrite Hf. by rewrite <- !app_assoc. Qed.

Lemma showone_text indent fs :
  Forall (fun f => fd_exported f = true) fs ->
  showone indent fs = Some (concat ((fun f => field_line indent f ++ [newline]) <$> fs)).
Proof.
  induction 1 as [|f fs Hf _ IH]; [done|]. cbn [showone fmap list_fmap concat].
  by rewrite (show_field_line _ _ Hf), IH.
Qed.

Lemma split_lines (ls : list gostring) :
  Forall (fun s => newline ∉ s) ls ->
  split_on newline (concat ((fun s => s ++ [newline]) <$> ls)) = ls ++ [[]].
Proof.
  induction 1 as [|s ls Hs _ IH]; [done|]. cbn [fmap list_fmap concat].
  rewrite <- app_assoc. cbn [app]. by rewrite split_on_app, IH.
Qed.

Lemma show_text indent l :
  Forall (Forall (fun f => fd_exported f = true)) l ->
  show indent l = Some (concat ((fun s => s ++ [newline]) <$> (field_line indent <$> concat l))).
Proof.
  induction 1 as [|i l Hi _ IH]; [done|]. cbn [show concat]. rewrite (showone_text _ _ Hi), IH.
  cbn. f_equal. rewrite !fmap_app, concat_app. f_equal. by rewrite <- list_fmap_compose.
Qed.

(** ** Theorem *)

(** The printers.  When all fields are exported and no name, type, string or
    indent breaks a line, the text has exactly one line for each field of each
    struct, in the order of the arguments and of the fields, made of the
    indent, the name, the type and the value; numbers and lists, however
    nested, never break it.  A field that is not exported makes the printers
    panic. *)
Theorem show_one_line_per_field indent l :
  (newline ∉ indent) -> Forall (Forall one_line) l ->
  (Forall (Forall (fun f => fd_exported f = true)) l ->
   exists text, show indent l = Some text /\
     split_on newline text = (field_line indent <$> concat l) ++ [[]]) /\
  (forall fs f, fs ∈ l -> f ∈ fs -> fd_exported f = false -> show indent l = None).
Proof.
  intros Hi Hl. split.
  - intros He. eexists. split; [by apply show_text|]. apply split_lines. apply Forall_fmap.
    apply Forall_concat in Hl. eapply Forall_impl; [exact Hl|].
    intros f Hf. by apply field_line_no_newline.
  - intros fs f Hfs Hf He.
    assert (Hone : forall fs, f ∈ fs -> showone indent fs = None).
    { intros gs. induction gs as [|g gs IH]; intros Hg; [by apply not_elem_of_nil in Hg|].
      cbn [showone]. apply elem_of_cons in Hg as [<-|Hg].
      - unfold show_field. by rewrite He.
      - rewrite (IH Hg). by destruct (show_field indent g). }
    clear Hl. induction l as [|i l IH]; [by apply not_elem_of_nil in Hfs|]. cbn [show].
    apply elem_of_cons in Hfs as [->|Hfs]; [by rewrite (Hone i Hf)|].
    rewrite (IH Hfs). by destruct (showone indent i).
Qed.

(** ** Witness: two registers and a name *)

Definition demo_fields : list field :=
  [mkField (str "Rax") (str "uint64") true (VUint 255);
   mkField (str "Bitmap") (str "[2]uint64") true (VList [VUint 1; VUint 16]);
   mkField (str "Name") (str "string") true (VString (str "kvm"))].

Lemma show_one_line_per_field_witness :
  exists text, show (str "  ") [demo_fields] = Some text /\
    split_on newline text =
      [str "  Rax uint64 = 0xff"; str "  Bitmap [2]uint64 = [0x1 0x10]"; str "  Name string = kvm"; []].
Proof.
  destruct (show_one_line_per_field (str "  ") [demo_fields]) as [H _].
  - apply (bool_decide_unpack _). by vm_compute.
  - repeat constructor; cbn; try done; apply (bool_decide_unpack _); by vm_compute.
  - apply H. by repeat constructor.
Defined.
