(* ===== verification/Machine.v ===== *)
(** * Machine: building, loading and running the virtual machine

    Models the rest of [src/kvm/machine.go] and [src/boot.go]: [NewMachine],
    [LoadKernel], [RunOnce], [RunInfiniteLoop], the body of the goroutine of
    [StartVCPU], and [Boot] as a transition system in which the vcpus'
    goroutines, the main goroutine that waits for them and the signal
    goroutine of [src/cmd/revisor/revisor.go] interleave. *)

From S2P Require Import Prelude Effects Ioctl Structs World Abi Vm Argv.

(** ** ELF files ([debug/elf] and [io])

    The parser is a library; what the program uses of its result are the
    entry point and, for every program header, the type, the address, the two
    sizes and a reader of the segment's bytes. *)

Definition PT_LOAD : Z := 1.

(** [io.ReaderAt]: for a buffer of [n] bytes and an offset, the bytes stored
    and the error. *)
Definition ReaderAt : Type := nat -> Z -> list byte * option error.

Record Prog := mkProg {
  p_Type : Z; p_Off : Z; p_Vaddr : Z; p_Filesz : Z; p_Memsz : Z }.

Record elf_File := mkElf { e_Entry : Z; e_Progs : list Prog }.

Class ElfReader := { elf_NewFile : ReaderAt -> elf_File + error }.

(** [io.SectionReader.ReadAt] at offset 0 of the section of [size] bytes at
    [base]: a longer buffer is cut to the section, and then a full read
    reports the end of the section. *)
Definition section_ReadAt (r : ReaderAt) (base size : Z) (n : nat) : list byte * option error :=
  if decide (size <= 0) then ([], Some EOF)
  else if decide (size < Z.of_nat n) then
    let '(data, err) := r (Z.to_nat size) base in
    (data, match err with None => Some EOF | Some e => Some e end)
  else r n base.

(** [bytes.NewReader(bs)] as a reader. *)
Definition bytes_Reader (bs : list byte) : ReaderAt := fun n off => reader_ReadAt bs n off.

Section Machine.
Context {K O H : Type} `{!KVM K, !Arch K O H}.
Abbreviation W := (World K O H).

(** ** Construction *)

Definition set_run_page (cpu : nat) (fd : Z) (page : RunData) (w : W) : W :=
  let m := w_mach w in let v := w_kv w in
  set_mach (mkMachine (kvmfd m) (irqfd m) (m_vm m) (<[cpu := Some fd]> (m_runs m)))
    (set_kv (mkView (kv_state v) (kv_mem v) (<[fd := page]> (kv_runs v))) w).

(** The body of the loop over the vcpus. *)
Definition new_vcpu (mmapSize cpu : Z) : M W unit :=
  addVCPU ;;
  cs ← gets w_vcpus;
  c ← index cs cpu;
  r ← on_kernel (sys_mmap (vcpu_fd c) mmapSize);
  page ← lift_sum r;
  modify (set_run_page (Z.to_nat cpu) (vcpu_fd c) page).

Definition NewMachine (kvmPath : gostring) (ncpus memSize : Z) : M W unit :=
  r ← on_kernel (sys_open kvmPath);
  kfd ← lift_sum r;
  NewVM kfd memSize ;;
  vm_init ;;
  mmapSize ← getVCPUMMmapSize kfd;
  v ← gets (fun w : W => m_vm (w_mach w));
  (if decide (ncpus < 0) then panic_with SliceOutOfRange else mret tt) ;;
  modify (set_mach (mkMachine kfd 0 v (replicate (Z.to_nat ncpus) None))) ;;
  createIrqController ;;
  for_range (seqZ 0 ncpus) (new_vcpu mmapSize) ;;
  machine_init ;;
  initMemory ;;
  finalizeIrqController.

(** ** Loading a kernel *)

(** [m.vm.mem[i] = 0]. *)
Definition mem_store (i : Z) (b : byte) : M W unit := fun w =>
  if decide (0 <= i < mem_len w)
  then (Ok tt, set_mem (write_at (Z.to_nat i) [b] (w_mem w)) w)
  else (Panic IndexOutOfRange, w).

(** [for i := lo; i < hi; i++ { m.vm.mem[i] = 0 }]. *)
Definition zero_fill (lo hi : Z) : M W unit :=
  for_range (seqZ lo (hi - lo)) (fun i => mem_store i x00).

Definition load_error (i : Z) (p : Prog) (n : Z) (err : option error) : error :=
  let msg := str "reading ELF prog " ++ FormatInt10 i ++ str "@0x" ++ FormatHex (p_Vaddr p)
             ++ str ": " ++ FormatInt10 n ++ str "/" ++ FormatInt10 (p_Filesz p)
             ++ str " bytes, err " in
  match err with
  | Some e => Wrap msg e
  | None => ErrorString (msg ++ str "%!w(<nil>)")
  end.

Definition is_EOF (err : option error) : bool :=
  match err with Some e => errors_Is e EOF | None => false end.

(** One program header: the number of bytes loaded. *)
Definition load_prog (kernel : ReaderAt) (i : Z) (p : Prog) : M W Z :=
  if decide (p_Type p ≠ PT_LOAD) then mret 0
  else
    let start := u64 (ka2pa (p_Vaddr p) - physRamBase) in
    s ← mem_slice_from start;
    let '(data, err) := section_ReadAt kernel (i64 (p_Off p)) (i64 (p_Filesz p)) (Z.to_nat (s_len s)) in
    slice_copy s data ;;
    let n := Z.of_nat (length data) in
    if negb (is_EOF err) || bool_decide (n ≠ p_Filesz p) then fail (load_error i p n err)
    else
      zero_fill (u64 (start + p_Filesz p)) (u64 (start + p_Memsz p)) ;;
      mret n.

(** The loop over the program headers; the result is [kernSize]. *)
Fixpoint load_progs (kernel : ReaderAt) (i kernSize : Z) (ps : list Prog) : M W Z :=
  match ps with
  | [] => mret kernSize
  | p :: ps =>
      n ← load_prog kernel i p;
      load_progs kernel (i + 1) (kernSize + n) ps
  end.

Definition kernel_is_empty : error := ErrorString (str "kernel is empty").

Definition LoadKernel `{!ElfReader} (kernel : ReaderAt) (args : list gostring) : M W unit :=
  e ← lift_sum (elf_NewFile kernel);
  kernSize ← load_progs kernel 0 0 (e_Progs e);
  argvAddr ← argv_WriteAt args 0;
  if decide (kernSize = 0) then fail kernel_is_empty
  else SetupRegs (e_Entry e) (u64 (Z.of_nat (length args))) argvAddr.

(** ** Running *)

Context (handler : handler_t K O H).

(** [m.runs[cpu].ExitReason] read from the shared page. *)
Definition exit_reason (cpu : Z) : M W Z :=
  runs ← gets (fun w : W => m_runs (w_mach w));
  r ← index runs cpu;
  pages ← gets (fun w : W => kv_runs (w_kv w));
  match (fd ← r; pages !! fd) with
  | Some page => mret (ExitReason page)
  | None => panic_with NilDereference
  end.

Definition cpu_out_of_range (cpu : Z) : error :=
  ErrorString (str "CPU " ++ FormatInt10 cpu ++ str " out of range").

Definition unexpected_exit (reason : Z) : error :=
  Wrap (default [] (ExitType_String reason)) ErrUnexpectedExitReason.

(** The two results of [RunOnce] are kept as a pair. *)
Definition RunOnce (cpu : Z) : M W (bool * option error) :=
  cs ← gets w_vcpus;
  if decide (Z.of_nat (length cs) <= cpu) then mret (false, Some (cpu_out_of_range cpu))
  else
    c ← index cs cpu;
    r ← attempt (vcpu_Run c);
    match r with
    | inr e => mret (false, Some e)
    | inl _ =>
        exit ← exit_reason cpu;
        if decide (exit = ExitHlt) then mret (false, None)
        else if decide (exit = ExitMMIO \/ exit = ExitIO) then
          r ← attempt (do_hypercall handler cpu);
          match r with
          | inr e => mret (false, Some e)
          | inl _ => mret (true, None)
          end
        else if decide (exit = ExitUnknown) then mret (true, None)
        else if decide (exit = ExitIntr) then mret (true, None)
        else if decide (exit = ExitDebug) then mret (false, Some ErrDebug)
        else mret (false, Some (unexpected_exit exit))
    end.

(** One iteration of the loop of [RunInfiniteLoop]: [Some err] when it
    returns [err]. *)
Definition loop_body (cpu : Z) (trace : bool) : M W (option (option error)) :=
  '(isContinue, err) ← RunOnce cpu;
  if isContinue : bool then
    match err with Some e => emit (EPrintErr 2 [] (Some e)) | None => mret tt end ;;
    attempt (SingleStep trace) ;;
    mret None
  else mret (Some err).

(** [None] is a loop that has not ended after [fuel] iterations. *)
Fixpoint RunInfiniteLoop (fuel : nat) (cpu : Z) (trace : bool) (w : W)
    : option (outcome (option error) * W) :=
  match fuel with
  | 0%nat => None
  | S fuel =>
      match loop_body cpu trace w with
      | (Ok None, w') => RunInfiniteLoop fuel cpu trace w'
      | (Ok (Some err), w') => Some (Ok err, w')
      | (Err e, w') => Some (Err e, w')
      | (Panic p, w') => Some (Panic p, w')
      end
  end.

(** The instruction trace printed after a debug exit. *)
Definition trace_line (cpu : Z) : M W unit :=
  r ← attempt (Inst cpu);
  match r with
  | inr e => emit (EPrintErr 1 (str "disassembling after debug exit:") (Some e))
  | inl (pc, s) => emit (EStdout (str "0x" ++ FormatHex pc ++ str ":" ++ s ++ [x0a]))
  end.

Definition is_ErrDebug (err : option error) : bool :=
  match err with Some e => errors_Is e ErrDebug | None => false end.

(** One iteration of the goroutine of [StartVCPU], seen from the end of a
    [RunInfiniteLoop] that returned [err]: [Some err] when the goroutine
    ends. *)
Definition after_loop (cpu : Z) (trace : bool) (err : option error) : M W (option (option error)) :=
  if negb trace then mret (Some err)
  else if negb (is_ErrDebug err) then mret (Some err)
  else trace_line cpu ;; attempt (SingleStep trace) ;; mret None.

(** One turn of the goroutine: an iteration of the inner loop and, when that
    returns, what the outer loop does with its error. *)
Definition vcpu_turn (cpu : Z) (trace : bool) : M W (option (option error)) :=
  r ← loop_body cpu trace;
  match r with
  | None => mret None
  | Some err => after_loop cpu trace err
  end.

Definition cpu_exit_line (cpu : Z) (err : option error) : event :=
  EPrintErr 2 (str "CPU " ++ FormatInt10 cpu ++ str " exited (err=") err.

(** The goroutine of [StartVCPU] as its two nested loops. *)
Fixpoint vcpu_goroutine (fuel : nat) (cpu : Z) (trace : bool) (w : W)
    : option (outcome unit * W) :=
  match fuel with
  | 0%nat => None
  | S fuel =>
      match RunInfiniteLoop (S fuel) cpu trace w with
      | None => None
      | Some (Ok err, w') =>
          match after_loop cpu trace err w' with
          | (Ok None, w'') => vcpu_goroutine fuel cpu trace w''
          | (Ok (Some err), w'') => Some (emit (cpu_exit_line cpu err) w'')
          | (Err e, w'') => Some (Err e, w'')
          | (Panic p, w'') => Some (Panic p, w'')
          end
      | Some (Err e, w') => Some (Err e, w')
      | Some (Panic p, w') => Some (Panic p, w')
      end
  end.

End Machine.

(** ** Frames

    A relation that contains ioctls, printed lines and the handler's steps
    contains every run of a vcpu. *)

Definition is_print (e : event) : bool :=
  match e with EStdout _ | EStderr _ | ELog _ | EPrintErr _ _ _ => true | _ => false end.

Record run_steps {K O H} `{!KVM K, !GoArch} (R : relation (World K O H)) (h : handler_t K O H) : Prop := {
  rs_preorder : PreOrder R;
  rs_kernel : forall w w', kernel_only w w' -> R w w';
  rs_print : forall w e, is_print e = true -> R w (add_event e w);
  rs_handler : forall cpu num a0 a1 a2 a3 a4 a5,
    respects R (h cpu num a0 a1 a2 a3 a4 a5) }.

Section Frames.
Context {K O H : Type} `{!KVM K, !KVMLaws K, !Arch K O H, !ArchLaws K O H}.
Abbreviation W := (World K O H).
Context (h : handler_t K O H) (R : relation W) (HR : run_steps R h).

#[local] Instance run_preorder : PreOrder R := rs_preorder R h HR.

Lemma run_kernel {A} (m : M W A) : respects kernel_only m -> respects R m.
Proof using HR. intros Hm w. apply (rs_kernel R h HR), Hm. Qed.

Lemma run_emit e : is_print e = true -> respects R (emit e).
Proof using HR. intros He w. by apply (rs_print R h HR). Qed.

Lemma run_SingleStep b : respects R (SingleStep b).
Proof using HR KVMLaws0. apply run_kernel, SingleStep_kernel_only. Qed.

Lemma run_hypercall cpu : respects R (do_hypercall h cpu).
Proof using HR ArchLaws0.
  apply do_hypercall_respects; [apply _|apply (rs_kernel R h HR)|].
  intros. apply (rs_handler R h HR).
Qed.

Lemma run_exit_reason cpu : respects R (exit_reason cpu).
Proof using HR. unfold exit_reason. respects_tac. Qed.

#[local] Hint Resolve run_SingleStep run_hypercall run_exit_reason : respects.

Lemma RunOnce_respects cpu : respects R (RunOnce h cpu).
Proof using HR KVMLaws0 ArchLaws0.
  unfold RunOnce. respects_tac. apply run_kernel, vcpu_Run_kernel_only.
Qed.

#[local] Hint Resolve RunOnce_respects : respects.

Lemma loop_body_respects cpu trace : respects R (loop_body h cpu trace).
Proof using HR KVMLaws0 ArchLaws0.
  unfold loop_body. respects_step; [apply RunOnce_respects|].
  destruct a as [[|] [e|]]; respects_tac; by apply run_emit.
Qed.

Lemma after_loop_respects cpu trace err : respects R (after_loop cpu trace err).
Proof using HR KVMLaws0 ArchLaws0.
  unfold after_loop, trace_line. respects_tac; try (by apply run_emit).
  apply run_kernel, Inst_frame.
Qed.

Lemma vcpu_turn_respects cpu trace : respects R (vcpu_turn h cpu trace).
Proof using HR KVMLaws0 ArchLaws0.
  unfold vcpu_turn. respects_step; [apply loop_body_respects|].
  destruct a; [apply after_loop_respects|respects_tac].
Qed.

Lemma RunInfiniteLoop_respects fuel cpu trace w r w' :
  RunInfiniteLoop h fuel cpu trace w = Some (r, w') -> R w w'.
Proof using HR KVMLaws0 ArchLaws0.
  revert w. induction fuel as [|fuel IH]; intros w Hr; [done|]. cbn in Hr.
  pose proof (loop_body_respects cpu trace w) as Hb.
  destruct (loop_body h cpu trace w) as [[[err|]|e|p] w1]; simplify_eq; try done.
  etrans; [exact Hb|by apply IH].
Qed.

End Frames.

(** ** What a turn of the goroutine can do *)

Section Turns.
Context {K O H : Type} `{!KVM K, !Arch K O H}.
Abbreviation W := (World K O H).
Context (h : handler_t K O H).

Lemma exit_reason_no_error cpu : no_error (exit_reason (K:=K) (O:=O) (H:=H) cpu).
Proof using Type. unfold exit_reason. no_error_tac. Qed.

Lemma RunOnce_no_error cpu : no_error (RunOnce h cpu).
Proof using Type.
  unfold RunOnce. repeat first [apply exit_reason_no_error|no_error_step].
Qed.

(** [RunOnce] never asks to continue with an error. *)
Lemma RunOnce_continue cpu w err w' :
  RunOnce h cpu w = (Ok (true, err), w') -> err = None.
Proof using Type.
  unfold RunOnce. intros E. apply bind_Ok_inv in E as (cs & w1 & _ & E).
  case_decide; [by simplify_eq/=|].
  apply bind_Ok_inv in E as (c & w2 & _ & E).
  apply bind_Ok_inv in E as ([u|e] & w3 & _ & E); [|by simplify_eq/=].
  apply bind_Ok_inv in E as (x & w4 & _ & E).
  repeat case_decide; try (by inversion E).
  apply bind_Ok_inv in E as ([?|?] & w5 & _ & E); by inversion E.
Qed.

(** One iteration of the loop in terms of [RunOnce]. *)
Lemma loop_body_stop cpu trace w err w' :
  RunOnce h cpu w = (Ok (false, err), w') ->
  loop_body h cpu trace w = (Ok (Some err), w').
Proof using Type. intros E. unfold loop_body. by rewrite (run_bind_Ok _ _ _ _ _ E). Qed.

Lemma loop_body_continue cpu trace w err w' :
  RunOnce h cpu w = (Ok (true, err), w') ->
  loop_body h cpu trace w = (attempt (SingleStep trace) ;; mret None) w'.
Proof using Type.
  intros E. unfold loop_body. rewrite (run_bind_Ok _ _ _ _ _ E).
  by rewrite (RunOnce_continue _ _ _ _ E).
Qed.

Lemma SingleStep_returns b (w : W) : exists r w', attempt (SingleStep b) w = (Ok r, w').
Proof using Type.
  unfold SingleStep, attempt. unfold mbind, M_bind, gets. generalize (w_vcpus w). intros cs.
  revert w. induction cs as [|c cs IH]; intros w; cbn [for_range]; [by do 2 eexists|].
  unfold mbind, M_bind, wrap_err, vcpu_SingleStep, Ioctl_checked, Ioctl, mbind, M_bind.
  destruct (sys_ioctl _ _ _ _ _) as [[[res errno] a] kv]. cbn beta iota.
  destruct (decide (errno = 0)); cbn; [apply IH|by do 2 eexists].
Qed.

Lemma loop_body_no_error cpu trace : no_error (loop_body h cpu trace).
Proof using Type.
  unfold loop_body. apply no_error_bind; [apply RunOnce_no_error|].
  intros [[|] [e|]]; no_error_tac.
Qed.

Lemma after_loop_no_error cpu trace err :
  no_error (after_loop (K:=K) (O:=O) (H:=H) cpu trace err).
Proof using Type. unfold after_loop, trace_line. no_error_tac. Qed.

Lemma vcpu_turn_no_error cpu trace : no_error (vcpu_turn h cpu trace).
Proof using Type.
  unfold vcpu_turn. apply no_error_bind; [apply loop_body_no_error|].
  intros [err|]; [apply after_loop_no_error|apply no_error_ret].
Qed.

(** ** The loop as a relation

    [loops cpu trace w r]: a finite run of [RunInfiniteLoop] from [w] ends in
    [r].  A guest that never leaves gives no such run. *)
Inductive loops (cpu : Z) (trace : bool) : W -> outcome (option error) * W -> Prop :=
  | loops_return w err w' :
      RunOnce h cpu w = (Ok (false, err), w') -> loops cpu trace w (Ok err, w')
  | loops_panic w p w' :
      RunOnce h cpu w = (Panic p, w') -> loops cpu trace w (Panic p, w')
  | loops_continue w w1 s w2 r :
      RunOnce h cpu w = (Ok (true, None), w1) ->
      attempt (SingleStep trace) w1 = (Ok s, w2) ->
      loops cpu trace w2 r -> loops cpu trace w r.

Lemma RunInfiniteLoop_sound fuel cpu trace w r :
  RunInfiniteLoop h fuel cpu trace w = Some r -> loops cpu trace w r.
Proof using Type.
  revert w. induction fuel as [|fuel IH]; intros w E; [done|]. cbn in E.
  destruct (RunOnce h cpu w) as [[[[|] err]|e|p] w1] eqn:E1.
  - rewrite (loop_body_continue _ _ _ _ _ E1) in E.
    pose proof (RunOnce_continue _ _ _ _ E1) as ->.
    destruct (SingleStep_returns trace w1) as (s & w2 & E2).
    rewrite (run_bind_Ok _ _ _ _ _ E2) in E. cbn in E.
    eapply loops_continue; eauto.
  - rewrite (loop_body_stop _ _ _ _ _ E1) in E. simplify_eq. by apply loops_return.
  - by apply RunOnce_no_error in E1.
  - unfold loop_body in E. rewrite (run_bind_Panic _ _ _ _ _ E1) in E. simplify_eq.
    by apply loops_panic.
Qed.

Lemma RunInfiniteLoop_complete cpu trace w r :
  loops cpu trace w r -> exists fuel, RunInfiniteLoop h fuel cpu trace w = Some r.
Proof using Type.
  induction 1 as [w err w' E|w p w' E|w w1 s w2 r E1 E2 _ [fuel IH]].
  - exists 1%nat. cbn. by rewrite (loop_body_stop _ _ _ _ _ E).
  - exists 1%nat. cbn. unfold loop_body. by rewrite (run_bind_Panic _ _ _ _ _ E).
  - exists (S fuel). cbn. rewrite (loop_body_continue _ _ _ _ _ E1).
    by rewrite (run_bind_Ok _ _ _ _ _ E2).
Qed.

(** More fuel gives the same result. *)
Lemma RunInfiniteLoop_mono fuel fuel' cpu trace w r :
  (fuel <= fuel')%nat ->
  RunInfiniteLoop h fuel cpu trace w = Some r ->
  RunInfiniteLoop h fuel' cpu trace w = Some r.
Proof using Type.
  revert fuel' w. induction fuel as [|fuel IH]; intros fuel' w Hle E; [done|].
  destruct fuel' as [|fuel']; [lia|]. cbn in *.
  destruct (loop_body h cpu trace w) as [[[err|]|e|p] w1]; try done.
  apply IH; [lia|done].
Qed.

(** ** The goroutine as a sequence of turns

    [turns cpu trace w r]: a finite number of turns from [w] ends the
    goroutine with [r], the line about the exit printed last. *)
Inductive turns (cpu : Z) (trace : bool) : W -> outcome unit * W -> Prop :=
  | turns_exit w err w' :
      vcpu_turn h cpu trace w = (Ok (Some err), w') ->
      turns cpu trace w (Ok tt, add_event (cpu_exit_line cpu err) w')
  | turns_panic w p w' :
      vcpu_turn h cpu trace w = (Panic p, w') -> turns cpu trace w (Panic p, w')
  | turns_step w w1 r :
      vcpu_turn h cpu trace w = (Ok None, w1) -> turns cpu trace w1 r -> turns cpu trace w r.

(** What the goroutine does with the end of an inner loop. *)
Definition finish_loop (fuel : nat) (cpu : Z) (trace : bool)
    (r : option (outcome (option error) * W)) : option (outcome unit * W) :=
  match r with
  | None => None
  | Some (Ok err, w') =>
      match after_loop cpu trace err w' with
      | (Ok None, w'') => vcpu_goroutine h fuel cpu trace w''
      | (Ok (Some err), w'') => Some (emit (cpu_exit_line cpu err) w'')
      | (Err e, w'') => Some (Err e, w'')
      | (Panic p, w'') => Some (Panic p, w'')
      end
  | Some (Err e, w') => Some (Err e, w')
  | Some (Panic p, w') => Some (Panic p, w')
  end.

Lemma vcpu_goroutine_S fuel cpu trace w :
  vcpu_goroutine h (S fuel) cpu trace w =
  finish_loop fuel cpu trace (RunInfiniteLoop h (S fuel) cpu trace w).
Proof using Type. reflexivity. Qed.

Lemma vcpu_goroutine_mono fuel fuel' cpu trace w r :
  (fuel <= fuel')%nat -> vcpu_goroutine h fuel cpu trace w = Some r ->
  vcpu_goroutine h fuel' cpu trace w = Some r.
Proof using Type.
  revert fuel' w. induction fuel as [|fuel IH]; intros fuel' w Hle E; [done|].
  destruct fuel' as [|fuel']; [lia|]. rewrite vcpu_goroutine_S in *.
  destruct (RunInfiniteLoop h (S fuel) cpu trace w) as [x|] eqn:El; [|done].
  rewrite (RunInfiniteLoop_mono (S fuel) (S fuel') _ _ _ _ ltac:(lia) El).
  destruct x as [[err|e|p] w1]; [|done..]. unfold finish_loop in *.
  destruct (after_loop cpu trace err w1) as [[[err'|]|e|p] w2]; try done.
  apply IH; [lia|done].
Qed.

(** One iteration of the inner loop more. *)
Lemma vcpu_goroutine_step fuel cpu trace w w1 r :
  loop_body h cpu trace w = (Ok None, w1) -> vcpu_goroutine h fuel cpu trace w1 = Some r ->
  vcpu_goroutine h (S fuel) cpu trace w = Some r.
Proof using Type.
  intros El E. destruct fuel as [|fuel]; [done|]. rewrite vcpu_goroutine_S in *.
  replace (RunInfiniteLoop h (S (S fuel)) cpu trace w)
    with (RunInfiniteLoop h (S fuel) cpu trace w1).
  2: { symmetry. cbn [RunInfiniteLoop]. by rewrite El. }
  destruct (RunInfiniteLoop h (S fuel) cpu trace w1) as [[[err|e|p] w2]|]; try done.
  unfold finish_loop in *.
  destruct (after_loop cpu trace err w2) as [[[err'|]|e|p] w3]; try done.
  apply (vcpu_goroutine_mono fuel); [lia|done].
Qed.

Lemma turns_loop_body cpu trace w w1 r :
  loop_body h cpu trace w = (Ok None, w1) -> turns cpu trace w1 r -> turns cpu trace w r.
Proof using Type.
  intros El. apply turns_step. unfold vcpu_turn. by rewrite (run_bind_Ok _ _ _ _ _ El).
Qed.

(** Soundness, by induction on the fuel of the inner loop inside that of the
    outer one. *)
Lemma vcpu_goroutine_turns fuel cpu trace w r :
  vcpu_goroutine h fuel cpu trace w = Some r -> turns cpu trace w r.
Proof using Type.
  revert w. induction fuel as [|fuel IH]; intros w E; [done|]. rewrite vcpu_goroutine_S in E.
  revert w E. generalize (S fuel) as n. induction n as [|n IHn]; intros w E; [done|].
  cbn [RunInfiniteLoop] in E.
  destruct (loop_body h cpu trace w) as [[[err|]|e|p] w1] eqn:El.
  - cbn [finish_loop] in E.
    assert (Et : vcpu_turn h cpu trace w = after_loop cpu trace err w1)
      by (unfold vcpu_turn; by rewrite (run_bind_Ok _ _ _ _ _ El)).
    destruct (after_loop cpu trace err w1) as [[[err'|]|e|p] w2] eqn:Ea.
    + injection E as <-. by apply turns_exit.
    + eapply turns_step; [exact Et|]. by apply IH.
    + by apply after_loop_no_error in Ea.
    + injection E as <-. by apply turns_panic.
  - eapply turns_loop_body; [exact El|]. by apply IHn.
  - by apply loop_body_no_error in El.
  - cbn in E. injection E as <-. apply turns_panic. unfold vcpu_turn.
    by rewrite (run_bind_Panic _ _ _ _ _ El).
Qed.

Lemma turns_vcpu_goroutine cpu trace w r :
  turns cpu trace w r -> exists fuel, vcpu_goroutine h fuel cpu trace w = Some r.
Proof using Type.
  induction 1 as [w err w' E|w p w' E|w w1 r E _ [fuel IH]]; unfold vcpu_turn, mbind, M_bind in E;
    destruct (loop_body h cpu trace w) as [[[err0|]|e|p0] w0] eqn:El; try done.
  - exists 1%nat. cbn. rewrite El. by rewrite E.
  - exists 1%nat. cbn. rewrite El. by rewrite E.
  - simplify_eq. exists 1%nat. cbn. by rewrite El.
  - exists (S fuel). rewrite vcpu_goroutine_S. cbn [RunInfiniteLoop]. rewrite El.
    cbn [finish_loop]. by rewrite E.
  - injection E as <-. exists (S fuel). by eapply vcpu_goroutine_step.
Qed.

End Turns.
