(* ===== verification/Boot.v ===== *)
(** * Boot: the goroutines of a running machine

    Models [src/boot.go], the goroutine that [StartVCPU] starts
    ([src/kvm/machine.go]) and the goroutine of [registerSignals]
    ([src/cmd/revisor/revisor.go]) as one transition system.  A configuration
    is the world, where the main goroutine is, the vcpu goroutines and the
    counter of the [WaitGroup]; an action lets one goroutine take a turn.  A
    turn of a vcpu is one iteration of its loop ([vcpu_turn]).  No step is
    possible once the main goroutine has returned from [Boot] or a goroutine
    has panicked: the process is gone. *)

From S2P Require Import Prelude Effects Ioctl Structs World Abi Vm Argv Machine.

(** ** Configurations *)

Inductive thread :=
  | Running (cpu : Z)
  | Exited (cpu : Z) (err : option error).

#[export] Instance thread_eq_dec : EqDecision thread.
Proof. solve_decision. Defined.

Definition thread_cpu (t : thread) : Z :=
  match t with Running cpu => cpu | Exited cpu _ => cpu end.

Definition is_running (t : thread) : bool :=
  match t with Running _ => true | Exited _ _ => false end.

(** [Booting i]: the loop of [Boot] at index [i], which for [i = NCPU] is the
    call of [wg.Wait()]. *)
Inductive main_state :=
  | Booting (i : Z)
  | Returned
  | Crashed (p : panic).

Record config (W : Type) := mkConfig {
  c_world : W; c_main : main_state; c_threads : list thread; c_wg : Z }.
Arguments mkConfig {W}.
Arguments c_world {W}.
Arguments c_main {W}.
Arguments c_threads {W}.
Arguments c_wg {W}.

Inductive action :=
  | ASpawn               (* the next iteration of the loop of [Boot] *)
  | AReturn              (* [wg.Wait()] comes back *)
  | ATurn (j : nat)      (* the [j]th vcpu goroutine takes a turn *)
  | ASignal (s : Z).     (* a signal reaches the signal goroutine *)

(** [syscall.Signal.String] on Linux. *)
Definition signal_names : list gostring :=
  str <$> ["hangup"; "interrupt"; "quit"; "illegal instruction"; "trace/breakpoint trap";
    "aborted"; "bus error"; "floating point exception"; "killed"; "user defined signal 1";
    "segmentation fault"; "user defined signal 2"; "broken pipe"; "alarm clock"; "terminated";
    "stack fault"; "child exited"; "continued"; "stopped (signal)"; "stopped";
    "stopped (tty input)"; "stopped (tty output)"; "urgent I/O condition";
    "CPU time limit exceeded"; "file size limit exceeded"; "virtual timer expired";
    "profiling timer expired"; "window changed"; "I/O possible"; "power failure";
    "bad system call"]%string.

Definition Signal_String (s : Z) : gostring :=
  match (if decide (0 < s) then signal_names !! Z.to_nat (s - 1) else None) with
  | Some name => name
  | None => str "signal " ++ FormatInt10 s
  end.

Section Boot.
Context {K O H : Type} `{!KVM K, !Arch K O H}.
Abbreviation W := (World K O H).
Context (h : handler_t K O H) (trace : bool).

(** [log.Println("booting vcpu", i)] and the part of [StartVCPU] before the
    goroutine; the error of [SingleStep] is dropped. *)
Definition StartVCPU (i : Z) : M W unit :=
  emit (ELog (str "booting vcpu " ++ FormatInt10 i)) ;;
  attempt (SingleStep trace) ;;
  mret tt.

(** One iteration of the loop of the signal goroutine ([c.Signal] is
    [InjectIrq SignalIRQ 1]). *)
Definition signal_turn (s : Z) : M W unit :=
  r ← attempt (InjectIrq SignalIRQ 1);
  match r with
  | inr e => emit (EPrintErr 2 (str "error handling signal " ++ Signal_String s ++ str ": ") (Some e))
  | inl _ => mret tt
  end.

(** The world after a computation without a result, or the panic that ends
    the process. *)
Definition after (r : outcome unit * W) (c : config W) : config W :=
  match r with
  | (Panic p, w) => mkConfig w (Crashed p) (c_threads c) (c_wg c)
  | (_, w) => mkConfig w (c_main c) (c_threads c) (c_wg c)
  end.

Definition do_action (a : action) (c : config W) : option (config W) :=
  match c_main c with
  | Returned | Crashed _ => None
  | Booting i =>
      let w := c_world c in
      let n := Z.of_nat (length (w_vcpus w)) in
      match a with
      | ASpawn =>
          if decide (i < n) then
            Some (after (StartVCPU i w)
                    (mkConfig w (Booting (i + 1)) (c_threads c ++ [Running i]) (c_wg c + 1)))
          else None
      | AReturn =>
          if decide (n <= i /\ c_wg c = 0)
          then Some (mkConfig w Returned (c_threads c) (c_wg c)) else None
      | ATurn j =>
          match c_threads c !! j with
          | Some (Running cpu) =>
              match vcpu_turn h cpu trace w with
              | (Ok None, w') => Some (mkConfig w' (Booting i) (c_threads c) (c_wg c))
              | (Ok (Some err), w') =>
                  Some (mkConfig (add_event (cpu_exit_line cpu err) w') (Booting i)
                          (<[j := Exited cpu err]> (c_threads c)) (c_wg c - 1))
              | (Err e, w') => Some (mkConfig w' (Crashed (PanicError e)) (c_threads c) (c_wg c))
              | (Panic p, w') => Some (mkConfig w' (Crashed p) (c_threads c) (c_wg c))
              end
          | _ => None
          end
      | ASignal s => Some (after (signal_turn s w) c)
      end
  end.

(** A schedule is a list of actions.  ([vcpu_turn] returns no error, by
    [vcpu_turn_no_error]: its errors are values.) *)
Fixpoint run_schedule (acts : list action) (c : config W) : option (config W) :=
  match acts with
  | [] => Some c
  | a :: acts => c ← do_action a c; run_schedule acts c
  end.

Definition step (c c' : config W) : Prop := exists a, do_action a c = Some c'.

(** [Boot] up to its loop. *)
Definition boot_config (w : W) : config W := mkConfig w (Booting 0) [] 0.

Definition Boot `{!ElfReader} (kernel : ReaderAt) (args : list gostring) : M W (config W) :=
  fun w =>
    match LoadKernel kernel args w with
    | (Ok _, w') => (Ok (boot_config w'), w')
    | (Err e, w') => (Err e, w')
    | (Panic p, w') => (Panic p, w')
    end.

Lemma run_schedule_rtc acts c c' : run_schedule acts c = Some c' -> rtc step c c'.
Proof using Type.
  revert c. induction acts as [|a acts IH]; intros c E; cbn in E; [by simplify_eq|].
  destruct (do_action a c) as [c1|] eqn:E1; [|done]. cbn in E.
  eapply rtc_l; [by exists a|]. by apply IH.
Qed.

Lemma rtc_run_schedule c c' : rtc step c c' -> exists acts, run_schedule acts c = Some c'.
Proof using Type.
  induction 1 as [c|c1 c2 c3 [a Ha] _ [acts IH]]; [by exists []|].
  exists (a :: acts). cbn. by rewrite Ha.
Qed.

(** ** The invariant of the [WaitGroup] *)

Definition running (ts : list thread) : Z := Z.of_nat (length (filter is_running ts)).

(** The counter is the number of goroutines that have not called [Done]; the
    goroutines are those of the vcpus booted so far, in order. *)
Definition wg_inv (c : config W) : Prop :=
  c_wg c = running (c_threads c) /\
  thread_cpu <$> c_threads c = seqZ 0 (Z.of_nat (length (c_threads c))) /\
  match c_main c with
  | Booting i => i = Z.of_nat (length (c_threads c)) /\
                 i <= Z.of_nat (length (w_vcpus (c_world c)))
  | Returned => Forall (fun t => is_running t = false) (c_threads c) /\
                Z.of_nat (length (c_threads c)) = Z.of_nat (length (w_vcpus (c_world c)))
  | Crashed _ => True
  end.

End Boot.

(** ** Lemmas *)

Lemma running_app ts t :
  running (ts ++ [t]) = running ts + (if is_running t then 1 else 0).
Proof.
  unfold running. rewrite filter_app, length_app, filter_cons, filter_nil.
  destruct t; simpl; lia.
Qed.

Lemma running_exit ts j cpu err :
  ts !! j = Some (Running cpu) -> running (<[j := Exited cpu err]> ts) = running ts - 1.
Proof.
  intros Hj. unfold running. rewrite insert_take_drop by (by eapply lookup_lt_Some).
  rewrite <- (take_drop_middle _ _ _ Hj) at 3.
  rewrite !filter_app, !length_app, !filter_cons. simpl. lia.
Qed.

Lemma running_zero ts : running ts = 0 -> Forall (fun t => is_running t = false) ts.
Proof.
  unfold running. intros E. apply Forall_forall. intros t Ht.
  destruct (is_running t) eqn:Er; [|done].
  assert (t ∈ filter is_running ts) as Hin.
  { apply list_elem_of_filter. by rewrite Er. }
  destruct (filter is_running ts); [by apply not_elem_of_nil in Hin|simpl in E; lia].
Qed.

Section BootFacts.
Context {K O H : Type} `{!KVM K, !KVMLaws K, !Arch K O H, !ArchLaws K O H}.
Abbreviation W := (World K O H).
Context (h : handler_t K O H) (trace : bool).

(** Any relation that contains the steps of a run contains every
    interleaving. *)
Section Interleavings.
Context (R : relation W) (HR : run_steps R h).

#[local] Instance boot_preorder : PreOrder R := rs_preorder R h HR.

Lemma StartVCPU_respects i : respects R (StartVCPU trace i).
Proof using HR KVMLaws0.
  unfold StartVCPU. respects_tac.
  - by apply (run_emit h).
  - by apply (run_SingleStep h).
Qed.

Lemma signal_turn_respects s : respects R (signal_turn s).
Proof using HR ArchLaws0.
  unfold signal_turn. respects_tac.
  - apply (run_kernel h R HR), InjectIrq_frame.
  - by apply (run_emit h).
Qed.

Lemma after_world (r : outcome unit * W) c : c_world (after r c) = r.2.
Proof using Type. by destruct r as [[]?]. Qed.

Lemma step_respects c c' : step h trace c c' -> R (c_world c) (c_world c').
Proof using HR KVMLaws0 ArchLaws0.
  intros [a Ha]. unfold do_action in Ha.
  destruct (c_main c) as [i| |p]; [|done..]. destruct a as [| |j|s].
  - case_decide; simplify_eq. rewrite after_world. apply StartVCPU_respects.
  - case_decide; simplify_eq. cbn. reflexivity.
  - destruct (c_threads c !! j) as [[cpu|]|]; [|done..].
    pose proof (vcpu_turn_respects h R HR cpu trace (c_world c)) as Ht.
    destruct (vcpu_turn h cpu trace (c_world c)) as [[[err|]|e|p] w']; simplify_eq; try done.
    cbn in *. etrans; [exact Ht|]. by apply (rs_print R h HR).
  - simplify_eq. rewrite after_world. apply signal_turn_respects.
Qed.

Lemma reachable_respects c c' : rtc (step h trace) c c' -> R (c_world c) (c_world c').
Proof using HR KVMLaws0 ArchLaws0.
  induction 1 as [c|c1 c2 c3 H12 _ IH]; [reflexivity|].
  etrans; [by apply step_respects|done].
Qed.

End Interleavings.

(** The vcpus do not change while they run. *)
Definition same_vcpus (w w' : W) : Prop := w_vcpus w' = w_vcpus w.

Context (HV : run_steps same_vcpus h).

(** No panic comes from the goroutines that do not run a vcpu. *)
Lemma StartVCPU_no_panic i (w : W) : exists w', StartVCPU trace i w = (Ok tt, w').
Proof using Type.
  unfold StartVCPU. erewrite run_bind_Ok; [|reflexivity].
  destruct (SingleStep_returns trace (add_event (ELog (str "booting vcpu " ++ FormatInt10 i)) w))
    as (r & w' & E).
  erewrite run_bind_Ok; [|exact E]. by exists w'.
Qed.

Lemma step_wg_inv c c' : wg_inv c -> step h trace c c' -> wg_inv c'.
Proof using HV KVMLaws0 ArchLaws0.
  intros Hinv Hs. pose proof (step_respects same_vcpus HV c c' Hs) as Hn.
  unfold same_vcpus in Hn. destruct Hs as [a Ha].
  destruct Hinv as (Hwg & Hcpu & Hmain). unfold wg_inv, do_action in *. rewrite Hn.
  destruct (c_main c) as [i| |p] eqn:Em; [|done..]. destruct Hmain as [-> Hi]. destruct a as [| |j|s].
  - case_decide; simplify_eq.
    destruct (StartVCPU_no_panic (Z.of_nat (length (c_threads c))) (c_world c)) as [w' ->].
    cbn. rewrite running_app, fmap_app, length_app, Hcpu. cbn. split_and!; [lia| |lia|lia].
    rewrite Nat2Z.inj_add, seqZ_app by lia. f_equal.
  - case_decide; simplify_eq. cbn. split_and!; [done|done| |lia].
    apply running_zero. lia.
  - destruct (c_threads c !! j) as [[cpu|]|] eqn:Ej; [|done..].
    destruct (vcpu_turn h cpu trace (c_world c)) as [[[err|]|e|p] w']; simplify_eq; cbn; try done.
    rewrite length_insert, (running_exit _ _ _ _ Ej).
    split_and!; [lia| |done|done].
    rewrite list_fmap_insert, list_insert_id; [done|]. by rewrite list_lookup_fmap, Ej.
  - simplify_eq. destruct (signal_turn s (c_world c)) as [[]?]; cbn; rewrite ?Em; auto.
Qed.

Lemma reachable_wg_inv (w : W) c : rtc (step h trace) (boot_config w) c -> wg_inv c.
Proof using HV KVMLaws0 ArchLaws0.
  intros Hr.
  assert (wg_inv (boot_config w)) as H0 by (split_and!; cbn; try done; lia).
  induction Hr as [c|c1 c2 c3 H12 _ IH]; [done|]. apply IH. by eapply step_wg_inv.
Qed.

(** No configuration short of the end is stuck. *)
Lemma wg_progress (c : config W) :
  wg_inv c -> (exists i, c_main c = Booting i) ->
  exists a c', (forall s, a ≠ ASignal s) /\ do_action h trace a c = Some c'.
Proof using Type.
  intros (Hwg & _ & Hmain) [i Hi]. rewrite Hi in Hmain. destruct Hmain as [Hil Hin].
  destruct (decide (i < Z.of_nat (length (w_vcpus (c_world c))))) as [Hlt|Hge].
  { exists ASpawn. eexists. split; [done|]. unfold do_action. rewrite Hi.
    by rewrite decide_True by lia. }
  destruct (decide (c_wg c = 0)) as [Hz|Hz].
  { exists AReturn. eexists. split; [done|]. unfold do_action. rewrite Hi.
    by rewrite decide_True by lia. }
  assert (exists j cpu, c_threads c !! j = Some (Running cpu)) as (j & cpu & Hj).
  { unfold running in Hwg. destruct (filter is_running (c_threads c)) as [|t l] eqn:Ef;
      [simpl in *; lia|].
    assert (t ∈ filter is_running (c_threads c)) as Ht by (rewrite Ef; left).
    apply list_elem_of_filter in Ht as [Ht [j Hj]%list_elem_of_lookup].
    destruct t as [cpu|]; [|done]. by exists j, cpu. }
  exists (ATurn j). unfold do_action. rewrite Hi, Hj.
  destruct (vcpu_turn h cpu trace (c_world c)) as [[[err|]|e|p] w']; eauto.
Qed.

End BootFacts.
