(* ===== verification/Load.v ===== *)
(** * Load: what [LoadKernel] puts into guest memory

    Lemmas on [LoadKernel] of [Machine.v]: the effect of one program header,
    of the whole table, and the reference image they are compared with. *)

From S2P Require Import Prelude Effects Ioctl Structs World Abi Vm Argv Machine.

(** ** Reference image *)

Section Image.
Context {K O H : Type} `{!KVM K, !Arch K O H}.
Abbreviation W := (World K O H).

(** Where a segment goes: its offset in guest memory. *)
Definition seg_start (p : Prog) : Z := ka2pa (p_Vaddr p) - physRamBase.

Definition is_load (p : Prog) : bool := bool_decide (p_Type p = PT_LOAD).

(** The bytes of a segment in memory: those of the file, then zeros. *)
Definition seg_image (bs : list byte) (p : Prog) : list byte :=
  read_at (Z.to_nat (p_Off p)) (Z.to_nat (p_Filesz p)) bs ++
  replicate (Z.to_nat (p_Memsz p - p_Filesz p)) x00.

(** The program header is sane for a file of [nfile] bytes and a guest memory
    of [nmem] bytes: the segment lies in the file and, above the kernel base,
    in memory.  [debug/elf] gives 64-bit fields. *)
Definition seg_ok (nfile nmem : Z) (p : Prog) : Prop :=
  physKernBase - physRamBase <= seg_start p /\
  seg_start p + p_Memsz p <= nmem /\
  0 <= p_Filesz p <= p_Memsz p /\
  0 <= p_Off p /\ p_Off p + p_Filesz p <= nfile.

#[export] Instance seg_ok_dec a b p : Decision (seg_ok a b p).
Proof. unfold seg_ok. apply _. Defined.

(** Some memory is left behind the bytes of the segment that come from the
    file. *)
Definition seg_room (nmem : Z) (p : Prog) : Prop :=
  p_Filesz p = 0 \/ seg_start p + p_Filesz p < nmem.

#[export] Instance seg_room_dec a p : Decision (seg_room a p).
Proof. unfold seg_room. apply _. Defined.

Definition load_image (bs : list byte) (mem : list byte) (p : Prog) : list byte :=
  if is_load p then write_at (Z.to_nat (seg_start p)) (seg_image bs p) mem else mem.

Definition load_images (bs : list byte) (ps : list Prog) (mem : list byte) : list byte :=
  foldl (load_image bs) mem ps.

Definition file_bytes (ps : list Prog) : Z :=
  foldr (fun p n => (if is_load p then p_Filesz p else 0) + n) 0 ps.

(** The windows of two segments do not overlap. *)
Definition seg_disjoint (p q : Prog) : Prop :=
  seg_start p + p_Memsz p <= seg_start q \/ seg_start q + p_Memsz q <= seg_start p.

#[export] Instance seg_disjoint_dec p q : Decision (seg_disjoint p q).
Proof. unfold seg_disjoint. apply _. Defined.

(** ** One segment *)

Lemma length_seg_image bs p nmem :
  seg_ok (Z.of_nat (length bs)) nmem p ->
  length (seg_image bs p) = Z.to_nat (p_Memsz p).
Proof.
  intros (? & ? & ? & ? & ?). unfold seg_image.
  rewrite length_app, length_replicate, length_read_at by lia. lia.
Qed.

(** Filling a window with zeros, byte by byte. *)
Lemma zero_fill_spec n lo (w : W) :
  0 <= lo -> lo + Z.of_nat n <= Z.of_nat (length (w_mem w)) ->
  for_range (seqZ lo (Z.of_nat n)) (fun i => mem_store i x00) w =
  (Ok tt, set_mem (write_at (Z.to_nat lo) (replicate n x00) (w_mem w)) w).
Proof.
  revert lo w. induction n as [|n IH]; intros lo w H1 H2.
  { cbn. by rewrite write_at_nil, set_mem_same. }
  rewrite seqZ_cons by lia. cbn [for_range].
  assert (Hl : length (write_at (Z.to_nat lo) [x00] (w_mem w)) = length (w_mem w))
    by (apply length_write_at; simpl; lia).
  erewrite run_bind_Ok.
  2: { unfold mem_store, mem_len. rewrite decide_True by lia. reflexivity. }
  replace (Z.pred (Z.of_nat (S n))) with (Z.of_nat n) by lia.
  rewrite IH by (rewrite ?w_mem_set_mem; lia).
  change (set_mem ?m (set_mem _ w)) with (set_mem m w). rewrite w_mem_set_mem.
  do 2 f_equal. change (replicate (S n) x00) with ([x00] ++ replicate n x00).
  rewrite <- write_at_app by (rewrite length_replicate; simpl; lia).
  f_equal. simpl. lia.
Qed.

Lemma zero_fill_window lo hi (w : W) :
  0 <= lo <= hi -> hi <= Z.of_nat (length (w_mem w)) ->
  zero_fill lo hi w =
  (Ok tt, set_mem (write_at (Z.to_nat lo) (replicate (Z.to_nat (hi - lo)) x00) (w_mem w)) w).
Proof.
  intros. unfold zero_fill. replace (hi - lo) with (Z.of_nat (Z.to_nat (hi - lo))) at 1 by lia.
  apply zero_fill_spec; lia.
Qed.

(** What the section reader gives for a segment that the file contains. *)
Lemma section_reads bs off size n :
  0 <= off -> 0 <= size -> off + size <= Z.of_nat (length bs) ->
  size = 0 \/ size < Z.of_nat n ->
  section_ReadAt (bytes_Reader bs) off size n =
  (read_at (Z.to_nat off) (Z.to_nat size) bs, Some EOF).
Proof.
  intros H1 H2 H3 H4. unfold section_ReadAt, bytes_Reader, reader_ReadAt.
  case_decide as D1.
  { replace size with 0 by lia. by rewrite Z2Nat.inj_0. }
  rewrite !decide_True, !decide_False by lia.
  rewrite decide_False; [done|]. rewrite length_read_at; lia.
Qed.



Lemma load_prog_ok bs i p (w : W) :
  Z.of_nat (length (w_mem w)) < 2 ^ 63 -> Z.of_nat (length bs) < 2 ^ 63 ->
  p_Type p = PT_LOAD ->
  seg_ok (Z.of_nat (length bs)) (mem_len w) p -> seg_room (mem_len w) p ->
  load_prog (bytes_Reader bs) i p w =
  (Ok (p_Filesz p),
   set_mem (write_at (Z.to_nat (seg_start p)) (seg_image bs p) (w_mem w)) w).
Proof using Type.
  unfold mem_len. intros Hm Hb Ht (H1 & H2 & H3 & H4 & H5) Hroom.
  unfold load_prog. rewrite decide_False by (intros X; by apply X).
  unfold seg_room, seg_start in *. set (st := ka2pa (p_Vaddr p) - physRamBase) in *.
  assert (0 <= st) by (unfold physKernBase, physRamBase in *; lia).
  rewrite (u64_id st) by (unfold is_u; lia).
  rewrite !i64_small by lia.
  erewrite run_bind_Ok; [|unfold mem_slice_from; apply mem_slice_Ok; lia]. cbn [s_len].
  rewrite section_reads by lia.
  erewrite run_bind_Ok; [|reflexivity]. cbn beta iota zeta.
  rewrite length_read_at by lia.
  replace (negb (is_EOF (Some EOF)) || _) with false.
  2: { cbn. symmetry. apply bool_decide_eq_false. lia. }
  cbn [s_off s_len].
  rewrite take_ge by (rewrite length_read_at; lia).
  set (data := read_at _ _ bs).
  assert (Hd : length data = Z.to_nat (p_Filesz p)) by (apply length_read_at; lia).
  assert (Hl : length (write_at (Z.to_nat st) data (w_mem w)) = length (w_mem w))
    by (apply length_write_at; lia).
  rewrite !u64_id by (unfold is_u; lia).
  erewrite run_bind_Ok; [|apply zero_fill_window; rewrite ?w_mem_set_mem; lia].
  unfold mret, M_ret. f_equal; [f_equal; lia|].
  change (set_mem ?m (set_mem _ w)) with (set_mem m w). rewrite w_mem_set_mem. f_equal.
  unfold seg_image. fold data.
  rewrite <- write_at_app by (rewrite length_replicate; lia).
  f_equal; [lia|]. f_equal. lia.
Qed.

(** A segment that the file does not contain in full, or that leaves no byte
    of memory behind it, is refused. *)
Lemma load_prog_refuses bs i p (w : W) :
  Z.of_nat (length (w_mem w)) < 2 ^ 63 -> 0 <= p_Off p < 2 ^ 63 ->
  p_Type p = PT_LOAD ->
  0 <= seg_start p <= mem_len w -> 0 < p_Filesz p < 2 ^ 63 ->
  Z.of_nat (length bs) < p_Off p + p_Filesz p \/ mem_len w <= seg_start p + p_Filesz p ->
  exists n err w', load_prog (bytes_Reader bs) i p w = (Err (load_error i p n err), w') /\
    (err = None \/ n < p_Filesz p).
Proof.
  unfold mem_len. intros Hm Ho Ht Hst Hf Hbad. unfold load_prog.
  rewrite decide_False by (intros X; by apply X). fold (seg_start p).
  rewrite (u64_id (seg_start p)) by (unfold is_u; lia). rewrite !i64_small by lia.
  erewrite run_bind_Ok; [|unfold mem_slice_from; apply mem_slice_Ok; lia]. cbn [s_len].
  destruct (section_ReadAt _ _ _ _) as [data err] eqn:Es.
  assert (err = None \/ Z.of_nat (length data) < p_Filesz p) as Hres.
  { unfold section_ReadAt, bytes_Reader, reader_ReadAt in Es.
    repeat case_decide; simplify_eq/=; try lia; try tauto;
      unfold read_at in *; rewrite ?length_take, ?length_drop in *; right; lia. }
  erewrite run_bind_Ok; [|reflexivity]. cbn beta iota zeta.
  replace (negb (is_EOF err) || _) with true; [do 3 eexists; split; [reflexivity|done]|].
  symmetry. apply orb_true_iff. destruct Hres as [->|Hn]; [by left|right].
  apply bool_decide_eq_true. lia.
Qed.

(** ** The table of program headers *)

Lemma length_load_image bs mem p :
  is_load p = false \/ seg_ok (Z.of_nat (length bs)) (Z.of_nat (length mem)) p ->
  length (load_image bs mem p) = length mem.
Proof.
  unfold load_image. intros Hp. destruct (is_load p); [|done].
  destruct Hp as [Hp|Hp]; [done|]. apply length_write_at.
  erewrite length_seg_image by exact Hp.
  destruct Hp as (? & ? & ? & ? & ?). unfold physKernBase, physRamBase in *. lia.
Qed.

(** Every header is of another type or describes a segment that fits. *)
Definition table_ok (bs : list byte) (nmem : Z) (ps : list Prog) : Prop :=
  Forall (fun p => is_load p = false \/
                   (seg_ok (Z.of_nat (length bs)) nmem p /\ seg_room nmem p)) ps.

Lemma length_load_images bs ps mem :
  table_ok bs (Z.of_nat (length mem)) ps -> length (load_images bs ps mem) = length mem.
Proof.
  revert mem. induction ps as [|p ps IH]; intros mem Hok; [done|].
  inversion Hok as [|?? Hp Hps]; subst. cbn.
  assert (Hl : length (load_image bs mem p) = length mem).
  { apply length_load_image. destruct Hp as [?|[? _]]; [by left|by right]. }
  unfold load_images in IH. rewrite IH; [done|]. by rewrite Hl.
Qed.

Lemma load_progs_app k i sz ps ps' (w : W) :
  load_progs k i sz (ps ++ ps') w =
  (n ← load_progs k i sz ps; load_progs k (i + Z.of_nat (length ps)) n ps') w.
Proof.
  revert i sz w. induction ps as [|p ps IH]; intros i sz w.
  { cbn [app load_progs length]. by rewrite Z.add_0_r. }
  cbn [app load_progs length]. unfold mbind, M_bind in *.
  destruct (load_prog k i p w) as [[n|e|x] w1]; [|done..]. rewrite IH.
  replace (i + Z.of_nat (S (length ps))) with (i + 1 + Z.of_nat (length ps)) by lia. done.
Qed.

Lemma load_progs_ok bs i sz ps (w : W) :
  Z.of_nat (length (w_mem w)) < 2 ^ 63 -> Z.of_nat (length bs) < 2 ^ 63 ->
  table_ok bs (mem_len w) ps ->
  load_progs (bytes_Reader bs) i sz ps w =
  (Ok (sz + file_bytes ps), set_mem (load_images bs ps (w_mem w)) w).
Proof.
  intros Hm Hb. revert i sz w Hm. induction ps as [|p ps IH]; intros i sz w Hm Hok.
  { cbn. by rewrite set_mem_same, Z.add_0_r. }
  inversion Hok as [|?? Hp Hps]; subst. cbn [load_progs].
  assert (E : load_prog (bytes_Reader bs) i p w =
              (Ok (if is_load p then p_Filesz p else 0),
               set_mem (load_image bs (w_mem w) p) w)).
  { unfold load_image. destruct (is_load p) eqn:El.
    - destruct Hp as [Hp|[Hp Hr]]; [done|]. apply load_prog_ok; try done.
      by apply bool_decide_eq_true in El.
    - apply bool_decide_eq_false in El. unfold load_prog. rewrite decide_True by done.
      by rewrite set_mem_same. }
  assert (Hl : length (load_image bs (w_mem w) p) = length (w_mem w)).
  { apply length_load_image. destruct Hp as [?|[? _]]; [by left|by right]. }
  erewrite run_bind_Ok; [|exact E]. rewrite IH.
  - cbn [file_bytes foldr]. f_equal. f_equal. unfold file_bytes. lia.
  - by rewrite w_mem_set_mem, Hl.
  - unfold mem_len in *. by rewrite w_mem_set_mem, Hl.
Qed.

(** A segment that is refused, wherever it stands in the table. *)
Lemma load_progs_refuses bs ps p ps' (w : W) :
  Z.of_nat (length (w_mem w)) < 2 ^ 63 -> Z.of_nat (length bs) < 2 ^ 63 ->
  table_ok bs (mem_len w) ps -> p_Type p = PT_LOAD -> 0 <= p_Off p < 2 ^ 63 ->
  0 <= seg_start p <= mem_len w -> 0 < p_Filesz p < 2 ^ 63 ->
  Z.of_nat (length bs) < p_Off p + p_Filesz p \/ mem_len w <= seg_start p + p_Filesz p ->
  exists n err w', load_progs (bytes_Reader bs) 0 0 (ps ++ p :: ps') w =
                   (Err (load_error (Z.of_nat (length ps)) p n err), w').
Proof.
  intros Hm Hb Hok Ht Ho Hst Hf Hbad.
  pose proof (length_load_images bs ps (w_mem w) Hok) as Hl.
  destruct (load_prog_refuses bs (Z.of_nat (length ps)) p (set_mem (load_images bs ps (w_mem w)) w))
    as (n & err & w' & Hp & _); unfold mem_len in *; rewrite ?w_mem_set_mem, ?Hl; try done.
  exists n, err, w'. rewrite load_progs_app.
  erewrite run_bind_Ok; [|by apply load_progs_ok]. cbn [load_progs].
  rewrite Z.add_0_l. by apply run_bind_Err.
Qed.

(** A window that no segment touches is left as it was. *)
Lemma load_images_outside bs ps mem off n :
  table_ok bs (Z.of_nat (length mem)) ps ->
  Forall (fun p => is_load p = true ->
     Z.of_nat (off + n) <= seg_start p \/ seg_start p + p_Memsz p <= Z.of_nat off) ps ->
  read_at off n (load_images bs ps mem) = read_at off n mem.
Proof.
  revert mem. induction ps as [|p ps IH]; intros mem Hok Hd; [done|].
  inversion Hok as [|?? Hp Hps]; inversion Hd as [|?? Hd1 Hd2]; subst. cbn.
  assert (Hl : length (load_image bs mem p) = length mem).
  { apply length_load_image. destruct Hp as [?|[? _]]; [by left|by right]. }
  change (foldl (load_image bs) ?m ps) with (load_images bs ps m).
  rewrite IH; [|by rewrite Hl|done].
  unfold load_image. destruct (is_load p); [|done]. destruct Hp as [Hp|[Hp _]]; [done|].
  specialize (Hd1 eq_refl). pose proof (length_seg_image _ _ _ Hp) as Hsi.
  destruct Hp as (? & ? & ? & ? & ?). unfold physKernBase, physRamBase in *.
  apply read_write_at_disjoint; lia.
Qed.

(** Every segment of a table without overlaps is found in memory. *)
Lemma load_images_inside bs ps mem p :
  table_ok bs (Z.of_nat (length mem)) ps ->
  ForallOrdPairs (fun p q => is_load p = true -> is_load q = true -> seg_disjoint p q) ps ->
  p ∈ ps -> is_load p = true ->
  read_at (Z.to_nat (seg_start p)) (Z.to_nat (p_Memsz p)) (load_images bs ps mem)
  = seg_image bs p.
Proof.
  revert mem. induction ps as [|q ps IH]; intros mem Hok Hd Hin Hl; [by apply not_elem_of_nil in Hin|].
  inversion Hok as [|?? Hp Hps]; inversion Hd as [|?? Hd1 Hd2]; subst. cbn.
  assert (Hlen : length (load_image bs mem q) = length mem).
  { apply length_load_image. destruct Hp as [?|[? _]]; [by left|by right]. }
  change (foldl (load_image bs) ?m ps) with (load_images bs ps m).
  apply elem_of_cons in Hin as [->|Hin]; [|apply IH; [by rewrite Hlen|done..]].
  destruct Hp as [Hp|[Hp _]]; [congruence|].
  pose proof (length_seg_image _ _ _ Hp) as Hsi.
  destruct Hp as (? & ? & ? & ? & ?). unfold physKernBase, physRamBase in *.
  rewrite load_images_outside.
  - unfold load_image. rewrite Hl, <- Hsi. apply read_write_at. lia.
  - by rewrite Hlen.
  - apply Forall_forall. intros r Hr Hrl. rewrite Forall_forall in Hd1.
    specialize (Hd1 r Hr Hl Hrl). unfold seg_disjoint in Hd1. lia.
Qed.

(** ** The whole load *)

Lemma LoadKernel_runs `{!ElfReader} bs e args (w : W) :
  elf_NewFile (bytes_Reader bs) = inl e ->
  Z.of_nat (length (w_mem w)) < 2 ^ 63 -> Z.of_nat (length bs) < 2 ^ 63 ->
  table_ok bs (mem_len w) (e_Progs e) -> file_bytes (e_Progs e) ≠ 0 ->
  argv_size args <= physKernBase - physRamBase <= mem_len w ->
  LoadKernel (bytes_Reader bs) args w =
  SetupRegs (e_Entry e) (u64 (Z.of_nat (length args)))
    (pa2ka (physRamBase + strings_size args))
    (set_mem (write_at 0 (argv_image args 0) (load_images bs (e_Progs e) (w_mem w))) w).
Proof.
  unfold mem_len. intros He Hm Hb Hok Hne [Hargv Hmem]. unfold LoadKernel. rewrite He.
  erewrite run_bind_Ok; [|reflexivity].
  erewrite run_bind_Ok; [|by apply load_progs_ok].
  pose proof (length_load_images bs (e_Progs e) (w_mem w) Hok) as Hl.
  rewrite Z.add_0_l.
  erewrite run_bind_Ok.
  2: { rewrite argv_WriteAt_fits by (rewrite ?w_mem_set_mem, ?Hl; lia).
       rewrite decide_False by lia. reflexivity. }
  by rewrite decide_False by done.
Qed.

End Image.
