(* ===== verification/Build.v ===== *)
(** * Build: what [NewMachine] builds

    Lemmas on [NewMachine] ([src/kvm/machine.go]) and [vm.go]: a machine that
    was built without an error has the vcpus and the memory it was asked for,
    every vcpu has its mapped [kvm_run] page, and the two regions of guest
    memory were announced to the kernel.  On such a machine [RunOnce] reads
    the exit reason of the vcpu it ran. *)

From S2P Require Import Prelude Effects Ioctl Structs World Abi Vm Argv Machine.

(** Runs the primitive steps in a hypothesis. *)
Ltac run_inv E :=
  unfold wrap_err, lift_sum, modify, gets, fail, mbind, M_bind, mret, M_ret in E; simplify_eq.

Section Build.
Context {K O H : Type} `{!KVM K, !KVMLaws K, !Arch K O H, !ArchLaws K O H}.
Abbreviation W := (World K O H).
Implicit Types (w : W).

(** Every vcpu has its entry in [m.runs], and the page behind it is mapped. *)
Definition runs_wf w : Prop :=
  forall i c, w_vcpus w !! i = Some c ->
    m_runs (w_mach w) !! i = Some (Some (vcpu_fd c)) /\
    is_Some (kv_runs (w_kv w) !! vcpu_fd c).

Definition machine_wf w : Prop :=
  length (m_runs (w_mach w)) = length (w_vcpus w) /\ runs_wf w.

(** The parts of the world a construction step leaves alone. *)
Record same_shape w w' : Prop := {
  ss_vm : m_vm (w_mach w') = m_vm (w_mach w);
  ss_runs : m_runs (w_mach w') = m_runs (w_mach w);
  ss_hand : w_hand w' = w_hand w;
  ss_os : w_os w' = w_os w;
  ss_mem : length (w_mem w') = length (w_mem w);
  ss_pages : dom (kv_runs (w_kv w')) = dom (kv_runs (w_kv w));
  ss_trace : exists evs, w_trace w' = evs ++ w_trace w }.

#[export] Instance same_shape_preorder : PreOrder same_shape.
Proof.
  split.
  - intros w. split; try done. by exists [].
  - intros w1 w2 w3 [?????? [e1 T1]] [?????? [e2 T2]]. split; try congruence.
    exists (e2 ++ e1). by rewrite T2, T1, app_assoc.
Qed.

Lemma irq_same_shape {GA : GoArch} w w' : irq_frame w w' -> same_shape w w'.
Proof using Type.
  intros (Hm & ? & ? & ? & ? & evs & _ & ? & _). unfold forget_irqfd in Hm. cbn in Hm.
  injection Hm as ? ? ?. split; try done. by exists evs.
Qed.

Lemma kernel_same_shape {GA : GoArch} w w' : kernel_only w w' -> same_shape w w'.
Proof using Type. intros Hk. by apply irq_same_shape, kernel_only_irq_frame. Qed.

Lemma kernel_step {GA : GoArch} {A} (m : M W A) w r w' :
  respects kernel_only m -> m w = (r, w') -> same_shape w w'.
Proof using Type. intros Hm E. apply kernel_same_shape. specialize (Hm w). by rewrite E in Hm. Qed.

Lemma runs_wf_shape w w' : same_shape w w' -> runs_wf w -> runs_wf w'.
Proof using Type.
  intros [Hv Hr _ _ _ Hp _] Hwf i c. unfold w_vcpus. rewrite Hv, Hr. intros Hc.
  destruct (Hwf i c Hc) as [? [pg Hs]]. split; [done|].
  apply elem_of_dom. rewrite Hp. apply elem_of_dom. eauto.
Qed.

(** ** The vm *)

Lemma NewVM_ok kfd memSize w w' :
  NewVM kfd memSize w = (Ok tt, w') ->
  exists fd mem sys, m_vm (w_mach w') = mkVm fd mem (mkMMap sys Getpagesize) [] /\
    length (w_mem w') = Z.to_nat memSize /\ w_hand w' = w_hand w /\ w_os w' = w_os w /\
    m_runs (w_mach w') = m_runs (w_mach w).
Proof using KVMLaws0 ArchLaws0.
  unfold NewVM. intros E. apply bind_Ok_inv in E as (v & w1 & E1 & E).
  apply kernel_step in E1; [|unfold getAPIVersion; respects_tac]. case_decide; [done|].
  apply bind_Ok_inv in E as (vmfd & w2 & E2 & E).
  apply kernel_step in E2; [|respects_tac].
  apply bind_Ok_inv in E as (mem & w3 & E3 & E).
  unfold wrap_err, map_guest_ram in E3.
  destruct ((on_kernel _ ≫= _) w2) as [[x|?|?] w3'] eqn:E3'; simplify_eq.
  apply bind_Ok_inv in E3' as (r & w4 & E4 & E3). unfold on_kernel in E4.
  destruct (gommap_MapAt memSize (kv_state (w_kv w2))) as [r1 k1]. simplify_eq.
  apply bind_Ok_inv in E3 as (a & w5 & E5 & E3).
  destruct r as [a0|]; [|done]. run_inv E5.
  run_inv E3.
  apply bind_Ok_inv in E as (r & w6 & E6 & E). unfold on_kernel in E6.
  destruct (gommap_MapAt Getpagesize _) as [r2 k2] eqn:Eg. simplify_eq.
  apply bind_Ok_inv in E as (s & w7 & E7 & E).
  destruct r as [s0|]; [|done]. run_inv E7.
  run_inv E. destruct E1, E2.
  do 3 eexists. split_and!; [reflexivity| |cbn; congruence..].
  cbn. apply length_replicate.
Qed.

(** ** The loop over the vcpus *)

(** What one iteration does. *)
Lemma new_vcpu_ok sz cpu w w' :
  new_vcpu sz (Z.of_nat cpu) w = (Ok tt, w') ->
  cpu = length (w_vcpus w) -> (cpu < length (m_runs (w_mach w)))%nat -> runs_wf w ->
  runs_wf w' /\ length (w_vcpus w') = S cpu /\
  length (m_runs (w_mach w')) = length (m_runs (w_mach w)) /\
  length (w_mem w') = length (w_mem w) /\ w_hand w' = w_hand w /\ w_os w' = w_os w /\
  exists cs, m_vm (w_mach w') = mkVm (vm_fd (m_vm (w_mach w))) (vm_mem (m_vm (w_mach w)))
                                     (vm_sys (m_vm (w_mach w))) cs.
Proof using KVMLaws0 Arch0.
  unfold new_vcpu, addVCPU. intros E Hcpu Hlt Hwf.
  apply bind_Ok_inv in E as ([] & w1 & E1 & E).
  apply bind_Ok_inv in E1 as (v & w0 & Ev & E1). run_inv Ev.
  apply bind_Ok_inv in E1 as ([fd arg] & w2 & E2 & E1).
  apply kernel_step in E2; [|respects_tac]. destruct E2 as [Hv Hr Hh Ho Hm Hp _].
  run_inv E1.
  apply bind_Ok_inv in E as (cs & w3 & Ecs & E). run_inv Ecs.
  apply bind_Ok_inv in E as (c & w4 & Ec & E).
  unfold w_vcpus at 1 in Ec. cbn in Ec.
  erewrite index_Ok in Ec; [|lia|].
  2: { rewrite Nat2Z.id, lookup_app_r by done. by rewrite Nat.sub_diag. }
  simplify_eq.
  apply bind_Ok_inv in E as (r & w5 & E5 & E). unfold on_kernel in E5.
  destruct (sys_mmap _ _ _) as [r1 k1]. simplify_eq.
  apply bind_Ok_inv in E as (page & w6 & E6 & E).
  destruct r as [pg|]; [|done]. run_inv E6. run_inv E.
  split_and!; cbn; rewrite ?length_insert, ?Hr; try done.
  - intros i c. unfold w_vcpus. cbn. rewrite Hr, Nat2Z.id. intros Hi.
    apply lookup_app_Some in Hi as [Hi|[Hi1 Hi]].
    + destruct (Hwf i c Hi) as [H1 H2]. split.
      * rewrite list_lookup_insert_ne; [done|]. apply lookup_lt_Some in Hi.
        unfold w_vcpus. lia.
      * apply lookup_insert_is_Some. destruct (decide (fd = vcpu_fd c)); [by left|right].
        split; [done|]. apply elem_of_dom. rewrite Hp. by apply elem_of_dom.
    + apply list_lookup_singleton_Some in Hi as [Hi <-]. cbn. unfold w_vcpus in *.
      replace i with (length (vm_vcpus (m_vm (w_mach w0)))) by lia.
      rewrite list_lookup_insert_eq by lia. split; [done|].
      rewrite lookup_insert_eq. eauto.
  - unfold w_vcpus. cbn. rewrite length_app. simpl. unfold w_vcpus. lia.
  - eexists. reflexivity.
Qed.

Lemma new_vcpus_ok sz n k w w' :
  for_range (seqZ (Z.of_nat k) (Z.of_nat n)) (new_vcpu sz) w = (Ok tt, w') ->
  k = length (w_vcpus w) -> length (m_runs (w_mach w)) = (k + n)%nat -> runs_wf w ->
  machine_wf w' /\ length (w_vcpus w') = (k + n)%nat /\
  length (w_mem w') = length (w_mem w) /\ w_hand w' = w_hand w /\ w_os w' = w_os w /\
  exists cs, m_vm (w_mach w') = mkVm (vm_fd (m_vm (w_mach w))) (vm_mem (m_vm (w_mach w)))
                                     (vm_sys (m_vm (w_mach w))) cs.
Proof using KVMLaws0 Arch0.
  revert k w. induction n as [|n IH]; intros k w E Hk Hl Hwf.
  { change (seqZ (Z.of_nat k) (Z.of_nat 0)) with (@nil Z) in E. cbn [for_range] in E. run_inv E.
    split_and!; try done; [split; [lia|done]|].
    exists (w_vcpus w'). unfold w_vcpus. by destruct (m_vm (w_mach w')). }
  rewrite seqZ_cons in E by lia. cbn [for_range] in E.
  apply bind_Ok_inv in E as ([] & w1 & E1 & E).
  apply new_vcpu_ok in E1 as (Hwf1 & Hn1 & Hl1 & Hm1 & Hh1 & Ho1 & cs1 & Hv1); [|lia..|done].
  replace (Z.succ (Z.of_nat k)) with (Z.of_nat (S k)) in E by lia.
  replace (Z.pred (Z.of_nat (S n))) with (Z.of_nat n) in E by lia.
  apply IH in E as (Hwf' & Hn & Hm & Hh & Ho & cs & Hv); [|lia..|done].
  split_and!; [done|lia|congruence|congruence|congruence|]. exists cs. by rewrite Hv, Hv1.
Qed.

(** ** Guest memory *)

Definition region_event (fd : Z) (r : UserspaceMemoryRegion) : event :=
  EIoctl fd (IIOW kvmSetUserMemoryRegion (sizeof UserspaceMemoryRegion_ty))
         TMemRegion (r : denote TMemRegion).

Lemma set_region_ok msg r w w' :
  wrap_err msg (SetUserspaceMemoryRegion r) w = (Ok tt, w') ->
  same_shape w w' /\ w_trace w' = region_event (vm_fd (m_vm (w_mach w))) r :: w_trace w.
Proof using KVMLaws0 Arch0.
  intros E. split.
  { eapply kernel_step; [|exact E]. unfold SetUserspaceMemoryRegion. respects_tac. }
  revert E. unfold wrap_err, SetUserspaceMemoryRegion, Ioctl_checked, Ioctl, mbind, M_bind, gets.
  cbn -[IIOW sizeof]. destruct (sys_ioctl _ _ _ _ _) as [[[res errno] a] kv]. cbn -[IIOW sizeof].
  destruct (decide (errno = 0)); cbn -[IIOW sizeof]; intros; by simplify_eq.
Qed.

(** The two regions, as the kernel is told about them. *)
Definition ram_region (w : W) : UserspaceMemoryRegion :=
  mkRegion 0 0 physRamBase (u64 (mem_len w)) (u64 (vm_mem (m_vm (w_mach w)))).

Definition sys_region (w : W) : UserspaceMemoryRegion :=
  mkRegion 1 kvmMemReadonly physSysBase (u64 (mm_len (vm_sys (m_vm (w_mach w)))))
           (u64 (mm_addr (vm_sys (m_vm (w_mach w))))).

Lemma initMemory_ok w w' :
  initMemory w = (Ok tt, w') ->
  same_shape w w' /\
  w_trace w' = region_event (vm_fd (m_vm (w_mach w))) (sys_region w) ::
               region_event (vm_fd (m_vm (w_mach w))) (ram_region w) :: w_trace w.
Proof using KVMLaws0 Arch0.
  unfold initMemory. intros E.
  apply bind_Ok_inv in E as (v & w0 & E0 & E). run_inv E0.
  apply bind_Ok_inv in E as (n & w1 & E1 & E). run_inv E1.
  apply bind_Ok_inv in E as (a & w3 & E3 & E). unfold first_byte_addr in E3.
  case_decide; [|done]. run_inv E3.
  apply bind_Ok_inv in E as ([] & w2 & E2 & E). apply set_region_ok in E2 as [S2 T2].
  apply bind_Ok_inv in E as (s & w5 & E5 & E). unfold first_byte_addr in E5.
  case_decide; [|done]. run_inv E5.
  apply set_region_ok in E as [S4 T4]. split; [by etrans|].
  rewrite T4, T2. by rewrite (ss_vm _ _ S2).
Qed.

(** ** The whole construction *)

(** What follows the loop over the vcpus. *)
Lemma finish_ok w w' :
  (machine_init ;; initMemory ;; finalizeIrqController) w = (Ok tt, w') ->
  same_shape w w' /\
  region_event (vm_fd (m_vm (w_mach w'))) (ram_region w') ∈ w_trace w' /\
  region_event (vm_fd (m_vm (w_mach w'))) (sys_region w') ∈ w_trace w'.
Proof using KVMLaws0 ArchLaws0.
  intros E. apply bind_Ok_inv in E as ([] & w1 & E1 & E).
  apply kernel_step in E1; [|respects_tac].
  apply bind_Ok_inv in E as ([] & w2 & E2 & E). apply initMemory_ok in E2 as [S2 T2].
  apply kernel_step in E; [|respects_tac].
  assert (S : same_shape w1 w') by (by etrans). split; [by etrans|].
  destruct (ss_trace _ _ E) as [evs Ht]. rewrite Ht, T2.
  assert (ram_region w' = ram_region w1 /\ sys_region w' = sys_region w1) as [-> ->].
  { unfold ram_region, sys_region, mem_len. by rewrite (ss_vm _ _ S), (ss_mem _ _ S). }
  rewrite (ss_vm _ _ S). set_solver.
Qed.

(** What precedes it, once the vm is there. *)
Lemma prepare_ok kfd ncpus w w' :
  (modify (set_mach (mkMachine kfd 0 (m_vm (w_mach w)) (replicate (Z.to_nat ncpus) None))) ;;
   createIrqController) w = (Ok tt, w') ->
  m_vm (w_mach w') = m_vm (w_mach w) /\ length (m_runs (w_mach w')) = Z.to_nat ncpus /\
  length (w_mem w') = length (w_mem w) /\ w_hand w' = w_hand w /\ w_os w' = w_os w.
Proof using ArchLaws0.
  intros E. erewrite run_bind_Ok in E by reflexivity.
  match type of E with _ ?w0 = _ =>
    pose proof (createIrqController_frame w0) as Hq end.
  rewrite E in Hq. cbn [snd] in Hq. apply irq_same_shape in Hq as [Hv Hr Hh Ho Hm _ _].
  rewrite Hv, Hr, Hh, Ho, Hm. cbn [set_mach w_mach m_vm m_runs w_hand w_os].
  by rewrite length_replicate.
Qed.

Lemma NewMachine_built path ncpus memSize w w' :
  NewMachine path ncpus memSize w = (Ok tt, w') ->
  machine_wf w' /\ Z.of_nat (length (w_vcpus w')) = ncpus /\
  length (w_mem w') = Z.to_nat memSize /\ w_hand w' = w_hand w /\ w_os w' = w_os w /\
  mm_len (vm_sys (m_vm (w_mach w'))) = Getpagesize /\
  region_event (vm_fd (m_vm (w_mach w'))) (ram_region w') ∈ w_trace w' /\
  region_event (vm_fd (m_vm (w_mach w'))) (sys_region w') ∈ w_trace w'.
Proof using KVMLaws0 ArchLaws0.
  unfold NewMachine. intros E.
  apply bind_Ok_inv in E as (r & w1 & E1 & E). unfold on_kernel in E1.
  destruct (sys_open _ _) as [r1 k1]. simplify_eq.
  apply bind_Ok_inv in E as (kfd & w2 & E2 & E). destruct r; [|done]. run_inv E2.
  apply bind_Ok_inv in E as ([] & w3 & E3 & E).
  apply NewVM_ok in E3 as (fd & mem & sys & Hvm & Hmem & Hh & Ho & _).
  apply bind_Ok_inv in E as ([] & w4 & E4 & E). apply kernel_step in E4; [|respects_tac].
  apply bind_Ok_inv in E as (msz & w5 & E5 & E).
  apply kernel_step in E5; [|unfold getVCPUMMmapSize; respects_tac].
  apply bind_Ok_inv in E as (v & w6 & E6 & E). run_inv E6.
  apply bind_Ok_inv in E as ([] & w7 & E7 & E). case_decide; [done|]. run_inv E7.
  rewrite <- bind_assoc in E.
  apply bind_Ok_inv in E as ([] & w9 & E9 & E).
  apply prepare_ok in E9 as (Hv9 & Hr9 & Hm9 & Hh9 & Ho9).
  rewrite (ss_vm _ _ E5), (ss_vm _ _ E4), Hvm in Hv9.
  apply bind_Ok_inv in E as ([] & w10 & E10 & E).
  replace ncpus with (Z.of_nat (Z.to_nat ncpus)) in E10 at 1 by lia.
  assert (Hcs : w_vcpus w9 = []) by (unfold w_vcpus; by rewrite Hv9).
  apply (new_vcpus_ok _ _ 0%nat) in E10 as ([Hwl Hwr] & Hn & Hm10 & Hh10 & Ho10 & cs & Hv10);
    [|by rewrite Hcs|lia|intros i c; by rewrite Hcs, lookup_nil].
  apply finish_ok in E as (S & Hram & Hsys).
  split_and!; [|unfold w_vcpus in *; rewrite (ss_vm _ _ S); lia| | | | |done|done].
  - split; [|by eapply runs_wf_shape]. unfold w_vcpus.
    rewrite (ss_runs _ _ S), (ss_vm _ _ S). exact Hwl.
  - by rewrite (ss_mem _ _ S), Hm10, Hm9, (ss_mem _ _ E5), (ss_mem _ _ E4).
  - by rewrite (ss_hand _ _ S), Hh10, Hh9, (ss_hand _ _ E5), (ss_hand _ _ E4).
  - by rewrite (ss_os _ _ S), Ho10, Ho9, (ss_os _ _ E5), (ss_os _ _ E4).
  - by rewrite (ss_vm _ _ S), Hv10, Hv9.
Qed.

End Build.
