(* ===== verification/TestHost.v ===== *)
(** * TestHost: a concrete kernel and a concrete host

    Small executable instances of the classes [KVM], [HostOS] and
    [Disassembler], with proofs of their laws: they show that what the
    theorems assume of the environment can hold, and they make the whole
    model run on concrete inputs.

    The kernel plays a script: each [KVM_RUN] takes the next exit, installs
    its registers and reports its reason; without a script entry the vcpu
    halts.  Translation is the identity below the kernel half and the direct
    map above it.  The host has a map of files and records what is written. *)

From S2P Require Import Prelude Effects Ioctl Structs World Abi Vm Cpuid ArchAmd64 Path Machine.

Module TestHost.

(** ** Kernel *)

Record exit_step := mkStep { ex_reason : Z; ex_regs : Regs; ex_one : gmap Z Z }.

Record kernel := mkKernel {
  tk_regs : Regs; tk_sregs : Sregs; tk_one : gmap Z Z; tk_script : list exit_step }.

Definition run_page (reason : Z) : RunData :=
  mkRunData 0 0 reason 0 0 0 0 0 (replicate 32 0).

(** The result of a request that carries no struct. *)
Definition answer (op : Z) (arg : Z) : Z :=
  if decide (op = IIO kvmGetAPIVersion) then 12
  else if decide (op = IIO kvmCreateVM) then 5
  else if decide (op = IIO kvmCreateVCPU) then 10 + arg
  else if decide (op = IIO kvmGetVCPUMMapSize) then 4096
  else if decide (op = IIO kvmCheckExtension) then 1
  else 0.

Definition set_reason (fd reason : Z) (runs : gmap Z RunData) : gmap Z RunData :=
  match runs !! fd with
  | Some _ => <[fd := run_page reason]> runs
  | None => runs
  end.

Definition do_run (fd : Z) (v : kview kernel) : kview kernel :=
  let k := kv_state v in
  match tk_script k with
  | [] => mkView k (kv_mem v) (set_reason fd ExitHlt (kv_runs v))
  | s :: rest =>
      mkView (mkKernel (ex_regs s) (tk_sregs k) (ex_one s) rest) (kv_mem v)
             (set_reason fd (ex_reason s) (kv_runs v))
  end.

Definition ioctl (fd op : Z) (t : ioty) : denote t -> kview kernel ->
    (Z * Z * denote t) * kview kernel :=
  match t return denote t -> kview kernel -> (Z * Z * denote t) * kview kernel with
  | TVal => fun a v =>
      if decide (op = IIO kvmRun) then ((0, 0, a), do_run fd v)
      else ((answer op a, 0, a), v)
  | TRegs => fun a v =>
      let k := kv_state v in
      if decide (op = IIOR kvmGetRegs (sizeof Regs_ty)) then ((0, 0, tk_regs k), v)
      else ((0, 0, a), mkView (mkKernel a (tk_sregs k) (tk_one k) (tk_script k))
                              (kv_mem v) (kv_runs v))
  | TSregs => fun a v =>
      let k := kv_state v in
      if decide (op = IIOR kvmGetSregs (sizeof Sregs_ty)) then ((0, 0, tk_sregs k), v)
      else ((0, 0, a), mkView (mkKernel (tk_regs k) a (tk_one k) (tk_script k))
                              (kv_mem v) (kv_runs v))
  | TOneReg => fun a v =>
      let k := kv_state v in
      if decide (op = IIOW kvmGetOneReg (sizeof KvmOneReg_ty)) then
        ((0, 0, mkOneReg (or_id a) (default 0 (tk_one k !! or_id a))), v)
      else ((0, 0, a), mkView (mkKernel (tk_regs k) (tk_sregs k)
                                 (<[or_id a := or_val a]> (tk_one k)) (tk_script k))
                              (kv_mem v) (kv_runs v))
  | TTranslation => fun a v =>
      ((0, 0, mkTranslation (LinearAddress a) (Amd64.ka2pa (LinearAddress a)) 1 1 0), v)
  | TCreateDevice => fun a v => ((0, 0, mkCreateDevice (cd_typ a) 7 (cd_flags a)), v)
  | _ => fun a v => ((0, 0, a), v)
  end.

#[export] Instance kvm : KVM kernel := {
  sys_ioctl := ioctl;
  sys_open _ k := (inl 3, k);
  sys_mmap _ _ k := (inl (run_page 0), k);
  gommap_MapAt n k := (if decide (0 < n) then inl 0x10000 else inr (Errno 22), k);
  Getpagesize := 4096 }.

#[export] Instance kvm_laws : KVMLaws kernel.
Proof.
  split; intros fd op t a v; destruct t; simpl; repeat case_decide; try done;
    unfold do_run, set_reason; destruct (tk_script _); simpl; try done;
    destruct (kv_runs v !! fd) eqn:E; try done;
    rewrite dom_insert_L; apply elem_of_dom_2 in E; set_solver.
Qed.

(** ** Host files: a file is its path *)

Record host := mkHost {
  th_files : gmap gostring (list byte);
  th_pos : gmap gostring Z;
  th_written : list (gostring * list byte) }.

Definition file_size (f : gostring) (o : host) : Z :=
  Z.of_nat (length (default [] (th_files o !! f))).

Definition host_read (f : gostring) (n : Z) (o : host) : (list byte * option error) * host :=
  let content := default [] (th_files o !! f) in
  let pos := default 0 (th_pos o !! f) in
  if decide (0 < n /\ Z.of_nat (length content) <= pos) then (([], Some EOF), o)
  else let data := read_at (Z.to_nat pos) (Z.to_nat n) content in
       ((data, None),
        mkHost (th_files o) (<[f := pos + Z.of_nat (length data)]> (th_pos o)) (th_written o)).

#[export] Instance os : HostOS host gostring := {
  os_Stdin := str "stdin"; os_Stdout := str "stdout"; os_Stderr := str "stderr";
  os_Getwd o := (inl (str "/work"), o);
  os_OpenFile p _ _ o :=
    (match th_files o !! p with Some _ => inl p | None => inr (Errno 2) end, o);
  os_Read := host_read;
  os_Write f data o :=
    ((Z.of_nat (length data), None),
     mkHost (th_files o) (th_pos o) ((f, data) :: th_written o));
  os_Seek f off whence o :=
    if decide (whence = 0 /\ 0 <= off)
    then (inl off, mkHost (th_files o) (<[f := off]> (th_pos o)) (th_written o))
    else (inr (Errno 22), o);
  os_Stat f o := (inl (mkFileInfo (file_size f o) 1700000000 500 0x81a4 1 1000 1000 0 42), o);
  os_ReadDirent _ _ o := (([], Some (Errno 20)), o);
  os_Now o := ((1700000000, 123456789), o) }.

#[export] Instance os_laws : HostOSLaws host gostring.
Proof.
  split.
  - intros o o' wd [= <- <-]. done.
  - intros f n o Hn. simpl. unfold host_read. case_decide; simpl; [lia|].
    unfold read_at. rewrite length_take. lia.
  - intros f n o Hn. simpl. lia.
Qed.

#[export] Instance disasm : Disassembler := {
  x86_inst := list byte;
  x86asm_Decode bs := match bs with [] => inr EOF | _ => inl bs end;
  x86asm_GNUSyntax _ _ := str "nop" }.

(** ** A small file format: the magic number, and one segment of the eight
    bytes at the start of the file that takes sixteen in memory. *)

Definition magic : list byte := [x7f; x45; x4c; x46].

Definition segment : Prog := mkProg PT_LOAD 0 (Amd64.pa2ka physKernBase) 8 16.

#[export] Instance elf : ElfReader := {
  elf_NewFile r :=
    if decide ((r 4%nat 0).1 = magic)
    then inl (mkElf (Amd64.pa2ka physKernBase) [segment])
    else inr (ErrorString (str "bad magic number")) }.

(** ** A small world: [n] bytes of guest memory and one vcpu *)

Definition registers (num a0 a1 a2 : Z) : Regs :=
  mkRegs num 0 0 a2 a1 a0 0 0 0 0 0 0 0 0 0 0 0x40008000 2.

Definition machine : Machine :=
  mkMachine 3 0 (mkVm 5 0x10000 (mkMMap 0x10000 4096) [mkVcpu 10]) [Some 10].

Definition world {H} (n : nat) (mem : list byte) (script : list exit_step) (h : H)
    (files : gmap gostring (list byte)) : World kernel host H :=
  mkWorld (mkView (mkKernel Regs_zero Sregs_zero ∅ script)
                  (mem ++ replicate (n - length mem) x00) {[10 := run_page 0]})
          machine h (mkHost files ∅ []) [].

End TestHost.
