(* ===== verification/Service.v ===== *)
(** * Service: the abstract file service behind the hypercalls

    What the hypercalls of [Container.v] promise a guest, without guest
    memory, addresses, 64-bit encodings or Go maps: directories are lists of
    path elements, the descriptors are a log to which an open appends and in
    which a close leaves a hole, names are walked element by element, and a
    request carries its data.  [ServiceSpec.v] proves that the container
    implements it. *)

From S2P Require Import Prelude Effects Structs World Path.

(** ** Names *)

(** Walking a name from the directory with the given elements. *)
Definition walk (cwd : list gostring) (name : gostring) : list gostring :=
  rev (fold_left (clean_step true) (split_on slash name) (rev cwd)).

(** A directory grants a path when its elements begin the path's, the last one
    up to a continuation of the name. *)
Fixpoint grants (dc pc : list gostring) : bool :=
  match dc, pc with
  | [], _ => true
  | [d], p :: _ => HasPrefix p d
  | d :: dc, p :: pc => bool_decide (d = p) && grants dc pc
  | _ :: _, [] => false
  end.

(** ** State, requests and replies *)

Record fs (F : Type) := mkFs {
  fs_dirs : list (list gostring);
  fs_log : list (option F) }.
Arguments mkFs {F}.
Arguments fs_dirs {F}.
Arguments fs_log {F}.

Inductive request :=
  | QOpen (name : gostring) (flags mode : Z)
  | QRead (fd n : Z)
  | QWrite (fd : Z) (data : list byte) (n : Z)
  | QSeek (fd off whence : Z)
  | QStat (fd : Z)
  | QDirents (fd n : Z)
  | QClose (fd : Z)
  | QTime
  | QNothing.

(** The value returned and the pieces of data handed back. *)
Definition reply : Type := Z * list (list byte).

Definition no_answer : reply := (2 ^ 64 - 1, []).
Definition log_limit : Z := 1024 * 1024.

Section Service.
Context {O F : Type} `{!HostOS O F}.
Implicit Types (s : fs F) (o : O).

Definition fs_lookup s (fd : Z) : option F :=
  if decide (0 <= fd) then mjoin (fs_log s !! Z.to_nat fd) else None.

(** The elements of the absolute path a name stands for. *)
Definition resolve (name : gostring) o : option (list gostring) * O :=
  if IsAbs name then (Some (walk [] name), o)
  else match os_Getwd o with
       | (inl wd, o') => (Some (walk (walk [] wd) name), o')
       | (inr _, o') => (None, o')
       end.

Definition with_open s o (fd : Z) (k : F -> reply * O) : option reply * fs F * O :=
  match fs_lookup s fd with
  | None => (Some no_answer, s, o)
  | Some f => let '(r, o') := k f in (Some r, s, o')
  end.

(** [None] as the reply is a service that went down. *)
Definition serve (q : request) s o : option reply * fs F * O :=
  match q with
  | QOpen name fl md =>
      match resolve name o with
      | (None, o) => (None, s, o)
      | (Some path, o) =>
          if existsb (fun d => grants d path) (fs_dirs s) then
            match os_OpenFile (render path) fl md o with
            | (inr _, o) => (Some no_answer, s, o)
            | (inl f, o) =>
                if decide (Z.of_nat (length (fs_log s)) < log_limit)
                then (Some (Z.of_nat (length (fs_log s)), []),
                      mkFs (fs_dirs s) (fs_log s ++ [Some f]), o)
                else (Some no_answer, s, o)
            end
          else (Some no_answer, s, o)
      end
  | QRead fd n => with_open s o fd (fun f =>
      let '((data, err), o) := os_Read f n o in
      (match err with
       | Some e => if errors_Is e EOF then 0 else no_answer.1
       | None => Z.of_nat (length data)
       end, [data], o))
  | QWrite fd data n => with_open s o fd (fun f =>
      let '(_, o) := os_Write f data o in (n, [], o))
  | QSeek fd off whence => with_open s o fd (fun f =>
      match os_Seek f off whence o with
      | (inl n, o) => (u64 n, [], o)
      | (inr _, o) => (no_answer, o)
      end)
  | QStat fd => with_open s o fd (fun f =>
      match os_Stat f o with
      | (inr _, o) => (no_answer, o)
      | (inl i, o) =>
          (0, [stat_bytes (mkStat (u64 (fi_Size i)) (fi_Mode i) (u64 (fi_MtimeUnix i))
                 (u64 (fi_MtimeNano i)) (fi_Uid i) (fi_Gid i) (fi_Dev i) (fi_Rdev i)
                 (fi_Ino i))], o)
      end)
  | QDirents fd n => with_open s o fd (fun f =>
      let '((data, err), o) := os_ReadDirent f n o in
      (match err with Some _ => no_answer.1 | None => Z.of_nat (length data) end, [data], o))
  | QClose fd =>
      match fs_lookup s fd with
      | None => (Some no_answer, s, o)
      | Some _ => (Some (0, []), mkFs (fs_dirs s) (<[Z.to_nat fd := None]> (fs_log s)), o)
      end
  | QTime => let '((sec, nsec), o) := os_Now o in
             (Some (0, [le_enc 8 (u64 sec); le_enc 8 (u64 nsec)]), s, o)
  | QNothing => (Some (0, []), s, o)
  end.

(** A sequence of requests. *)
Fixpoint serve_all (qs : list request) s o : fs F * O :=
  match qs with
  | [] => (s, o)
  | q :: qs => let '(_, s, o) := serve q s o in serve_all qs s o
  end.

Lemma serve_all_app qs qs' s o :
  serve_all (qs ++ qs') s o = let '(s, o) := serve_all qs s o in serve_all qs' s o.
Proof.
  revert s o. induction qs as [|q qs IH]; intros s o; [done|]. cbn [serve_all app].
  destruct (serve q s o) as [[r s'] o']. apply IH.
Qed.

End Service.

(** ** Names, lemmas *)

Lemma grants_covers dc pc : grants dc pc = true <-> covers dc pc.
Proof.
  revert pc. induction dc as [|d dc IH]; intros pc; [split; [by left|done]|].
  destruct pc as [|p pc].
  { split; [by destruct dc|]. intros [?|(pre & d' & x & rest & _ & E)]; [done|].
    by destruct pre. }
  destruct dc as [|d' dc].
  - cbn [grants]. rewrite HasPrefix_spec. split.
    + intros [t ->]. right. by exists [], d, t, pc.
    + intros [?|(pre & d0 & x & rest & E1 & E2)]; [done|].
      destruct pre as [|? [|? ?]]; simplify_eq/=. by exists x.
  - change (grants (d :: d' :: dc) (p :: pc)) with (bool_decide (d = p) && grants (d' :: dc) pc).
    rewrite andb_true_iff, bool_decide_eq_true, IH. split.
    + intros [-> [?|(pre & d0 & x & rest & E1 & E2)]]; [done|]. right.
      exists (p :: pre), d0, x, rest. by rewrite E1, E2.
    + intros [?|(pre & d0 & x & rest & E1 & E2)]; [done|].
      destruct pre as [|y pre]; simplify_eq/=. split; [done|]. right. eauto 8.
Qed.

Lemma split_on_app_sep sep a b :
  split_on sep (a ++ sep :: b) = split_on sep a ++ split_on sep b.
Proof.
  induction a as [|c a IH]; simpl.
  - by rewrite decide_True.
  - case_decide; [by rewrite IH|]. rewrite IH.
    destruct (split_on sep a) eqn:E; [by apply split_on_nonnil in E|done].
Qed.

(** A name in clean form is where its walk from the root ends. *)
Lemma Clean_walk p : IsAbs p = true -> Clean p = render (walk [] p) /\ Forall elem_ok (walk [] p).
Proof. apply Clean_rooted. Qed.

Lemma walk_from cwd p name :
  cwd = walk [] p -> walk cwd name = walk [] (p ++ slash :: name).
Proof.
  intros ->. unfold walk. cbn [rev].
  by rewrite rev_involutive, split_on_app_sep, fold_left_app.
Qed.

(** [filepath.Abs] is the walk of the service. *)
Lemma Abs_resolve {K O F H} `{!HostOS O F, !HostOSLaws O F} name (w : World K O H) :
  match resolve name (w_os w) with
  | (Some path, o) => Abs name w = (Ok (render path), set_os o w) /\ Forall elem_ok path
  | (None, o) => exists e, Abs name w = (Err e, set_os o w)
  end.
Proof.
  unfold resolve, Abs. destruct (IsAbs name) eqn:Ha.
  { destruct (Clean_walk name Ha) as [-> Hok]. split; [|done]. by destruct w. }
  unfold mbind, M_bind, on_os. destruct (os_Getwd (w_os w)) as [[wd|e] o] eqn:E; [|by eexists].
  unfold lift_sum, mret, M_ret. cbn beta iota. apply getwd_rooted in E.
  destruct wd as [|c wd]; [done|]. injection E as ->. change "/"%byte with slash.
  rewrite (walk_from _ (slash :: wd) name eq_refl).
  assert (Hr : IsAbs ((slash :: wd) ++ slash :: name) = true) by done.
  destruct (Clean_walk _ Hr) as [Hc Hok]. split; [|done]. unfold Join2. by rewrite <- Hc.
Qed.
