(* ===== verification/Container.v ===== *)
(** * Container: the hypercall handler and the file sandbox

    Models [src/container.go] and [src/hypercall.go]: the table of open
    files, the check on directories, and the ten hypercalls.  The handler
    reaches the machine through [Vm] (guest memory) and the class [Arch]
    (address translation, interrupt lines), and the host's files through
    [HostOS]. *)

From S2P Require Import Prelude Effects Ioctl Structs World Abi Vm Path.

(** ** Data *)

(** Hypercall numbers. *)
Definition hypWrite : Z := 0.
Definition hypExit : Z := 1.
Definition hypOpen : Z := 2.
Definition hypRead : Z := 3.
Definition hypClose : Z := 4.
Definition hypLseek : Z := 5.
Definition hypTime : Z := 6.
Definition hypFstat : Z := 7.
Definition hypGetdents64 : Z := 8.
Definition hypClearSignal : Z := 9.

(** [^uint64(0)]. *)
Definition errFail : Z := 2 ^ 64 - 1.
Definition fdMax : Z := 1024 * 1024.

Record Container (F : Type) := mkContainer {
  dirs : list gostring;
  fdtable : gmap Z F;
  nextfd : Z }.
Arguments mkContainer {F}.
Arguments dirs {F}.
Arguments fdtable {F}.
Arguments nextfd {F}.

Definition CanAccess {F} (c : Container F) (path : gostring) : bool :=
  existsb (HasPrefix path) (dirs c).

(** The bytes before the first zero. *)
Fixpoint cstring (data : list byte) : gostring :=
  match data with
  | [] => []
  | b :: data => if decide (b = x00) then [] else b :: cstring data
  end.

Section Container.
Context {K O F : Type} `{!KVM K, !HostOS O F}.

(** [filepath.Abs] on every directory; the three standard files are open. *)
Fixpoint abs_all {H} (ds : list gostring) : M (World K O H) (list gostring) :=
  match ds with
  | [] => mret []
  | d :: ds =>
      r ← attempt (Abs d);
      match r with
      | inr e => panic_with (PanicError e)
      | inl p => ps ← abs_all ds; mret (p :: ps)
      end
  end.

Definition NewContainer {H} (ds : list gostring) : M (World K O H) (Container F) :=
  ds ← abs_all ds;
  mret (mkContainer ds (<[0 := os_Stdin]> (<[1 := os_Stdout]> {[2 := os_Stderr]})) 3).

Abbreviation W := (World K O (Container F)).

Definition addFile (f : F) : M W Z :=
  c ← gets (fun w : W => w_hand w);
  if decide (fdMax <= nextfd c) then
    fail (ErrorString (str "reached maximum number of file descriptors"))
  else
    let fd := nextfd c in
    modify (set_hand (mkContainer (dirs c) (<[fd := f]> (fdtable c)) (u64 (fd + 1)))) ;;
    mret fd.

Context `{!Arch K O (Container F)}.

Definition Signal : M W unit := InjectIrq SignalIRQ 1.

(** ** The hypercalls *)

(** [f, ok := c.fdtable[fd]; if !ok { return errFail, nil }]. *)
Definition with_file (fd : Z) (k : F -> M W Z) : M W Z :=
  c ← gets (fun w : W => w_hand w);
  match fdtable c !! fd with
  | None => mret errFail
  | Some f => k f
  end.

Definition do_time (cpu a0 a1 : Z) : M W Z :=
  '(sec, nsec) ← on_os os_Now;
  a0 ← VtoP cpu a0;
  a1 ← VtoP cpu a1;
  s0 ← Slice a0 (u64 (a0 + 8));
  PutUint64 s0 (u64 sec) ;;
  s1 ← Slice a1 (u64 (a1 + 8));
  PutUint64 s1 (u64 nsec) ;;
  mret 0.

Definition do_getdents64 (cpu a0 a1 a2 : Z) : M W Z :=
  dirp ← VtoP cpu a1;
  with_file a0 (fun f =>
    s ← Slice dirp (u64 (dirp + a2));
    '(data, err) ← on_os (os_ReadDirent f (s_len s));
    slice_copy s data ;;
    match err with
    | Some _ => mret errFail
    | None => mret (Z.of_nat (length data))
    end).

Definition stat_of (info : FileInfo) : stat :=
  mkStat (u64 (fi_Size info)) (fi_Mode info) (u64 (fi_MtimeUnix info))
         (u64 (fi_MtimeNano info)) (fi_Uid info) (fi_Gid info) (fi_Dev info)
         (fi_Rdev info) (fi_Ino info).

Definition do_fstat (cpu a0 a1 : Z) : M W Z :=
  ptr ← VtoP cpu a1;
  with_file a0 (fun f =>
    r ← on_os (os_Stat f);
    match r with
    | inr _ => mret errFail
    | inl info =>
        s ← Slice ptr (u64 (ptr + stat_size));
        slice_copy s (stat_bytes (stat_of info)) ;;
        mret 0
    end).

(** The result of the write is not looked at. *)
Definition do_write (cpu a0 a1 a2 : Z) : M W Z :=
  ptr ← VtoP cpu a1;
  with_file a0 (fun f =>
    s ← Slice ptr (u64 (ptr + a2));
    data ← slice_bytes s;
    on_os (os_Write f data) ;;
    emit (EWriteFile data) ;;
    mret a2).

Definition do_lseek (a0 a1 a2 : Z) : M W Z :=
  with_file a0 (fun f =>
    r ← on_os (os_Seek f (i64 a1) (i64 a2));
    match r with
    | inr _ => mret errFail
    | inl n => mret (u64 n)
    end).

Definition blocked_msg (path : gostring) : gostring :=
  str "[info] blocked access to " ++ path ++ [x0a].

Definition do_open (cpu a0 a1 a2 : Z) : M W Z :=
  p ← VtoP cpu a0;
  s ← SliceEnd p;
  data ← slice_bytes s;
  r ← attempt (Abs (cstring data));
  match r with
  | inr e => panic_with (PanicError e)
  | inl abs =>
      c ← gets (fun w : W => w_hand w);
      if CanAccess c abs then
        emit (EOpenFile abs (i64 a1) (u32 a2)) ;;
        r ← on_os (os_OpenFile abs (i64 a1) (u32 a2));
        match r with
        | inr _ => mret errFail
        | inl f =>
            r ← attempt (addFile f);
            match r with
            | inr e =>
                emit (ELog (match e with ErrorString m => m | _ => [] end)) ;;
                mret errFail
            | inl fd => mret fd
            end
        end
      else
        emit (EStderr (blocked_msg abs)) ;;
        mret errFail
  end.

Definition do_read (cpu a0 a1 a2 : Z) : M W Z :=
  ptr ← VtoP cpu a1;
  with_file a0 (fun f =>
    s ← Slice ptr (u64 (ptr + a2));
    '(data, err) ← on_os (os_Read f (s_len s));
    slice_copy s data ;;
    match err with
    | Some e => if errors_Is e EOF then mret 0 else mret errFail
    | None => mret (Z.of_nat (length data))
    end).

(** The host file stays open; only the entry goes. *)
Definition do_close (a0 : Z) : M W Z :=
  with_file a0 (fun _ =>
    modify (fun w : W => let c := w_hand w in
      set_hand (mkContainer (dirs c) (delete a0 (fdtable c)) (nextfd c)) w) ;;
    mret 0).

(** The result of the injection is not looked at. *)
Definition do_clear_signal (a0 : Z) : M W Z :=
  attempt (InjectIrq (u32 a0) 0) ;;
  mret 0.

Definition unknown_hypercall (num pc : Z) : error :=
  Wrap (FormatInt10 num ++ str " (pc=" ++ FormatHex pc ++ str ")") ErrUnknownHypercall.

Definition Hypercall (cpu num a0 a1 a2 a3 a4 a5 : Z) : M W Z :=
  if decide (num = hypTime) then do_time cpu a0 a1
  else if decide (num = hypGetdents64) then do_getdents64 cpu a0 a1 a2
  else if decide (num = hypFstat) then do_fstat cpu a0 a1
  else if decide (num = hypWrite) then do_write cpu a0 a1 a2
  else if decide (num = hypLseek) then do_lseek a0 a1 a2
  else if decide (num = hypOpen) then do_open cpu a0 a1 a2
  else if decide (num = hypRead) then do_read cpu a0 a1 a2
  else if decide (num = hypClose) then do_close a0
  else if decide (num = hypExit) then fail ErrExit
  else if decide (num = hypClearSignal) then do_clear_signal a0
  else
    pc ← GetPc cpu;
    fail (unknown_hypercall num pc).

End Container.

(** ** What a step of the handler can be

    A relation that contains these elementary steps contains every run of
    [Hypercall]. *)

Record handler_steps {K O F} `{!KVM K, !GoArch} (R : relation (World K O (Container F))) : Prop := {
  hs_preorder : PreOrder R;
  hs_kernel : forall w w', kernel_only w w' -> R w w';
  hs_os : forall w o, R w (set_os o w);
  hs_mem : forall w mem, length mem = length (w_mem w) -> R w (set_mem mem w);
  hs_event : forall w e,
    match e with EOpenFile _ _ _ | EIoctl _ _ _ _ => False | _ => True end ->
    R w (add_event e w);
  hs_open : forall w p fl md,
    clean_abs p -> CanAccess (w_hand w) p = true ->
    R w (add_event (EOpenFile p fl md) w);
  hs_add : forall w f,
    nextfd (w_hand w) < fdMax ->
    R w (set_hand (mkContainer (dirs (w_hand w))
                     (<[nextfd (w_hand w) := f]> (fdtable (w_hand w)))
                     (u64 (nextfd (w_hand w) + 1))) w);
  hs_del : forall w fd,
    R w (set_hand (mkContainer (dirs (w_hand w)) (delete fd (fdtable (w_hand w)))
                     (nextfd (w_hand w))) w) }.

Section HandlerSteps.
Context {K O F : Type} `{!KVM K, !HostOS O F, !HostOSLaws O F}.
Abbreviation W := (World K O (Container F)).
Context `{!Arch K O (Container F), !ArchLaws K O (Container F)}.
Context (R : relation W) (HR : handler_steps R).

#[local] Instance R_preorder : PreOrder R := hs_preorder R HR.

Lemma steps_kernel {A} (m : M W A) : respects kernel_only m -> respects R m.
Proof using HR. intros Hm w. apply (hs_kernel R HR), Hm. Qed.

Lemma steps_VtoP cpu v : respects R (VtoP cpu v).
Proof using HR ArchLaws0. apply steps_kernel, VtoP_frame. Qed.

Lemma steps_InjectIrq i l : respects R (InjectIrq i l).
Proof using HR ArchLaws0. apply steps_kernel, InjectIrq_frame. Qed.

Lemma steps_GetPc cpu : respects R (GetPc cpu).
Proof using HR ArchLaws0. apply steps_kernel, GetPc_frame. Qed.

Lemma steps_on_os {A} (f : O -> A * O) : respects R (on_os f).
Proof using HR.
  intros w. unfold on_os. destruct (f (w_os w)). apply (hs_os R HR).
Qed.

Lemma steps_slice_bytes s : respects R (slice_bytes s).
Proof using HR. apply respects_gets, _. Qed.

Lemma steps_emit e :
  match e with EOpenFile _ _ _ | EIoctl _ _ _ _ => False | _ => True end ->
  respects R (emit e).
Proof using HR. intros He w. by apply (hs_event R HR). Qed.

Lemma steps_slice_copy w s bs :
  slice_in (length (w_mem w)) s -> R w (slice_copy s bs w).2.
Proof using HR.
  intros (H1 & H2 & H3). apply (hs_mem R HR). apply length_write_at.
  rewrite length_take. lia.
Qed.

Lemma steps_mem_slice lo hi : respects R (mem_slice lo hi).
Proof using HR. intros w. unfold mem_slice. case_decide; simpl; reflexivity. Qed.

Lemma steps_SliceEnd p : respects R (SliceEnd p).
Proof using HR. intros w. unfold SliceEnd, mem_slice_from. apply steps_mem_slice. Qed.

(** A callee fills a window of guest memory. *)
Lemma steps_fill {A} lo hi (f : Z -> O -> (list byte * A) * O) (k : list byte * A -> M W Z) :
  (forall r, respects R (k r)) ->
  respects R (s ← mem_slice lo hi;
              '(data, err) ← on_os (f (s_len s));
              slice_copy s data ;; k (data, err)).
Proof using HR.
  intros Hk w. unfold mbind, M_bind.
  destruct (mem_slice lo hi w) as [[s|e|p] w1] eqn:Es;
    [|unfold mem_slice in Es; case_decide; simplify_eq; reflexivity..].
  apply mem_slice_inv in Es as (-> & -> & Hs). unfold on_os.
  destruct (f _ (w_os w)) as [[data err] o]. cbn -[slice_copy].
  etrans; [apply (hs_os R HR w o)|].
  etrans; [apply (steps_slice_copy (set_os o w) _ data Hs)|].
  apply Hk.
Qed.

Lemma steps_put lo hi bs (k : M W Z) (g : slice -> M W unit) :
  (forall s, g s = slice_copy s bs \/ exists p, g s = panic_with p) ->
  respects R k ->
  respects R (s ← mem_slice lo hi; g s ;; k).
Proof using HR.
  intros Hg Hk w. unfold mbind, M_bind.
  destruct (mem_slice lo hi w) as [[s|e|p] w1] eqn:Es;
    [|unfold mem_slice in Es; case_decide; simplify_eq; reflexivity..].
  apply mem_slice_inv in Es as (-> & -> & Hs).
  destruct (Hg (mkSlice lo (hi - lo))) as [->|[p ->]]; [|simpl; reflexivity].
  cbn -[slice_copy]. etrans; [apply (steps_slice_copy w _ bs Hs)|]. apply Hk.
Qed.

Lemma steps_PutUint64 lo hi v (k : M W Z) :
  respects R k -> respects R (s ← mem_slice lo hi; PutUint64 s v ;; k).
Proof using HR.
  apply (steps_put _ _ (le_enc 8 v)). intros s. unfold PutUint64.
  case_decide; eauto.
Qed.

Lemma steps_with_file fd k : (forall f, respects R (k f)) -> respects R (with_file fd k).
Proof using HR. intros Hk. unfold with_file. respects_tac. Qed.

Lemma steps_Abs p : respects R (Abs p).
Proof using HR.
  unfold Abs, lift_sum. respects_tac. apply steps_on_os.
Qed.

#[local] Hint Resolve steps_VtoP steps_InjectIrq steps_GetPc steps_on_os
  steps_slice_bytes steps_SliceEnd steps_with_file steps_Abs : respects.

Lemma steps_addFile f : respects R (addFile f).
Proof using HR.
  intros w. unfold addFile, mbind, M_bind, gets. simpl.
  case_decide; simpl; [reflexivity|]. apply (hs_add R HR). lia.
Qed.

Lemma steps_open cpu a0 a1 a2 : respects R (do_open cpu a0 a1 a2).
Proof using HR ArchLaws0 HostOSLaws0.
  unfold do_open. apply respects_bind; [apply _|auto with respects|]. intros p0.
  apply respects_bind; [apply _|auto with respects|]. intros s0.
  apply respects_bind; [apply _|auto with respects|]. intros data.
  intros w. unfold mbind at 1, M_bind. pose proof (steps_Abs (cstring data) w) as HA.
  unfold attempt. destruct (Abs (cstring data) w) as [[abs|e|p] w1] eqn:EA; [|done..].
  apply Abs_clean in EA. simpl in HA. etrans; [exact HA|].
  unfold mbind, M_bind, gets. destruct (CanAccess (w_hand w1) abs) eqn:EC.
  - unfold emit, modify. etrans; [by apply (hs_open R HR w1 abs (i64 a1) (u32 a2))|].
    set (w2 := add_event _ w1). clearbody w2.
    pose proof (steps_on_os (os_OpenFile abs (i64 a1) (u32 a2)) w2) as HO.
    destruct (on_os _ w2) as [[[f|e]|e|p] w3]; [|done..].
    simpl in HO. etrans; [exact HO|].
    pose proof (steps_addFile f w3) as Hf. unfold attempt.
    destruct (addFile f w3) as [[fd|e|p] w4]; simpl in *; [done| |done].
    etrans; [exact Hf|]. by apply (hs_event R HR).
  - by apply (hs_event R HR).
Qed.

Lemma Hypercall_respects cpu num a0 a1 a2 a3 a4 a5 :
  respects R (Hypercall cpu num a0 a1 a2 a3 a4 a5).
Proof using HR ArchLaws0 HostOSLaws0.
  unfold Hypercall. repeat case_decide.
  - unfold do_time, Slice. respects_step; [auto with respects|].
    destruct a. do 2 (respects_step; [auto with respects|]).
    apply steps_PutUint64, steps_PutUint64. auto with respects typeclass_instances.
  - unfold do_getdents64, Slice. respects_tac. apply steps_with_file. intros f.
    apply (steps_fill _ _ (os_ReadDirent f) (fun '(data, err) => _)).
    intros [data err]. respects_tac.
  - unfold do_fstat, Slice. respects_tac. apply steps_with_file. intros f.
    apply respects_bind; [apply _|auto with respects|]. intros [info|e]; [|respects_tac].
    eapply steps_put; [eauto|]. respects_tac.
  - unfold do_write, Slice. respects_tac. apply steps_with_file. intros f.
    respects_step; [apply steps_mem_slice|]. respects_tac. by apply steps_emit.
  - unfold do_lseek. apply steps_with_file. intros f. respects_tac.
  - apply steps_open.
  - unfold do_read, Slice. respects_tac. apply steps_with_file. intros f.
    apply (steps_fill _ _ (os_Read f) (fun '(data, err) => _)).
    intros [data err]. respects_tac.
  - unfold do_close. apply steps_with_file. intros f. respects_tac.
    apply respects_modify. intros w. apply (hs_del R HR).
  - respects_tac.
  - unfold do_clear_signal. respects_tac.
  - respects_tac.
Qed.

End HandlerSteps.
