(* ===== verification/ContainerSpec.v ===== *)
(** * ContainerSpec: what the hypercall handler guarantees

    Theorems on [Container.v]: confinement of opened paths, the life of a
    descriptor, the effect of each hypercall on guest memory and on the
    table, and the errors and panics a guest can provoke.  Witnesses run on
    the concrete environment of [TestHost.v], on the amd64 target. *)

From S2P Require Import Prelude Effects Ioctl Structs World Abi Vm Path Container.
From S2P Require Import Cpuid ArchAmd64 TestHost.

(** ** Specification vocabulary *)

(** One hypercall of a guest. *)
Record call := mkCall {
  c_cpu : Z; c_num : Z; c_a0 : Z; c_a1 : Z; c_a2 : Z; c_a3 : Z; c_a4 : Z; c_a5 : Z }.

(** An event is acceptable for a container with directories [ds]. *)
Definition ev_allowed (ds : list gostring) (e : event) : Prop :=
  match e with
  | EOpenFile p _ _ => clean_abs p /\ existsb (HasPrefix p) ds = true
  | _ => True
  end.

(** The directories are fixed and only acceptable events are added. *)
Definition confined {K O F} (w w' : World K O (Container F)) : Prop :=
  dirs (w_hand w') = dirs (w_hand w) /\
  exists evs, w_trace w' = evs ++ w_trace w /\
              Forall (ev_allowed (dirs (w_hand w))) evs.

(** Every descriptor in use is below the next one to be given out. *)
Definition fd_ok {F} (c : Container F) : Prop :=
  3 <= nextfd c <= fdMax /\
  forall fd, is_Some (fdtable c !! fd) -> 0 <= fd < nextfd c.

(** The next descriptor only grows; one that was given out keeps its file or
    loses it for good. *)
Definition evolves {F} (c c' : Container F) : Prop :=
  dirs c' = dirs c /\ nextfd c <= nextfd c' /\
  (forall fd, fd < nextfd c -> fdtable c' !! fd = fdtable c !! fd \/ fdtable c' !! fd = None) /\
  (fd_ok c -> fd_ok c').

Definition container_evolves {K O F} (w w' : World K O (Container F)) : Prop :=
  fd_ok (w_hand w) -> evolves (w_hand w) (w_hand w').

(** Guest memory keeps its size and the machine is not touched. *)
Definition memory_stable {K O F} (w w' : World K O (Container F)) : Prop :=
  length (w_mem w') = length (w_mem w) /\ w_mach w' = w_mach w.

(** The window of [n] bytes at guest-physical address [p] lies in guest RAM. *)
Definition in_ram (len : nat) (p n : Z) : Prop :=
  physRamBase <= p /\ p + n <= physRamBase + Z.of_nat len.

#[export] Instance in_ram_dec len p n : Decision (in_ram len p n).
Proof. unfold in_ram. apply _. Defined.

(** The memory is small enough for the 64-bit offsets not to wrap into it. *)
Definition small_mem {K O H} (w : World K O H) : Prop :=
  Z.of_nat (length (w_mem w)) < 2 ^ 63.

(** ** Slices of guest memory *)

(** The offset of a guest-physical address, with its 64-bit wrap-around. *)
Lemma ram_offset x :
  is_u64 x ->
  (physRamBase <= x /\ u64 (x - physRamBase) = x - physRamBase) \/
  (x < physRamBase /\ u64 (x - physRamBase) = x - physRamBase + 2 ^ 64).
Proof.
  unfold is_u, u64, umod, physRamBase. intros Hx.
  destruct (decide (0x40000000 <= x)); [left|right]; (split; [lia|]).
  - apply Z.mod_small. lia.
  - rewrite <- (Z_mod_plus_full _ 1), Z.mod_small; lia.
Qed.

Lemma Slice_bounds {K O H} p n (w : World K O H) :
  is_u64 p -> is_u64 n -> small_mem w ->
  Slice p (u64 (p + n)) w =
  if decide (in_ram (length (w_mem w)) p n)
  then (Ok (mkSlice (p - physRamBase) n), w)
  else (Panic SliceOutOfRange, w).
Proof.
  unfold small_mem, in_ram, Slice. intros Hp Hn Hm.
  pose proof (ram_offset p Hp) as Hp'.
  pose proof (u64_range (p + n)) as Hq. pose proof (ram_offset _ Hq) as Hq'.
  assert (Hpn : u64 (p + n) = p + n \/ u64 (p + n) = p + n - 2 ^ 64).
  { unfold u64, umod, is_u in *.
    destruct (decide (p + n < 2 ^ 64)); [left; apply Z.mod_small; lia|right].
    rewrite <- (Z.mod_small (p + n - 2 ^ 64) (2 ^ 64)) by lia.
    by rewrite Zminus_mod, Z_mod_same_full, Z.sub_0_r, Z.mod_mod. }
  generalize dependent (u64 (p + n)). intros q Hq Hq' Hpn.
  generalize dependent (u64 (q - physRamBase)). intros hi Hq'.
  generalize dependent (u64 (p - physRamBase)). intros lo Hp'.
  unfold is_u, physRamBase, mem_slice in *.
  case_decide as H1; case_decide as H2; [|lia|lia|done]. do 3 f_equal; lia.
Qed.

Lemma SliceEnd_bounds {K O H} p (w : World K O H) :
  is_u64 p -> small_mem w ->
  SliceEnd p w =
  if decide (in_ram (length (w_mem w)) p 0)
  then (Ok (mkSlice (p - physRamBase) (physRamBase + Z.of_nat (length (w_mem w)) - p)), w)
  else (Panic SliceOutOfRange, w).
Proof.
  unfold small_mem, in_ram, SliceEnd, mem_slice_from. intros Hp Hm.
  pose proof (ram_offset p Hp) as Hw.
  generalize dependent (u64 (p - physRamBase)). intros lo Hw.
  unfold is_u, physRamBase, mem_slice in *.
  case_decide as H1; case_decide as H2; [|lia|lia|done]. do 3 f_equal; lia.
Qed.

(** ** The three relations contain every step of the handler *)

Section Relations.
Context {K O F : Type}.
Abbreviation W := (World K O (Container F)).

#[export] Instance confined_preorder : PreOrder (@confined K O F).
Proof.
  split.
  - intros w. split; [done|]. by exists [].
  - intros w1 w2 w3 (D1 & e1 & T1 & F1) (D2 & e2 & T2 & F2). split; [congruence|].
    exists (e2 ++ e1). rewrite T2, T1, app_assoc. split; [done|].
    rewrite D1 in F2. by apply Forall_app.
Qed.

#[export] Instance evolves_preorder : PreOrder (@container_evolves K O F).
Proof.
  split.
  - intros w _. split_and!; auto with lia.
  - intros w1 w2 w3 H12 H23 Hok.
    destruct (H12 Hok) as (D1 & N1 & S1 & O1).
    destruct (H23 (O1 Hok)) as (D2 & N2 & S2 & O2).
    split_and!; [congruence|lia| |auto].
    intros fd Hfd. destruct (S2 fd ltac:(lia)) as [-> | ->]; auto.
Qed.

#[export] Instance memory_stable_preorder : PreOrder (@memory_stable K O F).
Proof.
  split; [done|]. intros w1 w2 w3 [? ?] [? ?]. split; congruence.
Qed.

Context `{!KVM K, !GoArch}.

Lemma confined_steps : handler_steps (@confined K O F).
Proof.
  split; try apply _.
  - intros w w' (_ & Hh & _ & _ & _ & evs & He & Ht & _).
    split; [by rewrite Hh|]. exists evs. split; [done|].
    eapply Forall_impl; [exact He|]. by intros [].
  - intros w o. split; [done|]. by exists [].
  - intros w mem _. split; [done|]. by exists [].
  - intros w e He. split; [done|]. exists [e]. split; [done|].
    apply Forall_singleton. by destruct e.
  - intros w p fl md Hp Hc. split; [done|]. eexists [_]. split; [done|].
    by apply Forall_singleton.
  - intros w f _. split; [done|]. by exists [].
  - intros w fd. split; [done|]. by exists [].
Qed.

Lemma same_container_evolves (w w' : W) : w_hand w' = w_hand w -> container_evolves w w'.
Proof. intros E Hok. rewrite E. split_and!; auto with lia. Qed.

Lemma evolves_steps : handler_steps (@container_evolves K O F).
Proof.
  split; try apply _; try (intros; by apply same_container_evolves).
  - intros w w' (_ & Hh & _). by apply same_container_evolves.
  - intros w f Hlt Hok. destruct (w_hand w) as [ds fds n]; simpl in *.
    destruct Hok as [Hn Hfd]; simpl in *. unfold fdMax in *.
    rewrite u64_id by (unfold is_u; lia). split_and!; simpl; try done; try lia.
    + intros fd Hf. left. by rewrite lookup_insert_ne by lia.
    + intros _. split; [simpl; unfold fdMax; lia|]. simpl. intros fd.
      destruct (decide (fd = n)) as [->|Hne]; [lia|].
      rewrite lookup_insert_ne by done. intros ?%Hfd. lia.
  - intros w fd Hok. split_and!; simpl; try done.
    + intros fd' _. destruct (decide (fd = fd')) as [->|Hne].
      * right. by rewrite lookup_delete_eq.
      * left. by rewrite lookup_delete_ne.
    + intros [Hn Hfd]. split; [done|]. simpl. intros fd'.
      rewrite lookup_delete. case_decide; [by intros []|]. apply Hfd.
Qed.

Lemma memory_stable_steps : handler_steps (@memory_stable K O F).
Proof.
  split; try apply _; try done.
  intros w w' (Hm & _ & _ & Hl & _). done.
Qed.

End Relations.

(** ** Helper lemmas on runs of the handler *)

Section Runs.
Context {K O F : Type} `{!KVM K, !HostOS O F, !HostOSLaws O F}.
Abbreviation W := (World K O (Container F)).
Context `{!Arch K O (Container F), !ArchLaws K O (Container F)}.

Definition run_call (c : call) : M W Z :=
  Hypercall (c_cpu c) (c_num c) (c_a0 c) (c_a1 c) (c_a2 c) (c_a3 c) (c_a4 c) (c_a5 c).

(** Calls in sequence, up to the first one that returns an error or panics. *)
Definition run_calls (l : list call) : M W unit :=
  for_range l (fun c => run_call c ;; mret tt).

Lemma run_calls_respects (R : relation W) l :
  handler_steps R -> respects R (run_calls l).
Proof using ArchLaws0 HostOSLaws0.
  intros HR. pose proof (hs_preorder R HR). unfold run_calls, run_call. respects_tac.
  by apply Hypercall_respects.
Qed.

Lemma VtoP_frame_at cpu v (w w1 : W) r :
  VtoP cpu v w = (r, w1) -> kernel_only w w1.
Proof using ArchLaws0.
  intros E. pose proof (VtoP_frame cpu v w) as Hf. by rewrite E in Hf.
Qed.

(** A descriptor that is not in the table. *)
Lemma with_file_None fd (k : F -> M W Z) w :
  fdtable (w_hand w) !! fd = None -> with_file fd k w = (Ok errFail, w).
Proof using Type.
  intros E. unfold with_file, mbind, M_bind, gets. by rewrite E.
Qed.

Lemma with_file_Some fd (k : F -> M W Z) w f :
  fdtable (w_hand w) !! fd = Some f -> with_file fd k w = k f w.
Proof using Type.
  intros E. unfold with_file, mbind, M_bind, gets. by rewrite E.
Qed.

(** The hypercalls that work on a descriptor, and what they do with one that
    is not in the table: nothing. *)
Definition file_calls : list Z :=
  [hypWrite; hypRead; hypLseek; hypFstat; hypGetdents64; hypClose].

Lemma bad_fd_call cpu num fd a1 a2 a3 a4 a5 (w : W) :
  num ∈ file_calls -> fdtable (w_hand w) !! fd = None ->
  let r := Hypercall cpu num fd a1 a2 a3 a4 a5 w in
  kernel_only w r.2 /\ (r.1 = Ok errFail \/ exists p, r.1 = Panic p).
Proof using ArchLaws0.
  intros Hnum Hfd.
  assert (HV : forall k : F -> Z -> M W Z,
    let r := (p ← VtoP cpu a1; with_file fd (fun f => k f p)) w in
    kernel_only w r.2 /\ (r.1 = Ok errFail \/ exists p, r.1 = Panic p)).
  { intros k. unfold mbind at 1, M_bind. destruct (VtoP cpu a1 w) as [[p|e|p] w1] eqn:E;
      pose proof (VtoP_frame_at _ _ _ _ _ E) as Hk; simpl.
    - assert (Hh : w_hand w1 = w_hand w) by apply Hk.
      rewrite with_file_None by (by rewrite Hh). simpl. auto.
    - by apply VtoP_no_error in E.
    - eauto. }
  unfold file_calls in Hnum. rewrite !elem_of_cons, elem_of_nil in Hnum.
  destruct Hnum as [->|[->|[->|[->|[->|[->|[]]]]]]].
  - apply (HV (fun f p => _)).
  - apply (HV (fun f p => _)).
  - change (Hypercall _ hypLseek _ _ _ _ _ _) with (do_lseek (K:=K) fd a1 a2).
    unfold do_lseek. rewrite with_file_None by done. split; [reflexivity|by left].
  - apply (HV (fun f p => _)).
  - apply (HV (fun f p => _)).
  - change (Hypercall _ hypClose _ _ _ _ _ _) with (do_close (K:=K) (O:=O) (F:=F) fd).
    unfold do_close. rewrite with_file_None by done. split; [reflexivity|by left].
Qed.

(** A call of [Abs] that the code goes on from. *)
Lemma attempt_Abs_hand p (w w' : W) r :
  attempt (Abs p) w = (r, w') -> w_hand w' = w_hand w.
Proof using Type.
  intros E. pose proof (respects_attempt _ _ (Abs_os_only p) w) as H.
  rewrite E in H. unfold os_only in H. simpl in H. by rewrite H.
Qed.

(** An open that returns gives [errFail] and an unchanged container, or the
    next descriptor, with a file that the host opened under a granted path. *)
Lemma open_inv cpu a0 a1 a2 (w w' : W) r :
  do_open cpu a0 a1 a2 w = (Ok r, w') ->
  (r = errFail /\ w_hand w' = w_hand w) \/
  (nextfd (w_hand w) < fdMax /\ r = nextfd (w_hand w) /\
   exists p f o o', clean_abs p /\ CanAccess (w_hand w) p = true /\
     os_OpenFile p (i64 a1) (u32 a2) o = (inl f, o') /\
     w_hand w' = mkContainer (dirs (w_hand w)) (<[r := f]> (fdtable (w_hand w)))
                             (u64 (r + 1))).
Proof using ArchLaws0 HostOSLaws0.
  unfold do_open. intros (p & w2 & HV & Hrun)%bind_Ok_inv.
  apply VtoP_frame_at in HV as (_ & Hh & _). rewrite <- Hh. clear Hh.
  apply bind_Ok_inv in Hrun as (s & w3 & HS & Hrun).
  unfold SliceEnd, mem_slice_from in HS. apply mem_slice_inv in HS as (-> & _ & _).
  apply bind_Ok_inv in Hrun as (data & w4 & [= <- <-] & Hrun).
  apply bind_Ok_inv in Hrun as ([abs|e] & w5 & HA & Hrun); [|done].
  rewrite <- (attempt_Abs_hand _ _ _ _ HA). unfold attempt in HA.
  destruct (Abs _ w2) as [[q|e|q] w6] eqn:EA; [|done..]. simplify_eq.
  apply Abs_clean in EA. clear w2 w s p.
  unfold addFile, attempt, mbind, M_bind, gets, emit, modify, on_os in Hrun.
  destruct (CanAccess (w_hand w5) abs) eqn:EC; [|by left; injection Hrun as <- <-].
  destruct (os_OpenFile _ _ _ _) as [[f|e] o] eqn:EO; [|by left; injection Hrun as <- <-].
  simpl in Hrun. case_decide; [by left; injection Hrun as <- <-|right].
  injection Hrun as <- <-. split_and!; [lia|done|]. by exists abs, f, (w_os w5), o.
Qed.

(** Reading into guest memory, once the address is translated. *)
Lemma read_run cpu fd a1 a2 a3 a4 a5 (w w1 : W) p f data err o :
  is_u64 p -> is_u64 a2 -> small_mem w1 ->
  VtoP cpu a1 w = (Ok p, w1) ->
  fdtable (w_hand w) !! fd = Some f ->
  in_ram (length (w_mem w)) p a2 ->
  os_Read f a2 (w_os w) = ((data, err), o) ->
  Hypercall cpu hypRead fd a1 a2 a3 a4 a5 w =
  (Ok (match err with
       | Some e => if errors_Is e EOF then 0 else errFail
       | None => Z.of_nat (length data)
       end),
   set_mem (write_at (Z.to_nat (p - physRamBase)) (take (Z.to_nat a2) data) (w_mem w1))
           (set_os o w1)).
Proof using ArchLaws0.
  intros Hp Ha2 Hsm HV Hf Hin HR. pose proof (VtoP_frame_at _ _ _ _ _ HV) as Hk.
  destruct Hk as (_ & Hh & Ho & Hl & _).
  change (Hypercall cpu hypRead fd a1 a2 a3 a4 a5 w) with (do_read cpu fd a1 a2 w).
  unfold do_read. rewrite (run_bind_Ok _ _ _ _ _ HV).
  rewrite (with_file_Some _ _ _ f) by (by rewrite Hh).
  rewrite (run_bind_Ok _ _ _ (mkSlice (p - physRamBase) a2) w1).
  2: { rewrite Slice_bounds by done. by rewrite decide_True by (by rewrite Hl). }
  unfold mbind, M_bind, on_os. simpl s_len. rewrite Ho, HR. simpl.
  destruct err as [e|]; [|done]. by destruct (errors_Is e EOF).
Qed.

(** A call whose translated window is not in guest memory. *)
Lemma window_panic {A} p n (k : slice -> M W A) (w : W) :
  is_u64 p -> is_u64 n -> small_mem w -> ~ in_ram (length (w_mem w)) p n ->
  (s ← Slice p (u64 (p + n)); k s) w = (Panic SliceOutOfRange, w).
Proof using Type.
  intros. apply run_bind_Panic. rewrite Slice_bounds by done. by rewrite decide_False.
Qed.

Lemma window_Ok {A} p n (k : slice -> M W A) (w : W) :
  is_u64 p -> is_u64 n -> small_mem w -> in_ram (length (w_mem w)) p n ->
  (s ← Slice p (u64 (p + n)); k s) w = k (mkSlice (p - physRamBase) n) w.
Proof using Type.
  intros. apply run_bind_Ok. rewrite Slice_bounds by done. by rewrite decide_True.
Qed.

(** Storing a 64-bit value at a guest address. *)
Lemma put_window {A} p v (k : M W A) (w : W) :
  is_u64 p -> small_mem w -> in_ram (length (w_mem w)) p 8 ->
  (s ← Slice p (u64 (p + 8)); PutUint64 s v ;; k) w =
  k (set_mem (write_at (Z.to_nat (p - physRamBase)) (le_enc 8 v) (w_mem w)) w).
Proof using Type.
  intros. rewrite window_Ok by (done || by unfold is_u).
  apply (run_bind_Ok _ (fun _ => k) _ tt). unfold PutUint64, slice_copy, modify.
  cbn [s_len s_off]. rewrite decide_True by done. by rewrite take_ge by (rewrite length_le_enc; lia).
Qed.

Lemma no_error_mem_slice lo hi : no_error (mem_slice lo hi : M W slice).
Proof using Type. intros w e w'. unfold mem_slice. by case_decide. Qed.

Lemma no_error_with_file fd (k : F -> M W Z) :
  (forall f, no_error (k f)) -> no_error (with_file fd k).
Proof using Type. intros Hk. unfold with_file. no_error_tac. Qed.

Lemma no_error_SliceEnd p : no_error (SliceEnd p : M W slice).
Proof using Type. intros w. unfold SliceEnd, mem_slice_from. apply no_error_mem_slice. Qed.

#[local] Hint Resolve no_error_mem_slice no_error_with_file no_error_emit
  no_error_SliceEnd : respects.

(** Apart from exit and unknown numbers, a hypercall returns no error. *)
Lemma Hypercall_no_error cpu num a0 a1 a2 a3 a4 a5 :
  0 <= num <= 9 -> num ≠ hypExit ->
  no_error (Hypercall (K:=K) (O:=O) (F:=F) cpu num a0 a1 a2 a3 a4 a5).
Proof using ArchLaws0.
  intros Hnum Hexit. unfold Hypercall. repeat case_decide; try done.
  - unfold do_time, Slice, PutUint64, slice_copy. no_error_tac.
  - unfold do_getdents64, Slice, slice_copy. no_error_tac.
    apply no_error_with_file. intros f. no_error_tac.
  - unfold do_fstat, Slice, slice_copy. no_error_tac.
    apply no_error_with_file. intros f. no_error_tac.
  - unfold do_write, Slice, slice_bytes. no_error_tac.
    apply no_error_with_file. intros f. no_error_tac.
  - unfold do_lseek. apply no_error_with_file. intros f. no_error_tac.
  - unfold do_open, slice_bytes. no_error_tac.
  - unfold do_read, Slice, slice_copy. no_error_tac.
    apply no_error_with_file. intros f. no_error_tac.
  - unfold do_close. apply no_error_with_file. intros f. no_error_tac.
  - unfold do_clear_signal. no_error_tac.
  - exfalso. unfold hypTime, hypGetdents64, hypFstat, hypWrite, hypLseek, hypOpen,
      hypRead, hypClose, hypClearSignal, hypExit in *. lia.
Qed.

End Runs.

(** ** Confinement *)

Section Claims.
Context {K O F : Type} `{!KVM K, !HostOS O F, !HostOSLaws O F}.
Abbreviation W := (World K O (Container F)).
Context `{!Arch K O (Container F), !ArchLaws K O (Container F)}.

(** Confinement.  Whatever sequence of hypercalls a guest makes, every
    path that is handed to the host's [os.OpenFile] is absolute, in normal
    form (no empty, ["."] or [".."] element), and passes [CanAccess] for the
    directories the container was created with. *)
Theorem sandbox_every_open (l : list call) (w : W) p fl md :
  EOpenFile p fl md ∈ w_trace (run_calls l w).2 ->
  EOpenFile p fl md ∈ w_trace w \/ (clean_abs p /\ CanAccess (w_hand w) p = true).
Proof using ArchLaws0 HostOSLaws0.
  destruct (run_calls_respects confined l confined_steps w) as (_ & evs & -> & Hevs).
  rewrite elem_of_app. intros [Hin|Hin]; [right|by left].
  rewrite Forall_forall in Hevs. apply (Hevs _ Hin).
Qed.

(** C24: What [CanAccess] decides on a clean absolute path, element by
    element: some directory is the root, or the path agrees with it on all
    elements before the directory's last one, and that last one is a prefix
    of the path's element in the same place. *)
Theorem CanAccess_elements (c : Container F) (dcs : list (list gostring)) pc :
  dirs c = render <$> dcs -> Forall (Forall elem_ok) dcs -> Forall elem_ok pc ->
  CanAccess c (render pc) = true <-> exists dc, dc ∈ dcs /\ covers dc pc.
Proof using Type.
  intros Hd Hok Hpc. unfold CanAccess. rewrite Hd, existsb_exists. split.
  - intros (x & Hx & Hp). rewrite <- list_elem_of_In, list_elem_of_fmap in Hx.
    destruct Hx as (dc & -> & Hdc). exists dc. split; [done|].
    rewrite Forall_forall in Hok. by apply HasPrefix_render in Hp; [|apply Hok|].
  - intros (dc & Hdc & Hc). exists (render dc). split.
    + rewrite <- list_elem_of_In. apply list_elem_of_fmap. eauto.
    + rewrite Forall_forall in Hok. apply HasPrefix_render; auto.
Qed.

(** Nothing inside a granted directory is refused: a clean path whose
    elements extend those of a directory of the container passes the check. *)
Theorem CanAccess_complete (c : Container F) dc pc :
  render dc ∈ dirs c -> Forall elem_ok dc -> Forall elem_ok pc -> within dc pc ->
  CanAccess c (render pc) = true.
Proof using Type.
  intros Hin Hdc Hpc Hw. unfold CanAccess. apply existsb_exists.
  exists (render dc). rewrite <- list_elem_of_In. split; [done|].
  apply HasPrefix_render; [done..|]. by apply within_covers.
Qed.

(** ** Descriptors *)

(** C23: A descriptor that has been closed is dead: after any further
    hypercalls, every hypercall on it fails with [errFail] (or panics in the
    address translation), and leaves the container, the host files, and the
    machine as they are. *)
Theorem closed_fd_is_dead cpu fd a1 a2 a3 a4 a5 (w w1 : W) r l cpu' num b1 b2 b3 b4 b5 :
  fd_ok (w_hand w) ->
  Hypercall cpu hypClose fd a1 a2 a3 a4 a5 w = (Ok r, w1) -> r ≠ errFail ->
  num ∈ file_calls ->
  let w2 := (run_calls l w1).2 in
  let res := Hypercall cpu' num fd b1 b2 b3 b4 b5 w2 in
  kernel_only w2 res.2 /\ (res.1 = Ok errFail \/ exists p, res.1 = Panic p).
Proof using ArchLaws0 HostOSLaws0.
  intros Hok Hclose Hr Hnum w2 res. apply bad_fd_call; [done|].
  change (Hypercall _ hypClose _ _ _ _ _ _) with (do_close (K:=K) (O:=O) (F:=F) fd) in Hclose.
  destruct (fdtable (w_hand w) !! fd) as [f|] eqn:Ef.
  2: { unfold do_close in Hclose. rewrite with_file_None in Hclose by done. congruence. }
  unfold do_close in Hclose. rewrite (with_file_Some _ _ _ f) in Hclose by done.
  injection Hclose as <- <-.
  set (w1 := set_hand _ w) in *.
  assert (Hok1 : fd_ok (w_hand w1)) by (by apply (hs_del _ evolves_steps w fd)).
  assert (Hlt : fd < nextfd (w_hand w1)) by (apply Hok; eauto).
  destruct (run_calls_respects container_evolves l evolves_steps w1 Hok1) as (_ & _ & S & _).
  assert (Hnone : fdtable (w_hand w1) !! fd = None) by apply lookup_delete_eq.
  destruct (S fd Hlt) as [E|E]; fold w2 in E; [by rewrite E|done].
Qed.

(** C32: When the descriptors are used up they stay used up: once [nextfd] has
    reached [fdMax], no open succeeds any more, whatever is closed. *)
Theorem descriptors_run_out l cpu a0 a1 a2 a3 a4 a5 (w w' : W) r :
  fd_ok (w_hand w) -> nextfd (w_hand w) = fdMax ->
  Hypercall cpu hypOpen a0 a1 a2 a3 a4 a5 (run_calls l w).2 = (Ok r, w') -> r = errFail.
Proof using ArchLaws0 HostOSLaws0.
  intros Hok Hmax. set (w1 := (run_calls l w).2).
  destruct (run_calls_respects container_evolves l evolves_steps w Hok) as (_ & N & _ & I).
  assert (Hmax1 : nextfd (w_hand w1) = fdMax)
    by (destruct (I Hok) as [? _]; unfold w1; lia).
  change (Hypercall _ hypOpen _ _ _ _ _ _) with (do_open (K:=K) cpu a0 a1 a2).
  intros [[? _]|[? _]]%open_inv; [done|lia].
Qed.

(** What an open returns: [errFail], with the container as it was; or a
    descriptor that was not in use, now the name of a file the host opened at
    a path the container may access, with every other descriptor as before. *)
Theorem open_gives_fresh_fd cpu a0 a1 a2 a3 a4 a5 (w w' : W) r :
  fd_ok (w_hand w) ->
  Hypercall cpu hypOpen a0 a1 a2 a3 a4 a5 w = (Ok r, w') ->
  (r = errFail /\ w_hand w' = w_hand w) \/
  (fdtable (w_hand w) !! r = None /\ 3 <= r < fdMax /\
   nextfd (w_hand w') = r + 1 /\ dirs (w_hand w') = dirs (w_hand w) /\
   exists p f o o', clean_abs p /\ CanAccess (w_hand w) p = true /\
     os_OpenFile p (i64 a1) (u32 a2) o = (inl f, o') /\
     fdtable (w_hand w') = <[r := f]> (fdtable (w_hand w))).
Proof using ArchLaws0 HostOSLaws0.
  intros [Hn Hfd].
  change (Hypercall _ hypOpen _ _ _ _ _ _) with (do_open (K:=K) cpu a0 a1 a2).
  intros [?|(Hlt & -> & p & f & o & o' & Hp & HC & HO & Hw')]%open_inv; [by left|right].
  rewrite Hw'. simpl. split_and!; [|lia|lia| |done|by exists p, f, o, o'].
  - destruct (fdtable (w_hand w) !! nextfd (w_hand w)) eqn:E; [|done].
    specialize (Hfd (nextfd (w_hand w)) ltac:(eauto)). lia.
  - apply u64_id. unfold is_u, fdMax in *. lia.
Qed.

(** ** Guest memory *)

(** C28: The windows of guest memory the handler opens: with 64-bit addresses
    and sizes, [Slice(p, p+n)] is the window of [n] bytes at offset
    [p - physRamBase] exactly when the window lies in guest RAM, and panics
    otherwise, also where [p+n] or the subtraction wraps around; likewise for
    [SliceEnd]. *)
Theorem guest_windows_exact p n (w : W) :
  is_u64 p -> is_u64 n -> small_mem w ->
  Slice p (u64 (p + n)) w =
    (if decide (in_ram (length (w_mem w)) p n)
     then (Ok (mkSlice (p - physRamBase) n), w) else (Panic SliceOutOfRange, w)) /\
  SliceEnd p w =
    (if decide (in_ram (length (w_mem w)) p 0)
     then (Ok (mkSlice (p - physRamBase)
                       (physRamBase + Z.of_nat (length (w_mem w)) - p)), w)
     else (Panic SliceOutOfRange, w)).
Proof using Type. intros. split; [by apply Slice_bounds|by apply SliceEnd_bounds]. Qed.

(** C16: The read hypercall on an open file and a window in guest RAM: it
    returns the number of bytes read, 0 at the end of the file and [errFail]
    on another error; the bytes the host delivered are in the guest's buffer,
    and no other byte of guest memory has changed. *)
Theorem read_fills_buffer cpu fd a1 a2 a3 a4 a5 (w w1 : W) p f data err o :
  is_u64 p -> is_u64 a2 -> small_mem w ->
  VtoP cpu a1 w = (Ok p, w1) ->
  fdtable (w_hand w) !! fd = Some f ->
  in_ram (length (w_mem w)) p a2 ->
  os_Read f a2 (w_os w) = ((data, err), o) ->
  let off := Z.to_nat (p - physRamBase) in
  exists w',
    Hypercall cpu hypRead fd a1 a2 a3 a4 a5 w =
      (Ok (match err with
           | Some e => if errors_Is e EOF then 0 else errFail
           | None => Z.of_nat (length data)
           end), w') /\
    w_hand w' = w_hand w /\
    read_at off (length data) (w_mem w') = data /\
    forall i, (i < off \/ off + length data <= i)%nat -> w_mem w' !! i = w_mem w1 !! i.
Proof using ArchLaws0 HostOSLaws0.
  intros Hp Ha2 Hsm HV Hf Hin HR off.
  destruct (VtoP_frame_at _ _ _ _ _ HV) as (_ & Hh & _ & Hl & _).
  assert (Hsm1 : small_mem w1) by (unfold small_mem in *; by rewrite Hl).
  pose proof (read_bound f a2 (w_os w)) as Hb. rewrite HR in Hb. simpl in Hb.
  unfold is_u in Ha2. assert (Hd : Z.of_nat (length data) <= a2) by lia.
  unfold in_ram in Hin.
  rewrite (read_run cpu fd a1 a2 a3 a4 a5 w w1 p f data err o); try done.
  eexists. split; [done|]. cbn. rewrite take_ge by lia. fold off.
  assert (Hoff : (off + length data <= length (w_mem w1))%nat) by lia.
  split_and!; [done|by apply read_write_at|].
  intros i Hi. by apply lookup_write_at_out.
Qed.

(** C31: A buffer outside guest RAM makes the hypervisor panic: the read,
    write and directory hypercalls on an open file do not check the window
    the guest names. *)
Theorem bad_buffer_panics cpu num fd a1 a2 a3 a4 a5 (w w1 : W) p f :
  num ∈ [hypRead; hypWrite; hypGetdents64] ->
  is_u64 p -> is_u64 a2 -> small_mem w ->
  VtoP cpu a1 w = (Ok p, w1) ->
  fdtable (w_hand w) !! fd = Some f ->
  ~ in_ram (length (w_mem w)) p a2 ->
  Hypercall cpu num fd a1 a2 a3 a4 a5 w = (Panic SliceOutOfRange, w1).
Proof using ArchLaws0.
  intros Hnum Hp Ha2 Hsm HV Hf Hin.
  destruct (VtoP_frame_at _ _ _ _ _ HV) as (_ & Hh & _ & Hl & _).
  assert (Hsm1 : small_mem w1) by (unfold small_mem in *; by rewrite Hl).
  assert (Hk : forall k : slice -> F -> M W Z,
    (ptr ← VtoP cpu a1; with_file fd (fun f => s ← Slice ptr (u64 (ptr + a2)); k s f)) w =
    (Panic SliceOutOfRange, w1)).
  { intros k. rewrite (run_bind_Ok _ _ _ _ _ HV).
    rewrite (with_file_Some _ _ _ f) by (by rewrite Hh).
    apply window_panic; try done. by rewrite Hl. }
  rewrite !elem_of_cons, elem_of_nil in Hnum. destruct Hnum as [->|[->|[->|[]]]].
  - apply (Hk (fun s f => _)).
  - apply (Hk (fun s f => _)).
  - apply (Hk (fun s f => _)).
Qed.

(** C33: The write hypercall hands the host exactly the bytes of the guest's
    buffer, changes nothing else, and returns the requested size whatever the
    host's write reports. *)
Theorem write_sends_buffer cpu fd a1 a2 a3 a4 a5 (w w1 : W) p f n err o :
  is_u64 p -> is_u64 a2 -> small_mem w ->
  VtoP cpu a1 w = (Ok p, w1) ->
  fdtable (w_hand w) !! fd = Some f ->
  in_ram (length (w_mem w)) p a2 ->
  let data := read_at (Z.to_nat (p - physRamBase)) (Z.to_nat a2) (w_mem w1) in
  os_Write f data (w_os w) = ((n, err), o) ->
  Hypercall cpu hypWrite fd a1 a2 a3 a4 a5 w =
    (Ok a2, add_event (EWriteFile data) (set_os o w1)).
Proof using ArchLaws0.
  intros Hp Ha2 Hsm HV Hf Hin data HW.
  destruct (VtoP_frame_at _ _ _ _ _ HV) as (_ & Hh & Ho & Hl & _).
  change (Hypercall _ hypWrite _ _ _ _ _ _) with (do_write (K:=K) cpu fd a1 a2).
  unfold do_write. rewrite (run_bind_Ok _ _ _ _ _ HV).
  rewrite (with_file_Some _ _ _ f) by (by rewrite Hh).
  rewrite window_Ok; [|done|done|unfold small_mem in *; by rewrite Hl|by rewrite Hl].
  unfold slice_bytes, mbind, M_bind, gets, on_os, emit, modify. cbn [s_off s_len].
  rewrite Ho. fold data. by rewrite HW.
Qed.

(** C29: The fstat hypercall on an open file and a window in guest RAM stores
    the host's answer at the offsets of the guest's [StatHyper] struct: size,
    mode, modification time, owner, device and inode each at its own offset
    and width, and returns 0. *)
Theorem fstat_fills_struct cpu fd a1 a2 a3 a4 a5 (w w1 : W) p f info o :
  is_u64 p -> small_mem w ->
  VtoP cpu a1 w = (Ok p, w1) ->
  fdtable (w_hand w) !! fd = Some f ->
  in_ram (length (w_mem w)) p 64 ->
  os_Stat f (w_os w) = (inl info, o) ->
  let off := Z.to_nat (p - physRamBase) in
  exists w',
    Hypercall cpu hypFstat fd a1 a2 a3 a4 a5 w = (Ok 0, w') /\
    w_hand w' = w_hand w /\
    (forall i, (i < off \/ off + 64 <= i)%nat -> w_mem w' !! i = w_mem w1 !! i) /\
    let field (o n : nat) := read_at (off + o) n (w_mem w') in
    field 0%nat 8%nat = le_enc 8 (u64 (fi_Size info)) /\
    field 8%nat 4%nat = le_enc 4 (fi_Mode info) /\
    field 16%nat 8%nat = le_enc 8 (u64 (fi_MtimeUnix info)) /\
    field 24%nat 8%nat = le_enc 8 (u64 (fi_MtimeNano info)) /\
    field 32%nat 4%nat = le_enc 4 (fi_Uid info) /\
    field 36%nat 4%nat = le_enc 4 (fi_Gid info) /\
    field 40%nat 8%nat = le_enc 8 (fi_Dev info) /\
    field 48%nat 8%nat = le_enc 8 (fi_Rdev info) /\
    field 56%nat 8%nat = le_enc 8 (fi_Ino info).
Proof using ArchLaws0.
  intros Hp Hsm HV Hf Hin HS off.
  destruct (VtoP_frame_at _ _ _ _ _ HV) as (_ & Hh & Ho & Hl & _).
  change (Hypercall _ hypFstat _ _ _ _ _ _) with (do_fstat (K:=K) cpu fd a1).
  unfold do_fstat. rewrite (run_bind_Ok _ _ _ _ _ HV).
  rewrite (with_file_Some _ _ _ f) by (by rewrite Hh).
  rewrite (run_bind_Ok _ _ _ (inl info) (set_os o w1))
    by (unfold on_os; by rewrite Ho, HS).
  cbn beta iota. change stat_size with 64. rewrite window_Ok;
    [|done|by unfold is_u|unfold small_mem in *; by rewrite w_mem_set_os, Hl|
     by rewrite w_mem_set_os, Hl].
  unfold mbind, M_bind, slice_copy, modify. eexists. split; [done|].
  cbn [w_hand set_mem set_kv set_os s_off s_len]. split; [done|].
  set (bs := stat_bytes (stat_of info)).
  assert (Hbs : length bs = 64%nat) by done.
  rewrite take_ge by (rewrite Hbs; simpl; lia).
  unfold in_ram in Hin. cbn [w_mem w_kv kv_mem set_kv set_os]. fold off.
  assert (Hoff : (off + length bs <= length (w_mem w1))%nat) by lia.
  split. { intros i Hi. apply lookup_write_at_out; [done|]. by rewrite Hbs. }
  assert (Hfield : forall a n, (a + n <= 64)%nat ->
    read_at (off + a) n (write_at off bs (w_mem w1)) = read_at a n bs).
  { intros a n Han. rewrite <- Hbs in Han. by apply read_in_write_at. }
  cbn. rewrite !Hfield by lia. split_and!; reflexivity.
Qed.

(** The time hypercall with two disjoint windows in guest RAM stores the
    seconds and the nanoseconds of the host's clock, little-endian, at the two
    addresses, and returns 0. *)
Theorem time_stores_clock cpu a0 a1 a2 a3 a4 a5 (w w1 w2 : W) p0 p1 sec nsec o :
  is_u64 p0 -> is_u64 p1 -> small_mem w ->
  os_Now (w_os w) = ((sec, nsec), o) ->
  VtoP cpu a0 (set_os o w) = (Ok p0, w1) -> VtoP cpu a1 w1 = (Ok p1, w2) ->
  in_ram (length (w_mem w)) p0 8 -> in_ram (length (w_mem w)) p1 8 ->
  p0 + 8 <= p1 \/ p1 + 8 <= p0 ->
  exists w',
    Hypercall cpu hypTime a0 a1 a2 a3 a4 a5 w = (Ok 0, w') /\
    w_hand w' = w_hand w /\
    read_at (Z.to_nat (p0 - physRamBase)) 8 (w_mem w') = le_enc 8 (u64 sec) /\
    read_at (Z.to_nat (p1 - physRamBase)) 8 (w_mem w') = le_enc 8 (u64 nsec).
Proof using ArchLaws0.
  intros Hp0 Hp1 Hsm HN HV0 HV1 Hin0 Hin1 Hd.
  destruct (VtoP_frame_at _ _ _ _ _ HV0) as (_ & Hh0 & _ & Hl0 & _).
  destruct (VtoP_frame_at _ _ _ _ _ HV1) as (_ & Hh1 & _ & Hl1 & _).
  cbn in Hh0. rewrite w_mem_set_os in Hl0. rewrite Hl0 in Hl1.
  change (Hypercall _ hypTime _ _ _ _ _ _) with (do_time (K:=K) (F:=F) cpu a0 a1).
  unfold do_time. rewrite (run_bind_Ok _ _ _ (sec, nsec) (set_os o w))
    by (unfold on_os; by rewrite HN).
  cbn beta iota.
  rewrite (run_bind_Ok _ _ _ _ _ HV0), (run_bind_Ok _ _ _ _ _ HV1).
  rewrite put_window; [|done|unfold small_mem in *; by rewrite Hl1|by rewrite Hl1].
  set (w3 := set_mem _ w2). unfold in_ram in *.
  assert (Hl3 : length (w_mem w3) = length (w_mem w)).
  { unfold w3. rewrite w_mem_set_mem, length_write_at; [done|].
    rewrite length_le_enc. lia. }
  rewrite put_window; [|done|unfold small_mem in *; by rewrite Hl3|
    rewrite Hl3; unfold in_ram; lia].
  eexists. split; [done|].
  split; [cbn; by rewrite Hh1, Hh0|]. rewrite !w_mem_set_mem. split.
  - rewrite read_write_at_disjoint by (rewrite length_le_enc; lia).
    unfold w3. rewrite w_mem_set_mem.
    erewrite <- (length_le_enc 8 (u64 sec)) at 1. apply read_write_at.
    rewrite length_le_enc. lia.
  - erewrite <- (length_le_enc 8 (u64 nsec)) at 1. apply read_write_at.
    rewrite length_le_enc. lia.
Qed.

(** ** Errors *)

(** C30: The only errors a hypercall returns to the run loop: exit, and a
    number that is not a hypercall. *)
Theorem hypercall_errors cpu num a0 a1 a2 a3 a4 a5 (w w' : W) e :
  Hypercall cpu num a0 a1 a2 a3 a4 a5 w = (Err e, w') ->
  (num = hypExit /\ e = ErrExit /\ w' = w) \/
  (~ 0 <= num <= 9 /\ errors_Is e ErrUnknownHypercall = true).
Proof using ArchLaws0.
  intros HE. destruct (decide (num = hypExit)) as [->|Hne].
  { left. change (Hypercall _ hypExit _ _ _ _ _ _) with (@fail W Z ErrExit) in HE.
    by injection HE as <- <-. }
  right. destruct (decide (0 <= num <= 9)) as [Hr|Hr].
  { by apply Hypercall_no_error in HE. }
  split; [done|]. unfold Hypercall, hypTime, hypGetdents64, hypFstat, hypWrite, hypLseek,
    hypOpen, hypRead, hypClose, hypExit, hypClearSignal in *.
  rewrite !decide_False in HE by lia.
  apply bind_Err_inv in HE as [HE|(pc & w1 & _ & HE)]; [by apply GetPc_no_error in HE|].
  injection HE as <- <-. apply errors_Is_Wrap, errors_Is_refl.
Qed.

End Claims.

(** The name of a file to open is the guest's string up to its first zero
    byte: [cstring] returns a prefix of the memory without a zero byte, and
    the prefix ends at a zero byte or at the end of memory. *)
Theorem cstring_stops_at_zero (data : list byte) :
  (x00 ∉ cstring data) /\
  (data = cstring data \/ exists rest, data = cstring data ++ x00 :: rest).
Proof.
  induction data as [|b data [IH1 IH2]]; simpl; [split; [by apply not_elem_of_nil|by left]|].
  case_decide as Hb.
  - subst b. split; [by apply not_elem_of_nil|]. right. by exists data.
  - split; [apply not_elem_of_cons; auto|].
    destruct IH2 as [E|[rest E]]; [left; congruence|right; exists rest; simpl; congruence].
Qed.

(** ** Witnesses

    The theorems above at concrete worlds: one page of guest memory, a
    container for [/work], and the files [/work/a.txt] and [/work2/key]. *)

Module Demo.
Import TestHost.
#[local] Existing Instance Amd64.arch.
#[local] Existing Instance Amd64.arch_laws.

Definition std_files : gmap Z gostring :=
  <[0 := str "stdin"]> (<[1 := str "stdout"]> ({[2 := str "stderr"]})).

Definition container : Container gostring := mkContainer [str "/work"] std_files 3.

(** The same container with [/work/a.txt] open as descriptor 3. *)
Definition container3 : Container gostring :=
  mkContainer [str "/work"] (<[3 := str "/work/a.txt"]> std_files) 4.

Definition files : gmap gostring (list byte) :=
  <[str "/work/a.txt" := str "abcdef"]> ({[str "/work2/key" := str "k"]}).

Definition W : Type := World kernel host (Container gostring).

Definition world (mem : list byte) (c : Container gostring) : W :=
  TestHost.world 256 mem [] c files.

(** The guest names [x/../a.txt], relative to [/work]. *)
Definition w_open : W := world (str "x/../a.txt" ++ [x00]) container.

Definition open_a : call := mkCall 0 hypOpen physRamBase 0 0 0 0 0.

Definition w_file : W := world (str "0123456789") container3.

(** The world after a translation. *)
Definition translated (v : Z) (w : W) : W := (VtoP 0 v w).2.

Lemma std_files_lt fd : is_Some (std_files !! fd) -> 0 <= fd < 3.
Proof.
  unfold std_files. rewrite !lookup_insert, lookup_singleton.
  repeat case_decide; [lia..|]. by intros [].
Qed.

Lemma container_ok : fd_ok container.
Proof. split; [done|]. apply std_files_lt. Qed.

Lemma container3_ok : fd_ok container3.
Proof.
  split; [done|]. intros fd. unfold container3; simpl. rewrite lookup_insert.
  case_decide; [lia|]. intros ?%std_files_lt. lia.
Qed.

Lemma sandbox_every_open_witness :
  EOpenFile (str "/work/a.txt") 0 0 ∈ w_trace (run_calls [open_a] w_open).2 /\
  (EOpenFile (str "/work/a.txt") 0 0 ∈ w_trace w_open \/
   (clean_abs (str "/work/a.txt") /\ CanAccess (w_hand w_open) (str "/work/a.txt") = true)).
Proof.
  assert (H : EOpenFile (str "/work/a.txt") 0 0 ∈ w_trace (run_calls [open_a] w_open).2)
    by (vm_compute; left).
  split; [exact H|]. exact (sandbox_every_open [open_a] w_open _ _ _ H).
Defined.

Lemma CanAccess_elements_witness :
  CanAccess container (render [str "work"; str "a.txt"]) = true <->
  exists dc, dc ∈ [[str "work"]] /\ covers dc [str "work"; str "a.txt"].
Proof.
  apply (CanAccess_elements container [[str "work"]]); [done| |];
    repeat constructor; try done; by apply (bool_decide_unpack _).
Defined.

Lemma CanAccess_complete_witness :
  CanAccess container (render [str "work"; str "a.txt"]) = true.
Proof.
  apply (CanAccess_complete container [str "work"]);
    [by left|repeat constructor; try done; by apply (bool_decide_unpack _)..|].
  by exists [str "a.txt"].
Defined.

Lemma closed_fd_is_dead_witness :
  let w1 := (Hypercall 0 hypClose 3 0 0 0 0 0 w_file).2 in
  let w2 := (run_calls [open_a] w1).2 in
  let res := Hypercall 0 hypRead 3 physRamBase 4 0 0 0 w2 in
  kernel_only (GA:=arch_target (O:=host) (H:=Container gostring)) w2 res.2 /\ (res.1 = Ok errFail \/ exists p, res.1 = Panic p).
Proof.
  intros w1 w2 res.
  apply (closed_fd_is_dead 0 3 0 0 0 0 0 w_file w1 0 [open_a]);
    [apply container3_ok|reflexivity|done|]. right; left.
Defined.

Definition w_exhausted : W :=
  set_hand (mkContainer [str "/work"] std_files fdMax) w_open.

Lemma descriptors_run_out_witness :
  exists r w', Hypercall 0 hypOpen physRamBase 0 0 0 0 0 (run_calls [open_a] w_exhausted).2 =
               (Ok r, w') /\ r = errFail.
Proof.
  set (x := Hypercall _ _ _ _ _ _ _ _ _).
  assert (E : x = (Ok errFail, x.2)) by reflexivity.
  exists errFail, x.2. split; [exact E|].
  apply (descriptors_run_out [open_a] 0 physRamBase 0 0 0 0 0 w_exhausted x.2 errFail);
    [|reflexivity|exact E].
  split; [simpl; unfold fdMax; lia|]. intros fd ?%std_files_lt. simpl. unfold fdMax. lia.
Defined.

Lemma open_gives_fresh_fd_witness :
  fdtable (w_hand (run_call open_a w_open).2) !! 3 = Some (str "/work/a.txt") /\
  nextfd (w_hand (run_call open_a w_open).2) = 4.
Proof.
  set (r := run_call open_a w_open).
  assert (E : r = (Ok 3, r.2)) by reflexivity.
  destruct (open_gives_fresh_fd 0 physRamBase 0 0 0 0 0 w_open r.2 3 container_ok E)
    as [[? _]|(_ & _ & H1 & _)]; [done|].
  split; [by vm_compute|exact H1].
Defined.

Lemma guest_windows_exact_witness :
  Slice physRamBase (u64 (physRamBase + 16)) w_file = (Ok (mkSlice 0 16), w_file) /\
  Slice 0x1000 (u64 (0x1000 + 16)) w_file = (Panic SliceOutOfRange, w_file).
Proof.
  assert (Hs : small_mem w_file) by done.
  split.
  - rewrite (proj1 (guest_windows_exact physRamBase 16 w_file ltac:(done) ltac:(done) Hs)).
    reflexivity.
  - rewrite (proj1 (guest_windows_exact 0x1000 16 w_file ltac:(done) ltac:(done) Hs)).
    reflexivity.
Defined.

Lemma read_fills_buffer_witness :
  exists w', Hypercall 0 hypRead 3 physRamBase 4 0 0 0 w_file = (Ok 4, w') /\
             read_at 0 4 (w_mem w') = str "abcd".
Proof.
  destruct (read_fills_buffer 0 3 physRamBase 4 0 0 0 w_file
    (translated physRamBase w_file) physRamBase (str "/work/a.txt") (str "abcd") None
    (host_read (str "/work/a.txt") 4 (w_os w_file)).2)
    as (w' & H1 & _ & H2 & _); try done.
  exists w'. exact (conj H1 H2).
Defined.

Lemma bad_buffer_panics_witness :
  Hypercall 0 hypRead 3 0x1000 4 0 0 0 w_file =
  (Panic SliceOutOfRange, translated 0x1000 w_file).
Proof.
  apply (bad_buffer_panics 0 hypRead 3 0x1000 4 0 0 0 w_file _ 0x1000 (str "/work/a.txt"));
    try done; [left|]. intros [? ?]. done.
Defined.

Lemma write_sends_buffer_witness :
  Hypercall 0 hypWrite 1 physRamBase 5 0 0 0 w_file =
  (Ok 5, add_event (EWriteFile (str "01234"))
           (set_os (mkHost files ∅ [(str "stdout", str "01234")])
                   (translated physRamBase w_file))).
Proof.
  apply (write_sends_buffer 0 1 physRamBase 5 0 0 0 w_file (translated physRamBase w_file)
           physRamBase (str "stdout") 5 None); done.
Defined.

Lemma fstat_fills_struct_witness :
  exists w', Hypercall 0 hypFstat 3 (physRamBase + 8) 0 0 0 0 w_file = (Ok 0, w') /\
             read_at 8 8 (w_mem w') = le_enc 8 6 /\ read_at 64 8 (w_mem w') = le_enc 8 42.
Proof.
  destruct (fstat_fills_struct 0 3 (physRamBase + 8) 0 0 0 0 w_file
    (translated (physRamBase + 8) w_file) (physRamBase + 8) (str "/work/a.txt")
    (mkFileInfo 6 1700000000 500 0x81a4 1 1000 1000 0 42) (w_os w_file))
    as (w' & H1 & _ & _ & H2 & _ & _ & _ & _ & _ & _ & _ & H3); try done.
  exists w'. exact (conj H1 (conj H2 H3)).
Defined.

Lemma time_stores_clock_witness :
  exists w', Hypercall 0 hypTime physRamBase (physRamBase + 8) 0 0 0 0 w_file = (Ok 0, w') /\
             read_at 0 8 (w_mem w') = le_enc 8 1700000000 /\
             read_at 8 8 (w_mem w') = le_enc 8 123456789.
Proof.
  destruct (time_stores_clock 0 physRamBase (physRamBase + 8) 0 0 0 0 w_file
    (translated physRamBase w_file)
    (translated (physRamBase + 8) (translated physRamBase w_file))
    physRamBase (physRamBase + 8) 1700000000 123456789 (w_os w_file))
    as (w' & H1 & _ & H2 & H3); try done; [by left|].
  exists w'. exact (conj H1 (conj H2 H3)).
Defined.

Lemma hypercall_errors_witness :
  (hypExit = hypExit /\ ErrExit = ErrExit /\ w_file = w_file) \/
  (~ 0 <= hypExit <= 9 /\ errors_Is ErrExit ErrUnknownHypercall = true).
Proof. apply (hypercall_errors 0 hypExit 0 0 0 0 0 0 w_file w_file). reflexivity. Defined.

(** A neighbour of a granted directory is accessible when its name
    extends the directory's: a container for [/work] opens [/work2/key],
    which is not in [/work]. *)
Theorem sibling_directory_is_accessible :
  let w := world (str "/work2/key" ++ [x00]) container in
  (run_call open_a w).1 = Ok 3 /\
  EOpenFile (str "/work2/key") 0 0 ∈ w_trace (run_call open_a w).2 /\
  ~ within [str "work"] [str "work2"; str "key"].
Proof.
  split; [reflexivity|]. split; [vm_compute; left|]. intros [rest [=]].
Qed.

End Demo.
