(* ===== verification/Flag.v ===== *)
(** * Flag: the command line

    Models the options of [main] in [src/cmd/revisor/revisor.go] and what it
    uses of the package [flag] of the standard library: [flag.Bool] and
    [flag.String] define the four options, [flag.Parse] reads [os.Args[1:]]
    from the left and [flag.Args] is what remains.  The default [FlagSet]
    ends the process on an error, with status 2, and for [-h] and [-help], with
    status 0; the usage text it prints is left out.  [given] says, without
    reference to the parser, what a sequence of settings asks for; the theorems
    on [main] in [CmdSpec] are stated with it. *)

From S2P Require Import Prelude Effects.

(** ** The options *)

(** The options and the remaining arguments, after [flag.Parse]. *)
Record flags := mkFlags {
  f_trace : bool; f_kernel : gostring; f_dir : gostring; f_mem : gostring;
  f_args : list gostring }.

#[export] Instance flags_eq_dec : EqDecision flags.
Proof. solve_decision. Defined.

Definition default_flags (args : list gostring) : flags :=
  mkFlags false (str "rekernel") (str ".") (str "2G") args.

(** The formal options: [flag.Bool] or [flag.String]. *)
Inductive formal := FTrace | FKernel | FDir | FMem.

#[export] Instance formal_eq_dec : EqDecision formal.
Proof. solve_decision. Defined.

Definition formals : list (gostring * formal) :=
  [(str "trace", FTrace); (str "kernel", FKernel); (str "dir", FDir); (str "mem", FMem)].

Definition formal_name (o : formal) : gostring :=
  match o with
  | FTrace => str "trace" | FKernel => str "kernel" | FDir => str "dir" | FMem => str "mem"
  end.

Fixpoint assoc {A} (name : gostring) (l : list (gostring * A)) : option A :=
  match l with
  | [] => None
  | (n, a) :: l => if decide (n = name) then Some a else assoc name l
  end.

Definition IsBoolFlag (o : formal) : bool := bool_decide (o = FTrace).

(** [strconv.ParseBool]. *)
Definition ParseBool (s : gostring) : option bool :=
  if decide (s ∈ str <$> ["1"; "t"; "T"; "TRUE"; "true"; "True"]%string) then Some true
  else if decide (s ∈ str <$> ["0"; "f"; "F"; "FALSE"; "false"; "False"]%string) then Some false
  else None.

(** [flag.Value.Set]. *)
Definition set_flag (o : formal) (v : gostring) (fl : flags) : option flags :=
  match o with
  | FTrace =>
      b ← ParseBool v; Some (mkFlags b (f_kernel fl) (f_dir fl) (f_mem fl) (f_args fl))
  | FKernel => Some (mkFlags (f_trace fl) v (f_dir fl) (f_mem fl) (f_args fl))
  | FDir => Some (mkFlags (f_trace fl) (f_kernel fl) v (f_mem fl) (f_args fl))
  | FMem => Some (mkFlags (f_trace fl) (f_kernel fl) (f_dir fl) v (f_args fl))
  end.

Definition set_args (args : list gostring) (fl : flags) : flags :=
  mkFlags (f_trace fl) (f_kernel fl) (f_dir fl) (f_mem fl) args.

(** ** [FlagSet.parseOne] and [FlagSet.Parse] *)

Definition minus : byte := "-"%byte.
Definition equals : byte := "="%byte.

(** The name and the value of [name=value]; the first byte belongs to the name. *)
Fixpoint cut_equals (s : gostring) : gostring * option gostring :=
  match s with
  | [] => ([], None)
  | c :: s =>
      match s with
      | [] => ([c], None)
      | d :: s' =>
          if decide (d = equals) then ([c], Some s')
          else let '(n, v) := cut_equals s in (c :: n, v)
      end
  end.

Inductive parsed :=
  | Stop (args : list gostring)                        (* no more options *)
  | Seen (fl : flags) (args : list gostring)           (* one option was set *)
  | Fatal (status : Z).                                (* the process ends *)

(** [s] without its first one or two dashes, if it can be an option. *)
Definition flag_body (s : gostring) : option gostring :=
  match s with
  | a :: b :: s' =>
      if decide (a = minus) then Some (if decide (b = minus) then s' else b :: s') else None
  | _ => None
  end.

Definition parseOne (args : list gostring) (fl : flags) : parsed :=
  match args with
  | [] => Stop []
  | s :: rest =>
      match flag_body s with
      | None => Stop args
      | Some name =>
          if decide (s = [minus; minus]) then Stop rest
          else
            match name with
            | [] => Fatal 2
            | c :: _ =>
                if decide (c = minus \/ c = equals) then Fatal 2
                else
                  let '(name, value) := cut_equals name in
                  match assoc name formals with
                  | None => Fatal (if decide (name = str "help" \/ name = str "h") then 0 else 2)
                  | Some o =>
                      if IsBoolFlag o then
                        match set_flag o (default (str "true") value) fl with
                        | Some fl => Seen fl rest
                        | None => Fatal 2
                        end
                      else
                        match value, rest with
                        | Some v, _ => match set_flag o v fl with
                                       | Some fl => Seen fl rest | None => Fatal 2 end
                        | None, v :: rest => match set_flag o v fl with
                                             | Some fl => Seen fl rest | None => Fatal 2 end
                        | None, [] => Fatal 2
                        end
                  end
            end
      end
  end.

(** Every call of [parseOne] that sets an option consumes an argument. *)
Fixpoint parse_flags (fuel : nat) (args : list gostring) (fl : flags) : flags + Z :=
  match fuel with
  | 0%nat => inr 2
  | S fuel =>
      match parseOne args fl with
      | Stop args => inl (set_args args fl)
      | Seen fl args => parse_flags fuel args fl
      | Fatal status => inr status
      end
  end.

(** [flag.Parse] and [flag.Args] on [os.Args[1:]]. *)
Definition flag_Parse (args : list gostring) : flags + Z :=
  parse_flags (S (length args)) args (default_flags []).

(** ** Lemmas *)

Lemma parseOne_consumes args fl fl' rest :
  parseOne args fl = Seen fl' rest -> (length rest < length args)%nat.
Proof.
  destruct args as [|s args]; [done|]. unfold parseOne. cbn [length].
  destruct (flag_body s) as [[|c name]|]; [by case_decide| |done].
  repeat case_decide; try done. destruct (cut_equals _) as [n v].
  destruct (assoc n formals) as [o|]; [|done].
  repeat case_match; intros; simplify_eq; cbn; lia.
Qed.

(** The fuel is enough: more of it does not change the result. *)
Lemma parse_flags_fuel fuel fuel' args fl :
  (length args < fuel)%nat -> (length args < fuel')%nat ->
  parse_flags fuel args fl = parse_flags fuel' args fl.
Proof.
  revert fuel' args fl. induction fuel as [|fuel IH]; intros fuel' args fl H1 H2; [lia|].
  destruct fuel' as [|fuel']; [lia|]. cbn [parse_flags].
  destruct (parseOne args fl) as [|fl' rest|] eqn:E; try done.
  apply parseOne_consumes in E. apply IH; lia.
Qed.

(** One step of the loop. *)
Lemma parse_flags_step args fl :
  parse_flags (S (length args)) args fl =
  match parseOne args fl with
  | Stop args => inl (set_args args fl)
  | Seen fl args => parse_flags (S (length args)) args fl
  | Fatal status => inr status
  end.
Proof.
  transitivity (match parseOne args fl with
                | Stop args => inl (set_args args fl)
                | Seen fl rest => parse_flags (length args) rest fl
                | Fatal status => inr status
                end); [done|].
  destruct (parseOne args fl) as [|fl' rest|] eqn:E; try done.
  apply parseOne_consumes in E. apply parse_flags_fuel; lia.
Qed.

(** ** Ways to write a setting *)

(** One or two dashes; the value after an equals sign, in the next argument, or
    none. *)
Inductive spelling := Joined (v : gostring) | Apart (v : gostring) | Bare.

Record setting := mkSetting { s_two : bool; s_option : formal; s_spelling : spelling }.

Definition dashes (two : bool) : gostring := if two then [minus; minus] else [minus].

Definition spell (s : setting) : list gostring :=
  let dn := dashes (s_two s) ++ formal_name (s_option s) in
  match s_spelling s with
  | Joined v => [dn ++ equals :: v]
  | Apart v => [dn; v]
  | Bare => [dn]
  end.

(** What a setting does: a string option takes its value joined or apart, the
    boolean one joined or not at all. *)
Definition apply_setting (s : setting) (fl : flags) : option flags :=
  match s_spelling s with
  | Joined v => set_flag (s_option s) v fl
  | Apart v => if IsBoolFlag (s_option s) then None else set_flag (s_option s) v fl
  | Bare => if IsBoolFlag (s_option s) then set_flag (s_option s) (str "true") fl else None
  end.

Fixpoint apply_all (l : list setting) (fl : flags) : option flags :=
  match l with
  | [] => Some fl
  | s :: l => fl ← apply_setting s fl; apply_all l fl
  end.

Lemma cut_equals_cons c d s :
  d ≠ equals -> cut_equals (c :: d :: s) = let '(n, v) := cut_equals (d :: s) in (c :: n, v).
Proof. intros Hd. cbn [cut_equals]. by rewrite (decide_False (P:=d = equals)). Qed.

Lemma cut_equals_app n v :
  n ≠ [] -> equals ∉ tail n -> cut_equals (n ++ equals :: v) = (n, Some v).
Proof.
  induction n as [|c n IH]; [done|]. intros _ Hn. destruct n as [|d n].
  - cbn. by rewrite decide_True.
  - cbn in Hn. apply not_elem_of_cons in Hn as [Hd Hn].
    change ((c :: d :: n) ++ equals :: v) with (c :: d :: (n ++ equals :: v)).
    rewrite cut_equals_cons by done.
    change (d :: n ++ equals :: v) with ((d :: n) ++ equals :: v). by rewrite IH.
Qed.

Lemma cut_equals_none n : n ≠ [] -> equals ∉ tail n -> cut_equals n = (n, None).
Proof.
  induction n as [|c n IH]; [done|]. intros _ Hn. destruct n as [|d n]; [done|].
  cbn in Hn. apply not_elem_of_cons in Hn as [Hd Hn].
  rewrite cut_equals_cons by done. by rewrite IH.
Qed.

(** [parseOne] up to the lookup, for an argument made of dashes and a name. *)
Lemma flag_body_dashes two c s :
  c ≠ minus ->
  flag_body (dashes two ++ c :: s) = Some (c :: s) /\ dashes two ++ c :: s ≠ [minus; minus].
Proof. intros Hc. destruct two; cbn; rewrite ?(decide_False (P:=c = minus)) by done; by split; [|congruence]. Qed.

(** The name of an option: it is not empty, starts neither with a dash nor with
    an equals sign, and contains none of the latter. *)
Definition option_name (n : gostring) : Prop :=
  n ≠ [] /\ head n ≠ Some minus /\ head n ≠ Some equals /\ (equals ∉ tail n).

Definition joined (v : option gostring) : gostring :=
  match v with Some v => equals :: v | None => [] end.

Lemma formal_name_option o : option_name (formal_name o).
Proof. destruct o; (split_and!; [done..|]); apply (bool_decide_unpack _); by vm_compute. Qed.

Lemma assoc_formal o : assoc (formal_name o) formals = Some o.
Proof. by destruct o. Qed.

(** [parseOne] on an argument that has the form of an option. *)
Lemma parseOne_named two n v rest fl :
  option_name n ->
  parseOne ((dashes two ++ n ++ joined v) :: rest) fl =
  match assoc n formals with
  | None => Fatal (if decide (n = str "help" \/ n = str "h") then 0 else 2)
  | Some o =>
      if IsBoolFlag o then
        match set_flag o (default (str "true") v) fl with
        | Some fl => Seen fl rest
        | None => Fatal 2
        end
      else
        match v, rest with
        | Some v, _ => match set_flag o v fl with Some fl => Seen fl rest | None => Fatal 2 end
        | None, v :: rest => match set_flag o v fl with Some fl => Seen fl rest | None => Fatal 2 end
        | None, [] => Fatal 2
        end
  end.
Proof.
  intros (Hne & Hm & He & Hn).
  assert (Hcut : cut_equals (n ++ joined v) = (n, v)).
  { destruct v as [v|]; cbn [joined]; [by apply cut_equals_app|].
    rewrite app_nil_r. by apply cut_equals_none. }
  destruct n as [|c n]; [done|]. cbn in Hm, He.
  assert (Hc : c ≠ minus /\ c ≠ equals) by (split; congruence). destruct Hc as [Hc1 Hc2].
  unfold parseOne. change ((c :: n) ++ joined v) with (c :: n ++ joined v) in *.
  destruct (flag_body_dashes two c (n ++ joined v) Hc1) as [-> Hd].
  rewrite decide_False by done. rewrite decide_False by tauto. by rewrite Hcut.
Qed.

Lemma parseOne_spell s rest fl fl' :
  apply_setting s fl = Some fl' -> parseOne (spell s ++ rest) fl = Seen fl' rest.
Proof.
  destruct s as [two o sp]. unfold apply_setting, spell. cbn [s_two s_option s_spelling].
  pose proof (fun v rest => parseOne_named two _ v rest fl (formal_name_option o)) as Hp.
  rewrite assoc_formal in Hp.
  destruct sp as [v|v|]; cbn [app]; [specialize (Hp (Some v) rest)|specialize (Hp None (v :: rest))|
    specialize (Hp None rest)]; cbn [joined] in Hp; rewrite ?app_nil_r in Hp;
    rewrite <- ?app_assoc, Hp; cbn [from_option]; unfold id.
  - intros ->. by destruct (IsBoolFlag o).
  - destruct (IsBoolFlag o); [done|]. by intros ->.
  - destruct (IsBoolFlag o); [|done]. by intros ->.
Qed.

(** The settings are read one after the other. *)
Lemma parse_settings l rest fl fl' :
  apply_all l fl = Some fl' ->
  let args := concat (spell <$> l) ++ rest in
  parse_flags (S (length args)) args fl = parse_flags (S (length rest)) rest fl'.
Proof.
  revert fl. induction l as [|s l IH]; intros fl E; [by injection E as ->|].
  cbn [apply_all] in E. destruct (apply_setting s fl) as [fl1|] eqn:E1; [|done].
  cbn [fmap list_fmap concat]. rewrite <- app_assoc, parse_flags_step.
  rewrite (parseOne_spell s _ fl fl1 E1). by apply IH.
Qed.

(** The arguments after the options do not look like one. *)
Definition not_option (args : list gostring) : Prop :=
  match args with [] => True | s :: _ => flag_body s = None end.

(** ** What a sequence of settings asks for

    Written without reference to the parser: the value of an option is the one
    of its last setting. *)

Definition value_of (s : setting) : gostring :=
  match s_spelling s with Joined v | Apart v => v | Bare => str "true" end.

Fixpoint given (o : formal) (dflt : gostring) (l : list setting) : gostring :=
  match l with
  | [] => dflt
  | s :: l => given o (if decide (s_option s = o) then value_of s else dflt) l
  end.

(** A setting that can be carried out: a string option has a value, and that of
    the boolean one, if it is there, is joined to the name and is a boolean. *)
Definition proper (s : setting) : Prop :=
  match s_option s, s_spelling s with
  | FTrace, Joined v => is_Some (ParseBool v)
  | FTrace, Apart _ => False
  | FTrace, Bare => True
  | _, Bare => False
  | _, _ => True
  end.

Lemma apply_all_given l t0 b0 k d m args :
  Forall proper l -> ParseBool t0 = Some b0 ->
  exists b, ParseBool (given FTrace t0 l) = Some b /\
    apply_all l (mkFlags b0 k d m args) =
    Some (mkFlags b (given FKernel k l) (given FDir d l) (given FMem m l) args).
Proof.
  revert t0 b0 k d m. induction l as [|s l IH]; intros t0 b0 k d m Hl H0; [by exists b0|].
  apply Forall_cons in Hl as [Hs Hl]. destruct s as [two o sp]. cbn [given apply_all].
  unfold proper, apply_setting, value_of in *. cbn [s_option s_spelling] in *.
  destruct o, sp as [v|v|]; try (exfalso; exact Hs); cbn [IsBoolFlag];
    rewrite ?(decide_True (P:=_ = _)), ?(decide_False (P:=_ = _)) by done; cbn;
    try (by apply (IH t0 b0)).
  - destruct Hs as [b Hb]. rewrite Hb. cbn. by apply IH.
  - by apply (IH (str "true") true).
Qed.

(** A command line made of settings and of arguments for the guest. *)
Definition spells (l : list setting) (rest argv : list gostring) : Prop :=
  argv = concat (spell <$> l) ++ str "--" :: rest \/
  (not_option rest /\ argv = concat (spell <$> l) ++ rest).

(** Reading gives what the settings ask for, and leaves the arguments of the
    guest alone, even those that look like an option. *)
Lemma flag_Parse_spells l rest argv :
  Forall proper l -> spells l rest argv ->
  exists b, ParseBool (given FTrace (str "false") l) = Some b /\
    flag_Parse argv = inl (mkFlags b (given FKernel (str "rekernel") l) (given FDir (str ".") l)
                                   (given FMem (str "2G") l) rest).
Proof.
  intros Hl Hs.
  destruct (apply_all_given l (str "false") false (str "rekernel") (str ".") (str "2G") [] Hl eq_refl)
    as (b & Hb & E).
  exists b. split; [done|]. unfold flag_Parse, default_flags.
  destruct Hs as [->|[Hr ->]]; rewrite (parse_settings _ _ _ _ E), parse_flags_step; [done|].
  destruct rest as [|s rest]; [done|]. cbn in Hr. unfold parseOne. by rewrite Hr.
Qed.

(** Reading ends at an option that is not defined. *)
Lemma flag_Parse_unknown l two n v rest :
  Forall proper l -> option_name n -> n ∉ str <$> ["trace"; "kernel"; "dir"; "mem"]%string ->
  flag_Parse (concat (spell <$> l) ++ (dashes two ++ n ++ joined v) :: rest) =
  inr (if decide (n = str "help" \/ n = str "h") then 0 else 2).
Proof.
  intros Hl Hn Hu.
  destruct (apply_all_given l (str "false") false (str "rekernel") (str ".") (str "2G") [] Hl eq_refl)
    as (b & Hb & E).
  unfold flag_Parse, default_flags. rewrite (parse_settings _ _ _ _ E), parse_flags_step.
  rewrite parseOne_named by done. change (n ∉ fst <$> formals) in Hu.
  replace (assoc n formals) with (@None formal); [done|].
  induction formals as [|[m o] fs IH]; [done|]. cbn in Hu |- *.
  apply not_elem_of_cons in Hu as [H1 H2]. rewrite decide_False by congruence. by apply IH.
Qed.
