(* ===== verification/Cmd.v ===== *)
(** * Cmd: the command line program

    Models [src/cmd/revisor/revisor.go]: the memory size option, the list of
    forwarded signals, and [main], which reads the command line ([Flag.v]) and
    puts the container, the machine and the boot loop together.  The embedded guest kernel is generated by the
    build and is a parameter, as is opening another kernel file. *)

From S2P Require Import Prelude Effects Ioctl Structs World Abi Vm Path Container.
From S2P Require Import Argv Machine Boot Flag.

(** ** Signals *)

(** The signals [signal.Notify] is called with, in the order of the source;
    [SIGCLD], [SIGIOT], [SIGPOLL] and [SIGUNUSED] are second names of
    [SIGCHLD], [SIGABRT], [SIGIO] and [SIGSYS]. *)
Definition registered_signals : list (gostring * Z) :=
  [ (str "SIGABRT", 6); (str "SIGBUS", 7); (str "SIGCLD", 17); (str "SIGCONT", 18);
    (str "SIGFPE", 8); (str "SIGHUP", 1); (str "SIGINT", 2); (str "SIGIO", 29);
    (str "SIGIOT", 6); (str "SIGPIPE", 13); (str "SIGPOLL", 29); (str "SIGPWR", 30);
    (str "SIGQUIT", 3); (str "SIGSEGV", 11); (str "SIGSTKFLT", 16); (str "SIGSYS", 31);
    (str "SIGTERM", 15); (str "SIGTRAP", 5); (str "SIGTSTP", 20); (str "SIGTTIN", 21);
    (str "SIGTTOU", 22); (str "SIGUNUSED", 31); (str "SIGUSR1", 10); (str "SIGUSR2", 12);
    (str "SIGWINCH", 28) ].

(** Every registered signal is one that can be caught and that the Go run time
    does not use itself: neither [SIGKILL] nor [SIGSTOP] nor [SIGURG]. *)
Lemma registered_signals_forwardable :
  Forall (fun '(_, s) => 1 <= s <= 31 /\ s ∉ [9; 19; 23]) registered_signals.
Proof. apply (bool_decide_unpack _). by vm_compute. Qed.

(** ** The memory size *)

Definition is_digit (b : byte) : bool := bool_decide (48 <= bval b <= 57).

Fixpoint span_digits (s : gostring) : gostring * gostring :=
  match s with
  | [] => ([], [])
  | b :: s' => if is_digit b then let '(d, r) := span_digits s' in (b :: d, r) else ([], s)
  end.

(** The value of a string of decimal digits. *)
Definition digits_value (ds : gostring) : Z :=
  fold_left (fun n b => n * 10 + (bval b - 48)) ds 0.

Definition quoted (s : gostring) : gostring := x22 :: s ++ [x22].

Definition num_error (s : gostring) (what : string) : error :=
  Wrap (str "strconv.Atoi: parsing " ++ quoted s) (ErrorString (str what)).

(** [strconv.Atoi] on a string of digits. *)
Definition Atoi (ds : gostring) : Z + error :=
  if decide (ds = []) then inr (num_error ds "invalid syntax")
  else if decide (digits_value ds < 2 ^ 63) then inl (digits_value ds)
  else inr (num_error ds "value out of range").

(** The text of the first rune of a non-empty string, as [range] decodes it
    and [%c] prints it: an ill-formed sequence is U+FFFD. *)
Definition rune_error : gostring := [xef; xbf; xbd].

Definition in_bytes (lo hi : Z) (b : byte) : bool := bool_decide (lo <= bval b <= hi).

Definition first_rune (s : gostring) : gostring :=
  let cont := in_bytes 0x80 0xbf in
  match s with
  | [] => []
  | a :: rest =>
      if bool_decide (bval a < 0x80) then [a]
      else match rest with
      | b :: rest2 =>
          if in_bytes 0xc2 0xdf a && cont b then [a; b]
          else match rest2 with
          | c :: rest3 =>
              if (in_bytes 0xe0 0xe0 a && in_bytes 0xa0 0xbf b && cont c) ||
                 (in_bytes 0xe1 0xec a && cont b && cont c) ||
                 (in_bytes 0xed 0xed a && in_bytes 0x80 0x9f b && cont c) ||
                 (in_bytes 0xee 0xef a && cont b && cont c) then [a; b; c]
              else match rest3 with
              | d :: _ =>
                  if (in_bytes 0xf0 0xf0 a && in_bytes 0x90 0xbf b && cont c && cont d) ||
                     (in_bytes 0xf1 0xf3 a && cont b && cont c && cont d) ||
                     (in_bytes 0xf4 0xf4 a && in_bytes 0x80 0x8f b && cont c && cont d)
                  then [a; b; c; d] else rune_error
              | [] => rune_error
              end
          | [] => rune_error
          end
      | [] => rune_error
      end
  end.

Definition bad_modifier (m : gostring) : error :=
  ErrorString (str "invalid memory size modifier " ++ m).

(** What follows the first rune that is not a digit is not looked at. *)
Definition parseMem (mem : gostring) : Z + error :=
  let '(num, rest) := span_digits mem in
  let mod_ := match rest with [] => str "B" | _ => first_rune rest end in
  match Atoi num with
  | inr e => inr e
  | inl n =>
      if decide (mod_ = str "G") then inl (i64 (i64 (i64 (n * 1024) * 1024) * 1024))
      else if decide (mod_ = str "M") then inl (i64 (i64 (n * 1024) * 1024))
      else if decide (mod_ = str "K") then inl (i64 (n * 1024))
      else if decide (mod_ = str "B") then inl n
      else inr (bad_modifier mod_)
  end.

(** ** [main] *)

(** What [main] has come to when the goroutines take over: the process has ended
    in [flag.Parse], or the machine is about to boot, traced or not. *)
Inductive started (C : Type) :=
  | Exits (status : Z)
  | Boots (trace : bool) (c : C).
Arguments Exits {C}.
Arguments Boots {C}.

Section Main.
Context {K O F : Type} `{!KVM K, !HostOS O F, !ElfReader}.
Abbreviation W := (World K O (Container F)).
Context `{!Arch K O (Container F)}.

(** The embedded kernel, and [os.Open] of another one. *)
Context (rekernel : list byte) (open_kernel : gostring -> O -> (ReaderAt + error) * O).

Definition kernel_data (name : gostring) : M W ReaderAt :=
  if decide (name = str "rekernel") then mret (bytes_Reader rekernel)
  else r ← on_os (open_kernel name); lift_sum r.

(** [main] after [flag.Parse], up to the loop of [Boot]. *)
Definition main_flags (fl : flags) : M W (config W) :=
  c ← NewContainer (split_on colon (f_dir fl));
  modify (set_hand c) ;;
  sz ← lift_sum (parseMem (f_mem fl));
  NewMachine (str "/dev/kvm") 1 sz ;;
  kdata ← kernel_data (f_kernel fl);
  Boot kdata (f_args fl).

(** [main] on [os.Args[1:]]; an error is what [log.Fatal] prints. *)
Definition main (argv : list gostring) : M W (started (config W)) :=
  match flag_Parse argv with
  | inr status => mret (Exits status)
  | inl fl => cfg ← main_flags fl; mret (Boots (f_trace fl) cfg)
  end.

End Main.
