(* ===== verification/ArchSpec.v ===== *)
(** * ArchSpec: what the two targets guarantee

    Theorems on the request encoding, the wire formats, the initialisation of
    the vcpus and the register and address conventions of amd64 and arm64 ([Ioctl.v], [Structs.v],
    [Cpuid.v], [ArchAmd64.v], [ArchArm64.v]). *)

From S2P Require Import Prelude Effects Ioctl Structs World Abi Vm Cpuid ArchAmd64 ArchArm64.
From S2P Require Import Build TestHost.

(** ** Request numbers *)

(** The request encoding.  A request number is a 32-bit word from which
    the direction, the KVM type byte, the number and the size can be read
    back, so two requests are equal exactly when direction, number and size
    agree in the width of their fields. *)
Theorem IIOC_decodes dir nr size dir' nr' size' :
  is_u32 (IIOC dir nr size) /\
  ioc_dir (IIOC dir nr size) = dir mod 4 /\ ioc_type (IIOC dir nr size) = KVMIO /\
  ioc_nr (IIOC dir nr size) = nr mod 2 ^ 8 /\ ioc_size (IIOC dir nr size) = size mod 2 ^ 14 /\
  (IIOC dir nr size = IIOC dir' nr' size' <->
   dir mod 4 = dir' mod 4 /\ nr mod 2 ^ 8 = nr' mod 2 ^ 8 /\ size mod 2 ^ 14 = size' mod 2 ^ 14).
Proof.
  destruct (IIOC_fields dir nr size) as (H1 & H2 & H3 & H4).
  destruct (IIOC_fields dir' nr' size') as (H1' & _ & H3' & H4').
  split_and!; try done; [apply IIOC_u32|]. split.
  - intros E. by rewrite <- H1, <- H3, <- H4, <- H1', <- H3', <- H4', E.
  - intros (E1 & E2 & E3). rewrite !IIOC_arith. by rewrite E1, E2, E3.
Qed.

(** The request numbers the program declares without making the request, and the
    numbers of [<linux/kvm.h>]. *)
Definition spare_numbers : list (Z * Z) :=
  [ (kvmGetMSRIndexList, 0x02); (kvmGetMSRFeatureIndexList, 0x0a); (kvmGetDirtyLog, 0x42);
    (kvmSetNrMMUPages, 0x44); (kvmGetNrMMUPages, 0x45); (kvmGetIRQChip, 0x62);
    (kvmSetIRQChip, 0x63); (kvmIRQLineStatus, 0x67); (kvmGetDeviceAttr, 0xe2);
    (kvmHasDeviceAttr, 0xe3); (kvmResgisterCoalescedMMIO, 0x67);
    (kvmUnResgisterCoalescedMMIO, 0x68); (kvmSetGSIRouting, 0x6a);
    (kvmReinjectControl, 0x71); (kvmSetClock, 0x7b); (kvmGetClock, 0x7c);
    (kvmInterrupt, 0x86); (kvmGetMSRS, 0x88); (kvmSetMSRS, 0x89); (kvmGetLAPIC, 0x8e);
    (kvmSetLAPIC, 0x8f); (kvmTRPAccessReporting, 0x92); (kvmGetMPState, 0x98);
    (kvmSetMPState, 0x99); (kvmX86SetupMCE, 0x9c); (kvmX86GetMCECapSupported, 0x9d);
    (kvmGetPIT2, 0x9f); (kvmSetPIT2, 0xa0); (kvmGetVCPUEvents, 0x9f);
    (kvmSetVCPUEvents, 0xa0); (kvmSetTSCKHz, 0xa2); (kvmGetTSCKHz, 0xa3);
    (kvmGetXCRS, 0xa6); (kvmSetXCRS, 0xa7); (kvmSMI, 0xb7); (kvmCreateDev, 0xe0);
    (Arm64.kvmArmVCPUFinalize, 0xc2); (Arm64.kvmArmSetDeviceAddr, 0xab) ].

(** The bits of the registers the program names, and their positions in the
    manual of the processor. *)
Definition register_bits : list (list (Z * Z)) :=
  [[ (Amd64.CR0xPE, 0); (Amd64.CR0xMP, 1); (Amd64.CR0xEM, 2); (Amd64.CR0xTS, 3);
     (Amd64.CR0xET, 4); (Amd64.CR0xNE, 5); (Amd64.CR0xWP, 16); (Amd64.CR0xAM, 18);
     (Amd64.CR0xNW, 29); (Amd64.CR0xCD, 30); (Amd64.CR0xPG, 31) ];
   [ (Amd64.CR4xVME, 0); (Amd64.CR4xPVI, 1); (Amd64.CR4xTSD, 2); (Amd64.CR4xDE, 3);
     (Amd64.CR4xPSE, 4); (Amd64.CR4xPAE, 5); (Amd64.CR4xMCE, 6); (Amd64.CR4xPGE, 7);
     (Amd64.CR4xPCE, 8); (Amd64.CR4xOSFXSR, 9); (Amd64.CR4xOSXMMEXCPT, 10);
     (Amd64.CR4xUMIP, 11); (Amd64.CR4xVMXE, 13); (Amd64.CR4xSMXE, 14);
     (Amd64.CR4xFSGSBASE, 16); (Amd64.CR4xPCIDE, 17); (Amd64.CR4xOSXSAVE, 18);
     (Amd64.CR4xSMEP, 20); (Amd64.CR4xSMAP, 21) ];
   [ (Amd64.EFERxSCE, 0); (Amd64.EFERxLME, 8); (Amd64.EFERxLMA, 10); (Amd64.EFERxNXE, 11) ];
   [ (Amd64.PDE64xPRESENT, 0); (Amd64.PDE64xRW, 1); (Amd64.PDE64xUSER, 2);
     (Amd64.PDE64xACCESSED, 5); (Amd64.PDE64xDIRTY, 6); (Amd64.PDE64xPS, 7);
     (Amd64.PDE64xG, 8) ]].

(** The numbers the program declares and does not use are Linux's, and the bits it
    names in a control register or page table entry are where the processor
    has them, no two at the same place. *)
Lemma spare_constants_ok :
  Forall (fun r => r.1 = r.2) spare_numbers /\
  Forall (fun reg => Forall (fun b => b.1 = 2 ^ b.2) reg /\ NoDup reg.*1) register_bits.
Proof. split; apply (bool_decide_unpack _); by vm_compute. Qed.

(** ** Exit reasons *)

(** C36: The generated [String] method gives every declared exit reason its own
    name, every other value the form with its number, and never panics: it
    is total on the values of the type.  The check that the generator adds
    accepts the constants. *)
Theorem ExitType_String_correct :
  stringer_check = true /\
  Forall (fun '(x, name) => ExitType_String x = Some name) exit_names /\
  (forall x, 0 <= x -> is_Some (ExitType_String x)) /\
  (forall x, is_u64 x -> x ∉ exit_names.*1 ->
     ExitType_String x = Some (str "ExitType(" ++ FormatInt10 (i64 x) ++ str ")")).
Proof.
  assert (Hsmall : forall x, 0 <= x <= 17 ->
            x = 13 \/ x = 14 \/ x ∈ exit_names.*1).
  { assert (Forall (fun x => x = 13 \/ x = 14 \/ x ∈ exit_names.*1) (seqZ 0 18)) as Hall
      by (apply (bool_decide_unpack _); by vm_compute).
    rewrite Forall_forall in Hall. intros x Hx. apply Hall, elem_of_seqZ. lia. }
  assert (Hnames : Forall (fun '(x, name) => ExitType_String x = Some name) exit_names).
  { repeat constructor. }
  split; [done|]. split; [done|]. split.
  - intros x Hx. destruct (decide (x <= 17)) as [Hle|Hgt].
    + destruct (Hsmall x ltac:(lia)) as [->|[->|Hin]]; [by eexists..|].
      apply list_elem_of_fmap in Hin as ([y name] & -> & Hin).
      rewrite Forall_forall in Hnames. exists name. exact (Hnames _ Hin).
    + unfold ExitType_String. rewrite !decide_False by lia. by eexists.
  - intros x Hx Hout. unfold is_u in Hx. destruct (decide (x <= 17)) as [Hle|Hgt].
    + destruct (Hsmall x ltac:(lia)) as [->|[->|Hin]]; [done..|by destruct Hout].
    + unfold ExitType_String. by rewrite !decide_False by lia.
Qed.

(** ** CPUID tables *)

(** C34: CPUID tables survive the trip through their wire format: parsing the
    bytes of a table whose announced length is its length gives the table
    back; and whatever [NewCPUID] accepts has as many entries as it
    announces, so the patching loop of [initCPUID] never indexes out of
    range. *)
Theorem cpuid_round_trip :
  (forall c, cpuid_wf c -> NewCPUID (CPUID_Bytes c) = inl c) /\
  (forall data c, NewCPUID data = inl c ->
     Amd64.patch_entries (Z.to_nat (Nent c)) (Entries c) =
     Some (Amd64.patch_entry <$> Entries c)).
Proof.
  split.
  - intros [n p es] (Hn & Hp & Hlen & Hes). unfold NewCPUID, CPUID_Bytes. cbn [Nent Padding Entries] in *.
    rewrite (ReadFull_app (le_enc 4 n)) by (by rewrite length_le_enc).
    rewrite (ReadFull_app (le_enc 4 p)) by (by rewrite length_le_enc).
    rewrite !le_dec_enc_id by done. unfold read_entries.
    rewrite <- (app_nil_r (concat _)), ReadFull_app.
    2: { rewrite length_entries_bytes. lia. }
    rewrite Hlen, Nat2Z.id, decode_entries_bytes by done. done.
  - intros data c E%NewCPUID_length. rewrite <- E, Nat2Z.id. apply Amd64.patch_entries_length.
Qed.

(** ** Addresses *)

(** C35: Kernel virtual and guest-physical addresses.  On both targets [ka2pa]
    undoes [pa2ka] on every address the direct map covers, which includes all
    of guest RAM below [2^46], is the identity below the kernel half, and on
    amd64 sends the kernel text window to physical addresses from zero; no
    result leaves 64 bits. *)
Theorem address_maps_invert :
  (forall p, 0 <= p < Amd64.kernTextBase - Amd64.kernBase -> Amd64.ka2pa (Amd64.pa2ka p) = p) /\
  (forall p, 0 <= p < 2 ^ 64 - Arm64.kernBase -> Arm64.ka2pa (Arm64.pa2ka p) = p) /\
  (forall v, 0 <= v < Amd64.kernBase -> Amd64.ka2pa v = v) /\
  (forall v, 0 <= v < Arm64.kernBase -> Arm64.ka2pa v = v) /\
  (forall n, 0 <= n < 2 ^ 31 -> Amd64.ka2pa (Amd64.kernTextBase + n) = n) /\
  (forall v, is_u64 v -> is_u64 (Amd64.ka2pa v) /\ is_u64 (Arm64.ka2pa v)).
Proof.
  split_and!.
  - apply Amd64.ka2pa_pa2ka_direct.
  - apply Arm64.arm_ka2pa_pa2ka_direct.
  - intros v Hv. unfold Amd64.ka2pa, Amd64.kernTextBase, Amd64.kernBase in *.
    by rewrite !decide_False by lia.
  - intros v Hv. unfold Arm64.ka2pa, Arm64.kernBase in *. by rewrite decide_False by lia.
  - intros n Hn. unfold Amd64.ka2pa, Amd64.kernTextBase. rewrite decide_True by lia.
    rewrite u64_id by (unfold is_u; lia). lia.
  - intros v Hv. unfold Amd64.ka2pa, Arm64.ka2pa.
    split; repeat case_decide; auto with go_arith.
Qed.

(** ** Boot state on amd64 *)


Section BootState.
Context {K O H : Type} `{!KVM K, !KVMLaws K}.
Abbreviation W := (World K O H).
#[local] Existing Instance on_amd64.



(** An ioctl that ended well is in the trace. *)
Lemma Ioctl_checked_ok fd op t a (w w' : W) res a' :
  Ioctl_checked fd op t a w = (Ok (res, a'), w') ->
  exists kv, sys_ioctl fd op t a (w_kv w) = ((res, 0, a'), kv) /\
             w' = add_event (EIoctl fd op t a) (set_kv kv w).
Proof using Type.
  unfold Ioctl_checked, Ioctl, mbind, M_bind.
  destruct (sys_ioctl fd op t a (w_kv w)) as [[[res1 errno] a1] kv].
  destruct (decide (errno = 0)) as [->|]; [|done]. cbn. intros [= -> -> <-]. by exists kv.
Qed.

Lemma Ioctl_checked_traced fd op t a (w w' : W) r :
  Ioctl_checked fd op t a w = (Ok r, w') -> EIoctl fd op t a ∈ w_trace w'.
Proof using Type. destruct r as [res a']. intros (kv & _ & ->)%Ioctl_checked_ok. left. Qed.

Lemma shape_trace (w w' : W) e : same_shape w w' -> e ∈ w_trace w -> e ∈ w_trace w'.
Proof using Type. intros S He. destruct (ss_trace _ _ S) as [evs ->]. apply elem_of_app. by right. Qed.




(** *** CPUID *)









(** *** arm64 *)

Definition set_reg_event (c : vcpu) (id v : Z) : event :=
  EIoctl (vcpu_fd c) (IIOW kvmSetOneReg (sizeof KvmOneReg_ty)) TOneReg
         (mkOneReg id v : denote TOneReg).

Lemma setReg_ok c id v (w w' : W) :
  Arm64.setReg c id v w = (Ok tt, w') -> set_reg_event c id v ∈ w_trace w'.
Proof using Type.
  unfold Arm64.setReg. intros E. apply bind_Ok_inv in E as (r & w1 & E1 & E). injection E as <-.
  unfold wrap_err in E1. destruct (Ioctl_checked _ _ _ _ w) as [[x|e|p] w2] eqn:E2; simplify_eq.
  by eapply Ioctl_checked_traced.
Qed.

(** C21: The boot state on arm64.  When [SetupRegs] ends well every vcpu was given
    the entry point in its program counter, the size of guest memory in [x0],
    the number of arguments in [x1] and their address in [x2], under the
    register identifiers Linux defines for these registers. *)
Theorem arm64_boot_state pc argc argv (w w' : W) c :
  Arm64.SetupRegs pc argc argv w = (Ok tt, w') -> c ∈ w_vcpus w ->
  set_reg_event c 0x6030000000100040 pc ∈ w_trace w' /\
  set_reg_event c 0x6030000000100000 (u64 (mem_len w)) ∈ w_trace w' /\
  set_reg_event c 0x6030000000100002 argc ∈ w_trace w' /\
  set_reg_event c 0x6030000000100004 argv ∈ w_trace w'.
Proof using KVMLaws0.
  unfold Arm64.SetupRegs. intros E Hc.
  apply bind_Ok_inv in E as (cs & w0 & E0 & E). injection E0 as <- <-.
  set (f := fun c0 => _) in E.
  assert (Hr : forall c id v, respects (same_shape (K:=K) (O:=O) (H:=H)) (Arm64.setReg c id v)).
  { intros c0 id v u. apply (kernel_same_shape (GA:=on_arm64)), Arm64.setReg_kernel_only. }
  assert (Hf : forall y, respects (same_shape (K:=K) (O:=O) (H:=H)) (f y)).
  { intros y. unfold f, Arm64.SetPc, Arm64.SetReg. respects_tac; apply Hr. }
  destruct (for_range_Ok_inv same_shape _ f _ _ c Hf E Hc) as (w1 & w6 & S1 & Ef & S6).
  unfold f in Ef. apply bind_Ok_inv in Ef as ([] & w2 & E1 & Ef).
  apply bind_Ok_inv in Ef as (n & w2' & En & Ef). injection En as <- <-.
  apply bind_Ok_inv in Ef as ([] & w3 & E2 & Ef).
  apply bind_Ok_inv in Ef as ([] & w4 & E3 & E4).
  pose proof (respects_run _ _ _ _ _ (Hr _ _ _) E1) as R1.
  pose proof (respects_run _ _ _ _ _ (Hr _ _ _) E2) as R2.
  pose proof (respects_run _ _ _ _ _ (Hr _ _ _) E3) as R3.
  pose proof (respects_run _ _ _ _ _ (Hr _ _ _) E4) as R4.
  replace (mem_len w) with (mem_len w2)
    by (unfold mem_len; by rewrite (ss_mem _ _ R1), (ss_mem _ _ S1)).
  apply setReg_ok in E1, E2, E3, E4.
  split_and!; (eapply shape_trace; [exact S6|]); eauto using shape_trace.
Qed.

End BootState.

(** ** The hypercall convention

    Both targets read the number and the arguments of a hypercall from the
    vcpu's registers and store the result in one register.  What is needed of
    the kernel is that it keeps registers: reading gives what is there, and
    writing stores what is given. *)

Section Amd64Calls.
Context {K O H : Type} `{!KVM K}.
Abbreviation W := (World K O H).

(** The registers of the vcpu behind a descriptor. *)
Variable regs_of : Z -> kview K -> Regs.

Hypothesis get_regs : forall fd a v,
  sys_ioctl fd (IIOR kvmGetRegs (sizeof Regs_ty)) TRegs a v = ((0, 0, regs_of fd v), v).
Hypothesis set_regs : forall fd r v, exists v',
  sys_ioctl fd (IIOW kvmSetRegs (sizeof Regs_ty)) TRegs r v = ((0, 0, r), v') /\
  regs_of fd v' = r /\ kv_mem v' = kv_mem v.

(** All registers but [rax]. *)
Definition other_regs (r : Regs) : list Z :=
  [Rbx r; Rcx r; Rdx r; Rsi r; Rdi r; Rsp r; Rbp r; R8 r; R9 r; R10 r; R11 r; R12 r;
   R13 r; R14 r; R15 r; Rip r; Rflags r].

Lemma GetRegs_reads c (w : W) :
  exists w1, Amd64.GetRegs c w = (Ok (regs_of (vcpu_fd c) (w_kv w), None), w1) /\
    w_kv w1 = w_kv w /\ w_hand w1 = w_hand w /\ w_os w1 = w_os w /\ w_mach w1 = w_mach w.
Proof using get_regs.
  eexists. split.
  { unfold Amd64.GetRegs, Ioctl, mbind, M_bind. rewrite get_regs. reflexivity. }
  done.
Qed.

Lemma SetRegs_stores c r (w : W) :
  exists w', Amd64.SetRegs c r w = (Ok tt, w') /\ regs_of (vcpu_fd c) (w_kv w') = r /\
    w_mem w' = w_mem w /\ w_hand w' = w_hand w /\ w_os w' = w_os w.
Proof using set_regs.
  destruct (set_regs (vcpu_fd c) r (w_kv w)) as (v' & E & Hr & Hm). eexists. split.
  { unfold Amd64.SetRegs, Ioctl_checked, Ioctl, mbind, M_bind. rewrite E. reflexivity. }
  done.
Qed.

(** C18: The hypercall convention on amd64.  The handler is called with the
    number from [rax] and the arguments from [rdi], [rsi], [rdx], [rcx],
    [r8] and [r9], in a world whose registers and memory are the guest's; its
    result is what the guest finds in [rax], every other register is as the
    guest left it, and what the handler did to memory, files and the
    container stays.  An error or a panic of the handler is passed on and no
    register is written. *)
Theorem amd64_hypercall_abi (h : handler_t K O H) cpu c (w : W) :
  0 <= cpu -> w_vcpus w !! Z.to_nat cpu = Some c ->
  let g := regs_of (vcpu_fd c) (w_kv w) in
  exists w1, w_kv w1 = w_kv w /\ w_hand w1 = w_hand w /\ w_os w1 = w_os w /\
  match h cpu (Rax g) (Rdi g) (Rsi g) (Rdx g) (Rcx g) (R8 g) (R9 g) w1 with
  | (Ok r0, w2) => exists w', Amd64.hypercall h cpu w = (Ok tt, w') /\
      Rax (regs_of (vcpu_fd c) (w_kv w')) = r0 /\
      other_regs (regs_of (vcpu_fd c) (w_kv w')) = other_regs g /\
      w_mem w' = w_mem w2 /\ w_hand w' = w_hand w2 /\ w_os w' = w_os w2
  | (Err e, w2) => Amd64.hypercall h cpu w = (Err e, w2)
  | (Panic p, w2) => Amd64.hypercall h cpu w = (Panic p, w2)
  end.
Proof using get_regs set_regs.
  intros Hcpu Hc g. destruct (GetRegs_reads c w) as (w1 & E1 & Hk & Hh & Ho & _).
  exists w1. split_and!; try done. unfold Amd64.hypercall.
  erewrite run_bind_Ok; [|reflexivity]. erewrite run_bind_Ok; [|by apply index_Ok].
  erewrite run_bind_Ok; [|exact E1]. cbn beta iota. erewrite run_bind_Ok; [|reflexivity]. fold g.
  destruct (h cpu _ _ _ _ _ _ _ w1) as [[r0|e|p] w2] eqn:Eh.
  - erewrite run_bind_Ok; [|exact Eh].
    match goal with |- context [Amd64.SetRegs c ?r w2] =>
      destruct (SetRegs_stores c r w2) as (w' & E2 & Hr & Hm & Hh' & Ho') end.
    exists w'. rewrite E2, Hr. done.
  - by apply run_bind_Err.
  - by apply run_bind_Panic.
Qed.

End Amd64Calls.

Section Arm64Calls.
Context {K O H : Type} `{!KVM K}.
Abbreviation W := (World K O H).

(** The register with a given identifier of the vcpu behind a descriptor. *)
Variable reg_of : Z -> kview K -> Z -> Z.

Hypothesis get_one : forall fd id x v,
  sys_ioctl fd (IIOW kvmGetOneReg (sizeof KvmOneReg_ty)) TOneReg (mkOneReg id x) v =
  ((0, 0, mkOneReg id (reg_of fd v id)), v).
Hypothesis set_one : forall fd id x v, exists v',
  sys_ioctl fd (IIOW kvmSetOneReg (sizeof KvmOneReg_ty)) TOneReg (mkOneReg id x) v =
  ((0, 0, mkOneReg id x), v') /\
  (forall id', reg_of fd v' id' = if decide (id' = id) then x else reg_of fd v id') /\
  kv_mem v' = kv_mem v.

(** What reading a register leaves as it is. *)
Definition only_traced (w w' : W) : Prop :=
  w_kv w' = w_kv w /\ w_hand w' = w_hand w /\ w_os w' = w_os w.

Lemma GetReg_reads c i (w : W) :
  exists w1, Arm64.GetReg c i w = (Ok (reg_of (vcpu_fd c) (w_kv w) (Arm64.gpr_id i)), w1) /\
    only_traced w w1.
Proof using get_one.
  eexists. split.
  { unfold Arm64.GetReg, Arm64.getReg, Ioctl, mbind, M_bind. rewrite get_one. reflexivity. }
  done.
Qed.

(** One more argument read. *)
Lemma GetReg_bind {A} c i (k : Z -> M W A) (w0 w : W) :
  only_traced w0 w ->
  exists w1, only_traced w0 w1 /\
    (Arm64.GetReg c i ≫= k) w = k (reg_of (vcpu_fd c) (w_kv w0) (Arm64.gpr_id i)) w1.
Proof using get_one.
  intros (H1 & H2 & H3). destruct (GetReg_reads c i w) as (w1 & E & H4 & H5 & H6).
  exists w1. split; [split_and!; congruence|].
  erewrite run_bind_Ok; [|exact E]. by rewrite H1.
Qed.

Lemma SetReg_stores c i x (w : W) :
  exists w', Arm64.SetReg c i x w = (Ok tt, w') /\
    (forall id, reg_of (vcpu_fd c) (w_kv w') id =
       if decide (id = Arm64.gpr_id i) then x else reg_of (vcpu_fd c) (w_kv w) id) /\
    w_mem w' = w_mem w /\ w_hand w' = w_hand w /\ w_os w' = w_os w.
Proof using set_one.
  destruct (set_one (vcpu_fd c) (Arm64.gpr_id i) x (w_kv w)) as (v' & E & Hr & Hm).
  eexists. split.
  { unfold Arm64.SetReg, Arm64.setReg, wrap_err, Ioctl_checked, Ioctl, mbind, M_bind.
    rewrite E. reflexivity. }
  done.
Qed.

(** C19: The hypercall convention on arm64.  The handler is called with the
    number from [x8] and the arguments from [x0] to [x5]; its result is what
    the guest finds in [x0], and no other register is written; what the
    handler did to memory, files and the container stays.  An error or a
    panic of the handler is passed on and no register is written. *)
Theorem arm64_hypercall_abi (h : handler_t K O H) cpu c (w : W) :
  0 <= cpu -> w_vcpus w !! Z.to_nat cpu = Some c ->
  let x i := reg_of (vcpu_fd c) (w_kv w) (Arm64.gpr_id i) in
  exists w1, only_traced w w1 /\
  match h cpu (x 8) (x 0) (x 1) (x 2) (x 3) (x 4) (x 5) w1 with
  | (Ok r0, w2) => exists w', Arm64.hypercall h cpu w = (Ok tt, w') /\
      reg_of (vcpu_fd c) (w_kv w') (Arm64.gpr_id 0) = r0 /\
      (forall id, id ≠ Arm64.gpr_id 0 ->
         reg_of (vcpu_fd c) (w_kv w') id = reg_of (vcpu_fd c) (w_kv w2) id) /\
      w_mem w' = w_mem w2 /\ w_hand w' = w_hand w2 /\ w_os w' = w_os w2
  | (Err e, w2) => Arm64.hypercall h cpu w = (Err e, w2)
  | (Panic p, w2) => Arm64.hypercall h cpu w = (Panic p, w2)
  end.
Proof using get_one set_one.
  intros Hcpu Hc x.
  assert (exists w1, only_traced w w1 /\ Arm64.hypercall h cpu w =
    (r0 ← h cpu (x 8) (x 0) (x 1) (x 2) (x 3) (x 4) (x 5); Arm64.SetReg c 0 r0) w1)
    as (w1 & Ht & ->).
  { unfold Arm64.hypercall. erewrite run_bind_Ok; [|reflexivity].
    erewrite run_bind_Ok; [|by apply index_Ok].
    assert (Hw : only_traced w w) by done.
    do 7 match goal with |- context [(Arm64.GetReg c ?i ≫= ?k) ?v] =>
      destruct (GetReg_bind c i k w v ltac:(assumption)) as (? & ? & E); rewrite E; clear E end.
    by eexists. }
  exists w1. split; [done|].
  destruct (h cpu _ _ _ _ _ _ _ w1) as [[r0|e|p] w2] eqn:Eh.
  - erewrite run_bind_Ok; [|exact Eh].
    destruct (SetReg_stores c 0 r0 w2) as (w' & E2 & Hr & Hm & Hh & Ho).
    exists w'. rewrite E2. split_and!; try done.
    intros id Hid. by rewrite Hr, decide_False by done.
  - by apply run_bind_Err.
  - by apply run_bind_Panic.
Qed.

End Arm64Calls.

(** ** Encodings on arm64 *)

(** C37: Register identifiers and interrupt lines on arm64.  The identifiers the
    program computes for the program counter and for the general registers
    are those of the kernel's interface, so distinct registers have distinct
    identifiers; the word that selects an interrupt line holds the line's
    number in its low 24 bits and above them the type, private for numbers up
    to 31 and shared above; the line used for signals is private; and the
    interrupt controller's two windows, the system page and RAM are disjoint. *)
Theorem arm64_encodings :
  Arm64.pc_id = 0x6030000000100040 /\
  (forall i, 0 <= i <= 30 -> Arm64.gpr_id i = 0x6030000000100000 + 2 * i) /\
  (forall irq, 0 <= irq <= 1019 ->
     Z.land (Arm64.irq_line irq) 0xffffff = irq /\
     Z.shiftr (Arm64.irq_line irq) 24 = (if decide (irq <= 31) then 2 else 1)) /\
  Z.shiftr (Arm64.irq_line Arm64.SignalIRQ) 24 = 2 /\
  (physSysBase + 0x1000 <= Arm64._GIC_DIST_BASE /\
   Arm64._GIC_DIST_BASE + Arm64._GIC_DIST_SIZE <= Arm64._GIC_REDIST_CPUI_BASE /\
   Arm64._GIC_REDIST_CPUI_BASE + Arm64._GIC_REDIST_CPUI_SIZE <= physRamBase).
Proof.
  assert (Hg : Forall (fun i => Arm64.gpr_id i = 0x6030000000100000 + 2 * i) (seqZ 0 31))
    by (apply (bool_decide_unpack _); by vm_compute).
  assert (Hi : Forall (fun irq => Z.land (Arm64.irq_line irq) 0xffffff = irq /\
     Z.shiftr (Arm64.irq_line irq) 24 = (if decide (irq <= 31) then 2 else 1)) (seqZ 0 1020))
    by (apply (bool_decide_unpack _); by vm_compute).
  rewrite Forall_forall in Hg. rewrite Forall_forall in Hi. split_and!; try done.
  - intros i Hr. apply Hg, elem_of_seqZ. lia.
  - intros irq Hr. apply Hi, elem_of_seqZ. lia.
Qed.

Lemma set_feature_twice b i : Arm64.set_feature b (Arm64.set_feature b i) = Arm64.set_feature b i.
Proof.
  unfold Arm64.set_feature. cbn. f_equal. destruct (vi_features i) as [|f l]; [done|].
  cbn. by rewrite <- Z.lor_assoc, Z.lor_diag.
Qed.

(** The answer about the performance monitor makes no difference. *)
Lemma wanted_features_psci i pmu : Arm64.wanted_features i pmu = Arm64.set_feature 2 i.
Proof.
  unfold Arm64.wanted_features, Arm64.kvmArmVCPUPSCI0_2, Arm64.kvmArmVCPUPMUV3.
  destruct pmu as [ok|]; [|done]. case_decide; [apply set_feature_twice|done].
Qed.

Section Arm64Init.
Context {K O H : Type} `{!KVM K, !KVMLaws K}.
Abbreviation W := (World K O H).
#[local] Existing Instance on_arm64.

(** [KVM_ARM_VCPU_INIT] only reads its argument. *)
Context (init_reads : forall fd i (v : kview K),
  (sys_ioctl fd (IIOW Arm64.kvmArmVcpuInit (sizeof VcpuInit_ty)) TVcpuInit (i : denote TVcpuInit) v).1.2 = i).

Definition vcpu_init_event (c : vcpu) (i : VcpuInit) : event :=
  EIoctl (vcpu_fd c) (IIOW Arm64.kvmArmVcpuInit (sizeof VcpuInit_ty)) TVcpuInit (i : denote TVcpuInit).

Lemma wrap_err_Ok {A} msg (m : M W A) w a w' : wrap_err msg m w = (Ok a, w') -> m w = (Ok a, w').
Proof using Type. unfold wrap_err. destruct (m w) as [[]]; intros; by simplify_eq. Qed.

Lemma init_vcpus_ok cs i (w w' : W) c :
  Arm64.init_vcpus cs i w = (Ok tt, w') -> c ∈ cs -> vcpu_init_event c i ∈ w_trace w'.
Proof using KVMLaws0 init_reads.
  revert w. induction cs as [|c0 cs IH]; intros w E Hc; [by apply elem_of_nil in Hc|].
  cbn [Arm64.init_vcpus] in E. apply bind_Ok_inv in E as ([res i'] & w1 & E1 & E).
  apply wrap_err_Ok in E1. apply (Ioctl_checked_ok _ _ TVcpuInit) in E1 as (kv & E1 & ->).
  assert (i' = i) as -> by (by rewrite <- (init_reads (vcpu_fd c0) i (w_kv w)), E1).
  apply elem_of_cons in Hc as [->|Hc]; [|by eapply IH].
  pose proof (kernel_step (GA:=on_arm64) _ _ _ _ (Arm64.init_vcpus_kernel_only cs i) E) as S.
  eapply shape_trace; [exact S|]. left.
Qed.

(** C38: The features of a vcpu on arm64.  When the initialisation of a machine
    ends well, the kernel was asked for its preferred target and every vcpu was
    initialised with that target and its features, with one bit added, 2
    (PSCI), whatever the kernel says about the performance monitor.  Every other
    bit is as the preferred target has it; in particular bit 3, which Linux
    gives to the monitor, is never added. *)
Theorem arm64_vcpu_features (w w' : W) :
  Arm64.machine_init w = (Ok tt, w') ->
  exists res i v',
    sys_ioctl (vm_fd (m_vm (w_mach w))) (IIOR Arm64.kvmArmPreferredTarget (sizeof VcpuInit_ty))
      TVcpuInit (VcpuInit_zero : denote TVcpuInit) (w_kv w) = ((res, 0, i : denote TVcpuInit), v') /\
    forall c, c ∈ w_vcpus w ->
    exists i', vcpu_init_event c i' ∈ w_trace w' /\ vi_target i' = vi_target i /\
      tail (vi_features i') = tail (vi_features i) /\
      forall f, head (vi_features i) = Some f ->
      exists f', head (vi_features i') = Some f' /\ Z.testbit f' 2 = true /\
                 forall k, 0 <= k -> k ≠ 2 -> Z.testbit f' k = Z.testbit f k.
Proof using KVMLaws0 init_reads.
  unfold Arm64.machine_init. intros E.
  apply bind_Ok_inv in E as (m & w0 & E0 & E). injection E0 as <- <-.
  apply bind_Ok_inv in E as ([res i] & w1 & E1 & E).
  apply wrap_err_Ok in E1. apply (Ioctl_checked_ok _ _ TVcpuInit) in E1 as (kv & E1 & ->).
  apply bind_Ok_inv in E as (pmu & w2 & E2 & E). rewrite wanted_features_psci in E.
  exists res, i, kv. split; [exact E1|]. intros c Hc.
  exists (Arm64.set_feature 2 i). split; [by eapply init_vcpus_ok|].
  destruct i as [tgt [|f fs]]; (split_and!; [done..|]); [done|].
  intros f0 [= <-]. exists (Z.lor f (Z.shiftl 1 2)). rewrite Z.lor_spec, orb_true_r.
  split_and!; [done..|]. intros k Hk Hne. rewrite Z.lor_spec.
  change (Z.shiftl 1 2) with (2 ^ 2). rewrite (Z.pow2_bits_false 2 k) by lia. apply orb_false_r.
Qed.

End Arm64Init.

(** ** Witnesses *)

Module ArchDemo.
Import TestHost.

(** A handler that answers with the sum of the number and two arguments. *)
Definition adder : handler_t kernel host unit :=
  fun _ num a0 a1 _ _ _ _ => mret (num + a0 + a1).

Definition aw : World kernel host unit := TestHost.world 64 [] [] tt ∅.

(** The same world with arm64 registers. *)
Definition arm_regs : gmap Z Z :=
  <[Arm64.gpr_id 8 := 100]> (<[Arm64.gpr_id 0 := 20]> ({[Arm64.gpr_id 1 := 3]})).

Definition armw : World kernel host unit :=
  set_kv (mkView (mkKernel Regs_zero Sregs_zero arm_regs []) (w_mem aw) (kv_runs (w_kv aw))) aw.

Definition x64w : World kernel host unit :=
  set_kv (mkView (mkKernel (registers 100 20 3 0) Sregs_zero ∅ []) (w_mem aw)
                 (kv_runs (w_kv aw))) aw.



Lemma arm64_boot_state_witness :
  set_reg_event (mkVcpu 10) 0x6030000000100040 0x40008000
    ∈ w_trace (Arm64.SetupRegs 0x40008000 1 0x40000004 aw).2.
Proof.
  exact (proj1 (arm64_boot_state 0x40008000 1 0x40000004 aw _ (mkVcpu 10) eq_refl
                  (list_elem_of_here _ _))).
Defined.

Lemma x64_get_regs (fd : Z) a (v : kview kernel) :
  sys_ioctl fd (IIOR kvmGetRegs (sizeof Regs_ty)) TRegs a v = ((0, 0, tk_regs (kv_state v)), v).
Proof. cbn [sys_ioctl kvm ioctl]. by rewrite decide_True. Qed.

Lemma x64_set_regs (fd : Z) r (v : kview kernel) : exists v',
  sys_ioctl fd (IIOW kvmSetRegs (sizeof Regs_ty)) TRegs r v = ((0, 0, r), v') /\
  tk_regs (kv_state v') = r /\ kv_mem v' = kv_mem v.
Proof. cbn [sys_ioctl kvm ioctl]. rewrite decide_False by done. by eexists. Qed.

Lemma amd64_hypercall_abi_witness :
  exists w', Amd64.hypercall adder 0 x64w = (Ok tt, w') /\
    Rax (tk_regs (kv_state (w_kv w'))) = 123 /\ Rdi (tk_regs (kv_state (w_kv w'))) = 20.
Proof.
  destruct (amd64_hypercall_abi (fun _ v => tk_regs (kv_state v))
    x64_get_regs x64_set_regs adder 0 (mkVcpu 10) x64w ltac:(done) eq_refl)
    as (w1 & _ & _ & _ & w' & H1 & H2 & H3 & _).
  exists w'. split; [exact H1|]. split; [exact H2|].
  exact (f_equal (fun l => default 0 (l !! 4%nat)) H3).
Defined.

Lemma arm_get_one (fd id x : Z) (v : kview kernel) :
  sys_ioctl fd (IIOW kvmGetOneReg (sizeof KvmOneReg_ty)) TOneReg (mkOneReg id x) v =
  ((0, 0, mkOneReg id (default 0 (tk_one (kv_state v) !! id))), v).
Proof. reflexivity. Qed.

Lemma arm_set_one (fd id x : Z) (v : kview kernel) : exists v',
  sys_ioctl fd (IIOW kvmSetOneReg (sizeof KvmOneReg_ty)) TOneReg (mkOneReg id x) v =
  ((0, 0, mkOneReg id x), v') /\
  (forall id', default 0 (tk_one (kv_state v') !! id') =
     if decide (id' = id) then x else default 0 (tk_one (kv_state v) !! id')) /\
  kv_mem v' = kv_mem v.
Proof.
  eexists. split; [reflexivity|]. split; [|reflexivity]. intros id'. cbn.
  destruct (decide (id' = id)) as [->|Hne]; [by rewrite lookup_insert_eq|].
  by rewrite lookup_insert_ne by done.
Qed.

Lemma arm64_hypercall_abi_witness :
  exists w', Arm64.hypercall adder 0 armw = (Ok tt, w') /\
    default 0 (tk_one (kv_state (w_kv w')) !! Arm64.gpr_id 0) = 123.
Proof.
  destruct (arm64_hypercall_abi (fun _ v id => default 0 (tk_one (kv_state v) !! id))
    arm_get_one arm_set_one adder 0 (mkVcpu 10) armw ltac:(done) eq_refl)
    as (w1 & _ & w' & H1 & H2 & _).
  exists w'. split; [exact H1|exact H2].
Defined.

Lemma arm64_vcpu_features_witness :
  exists i', vcpu_init_event (mkVcpu 10) i' ∈ w_trace (Arm64.machine_init aw).2 /\
             Z.testbit (default 0 (head (vi_features i'))) 2 = true.
Proof.
  destruct (arm64_vcpu_features (KVM0:=kvm) (fun fd i v => eq_refl) aw (Arm64.machine_init aw).2)
    as (res & i & v' & E & H).
  - exact (run_pair _ _ _ eq_refl).
  - destruct (H (mkVcpu 10) (list_elem_of_here _ _)) as (i' & Hin & _ & _ & Hf).
    exists i'. split; [exact Hin|].
    injection E as <- <- <-. destruct (Hf _ eq_refl) as (f' & Hf' & Hb & _).
    rewrite Hf'. exact Hb.
Defined.

End ArchDemo.
