(* ===== verification/MachineSpec.v ===== *)
(** * MachineSpec: what the machine guarantees

    Theorems on construction, loading and running ([Machine.v], [Build.v],
    [Load.v], [Argv.v], [Boot.v]), with the hypercall handler of
    [Container.v] where a statement is about whole runs.  Witnesses run on
    the environment of [TestHost.v]. *)

From S2P Require Import Prelude Effects Ioctl Structs World Abi Vm Path Container ContainerSpec.
From S2P Require Import Argv Machine Boot Load Build Cpuid ArchAmd64 TestHost.

(** ** Whole runs *)

Section WholeRuns.
Context {K O F : Type} `{!KVM K, !KVMLaws K, !HostOS O F, !HostOSLaws O F}.
Abbreviation W := (World K O (Container F)).
Context `{!Arch K O (Container F), !ArchLaws K O (Container F)}.

(** A relation that contains the handler's steps contains those of a run. *)
Lemma handler_run_steps (R : relation W) : handler_steps R -> run_steps R Hypercall.
Proof using ArchLaws0 HostOSLaws0.
  intros HR. split.
  - apply (hs_preorder R HR).
  - apply (hs_kernel R HR).
  - intros w e He. apply (hs_event R HR). by destruct e.
  - intros. by apply Hypercall_respects.
Qed.

Lemma Hypercall_same_vcpus : run_steps same_vcpus (Hypercall (K:=K) (O:=O) (F:=F)).
Proof using ArchLaws0 HostOSLaws0.
  pose proof (handler_run_steps memory_stable memory_stable_steps) as HM.
  assert (Hs : forall w w' : W, memory_stable w w' -> same_vcpus w w').
  { intros w w' [_ Hm]. unfold same_vcpus, w_vcpus. by rewrite Hm. }
  split.
  - split; [done|]. intros w1 w2 w3. unfold same_vcpus. congruence.
  - intros w w' (Hm & _). unfold same_vcpus, w_vcpus. by rewrite Hm.
  - done.
  - intros cpu num a0 a1 a2 a3 a4 a5 w. apply Hs, (rs_handler _ _ HM).
Qed.

(** C5: Confinement of a running machine.  Over every interleaving of the vcpu
    goroutines, the boot loop and delivered signals, traced or not, every file
    the program opens on behalf of the guest has a clean absolute name that
    the container's directories admit; the directories never change. *)
Theorem machine_run_confined trace (w : W) c p fl md :
  rtc (step Hypercall trace) (boot_config w) c ->
  EOpenFile p fl md ∈ w_trace (c_world c) ->
  EOpenFile p fl md ∈ w_trace w \/
  (clean_abs p /\ CanAccess (w_hand w) p = true /\ dirs (w_hand (c_world c)) = dirs (w_hand w)).
Proof using ArchLaws0 HostOSLaws0 KVMLaws0.
  intros Hr Hin.
  pose proof (reachable_respects _ _ confined (handler_run_steps _ confined_steps) _ _ Hr)
    as (Hd & evs & Ht & Hall). cbn in Hd, Ht, Hall.
  rewrite Ht in Hin. apply elem_of_app in Hin as [Hin|Hin]; [right|by left].
  rewrite Forall_forall in Hall. by destruct (Hall _ Hin).
Qed.

(** C9: Descriptors in a running machine.  Over every interleaving the table of
    open files stays well formed, descriptors are given out in increasing
    order, and a descriptor in use keeps the file it was given out for. *)
Theorem machine_run_descriptors trace (w : W) c :
  fd_ok (w_hand w) -> rtc (step Hypercall trace) (boot_config w) c ->
  fd_ok (w_hand (c_world c)) /\ nextfd (w_hand w) <= nextfd (w_hand (c_world c)) /\
  (forall fd f, fd < nextfd (w_hand w) -> fdtable (w_hand (c_world c)) !! fd = Some f ->
     fdtable (w_hand w) !! fd = Some f) /\
  length (w_mem (c_world c)) = length (w_mem w) /\ w_mach (c_world c) = w_mach w.
Proof using ArchLaws0 HostOSLaws0 KVMLaws0.
  intros Hok Hr.
  pose proof (reachable_respects _ _ _ (handler_run_steps _ evolves_steps) _ _ Hr Hok)
    as (_ & Hn & Hkeep & Hok').
  pose proof (reachable_respects _ _ _ (handler_run_steps _ memory_stable_steps) _ _ Hr)
    as [Hl Hm].
  cbn in Hn, Hkeep, Hok', Hl, Hm. split_and!; [by apply Hok'|done| |done|done].
  intros fd f Hlt Hf. destruct (Hkeep fd Hlt) as [E|E]; congruence.
Qed.

(** C12: The [WaitGroup].  In every reachable configuration its counter is the
    number of vcpu goroutines that have not ended, so it is never negative;
    one goroutine is started for each vcpu, in order; and [Boot] returns only
    when all of them, one for every vcpu, have ended. *)
Theorem boot_waits_for_all trace (w : W) c :
  rtc (step Hypercall trace) (boot_config w) c ->
  c_wg c = running (c_threads c) /\ 0 <= c_wg c /\
  thread_cpu <$> c_threads c = seqZ 0 (Z.of_nat (length (c_threads c))) /\
  (c_main c = Returned ->
   length (c_threads c) = length (w_vcpus w) /\
   Forall (fun t => is_running t = false) (c_threads c)).
Proof using ArchLaws0 HostOSLaws0 KVMLaws0.
  intros Hr. pose proof (reachable_wg_inv _ _ Hypercall_same_vcpus _ _ Hr) as (Hwg & Hc & Hm).
  pose proof (reachable_respects _ _ _ Hypercall_same_vcpus _ _ Hr) as Hv.
  unfold same_vcpus in Hv. cbn in Hv.
  split_and!; [done|rewrite Hwg; unfold running; lia|done|].
  intros E. rewrite E, Hv in Hm. destruct Hm. split; [lia|done].
Qed.

(** C13: No deadlock.  A reachable configuration in which [Boot] has not
    returned and nothing has panicked always has a next step that does not
    need a signal: a vcpu to boot, a vcpu goroutine to run, or the return of
    [wg.Wait()]. *)
Theorem boot_never_stuck trace (w : W) c :
  rtc (step Hypercall trace) (boot_config w) c ->
  c_main c = Returned \/ (exists p, c_main c = Crashed p) \/
  exists a c', (forall s, a ≠ ASignal s) /\ do_action Hypercall trace a c = Some c'.
Proof using ArchLaws0 HostOSLaws0 KVMLaws0.
  intros Hr. pose proof (reachable_wg_inv _ _ Hypercall_same_vcpus _ _ Hr) as Hinv.
  destruct (c_main c) as [i| |p] eqn:E; [|by left|right; left; by exists p].
  right; right. apply wg_progress; eauto.
Qed.

End WholeRuns.

(** ** Running a vcpu *)

Section Running.
Context {K O H : Type} `{!KVM K, !KVMLaws K, !Arch K O H, !ArchLaws K O H}.
Abbreviation W := (World K O H).
Context (h : handler_t K O H).

Lemma RunOnce_reads cpu c (w w1 : W) :
  machine_wf w -> 0 <= cpu -> w_vcpus w !! Z.to_nat cpu = Some c ->
  vcpu_Run c w = (Ok tt, w1) ->
  exists page, kv_runs (w_kv w1) !! vcpu_fd c = Some page /\
    (exit_reason cpu : M W Z) w1 = (Ok (ExitReason page), w1).
Proof using KVMLaws0 Arch0.
  intros [Hl Hwf] Hcpu Hc E.
  pose proof (kernel_step _ _ _ _ (vcpu_Run_kernel_only c) E) as S.
  destruct (runs_wf_shape _ _ S Hwf (Z.to_nat cpu) c) as [Hr [page Hp]].
  { unfold w_vcpus. by rewrite (ss_vm _ _ S). }
  exists page. split; [done|]. unfold exit_reason.
  erewrite run_bind_Ok; [|reflexivity]. erewrite run_bind_Ok; [|by apply index_Ok].
  erewrite run_bind_Ok; [|reflexivity]. cbn. by rewrite Hp.
Qed.

(** [RunOnce] after it has read the exit reason. *)
Definition dispatch (cpu exit : Z) : M W (bool * option error) :=
  if decide (exit = ExitHlt) then mret (false, None)
  else if decide (exit = ExitMMIO \/ exit = ExitIO) then
    r ← attempt (do_hypercall h cpu);
    match r with inr e => mret (false, Some e) | inl _ => mret (true, None) end
  else if decide (exit = ExitUnknown) then mret (true, None)
  else if decide (exit = ExitIntr) then mret (true, None)
  else if decide (exit = ExitDebug) then mret (false, Some ErrDebug)
  else mret (false, Some (unexpected_exit exit)).

(** [RunOnce] up to the dispatch on the exit reason. *)
Lemma RunOnce_dispatch cpu c (w w1 : W) :
  machine_wf w -> 0 <= cpu -> w_vcpus w !! Z.to_nat cpu = Some c ->
  vcpu_Run c w = (Ok tt, w1) ->
  exists page, kv_runs (w_kv w1) !! vcpu_fd c = Some page /\
    RunOnce h cpu w = dispatch cpu (ExitReason page) w1.
Proof using KVMLaws0.
  intros Hwf Hcpu Hc E. destruct (RunOnce_reads _ _ _ _ Hwf Hcpu Hc E) as (page & Hp & Hx).
  exists page. split; [done|]. unfold RunOnce.
  erewrite run_bind_Ok; [|reflexivity].
  rewrite decide_False by (apply lookup_lt_Some in Hc; lia).
  erewrite run_bind_Ok; [|by apply index_Ok].
  erewrite run_bind_Ok; [|unfold attempt; rewrite E; reflexivity].
  cbn beta iota. by erewrite run_bind_Ok; [|exact Hx].
Qed.

(** C10: [RunOnce] on a vcpu that ran: a halt ends the loop without an error; an
    I/O or MMIO exit performs one hypercall and goes on unless that returned
    an error; an unknown exit and an interruption go on; a debug exit ends
    with [ErrDebug]; every other reason ends with an error that is
    [ErrUnexpectedExitReason] and carries the reason's name. *)
Theorem RunOnce_by_exit cpu c (w w1 : W) :
  machine_wf w -> 0 <= cpu -> w_vcpus w !! Z.to_nat cpu = Some c ->
  vcpu_Run c w = (Ok tt, w1) ->
  exists page, kv_runs (w_kv w1) !! vcpu_fd c = Some page /\
  let x := ExitReason page in
  (x = ExitHlt -> RunOnce h cpu w = (Ok (false, None), w1)) /\
  (x = ExitIO \/ x = ExitMMIO -> RunOnce h cpu w =
     match do_hypercall h cpu w1 with
     | (Ok _, w2) => (Ok (true, None), w2)
     | (Err e, w2) => (Ok (false, Some e), w2)
     | (Panic p, w2) => (Panic p, w2)
     end) /\
  (x = ExitUnknown \/ x = ExitIntr -> RunOnce h cpu w = (Ok (true, None), w1)) /\
  (x = ExitDebug -> RunOnce h cpu w = (Ok (false, Some ErrDebug), w1)) /\
  (x ∉ [ExitHlt; ExitIO; ExitMMIO; ExitUnknown; ExitIntr; ExitDebug] ->
   exists e, RunOnce h cpu w = (Ok (false, Some e), w1) /\
     errors_Is e ErrUnexpectedExitReason = true /\
     (forall name, ExitType_String x = Some name -> e = Wrap name ErrUnexpectedExitReason)).
Proof using KVMLaws0.
  intros Hwf Hcpu Hc E. destruct (RunOnce_dispatch _ _ _ _ Hwf Hcpu Hc E) as (page & Hp & ->).
  exists page. split; [done|]. cbv zeta. unfold dispatch.
  set (x := ExitReason page). clearbody x.
  split_and!.
  - by intros ->.
  - intros Hx. rewrite decide_False by (destruct Hx as [-> | ->]; done).
    rewrite decide_True by tauto. unfold attempt, mbind, M_bind.
    by destruct (do_hypercall h cpu w1) as [[]?].
  - by intros [-> | ->].
  - by intros ->.
  - intros Hx. rewrite !not_elem_of_cons in Hx. destruct Hx as (? & ? & ? & ? & ? & ? & _).
    repeat (rewrite decide_False by naive_solver).
    eexists. split; [reflexivity|]. split; [apply errors_Is_Wrap, errors_Is_refl|].
    intros name Hn. unfold unexpected_exit. by rewrite Hn.
Qed.


(** The run loop.  With enough fuel the loop computes [r] exactly when a
    finite run of [RunOnce] calls, each one that continues followed by the
    single-step request, ends in [r]; more fuel never changes the result; and
    the loop returns no error by itself, only as its value. *)
Theorem RunInfiniteLoop_is_loops cpu trace (w : W) r :
  ((exists fuel, RunInfiniteLoop h fuel cpu trace w = Some r) <-> loops h cpu trace w r) /\
  (forall fuel fuel', (fuel <= fuel')%nat -> RunInfiniteLoop h fuel cpu trace w = Some r ->
     RunInfiniteLoop h fuel' cpu trace w = Some r) /\
  (forall fuel e, RunInfiniteLoop h fuel cpu trace w = Some r -> r.1 ≠ Err e).
Proof using Type.
  split_and!.
  - split; [intros [fuel E]; by eapply RunInfiniteLoop_sound|apply RunInfiniteLoop_complete].
  - intros fuel fuel'. apply RunInfiniteLoop_mono.
  - intros fuel e E%RunInfiniteLoop_sound. by induction E.
Qed.

(** *** The life of a vcpu, written out

    The relations below name only what the source calls: [RunOnce], [Inst],
    [SingleStep], whose error is dropped, and the three lines printed. *)

Definition debug_exit (err : option error) : Prop :=
  exists e, err = Some e /\ errors_Is e ErrDebug = true.

Definition stepped (trace : bool) (w w' : W) : Prop := w' = (SingleStep trace w).2.

(** The instruction at the debug exit is printed, or why it cannot be. *)
Definition instruction_printed (cpu : Z) (w w' : W) : Prop :=
  (exists pc s w1, Inst cpu w = (Ok (pc, s), w1) /\
     w' = add_event (EStdout (str "0x" ++ FormatHex pc ++ str ":" ++ s ++ [x0a])) w1) \/
  (exists e w1, Inst cpu w = (Err e, w1) /\
     w' = add_event (EPrintErr 1 (str "disassembling after debug exit:") (Some e)) w1).

Inductive vcpu_life (cpu : Z) (trace : bool) : W -> outcome unit * W -> Prop :=
  | life_exit w err w1 :
      RunOnce h cpu w = (Ok (false, err), w1) -> ~ (trace = true /\ debug_exit err) ->
      vcpu_life cpu trace w
        (Ok tt, add_event (EPrintErr 2 (str "CPU " ++ FormatInt10 cpu ++ str " exited (err=") err) w1)
  | life_continue w w1 w2 r :
      RunOnce h cpu w = (Ok (true, None), w1) -> stepped trace w1 w2 ->
      vcpu_life cpu trace w2 r -> vcpu_life cpu trace w r
  | life_debug w err w1 w2 w3 r :
      RunOnce h cpu w = (Ok (false, err), w1) -> trace = true -> debug_exit err ->
      instruction_printed cpu w1 w2 -> stepped true w2 w3 ->
      vcpu_life cpu trace w3 r -> vcpu_life cpu trace w r
  | life_panic w p w1 :
      RunOnce h cpu w = (Panic p, w1) -> vcpu_life cpu trace w (Panic p, w1)
  | life_debug_panic w err w1 p w2 :
      RunOnce h cpu w = (Ok (false, err), w1) -> trace = true -> debug_exit err ->
      Inst cpu w1 = (Panic p, w2) -> vcpu_life cpu trace w (Panic p, w2).

Lemma is_ErrDebug_iff err : is_ErrDebug err = true <-> debug_exit err.
Proof using Type.
  unfold is_ErrDebug, debug_exit. destruct err as [e|]; [|by split; [|intros (? & [=] & _)]].
  split; [by exists e|]. by intros (? & [= <-] & ?).
Qed.

(** A turn, by what [RunOnce] returns. *)
Lemma stepped_attempt trace (w : W) : exists r, attempt (SingleStep trace) w = (Ok r, (SingleStep trace w).2).
Proof using Type.
  destruct (SingleStep_returns trace w) as (r & w' & E). exists r. rewrite E. f_equal.
  unfold attempt in E. by destruct (SingleStep trace w) as [[]]; simplify_eq.
Qed.

Lemma turn_continue cpu trace (w w1 : W) :
  RunOnce h cpu w = (Ok (true, None), w1) ->
  vcpu_turn h cpu trace w = (Ok None, (SingleStep trace w1).2).
Proof using Type.
  intros E. unfold vcpu_turn, mbind, M_bind. rewrite (loop_body_continue _ _ _ _ _ _ E).
  destruct (stepped_attempt trace w1) as [r Er]. by rewrite (run_bind_Ok _ _ _ _ _ Er).
Qed.

Lemma turn_stop cpu trace (w w1 : W) err :
  RunOnce h cpu w = (Ok (false, err), w1) ->
  vcpu_turn h cpu trace w = after_loop cpu trace err w1.
Proof using Type.
  intros E. unfold vcpu_turn. by rewrite (run_bind_Ok _ _ _ _ _ (loop_body_stop _ _ _ _ _ _ E)).
Qed.

Lemma after_loop_quits cpu trace err (w : W) :
  ~ (trace = true /\ debug_exit err) -> after_loop cpu trace err w = (Ok (Some err), w).
Proof using Type.
  rewrite <- is_ErrDebug_iff. unfold after_loop. intros Hn.
  destruct trace; [|done]. destruct (is_ErrDebug err); [|done]. by destruct Hn.
Qed.

Lemma after_loop_debug cpu err (w : W) :
  debug_exit err ->
  (forall w1, instruction_printed cpu w w1 ->
     after_loop cpu true err w = (Ok None, (SingleStep true w1).2)) /\
  (forall p w1, Inst cpu w = (Panic p, w1) -> after_loop cpu true err w = (Panic p, w1)).
Proof using Type.
  intros Hd%is_ErrDebug_iff. unfold after_loop. rewrite Hd. cbn [negb]. split.
  - intros w1 Hp. assert (E : trace_line cpu w = (Ok tt, w1)).
    { unfold trace_line, attempt, mbind, M_bind.
      by destruct Hp as [(pc & s & w2 & -> & ->)|(e & w2 & -> & ->)]. }
    rewrite (run_bind_Ok _ _ _ _ _ E). destruct (stepped_attempt true w1) as [r Er].
    by rewrite (run_bind_Ok _ _ _ _ _ Er).
  - intros p w1 E. apply run_bind_Panic. unfold trace_line, attempt, mbind, M_bind. by rewrite E.
Qed.

Lemma life_turns cpu trace (w : W) r : vcpu_life cpu trace w r -> turns h cpu trace w r.
Proof using Type.
  induction 1 as [w err w1 E Hn|w w1 w2 r E -> _ IH|w err w1 w2 w3 r E -> Hd Hp -> _ IH
                 |w p w1 E|w err w1 p w2 E -> Hd Hi].
  - apply turns_exit. rewrite (turn_stop _ _ _ _ _ E). by apply after_loop_quits.
  - eapply turns_step; [by apply turn_continue|exact IH].
  - eapply turns_step; [|exact IH]. rewrite (turn_stop _ _ _ _ _ E). by apply after_loop_debug.
  - apply turns_panic. unfold vcpu_turn, loop_body. by do 2 apply run_bind_Panic.
  - apply turns_panic. rewrite (turn_stop _ _ _ _ _ E). by apply after_loop_debug.
Qed.

(** What follows an exit, by what the goroutine does next. *)
Lemma life_after cpu trace (w w1 : W) err r :
  RunOnce h cpu w = (Ok (false, err), w1) ->
  match after_loop cpu trace err w1 with
  | (Ok None, w3) => vcpu_life cpu trace w3 r
  | (Ok (Some err), w3) => r = (Ok tt, add_event (cpu_exit_line cpu err) w3)
  | (Panic p, w3) => r = (Panic p, w3)
  | (Err _, _) => False
  end -> vcpu_life cpu trace w r.
Proof using Type.
  intros E Hr. destruct (decide (trace = true /\ is_ErrDebug err = true)) as [[-> Hd]|Hn].
  - apply is_ErrDebug_iff in Hd. destruct (after_loop_debug cpu err w1 Hd) as [H1 H2].
    destruct (Inst cpu w1) as [[[pc s]|e|p] w2] eqn:Ei.
    + assert (Hp : instruction_printed cpu w1 _) by (left; by do 3 eexists).
      rewrite (H1 _ Hp) in Hr. by eapply life_debug.
    + assert (Hp : instruction_printed cpu w1 _) by (right; by do 2 eexists).
      rewrite (H1 _ Hp) in Hr. by eapply life_debug.
    + rewrite (H2 _ _ eq_refl) in Hr. subst. by eapply life_debug_panic.
  - assert (Hn' : ~ (trace = true /\ debug_exit err)) by (by rewrite <- is_ErrDebug_iff).
    rewrite after_loop_quits in Hr by done. subst. by apply life_exit.
Qed.

Lemma turns_life cpu trace (w : W) r : turns h cpu trace w r -> vcpu_life cpu trace w r.
Proof using Type.
  intros Ht. induction Ht as [w err w' E|w p w' E|w w1 r E _ IH];
    destruct (RunOnce h cpu w) as [[[[|] err0]|e|p0] w0] eqn:E0;
    try (by apply RunOnce_no_error in E0);
    try (pose proof (RunOnce_continue _ _ _ _ _ E0) as ->; rewrite (turn_continue _ _ _ _ E0) in E;
         simplify_eq; by eapply life_continue);
    try (rewrite (turn_stop _ _ _ _ _ E0) in E; eapply life_after; [exact E0|]; by rewrite E);
    unfold vcpu_turn, loop_body in E; rewrite (run_bind_Panic _ _ _ p0 w0) in E
      by (by apply run_bind_Panic); simplify_eq; by apply life_panic.
Qed.

(** C17: The goroutine of [StartVCPU].  Its two nested loops compute, with enough
    fuel, exactly the life of a vcpu as the source describes it.  A run of the
    guest that asks to go on is followed by the request for single steps and
    the next run.  A run that does not ends the goroutine with a line that
    shows its error, unless tracing is on and the error is a debug exit: then
    the instruction is printed, or why it cannot be, single steps are requested
    again and the guest goes on.  A panic of a run or of the disassembly ends
    it without the line. *)
Theorem goroutine_is_life cpu trace (w : W) r :
  (exists fuel, vcpu_goroutine h fuel cpu trace w = Some r) <-> vcpu_life cpu trace w r.
Proof using Type.
  split.
  - intros [fuel E%vcpu_goroutine_turns]. by apply turns_life.
  - intros Hl%life_turns. by apply turns_vcpu_goroutine.
Qed.

End Running.

(** ** Witnesses

    A guest that opens a file and then exits, on one vcpu. *)

Module RunDemo.
Import TestHost.
#[local] Existing Instance Amd64.arch.
#[local] Existing Instance Amd64.arch_laws.

Definition script : list exit_step :=
  [ mkStep ExitIO (registers hypOpen physRamBase 0 0) ∅;
    mkStep ExitIntr (registers 0 0 0 0) ∅;
    mkStep ExitIO (registers hypExit 0 0 0) ∅ ].

Definition w0 : Demo.W :=
  TestHost.world 256 (str "a.txt" ++ [x00]) script Demo.container Demo.files.

Definition schedule : list action :=
  [ASpawn; ATurn 0; ASignal 2; ATurn 0; ATurn 0; AReturn].

Definition final : config Demo.W :=
  default (boot_config w0) (run_schedule Hypercall false schedule (boot_config w0)).

(** After the first turn. *)
Definition midway : config Demo.W :=
  default (boot_config w0) (run_schedule Hypercall false (take 2 schedule) (boot_config w0)).

Lemma reached (acts : list action) :
  is_Some (run_schedule Hypercall false acts (boot_config w0)) ->
  rtc (step Hypercall false) (boot_config w0)
      (default (boot_config w0) (run_schedule Hypercall false acts (boot_config w0))).
Proof. intros [c E]. rewrite E. cbn. by eapply run_schedule_rtc. Qed.

Lemma final_reached : rtc (step Hypercall false) (boot_config w0) final.
Proof. apply reached, (bool_decide_unpack _). by vm_compute. Qed.

Lemma midway_reached : rtc (step Hypercall false) (boot_config w0) midway.
Proof. apply (reached (take 2 schedule)), (bool_decide_unpack _). by vm_compute. Qed.

Lemma machine_run_confined_witness :
  EOpenFile (str "/work/a.txt") 0 0 ∈ w_trace (c_world final) /\
  (EOpenFile (str "/work/a.txt") 0 0 ∈ w_trace w0 \/
   (clean_abs (str "/work/a.txt") /\ CanAccess (w_hand w0) (str "/work/a.txt") = true /\
    dirs (w_hand (c_world final)) = dirs (w_hand w0))).
Proof.
  assert (H : EOpenFile (str "/work/a.txt") 0 0 ∈ w_trace (c_world final)).
  { vm_compute. repeat first [left | right]. }
  split; [exact H|]. exact (machine_run_confined false w0 final _ _ _ final_reached H).
Defined.

Lemma machine_run_descriptors_witness :
  fd_ok (w_hand (c_world final)) /\ 3 <= nextfd (w_hand (c_world final)).
Proof.
  destruct (machine_run_descriptors false w0 final Demo.container_ok final_reached)
    as (H1 & H2 & _).
  exact (conj H1 H2).
Defined.

Lemma boot_waits_for_all_witness :
  c_main final = Returned /\ c_threads final = [Exited 0 (Some ErrExit)] /\
  length (c_threads final) = length (w_vcpus w0) /\ c_wg final = 0.
Proof.
  destruct (boot_waits_for_all false w0 final final_reached) as (Hw & _ & _ & H).
  assert (E : c_main final = Returned) by (by vm_compute).
  split; [exact E|]. split; [by vm_compute|]. split; [exact (proj1 (H E))|].
  transitivity (running (c_threads final)); [exact Hw|by vm_compute].
Defined.

Lemma boot_never_stuck_witness :
  c_main midway = Booting 1 /\
  (c_main midway = Returned \/ (exists p, c_main midway = Crashed p) \/
   exists a c', (forall s, a ≠ ASignal s) /\ do_action Hypercall false a midway = Some c').
Proof.
  split; [by vm_compute|]. exact (boot_never_stuck false w0 midway midway_reached).
Defined.

Lemma RunOnce_by_exit_witness :
  let w1 := (vcpu_Run (mkVcpu 10) w0).2 in
  exists page, kv_runs (w_kv w1) !! 10 = Some page /\ ExitReason page = ExitIO /\
    RunOnce Hypercall 0 w0 =
    match do_hypercall Hypercall 0 w1 with
    | (Ok _, w2) => (Ok (true, None), w2)
    | (Err e, w2) => (Ok (false, Some e), w2)
    | (Panic p, w2) => (Panic p, w2)
    end.
Proof.
  intros w1.
  destruct (RunOnce_by_exit Hypercall 0 (mkVcpu 10) w0 w1) as (page & Hp & _ & Hio & _);
    [|done|done|reflexivity|].
  - split; [done|]. intros [|i] c Hc; [|done]. injection Hc as <-.
    split; [done|]. by eexists.
  - exists page. split; [exact Hp|]. assert (ExitReason page = ExitIO) as Hx.
    { assert (E : kv_runs (w_kv w1) !! 10 = Some (run_page ExitIO)) by (by vm_compute).
      assert (Some page = Some (run_page ExitIO)) as [= ->] by (rewrite <- E; symmetry; exact Hp).
      done. }
    split; [exact Hx|]. apply Hio. by left.
Defined.

End RunDemo.
