(* ===== verification/Termination.v ===== *)
(** * Termination: a guest that stops is waited for and no longer

    The program runs as long as its guest does, so it ends only with its
    guest.  This file states what it is for a guest to stop, as a budget of
    exits in the kernel's state, and proves that the goroutines then stop too,
    within a bound on their turns that no interleaving exceeds. *)

From S2P Require Import Prelude Effects Ioctl Structs World Abi Vm Path Container ContainerSpec.
From S2P Require Import Argv Machine Boot Load Build MachineSpec Cpuid ArchAmd64 TestHost.

(** The exit reasons after which a vcpu is run again, [ExitDebug] in a traced
    run. *)
Definition continuing : list Z := [ExitIO; ExitMMIO; ExitUnknown; ExitIntr; ExitDebug].

(** The guest stops: a budget that no ioctl increases, and that each [KVM_RUN]
    decreases unless it ends with an exit that is final. *)
Record finite_guest {K} `{!KVM K} (budget : K -> nat) : Prop := {
  fg_ioctl : forall fd op t a (v : kview K),
    (budget (kv_state (sys_ioctl fd op t a v).2) <= budget (kv_state v))%nat;
  fg_run : forall fd (v : kview K), is_Some (kv_runs v !! fd) ->
    let v' := (sys_ioctl fd (IIO kvmRun) TVal (0 : denote TVal) v).2 in
    (budget (kv_state v') < budget (kv_state v))%nat \/
    exists page, kv_runs v' !! fd = Some page /\ ExitReason page ∉ continuing }.

Section Shrinks.
Context {K O H : Type} `{!KVM K, !KVMLaws K, !GoArch} (budget : K -> nat) (HB : finite_guest budget).
Abbreviation W := (World K O H).

Definition w_budget (w : W) : nat := budget (kv_state (w_kv w)).

(** The machine is as it was and the budget has not grown. *)
Definition shrinks (w w' : W) : Prop :=
  w_mach w' = w_mach w /\ dom (kv_runs (w_kv w')) = dom (kv_runs (w_kv w)) /\
  (w_budget w' <= w_budget w)%nat.

#[export] Instance shrinks_preorder : PreOrder shrinks.
Proof using Type.
  split; [done|]. intros w1 w2 w3 (? & ? & ?) (? & ? & ?). split_and!; [congruence..|lia].
Qed.

Lemma replay_budget evs (v : kview K) : (budget (kv_state (replay evs v)) <= budget (kv_state v))%nat.
Proof using HB.
  induction evs as [|e evs IH]; [done|]. cbn. destruct e; try done. cbn.
  etrans; [apply (fg_ioctl _ HB)|done].
Qed.

Lemma kernel_shrinks (w w' : W) : kernel_only w w' -> shrinks w w'.
Proof using HB.
  intros (Hm & _ & _ & _ & Hd & evs & _ & _ & Hv). split_and!; [done..|].
  unfold w_budget. rewrite Hv. apply replay_budget.
Qed.

Lemma shrinks_wf (w w' : W) : shrinks w w' -> machine_wf w -> machine_wf w'.
Proof using Type.
  intros (Hm & Hd & _) [Hl Hr]. unfold machine_wf, runs_wf, w_vcpus in *. rewrite Hm.
  split; [done|]. intros i c Hc. destruct (Hr i c Hc) as [H1 H2]. split; [done|].
  apply elem_of_dom. rewrite Hd. by apply elem_of_dom.
Qed.

End Shrinks.

(** ** One turn *)

Section Turn.
Context {K O H : Type} `{!KVM K, !KVMLaws K, !Arch K O H, !ArchLaws K O H}.
Context (budget : K -> nat) (HB : finite_guest budget).
Abbreviation W := (World K O H).
Context (h : handler_t K O H) (HS : run_steps (shrinks (O:=O) (H:=H) budget) h).

Lemma vcpu_Run_kv c (w w1 : W) r :
  vcpu_Run c w = (r, w1) ->
  w_kv w1 = (sys_ioctl (vcpu_fd c) (IIO kvmRun) TVal (0 : denote TVal) (w_kv w)).2.
Proof using Type.
  unfold vcpu_Run, Ioctl, mbind, M_bind.
  destruct (sys_ioctl _ _ _ _ _) as [[[res errno] a] kv]. cbn.
  destruct (decide (errno = 0)); [by intros [= _ <-]|].
  case_match; by intros [= _ <-].
Qed.

Lemma vcpu_Run_Err c (w w1 : W) e :
  vcpu_Run c w = (Err e, w1) -> errors_Is e ErrDebug = false.
Proof using Type.
  unfold vcpu_Run, Ioctl, mbind, M_bind.
  destruct (sys_ioctl _ _ _ _ _) as [[[res errno] a] kv]. cbn -[errors_Is].
  destruct (decide (errno = 0)); [done|]. case_match; [done|]. by intros [= <- _].
Qed.

(** After a run of a vcpu the loops go on only when the exit was not final. *)
Lemma RunOnce_goes_on cpu (w w' : W) b err :
  machine_wf w -> RunOnce h cpu w = (Ok (b, err), w') -> b = true \/ is_ErrDebug err = true ->
  exists c w1 page,
    vcpu_Run c w = (Ok tt, w1) /\ is_Some (kv_runs (w_kv w) !! vcpu_fd c) /\
    kv_runs (w_kv w1) !! vcpu_fd c = Some page /\ ExitReason page ∈ continuing /\
    shrinks budget w1 w'.
Proof using HS KVMLaws0 ArchLaws0.
  intros Hwf E Hgo. pose proof E as E0. unfold RunOnce in E.
  apply bind_Ok_inv in E as (cs & w0 & E & E1). injection E as <- <-.
  case_decide as Hlt; [injection E1 as ? ? ?; subst b err; by destruct Hgo|].
  apply bind_Ok_inv in E1 as (c & w0 & E & E1). unfold index in E. case_decide as Hc; [|done].
  destruct (w_vcpus w !! Z.to_nat cpu) as [c'|] eqn:Ec; simplify_eq.
  apply bind_Ok_inv in E1 as (r & w1 & E & E1). unfold attempt in E.
  destruct (vcpu_Run c w0) as [[[]|e|p] w1'] eqn:Er; simplify_eq.
  2: { injection E1 as ? ? ?; subst b err. apply vcpu_Run_Err in Er. cbn in Hgo. destruct Hgo; congruence. }
  clear E1. destruct (RunOnce_dispatch h _ _ _ _ Hwf Hc Ec Er) as (page & Hp & E).
  rewrite E0 in E. exists c, w1, page. split_and!; [done|by eapply Hwf|done| |].
  - unfold dispatch in E. unfold continuing. rewrite !elem_of_cons.
    repeat case_decide; try tauto; injection E as ? ? ?; subst b err; by destruct Hgo.
  - assert (HR : respects (shrinks budget) (dispatch h cpu (ExitReason page)))
      by (unfold dispatch; respects_tac; by apply (run_hypercall h)).
    specialize (HR w1). by rewrite <- E in HR.
Qed.

(** An iteration of the loop after which the goroutine may go on has used some
    of the budget. *)
Lemma body_budget cpu trace (w w' : W) r :
  machine_wf w -> loop_body h cpu trace w = (Ok r, w') ->
  (forall err, r = Some err -> is_ErrDebug err = true) ->
  (w_budget budget w' < w_budget budget w)%nat.
Proof using HB HS KVMLaws0 ArchLaws0.
  intros Hwf E Hr. unfold loop_body in E. apply bind_Ok_inv in E as ([b err] & w2 & E2 & E).
  assert ((b = true \/ is_ErrDebug err = true) /\ shrinks budget w2 w') as [Hgo S2].
  { destruct b.
    - split; [by left|]. rewrite (RunOnce_continue _ _ _ _ _ E2) in E.
      apply bind_Ok_inv in E as ([] & w4 & E & E4). injection E as <-.
      apply bind_Ok_inv in E4 as (s & w5 & E4 & E). injection E as <- <-.
      eapply respects_run; [|exact E4]. apply respects_attempt. by apply (run_SingleStep h).
    - injection E as <- <-. split; [right; by apply Hr|reflexivity]. }
  destruct (RunOnce_goes_on _ _ _ _ _ Hwf E2 Hgo) as (c & w1 & page & Er & Hs & Hp & Hx & S1).
  apply vcpu_Run_kv in Er. destruct (fg_run _ HB _ _ Hs) as [Hb|(page' & Hp' & Hx')].
  - rewrite <- Er in Hb. destruct S1 as (_ & _ & S1), S2 as (_ & _ & S2).
    unfold w_budget in *. lia.
  - rewrite <- Er, Hp in Hp'. by simplify_eq.
Qed.

Lemma turn_budget cpu trace (w w' : W) :
  machine_wf w -> vcpu_turn h cpu trace w = (Ok None, w') ->
  (w_budget budget w' < w_budget budget w)%nat.
Proof using HB HS KVMLaws0 ArchLaws0.
  intros Hwf E. unfold vcpu_turn in E. apply bind_Ok_inv in E as (r & w1 & E1 & E).
  assert (shrinks budget w1 w') as (_ & _ & Hle).
  { destruct r as [err|]; [|by injection E as <-].
    eapply respects_run; [|exact E]. by apply (after_loop_respects h). }
  eapply Nat.le_lt_trans; [exact Hle|]. eapply body_budget; [done|exact E1|].
  intros err ->. unfold after_loop in E. by destruct trace, (is_ErrDebug err).
Qed.

End Turn.

(** ** The loops and the transition system *)

Section Terminates.
Context {K O F : Type} `{!KVM K, !KVMLaws K, !HostOS O F, !HostOSLaws O F}.
Abbreviation W := (World K O (Container F)).
Context `{!Arch K O (Container F), !ArchLaws K O (Container F)}.
Context (budget : K -> nat).

Lemma shrinks_steps :
  finite_guest budget -> run_steps (shrinks budget) (Hypercall (K:=K) (O:=O) (F:=F)).
Proof using ArchLaws0 HostOSLaws0.
  intros HB. apply handler_run_steps. split; try apply _; try done.
  by apply kernel_shrinks.
Qed.

(** [RunInfiniteLoop] returns, and has used some of the budget when it returns
    for a debug exit. *)
Lemma loop_returns fuel cpu trace (w : W) :
  finite_guest budget -> machine_wf w -> (w_budget budget w < fuel)%nat ->
  exists o w', RunInfiniteLoop Hypercall fuel cpu trace w = Some (o, w') /\ shrinks budget w w' /\
    (forall err, o = Ok err -> is_ErrDebug err = true ->
     (w_budget budget w' < w_budget budget w)%nat).
Proof using ArchLaws0 HostOSLaws0 KVMLaws0.
  intros HB. pose proof (shrinks_steps HB) as HS. revert w.
  induction fuel as [|fuel IH]; intros w Hwf Hf; [lia|]. cbn [RunInfiniteLoop].
  pose proof (loop_body_respects Hypercall _ HS cpu trace w) as Hb.
  pose proof (body_budget _ HB _ HS cpu trace w) as Hlt.
  destruct (loop_body Hypercall cpu trace w) as [[[err|]|e|p] w1] eqn:E; cbn in Hb.
  - exists (Ok err), w1. split_and!; [done..|]. intros err' [= <-] Hd.
    apply (Hlt w1 (Some err) Hwf eq_refl). by intros ? [= <-].
  - assert (Hw : (w_budget budget w1 < w_budget budget w)%nat) by (by apply (Hlt w1 None)).
    destruct (IH w1) as (o & w' & -> & S & Hd); [by eapply shrinks_wf|lia|].
    exists o, w'. split_and!; [done|by etrans|]. intros err Ho He. specialize (Hd err Ho He). lia.
  - by exists (Err e), w1.
  - by exists (Panic p), w1.
Qed.

Lemma goroutine_returns fuel cpu trace (w : W) :
  finite_guest budget -> machine_wf w -> (w_budget budget w < fuel)%nat ->
  is_Some (vcpu_goroutine Hypercall fuel cpu trace w).
Proof using ArchLaws0 HostOSLaws0 KVMLaws0.
  intros HB. pose proof (shrinks_steps HB) as HS. revert w.
  induction fuel as [|fuel IH]; intros w Hwf Hf; [lia|]. cbn [vcpu_goroutine].
  destruct (loop_returns (S fuel) cpu trace w HB Hwf Hf) as (o & w1 & -> & S1 & Hd).
  destruct o as [err|e|p]; [|by eexists..].
  pose proof (after_loop_respects Hypercall _ HS cpu trace err w1) as Ha.
  destruct (after_loop cpu trace err w1) as [[[err'|]|e|p] w2] eqn:Ea; [by eexists| |by eexists..].
  cbn in Ha. apply IH; [eapply shrinks_wf; [exact Ha|]; by eapply shrinks_wf|].
  unfold after_loop in Ea. destruct trace, (is_ErrDebug err) eqn:Ed; try discriminate Ea.
  specialize (Hd err eq_refl Ed). destruct Ha as (_ & _ & Ha). lia.
Qed.

(** *** Configurations *)

Definition is_signal (a : action) : bool := match a with ASignal _ => true | _ => false end.

(** What is left to do: the budget, two steps for each vcpu still to be booted,
    one for each goroutine, one for the return. *)
Definition todo (c : config W) : nat :=
  match c_main c with
  | Booting i =>
      w_budget budget (c_world c) + 2 * Z.to_nat (Z.of_nat (length (w_vcpus (c_world c))) - i) +
      length (filter is_running (c_threads c)) + 1
  | _ => 0
  end.

Lemma running_nat ts : running ts = Z.of_nat (length (filter is_running ts)).
Proof. done. Qed.

Lemma action_todo trace a (c c' : config W) :
  finite_guest budget -> machine_wf (c_world c) -> do_action Hypercall trace a c = Some c' ->
  (todo c' + (if is_signal a then 0 else 1) <= todo c)%nat /\ machine_wf (c_world c').
Proof using ArchLaws0 HostOSLaws0 KVMLaws0.
  intros HB Hwf E. pose proof (shrinks_steps HB) as HS.
  assert (S : shrinks budget (c_world c) (c_world c'))
    by (apply (step_respects Hypercall trace _ HS); by exists a).
  split; [|by eapply shrinks_wf]. destruct S as (Hm & _ & Hle).
  assert (Hv : w_vcpus (c_world c') = w_vcpus (c_world c)) by (unfold w_vcpus; by rewrite Hm).
  unfold todo. rewrite Hv. clear Hm Hv. unfold do_action in E.
  destruct (c_main c) as [i| |p] eqn:Ec; [|done..]. destruct a as [| |j|s]; cbn [is_signal].
  - case_decide; simplify_eq. rewrite after_world in *. unfold after in *.
    destruct (StartVCPU trace i (c_world c)) as [[]w1]; cbn in *; try lia;
      rewrite filter_app, length_app; cbn; rewrite decide_True by done; cbn; lia.
  - case_decide; simplify_eq. cbn. lia.
  - destruct (c_threads c !! j) as [[cpu|]|] eqn:Ej; [|done..].
    pose proof (turn_budget _ HB _ HS cpu trace (c_world c)) as Ht.
    destruct (vcpu_turn Hypercall cpu trace (c_world c)) as [[[err|]|e|p] w1]; simplify_eq; cbn in *.
    + pose proof (running_exit _ _ _ err Ej) as Hr. rewrite !running_nat in Hr. lia.
    + specialize (Ht w1 Hwf eq_refl). lia.
    + lia.
    + lia.
  - simplify_eq. rewrite after_world in *. unfold after.
    destruct (signal_turn s (c_world c)) as [[]w1]; cbn in *; rewrite ?Ec; lia.
Qed.

Lemma schedule_todo trace acts (c c' : config W) :
  finite_guest budget -> machine_wf (c_world c) -> run_schedule Hypercall trace acts c = Some c' ->
  (todo c' + length (filter (fun a => is_signal a = false) acts) <= todo c)%nat /\
    machine_wf (c_world c').
Proof using ArchLaws0 HostOSLaws0 KVMLaws0.
  intros HB. revert c. induction acts as [|a acts IH]; intros c Hwf E; cbn in E.
  { simplify_eq. cbn. split; [lia|done]. }
  destruct (do_action Hypercall trace a c) as [c1|] eqn:E1; [|done]. cbn in E.
  destruct (action_todo _ _ _ _ HB Hwf E1) as [H1 Hwf1].
  destruct (IH c1 Hwf1 E) as [H2 Hwf2]. split; [|done].
  rewrite filter_cons. destruct (is_signal a); case_decide; cbn; try done; lia.
Qed.

(** From a configuration that satisfies the invariant the program can be run to
    its end without a signal. *)
Lemma runs_to_end trace (c : config W) :
  finite_guest budget -> machine_wf (c_world c) -> wg_inv c ->
  exists acts c', Forall (fun a => is_signal a = false) acts /\
    run_schedule Hypercall trace acts c = Some c' /\
    (c_main c' = Returned \/ exists p, c_main c' = Crashed p).
Proof using ArchLaws0 HostOSLaws0 KVMLaws0.
  intros HB. remember (todo c) as n eqn:Hn. revert c Hn.
  induction n as [n IH] using lt_wf_ind. intros c -> Hwf Hinv.
  destruct (c_main c) as [i| |p] eqn:Ec;
    [|exists [], c; by eauto|exists [], c; by eauto].
  destruct (wg_progress Hypercall trace c Hinv) as (a & c1 & Ha & E1); [by eauto|].
  assert (Hs : is_signal a = false) by (destruct a; try done; by edestruct Ha).
  destruct (action_todo _ _ _ _ HB Hwf E1) as [H1 Hwf1]. rewrite Hs in H1.
  destruct (IH (todo c1) ltac:(lia) c1 eq_refl Hwf1) as (acts & c' & Hf & E & He).
  { eapply (step_wg_inv Hypercall trace Hypercall_same_vcpus); [done|by exists a]. }
  exists (a :: acts), c'. split_and!; [by constructor| |done]. cbn. by rewrite E1.
Qed.

(** C4: Termination.  When the guest stops, in the sense that a budget bounds
    the exits after which a vcpu is run again, so does the program: no
    interleaving of the boot loop, the vcpu goroutines and any number of
    signals has more steps of the first two kinds than the budget, twice the
    number of vcpus, and one; and every configuration that is reached can be
    run on to the return of [Boot] or to a panic, without waiting for a
    signal. *)
Theorem boot_terminates trace (w : W) acts c :
  finite_guest budget -> machine_wf w ->
  run_schedule Hypercall trace acts (boot_config w) = Some c ->
  (length (filter (fun a => is_signal a = false) acts) <=
     budget (kv_state (w_kv w)) + 2 * length (w_vcpus w) + 1)%nat /\
    exists acts' c', Forall (fun a => is_signal a = false) acts' /\
    run_schedule Hypercall trace acts' c = Some c' /\
    (c_main c' = Returned \/ exists p, c_main c' = Crashed p).
Proof using ArchLaws0 HostOSLaws0 KVMLaws0.
  intros HB Hwf E. destruct (schedule_todo trace acts (boot_config w) c HB Hwf E) as [Hle Hwf'].
  split; [unfold todo, w_budget in Hle; cbn in Hle; lia|].
  apply runs_to_end; [done..|]. apply run_schedule_rtc in E.
  by apply (reachable_wg_inv _ _ Hypercall_same_vcpus) in E.
Qed.

(** C14: Termination of the goroutine of a vcpu.  On a guest that stops, its two
    nested loops return: the fuel of the model is enough as soon as it
    exceeds the budget of the guest, whatever the number of the vcpu and
    whether the run is traced or not. *)
Theorem goroutine_terminates fuel cpu trace (w : W) :
  finite_guest budget -> machine_wf w -> (budget (kv_state (w_kv w)) < fuel)%nat ->
  is_Some (vcpu_goroutine Hypercall fuel cpu trace w) /\
    is_Some (RunInfiniteLoop Hypercall fuel cpu trace w).
Proof using ArchLaws0 HostOSLaws0 KVMLaws0.
  intros HB Hwf Hf. split; [by apply goroutine_returns|].
  destruct (loop_returns fuel cpu trace w HB Hwf Hf) as (o & w' & -> & _). by eexists.
Qed.

End Terminates.

(** ** Witnesses: the guest of the script *)

Module TerminationDemo.
Import TestHost.
#[local] Existing Instance Amd64.arch.
#[local] Existing Instance Amd64.arch_laws.

Definition exits_left (k : kernel) : nat := length (tk_script k).

Lemma script_finite : finite_guest exits_left.
Proof.
  split.
  - intros fd op t a v. destruct t; cbn; repeat case_decide; try done.
    unfold do_run. destruct (tk_script (kv_state v)) eqn:E; cbn; [done|].
    unfold exits_left. rewrite E. cbn. lia.
  - intros fd v [page Hp]. cbn. rewrite decide_True by done. unfold do_run.
    destruct (tk_script (kv_state v)) eqn:E; cbn.
    + right. unfold set_reason. rewrite Hp. exists (run_page ExitHlt).
      rewrite lookup_insert_eq. split; [done|]. apply (bool_decide_unpack _). by vm_compute.
    + left. unfold exits_left. rewrite E. cbn. lia.
Qed.

Lemma w0_wf : machine_wf RunDemo.w0.
Proof.
  split; [done|]. intros [|i] c Hc; [|done]. injection Hc as <-. split; [done|]. by eexists.
Qed.

Lemma boot_terminates_witness :
  (length (filter (fun a => is_signal a = false) RunDemo.schedule) <= 6)%nat /\
    exists acts' c', Forall (fun a => is_signal a = false) acts' /\
    run_schedule Hypercall false acts' RunDemo.final = Some c' /\
    (c_main c' = Returned \/ exists p, c_main c' = Crashed p).
Proof.
  assert (E : run_schedule Hypercall false RunDemo.schedule (boot_config RunDemo.w0) =
              Some RunDemo.final).
  { unfold RunDemo.final. assert (is_Some (run_schedule Hypercall false RunDemo.schedule
      (boot_config RunDemo.w0))) as [c Hc] by (apply (bool_decide_unpack _); by vm_compute).
    by rewrite Hc. }
  exact (boot_terminates exits_left false RunDemo.w0 _ _ script_finite w0_wf E).
Defined.

Lemma goroutine_terminates_witness :
  is_Some (vcpu_goroutine Hypercall 4 0 false RunDemo.w0).
Proof.
  exact (proj1 (goroutine_terminates exits_left 4 0 false RunDemo.w0 script_finite w0_wf
                  (le_n 4))).
Defined.

End TerminationDemo.
