(* ===== verification/Signals.v ===== *)
(** * Signals: interrupts that arrive inside a turn

    In the transition system of [Boot.v] a turn of a vcpu goroutine is one
    step, and signals come between steps.  In the program the signal goroutine
    runs in parallel, so its [KVM_IRQ_LINE] request can reach the kernel
    between any two requests of a turn.  What a vcpu goroutine sees of that is
    a kernel that has been interrupted: [interrupted K] is the kernel [K] in
    which, before each request, any number of signals may have been injected,
    as a schedule says.  It satisfies the laws of a kernel, and a guest that
    stops still does, so everything that is proved for all kernels holds with
    signals inside turns. *)

From S2P Require Import Prelude Effects Ioctl Structs World Abi Vm Path Container ContainerSpec.
From S2P Require Import Machine Boot Build MachineSpec Termination Cpuid ArchAmd64 TestHost.

(** The kernel and, for each request to come, the number of signals before it;
    no signal once the list has ended. *)
Record interrupted (K : Type) := mkInterrupted { i_kernel : K; i_schedule : list nat }.
Arguments mkInterrupted {K}.
Arguments i_kernel {K}.
Arguments i_schedule {K}.

Section Interrupted.
Context {K : Type} `{!KVM K} (sig : event).

Definition plain (v : kview (interrupted K)) : kview K :=
  mkView (i_kernel (kv_state v)) (kv_mem v) (kv_runs v).

(** The signals before the next request. *)
Definition deliver (v : kview (interrupted K)) : kview K :=
  Nat.iter (hd 0%nat (i_schedule (kv_state v))) (replay_event sig) (plain v).

Definition interrupted_ioctl (fd op : Z) (t : ioty) (a : denote t) (v : kview (interrupted K))
    : (Z * Z * denote t) * kview (interrupted K) :=
  let '(r, v') := sys_ioctl fd op t a (deliver v) in
  (r, mkView (mkInterrupted (kv_state v') (tl (i_schedule (kv_state v)))) (kv_mem v') (kv_runs v')).

Definition on_plain {A} (f : K -> A * K) (k : interrupted K) : A * interrupted K :=
  let '(a, k') := f (i_kernel k) in (a, mkInterrupted k' (i_schedule k)).

#[local] Instance interrupted_kvm : KVM (interrupted K) := {
  sys_ioctl := interrupted_ioctl;
  sys_open p := on_plain (sys_open p);
  sys_mmap fd n := on_plain (sys_mmap fd n);
  gommap_MapAt n := on_plain (gommap_MapAt n);
  Getpagesize := Getpagesize }.

(** What every delivery keeps. *)
Lemma deliver_ind (P : kview K -> Prop) v :
  P (plain v) -> (forall u, P u -> P (replay_event sig u)) -> P (deliver v).
Proof. intros H0 HS. unfold deliver. by induction (hd _ _) as [|n IH]; [|apply HS]. Qed.

Lemma deliver_keeps `{!KVMLaws K} v :
  length (kv_mem (deliver v)) = length (kv_mem v) /\
  dom (kv_runs (deliver v)) = dom (kv_runs v).
Proof.
  apply (deliver_ind (fun u => length (kv_mem u) = length (kv_mem v) /\
                               dom (kv_runs u) = dom (kv_runs v))); [done|].
  intros u [H1 H2]. destruct sig as [fd op t a| | | | | |]; try done. cbn.
  by rewrite ioctl_keeps_mem_length, ioctl_keeps_runs.
Qed.

#[local] Instance interrupted_laws `{!KVMLaws K} : KVMLaws (interrupted K).
Proof.
  split; intros fd op t a v; destruct (deliver_keeps v) as [H1 H2]; cbn; unfold interrupted_ioctl.
  - rewrite <- H1, <- (ioctl_keeps_mem_length fd op t a (deliver v)).
    by destruct (sys_ioctl fd op t a (deliver v)).
  - rewrite <- H2, <- (ioctl_keeps_runs fd op t a (deliver v)).
    by destruct (sys_ioctl fd op t a (deliver v)).
Qed.

(** Interrupts use up no budget, so a guest that stops still does. *)
Lemma interrupted_finite `{!KVMLaws K} (budget : K -> nat) :
  finite_guest budget -> finite_guest (K:=interrupted K) (fun k => budget (i_kernel k)).
Proof.
  intros [Hio Hrun].
  assert (Hd : forall v, (budget (kv_state (deliver v)) <= budget (i_kernel (kv_state v)))%nat).
  { intros v. apply (deliver_ind (fun u => (budget (kv_state u) <= budget (i_kernel (kv_state v)))%nat));
      [done|].
    intros u Hu. destruct sig as [fd op t a| | | | | |]; try done. cbn.
    etrans; [apply Hio|done]. }
  split.
  - intros fd op t a v. cbn. unfold interrupted_ioctl. pose proof (Hio fd op t a (deliver v)) as H.
    destruct (sys_ioctl fd op t a (deliver v)) as [r v']. cbn in *. specialize (Hd v). lia.
  - intros fd v Hs. cbn zeta. destruct (deliver_keeps v) as [_ Hdom].
    assert (Hs' : is_Some (kv_runs (deliver v) !! fd)).
    { apply elem_of_dom. rewrite Hdom. by apply elem_of_dom. }
    specialize (Hrun fd (deliver v) Hs'). cbn in Hrun |- *. unfold interrupted_ioctl.
    destruct (sys_ioctl fd (IIO kvmRun) TVal _ (deliver v)) as [r v']. cbn in *.
    destruct Hrun as [Hlt|Hp]; [left; specialize (Hd v); lia|by right].
Qed.

(** ** The machine with signals inside turns *)

Section Machine.
Context {O F : Type} `{!KVMLaws K, !HostOS O F, !HostOSLaws O F}.
Abbreviation W := (World (interrupted K) O (Container F)).
Context `{!Arch (interrupted K) O (Container F), !ArchLaws (interrupted K) O (Container F)}.

(** Confinement, the descriptor invariant and termination when signals reach
    the kernel at any point of a turn, for any schedule of them. *)
Theorem interrupted_turns_safe budget trace (w : W) acts c :
  fd_ok (w_hand w) -> run_schedule Hypercall trace acts (boot_config w) = Some c ->
  fd_ok (w_hand (c_world c)) /\
  (forall p fl md, EOpenFile p fl md ∈ w_trace (c_world c) ->
     EOpenFile p fl md ∈ w_trace w \/ (clean_abs p /\ CanAccess (w_hand w) p = true)) /\
  (finite_guest budget -> machine_wf w ->
   (length (filter (fun a => is_signal a = false) acts) <=
      budget (i_kernel (kv_state (w_kv w))) + 2 * length (w_vcpus w) + 1)%nat).
Proof.
  intros Hok E. pose proof (run_schedule_rtc _ _ _ _ _ E) as Hr. split_and!.
  - pose proof (reachable_respects _ _ _ (handler_run_steps _ evolves_steps) _ _ Hr Hok)
      as (_ & _ & _ & Hok'). by apply Hok'.
  - intros p fl md Hin.
    pose proof (reachable_respects _ _ confined (handler_run_steps _ confined_steps) _ _ Hr)
      as (_ & evs & Ht & Hall). cbn in Ht, Hall. rewrite Ht in Hin.
    apply elem_of_app in Hin as [Hin|Hin]; [right|by left].
    rewrite Forall_forall in Hall. by destruct (Hall _ Hin).
  - intros HB Hwf.
    destruct (schedule_todo _ trace acts (boot_config w) c (interrupted_finite _ HB) Hwf E) as [Hle _].
    unfold todo, w_budget in Hle. cbn in Hle. lia.
Qed.

End Machine.
End Interrupted.

(** ** The guest of [RunDemo] with signals inside its turns *)

Module SignalsDemo.
Import TestHost.

Definition irq_request : event :=
  EIoctl 5 (IIOW kvmIRQLine (sizeof IrqLevel_ty)) TIrqLevel (mkIrqLevel 1 1 : denote TIrqLevel).

#[local] Instance ikvm : KVM (interrupted kernel) := interrupted_kvm irq_request.
#[local] Instance ilaws : KVMLaws (interrupted kernel) := interrupted_laws irq_request.
#[local] Existing Instance Amd64.arch.
#[local] Existing Instance Amd64.arch_laws.

Definition iw : World (interrupted kernel) host (Container gostring) :=
  let w := RunDemo.w0 in
  mkWorld (mkView (mkInterrupted (kv_state (w_kv w)) [0; 2; 1; 1]%nat) (w_mem w) (kv_runs (w_kv w)))
          (w_mach w) (w_hand w) (w_os w) (w_trace w).

Definition ifinal : config (World (interrupted kernel) host (Container gostring)) :=
  default (boot_config iw) (run_schedule Hypercall false RunDemo.schedule (boot_config iw)).

Lemma interrupted_turns_safe_witness :
  c_main ifinal = Returned /\ fd_ok (w_hand (c_world ifinal)) /\
  (length (filter (fun a => is_signal a = false) RunDemo.schedule) <= 6)%nat.
Proof.
  assert (E : run_schedule Hypercall false RunDemo.schedule (boot_config iw) = Some ifinal).
  { unfold ifinal. assert (is_Some (run_schedule Hypercall false RunDemo.schedule (boot_config iw)))
      as [c Hc] by (apply (bool_decide_unpack _); by vm_compute).
    by rewrite Hc. }
  split; [by vm_compute|].
  destruct (interrupted_turns_safe irq_request TerminationDemo.exits_left false iw _ _
              Demo.container_ok E) as (H1 & _ & H3).
  split; [exact H1|]. apply (H3 TerminationDemo.script_finite).
  split; [done|]. intros [|i] c Hc; [|done]. injection Hc as <-. split; [done|]. by eexists.
Defined.

End SignalsDemo.
