(* ===== verification/LoadSpec.v ===== *)
(** * LoadSpec: what a booting guest finds

    Theorems on construction ([NewMachine]), on the argument vector
    ([argv.go]) and on [LoadKernel]: what is in guest memory and what the
    kernel was told when the first vcpu starts. *)

From S2P Require Import Prelude Effects Ioctl Structs World Abi Vm Path Container.
From S2P Require Import Argv Machine Load Build Cpuid ArchAmd64 TestHost.

Section Claims.
Context {K O H : Type} `{!KVM K, !KVMLaws K, !Arch K O H, !ArchLaws K O H}.
Abbreviation W := (World K O H).

(** Two ranges of guest-physical addresses do not overlap. *)
Definition regions_disjoint (r s : UserspaceMemoryRegion) : Prop :=
  GuestPhysAddr r + MemorySize r <= GuestPhysAddr s \/
  GuestPhysAddr s + MemorySize s <= GuestPhysAddr r.

(** C11: A machine that [NewMachine] returns without an error has the vcpus it
    was asked for, each with its mapped [kvm_run] page under the same index,
    and guest memory of the size asked for; the handler and the host's files
    were not touched; and the kernel was told of two memory slots, RAM at
    [physRamBase] and a read-only page at [physSysBase], which do not overlap
    when a page is not larger than the gap between them. *)
Theorem NewMachine_correct path ncpus memSize (w w' : W) :
  NewMachine path ncpus memSize w = (Ok tt, w') ->
  machine_wf w' /\ Z.of_nat (length (w_vcpus w')) = ncpus /\
  length (w_mem w') = Z.to_nat memSize /\ w_hand w' = w_hand w /\ w_os w' = w_os w /\
  exists ram sys, Slot ram = 0 /\ Slot sys = 1 /\
    GuestPhysAddr ram = physRamBase /\ GuestPhysAddr sys = physSysBase /\
    MemorySize ram = u64 (mem_len w') /\ Flags sys = kvmMemReadonly /\
    region_event (vm_fd (m_vm (w_mach w'))) ram ∈ w_trace w' /\
    region_event (vm_fd (m_vm (w_mach w'))) sys ∈ w_trace w' /\
    (0 <= Getpagesize <= physRamBase - physSysBase -> regions_disjoint ram sys).
Proof using KVMLaws0 ArchLaws0.
  intros (Hwf & Hn & Hm & Hh & Ho & Hpg & Hr & Hs)%NewMachine_built.
  split_and!; try done. exists (ram_region w'), (sys_region w'). split_and!; try done.
  intros Hle. right. cbn. rewrite Hpg, u64_id; [unfold physRamBase, physSysBase in *; lia|].
  unfold is_u, physRamBase, physSysBase in *. lia.
Qed.

(** ** The argument vector *)

(** C25: [argv.WriteAt] on every branch.  A vector that ends inside guest memory
    is written in full, strings first and then the array of pointers; the
    result is the array's address, or the error "argv too large" when the
    vector reaches past the kernel base.  A vector that does not end inside
    guest memory makes the program panic. *)
Theorem argv_every_branch args (w : W) :
  mem_len w < 2 ^ 63 -> argv_size args < 2 ^ 63 ->
  (argv_size args <= mem_len w ->
   argv_WriteAt args 0 w =
   (if decide (physKernBase - physRamBase < argv_size args)
    then Err argv_too_large else Ok (pa2ka (physRamBase + strings_size args)),
    set_mem (write_at 0 (argv_image args 0) (w_mem w)) w)) /\
  (mem_len w < argv_size args -> exists p w', argv_WriteAt args 0 w = (Panic p, w')).
Proof using Type.
  unfold mem_len. intros Hm Ha. split; intros Hle.
  - rewrite argv_WriteAt_fits by lia. by rewrite !Z.add_0_l.
  - apply argv_WriteAt_over; lia.
Qed.

Lemma cstring_app a rest : x00 ∉ a -> cstring (a ++ x00 :: rest) = a.
Proof using Type.
  induction a as [|b a IH]; intros Ha; [done|]. simpl.
  rewrite not_elem_of_cons in Ha. destruct Ha as [Hb Ha].
  rewrite decide_False by congruence. by rewrite IH.
Qed.

Lemma pa2ka_back n :
  0 <= n < 2 ^ 45 -> ka2pa (pa2ka (K:=K) (O:=O) (H:=H) (physRamBase + n)) - physRamBase = n.
Proof using ArchLaws0.
  intros Hn. rewrite ka2pa_pa2ka; unfold physRamBase; lia.
Qed.

(** What the image holds: the pointer of argument [i] and the string it points
    to. *)
Lemma argv_image_arg args i a mem :
  args !! i = Some a -> x00 ∉ a -> argv_size args <= Z.of_nat (length mem) ->
  let mem' := write_at 0 (argv_image args 0) mem in
  read_at (Z.to_nat (strings_size args) + 8 * i) 8 mem' =
    le_enc 8 (pa2ka (physRamBase + strings_size (take i args))) /\
  cstring (drop (Z.to_nat (strings_size (take i args))) mem') = a.
Proof using Type.
  intros Hi Ha Hl mem'. pose proof (length_argv_image args 0) as Hlen.
  pose proof (strings_size_take _ _ _ Hi) as Hst.
  assert (Hpl : length (arg_pointers args 0 ++ [0]) = S (length args))
    by (rewrite length_app, length_arg_pointers; simpl; lia).
  pose proof (lookup_lt_Some _ _ _ Hi) as Hlt.
  assert (0 <= strings_size args) by (unfold strings_size; lia).
  split.
  - unfold mem'. rewrite <- (Nat.add_0_l (Z.to_nat _ + _)).
    rewrite read_in_write_at; [|lia|unfold argv_size in *; lia].
    unfold argv_image, strings_size. rewrite Nat2Z.id. unfold read_at.
    rewrite <- drop_drop, drop_app_length. change (take 8 (drop ?n ?l)) with (read_at n 8 l).
    rewrite (pointers_image_read _ _ (pa2ka (physRamBase + strings_size (take i args)))); [done|].
    rewrite lookup_app_l by (by rewrite length_arg_pointers).
    by rewrite (arg_pointers_lookup _ _ _ _ Hi), Z.add_0_l.
  - unfold mem', write_at, argv_image.
    rewrite take_0, app_nil_l, <- !app_assoc, drop_app_le by (unfold strings_size in *; lia).
    rewrite (strings_image_drop _ _ _ Hi). unfold arg_cstring.
    rewrite <- !app_assoc. by apply cstring_app.
Qed.

(** C7: The arguments reach the guest.  When the vector fits below the kernel
    base, the address that [argv.WriteAt] returns is, through the guest's own
    mapping, an array of pointers in which entry [i] points to a
    zero-terminated copy of argument [i] and the entry after the last one is
    null; the memory from the kernel base on is untouched. *)
Theorem argv_reaches_guest args (w : W) :
  mem_len w < 2 ^ 63 -> argv_size args <= physKernBase - physRamBase <= mem_len w ->
  Forall (fun a => x00 ∉ a) args ->
  exists argv w', argv_WriteAt args 0 w = (Ok argv, w') /\
    let mem := w_mem w' in
    let base := Z.to_nat (ka2pa argv - physRamBase) in
    (forall i a, args !! i = Some a ->
       let ptr := le_dec (read_at (base + 8 * i) 8 mem) in
       cstring (drop (Z.to_nat (ka2pa ptr - physRamBase)) mem) = a) /\
    le_dec (read_at (base + 8 * length args) 8 mem) = 0 /\
    length mem = length (w_mem w) /\
    drop (Z.to_nat (physKernBase - physRamBase)) mem =
    drop (Z.to_nat (physKernBase - physRamBase)) (w_mem w).
Proof using ArchLaws0.
  unfold mem_len. intros Hm [Ha Hk] Hz. pose proof (length_argv_image args 0) as Hlen.
  assert (0 <= strings_size args) by (unfold strings_size; lia).
  assert (argv_size args = strings_size args + 8 * (Z.of_nat (length args) + 1)) by done.
  assert (physKernBase - physRamBase = 0x8000) as Hkr by done.
  rewrite argv_WriteAt_fits by lia. rewrite decide_False by lia. rewrite Z.add_0_l.
  do 2 eexists. split; [reflexivity|]. rewrite w_mem_set_mem, pa2ka_back by lia. cbv zeta.
  change (Z.to_nat 0) with 0%nat.
  split_and!.
  - intros i a Hi. rewrite Forall_lookup in Hz.
    destruct (argv_image_arg _ _ _ (w_mem w) Hi (Hz _ _ Hi) ltac:(lia)) as [-> Hs].
    pose proof (strings_size_take _ _ _ Hi).
    assert (0 <= strings_size (take i args)) by (unfold strings_size; lia).
    rewrite le_dec_enc_id by apply pa2ka_u64. by rewrite pa2ka_back by lia.
  - rewrite <- (Nat.add_0_l (Z.to_nat _ + _)), read_in_write_at by lia.
    unfold argv_image, strings_size. rewrite Nat2Z.id. unfold read_at.
    rewrite <- drop_drop, drop_app_length. change (take 8 (drop ?n ?l)) with (read_at n 8 l).
    rewrite (pointers_image_read _ _ 0); [done|].
    by rewrite lookup_app_r, length_arg_pointers, Nat.sub_diag by (rewrite length_arg_pointers; lia).
  - apply length_write_at. lia.
  - apply drop_write_at; lia.
Qed.

(** ** Loading a kernel *)

(** C6: Loading a kernel.  For a file that parses, whose loadable segments lie
    in the file, above the kernel base and inside guest memory, with some
    memory behind each, and do not overlap, [LoadKernel] ends in programming
    the registers with the entry point, the number of arguments and the
    address of the vector, on a memory in which every segment is the file's
    bytes followed by zeros up to its memory size, the argument vector lies
    at the bottom, and every window that neither touches is unchanged. *)
Theorem LoadKernel_correct `{!ElfReader} bs e args (w : W) :
  elf_NewFile (bytes_Reader bs) = inl e ->
  mem_len w < 2 ^ 63 -> Z.of_nat (length bs) < 2 ^ 63 ->
  table_ok bs (mem_len w) (e_Progs e) -> file_bytes (e_Progs e) ≠ 0 ->
  argv_size args <= physKernBase - physRamBase <= mem_len w ->
  ForallOrdPairs (fun p q => is_load p = true -> is_load q = true -> seg_disjoint p q) (e_Progs e) ->
  exists mem', LoadKernel (bytes_Reader bs) args w =
    SetupRegs (e_Entry e) (u64 (Z.of_nat (length args)))
      (pa2ka (physRamBase + strings_size args)) (set_mem mem' w) /\
    length mem' = length (w_mem w) /\
    (forall p, p ∈ e_Progs e -> is_load p = true ->
       read_at (Z.to_nat (seg_start p)) (Z.to_nat (p_Memsz p)) mem' = seg_image bs p) /\
    read_at 0 (Z.to_nat (argv_size args)) mem' = argv_image args 0 /\
    (forall off n, (Z.to_nat (argv_size args) <= off)%nat ->
       Forall (fun p => is_load p = true ->
         Z.of_nat (off + n) <= seg_start p \/ seg_start p + p_Memsz p <= Z.of_nat off) (e_Progs e) ->
       read_at off n mem' = read_at off n (w_mem w)).
Proof using Type.
  unfold mem_len. intros He Hm Hb Hok Hne Ha Hd. pose proof (length_argv_image args 0) as Hlen.
  pose proof (length_load_images bs (e_Progs e) (w_mem w) Hok) as Hl.
  eexists. split; [by apply LoadKernel_runs|]. split_and!.
  - rewrite length_write_at by lia. done.
  - intros p Hp Hpl. rewrite read_write_at_disjoint; [by apply load_images_inside|lia|].
    right. unfold table_ok in Hok. rewrite Forall_forall in Hok.
    destruct (Hok p Hp) as [?|[(H1 & _) _]]; [congruence|]. lia.
  - rewrite <- Hlen, Nat2Z.id. apply read_write_at. lia.
  - intros off n Hoff Hout. rewrite read_write_at_disjoint by lia.
    by apply load_images_outside.
Qed.

(** C26: What [LoadKernel] refuses: a file that does not parse, with the parser's
    error and nothing touched; at any position of the table, after headers
    that load, a loadable segment that the file does not contain in full or
    that would fill guest memory to its last byte, with an error that names the
    header by its index; an argument vector that reaches past the kernel base;
    and a file whose loadable segments have no bytes in all, whether it has
    such segments or not. *)
Theorem LoadKernel_refuses `{!ElfReader} bs args (w : W) :
  mem_len w < 2 ^ 63 -> Z.of_nat (length bs) < 2 ^ 63 ->
  (forall err, elf_NewFile (bytes_Reader bs) = inr err ->
     LoadKernel (bytes_Reader bs) args w = (Err err, w)) /\
  (forall e ps p ps', elf_NewFile (bytes_Reader bs) = inl e -> e_Progs e = ps ++ p :: ps' ->
     table_ok bs (mem_len w) ps ->
     p_Type p = PT_LOAD -> 0 <= p_Off p < 2 ^ 63 -> 0 <= seg_start p <= mem_len w ->
     0 < p_Filesz p < 2 ^ 63 ->
     Z.of_nat (length bs) < p_Off p + p_Filesz p \/ mem_len w <= seg_start p + p_Filesz p ->
     exists n err w', LoadKernel (bytes_Reader bs) args w =
                      (Err (load_error (Z.of_nat (length ps)) p n err), w')) /\
  (forall e, elf_NewFile (bytes_Reader bs) = inl e -> table_ok bs (mem_len w) (e_Progs e) ->
     physKernBase - physRamBase < argv_size args <= mem_len w ->
     exists w', LoadKernel (bytes_Reader bs) args w = (Err argv_too_large, w')) /\
  (forall e, elf_NewFile (bytes_Reader bs) = inl e -> table_ok bs (mem_len w) (e_Progs e) ->
     file_bytes (e_Progs e) = 0 ->
     argv_size args <= physKernBase - physRamBase <= mem_len w ->
     exists w', LoadKernel (bytes_Reader bs) args w = (Err kernel_is_empty, w')).
Proof using Type.
  unfold LoadKernel, mem_len. intros Hm Hb. split_and!.
  - intros err E. by rewrite E.
  - intros e ps p ps' E Ep Hok Ht Ho Hst Hf Hbad. rewrite E.
    erewrite run_bind_Ok; [|reflexivity]. rewrite Ep.
    destruct (load_progs_refuses bs ps p ps' w) as (n & err & w' & Hp); [done..|].
    exists n, err, w'. by apply run_bind_Err.
  - intros e E Hok Ha. pose proof (length_load_images bs _ (w_mem w) Hok) as Hl.
    eexists. rewrite E. erewrite run_bind_Ok; [|reflexivity].
    erewrite run_bind_Ok; [|by apply load_progs_ok]. apply run_bind_Err.
    rewrite argv_WriteAt_fits, decide_True by (rewrite ?w_mem_set_mem, ?Hl; lia). reflexivity.
  - intros e E Hok Hz Ha. pose proof (length_load_images bs _ (w_mem w) Hok) as Hl.
    eexists. rewrite E. erewrite run_bind_Ok; [|reflexivity].
    erewrite run_bind_Ok; [|by apply load_progs_ok].
    erewrite run_bind_Ok.
    2: { rewrite argv_WriteAt_fits, decide_False by (rewrite ?w_mem_set_mem, ?Hl; lia). reflexivity. }
    by rewrite Hz, decide_True by done.
Qed.

End Claims.

(** ** Witnesses *)

Module LoadDemo.
Import TestHost.
#[local] Existing Instance Amd64.arch.
#[local] Existing Instance Amd64.arch_laws.

Abbreviation W := (World kernel host unit).

(** A world with [n] bytes of guest memory. *)
Definition wn (n : Z) : W := TestHost.world (Z.to_nat n) [] [] tt ∅.

(** Just enough memory for the kernel base and 32 bytes of kernel. *)
Definition big : W := wn 0x8020.

Definition args : list gostring := [str "prog"; str "-v"].

(** A file with the magic number and four bytes of code. *)
Definition file : list byte := magic ++ [x90; x90; x90; xf4].

Lemma NewMachine_correct_witness :
  let w' := (NewMachine (str "/dev/kvm") 2 64 (wn 0)).2 in
  machine_wf w' /\ Z.of_nat (length (w_vcpus w')) = 2.
Proof.
  intros w'.
  destruct (NewMachine_correct (str "/dev/kvm") 2 64 (wn 0) w') as (H1 & H2 & _).
  - assert (E : (NewMachine (str "/dev/kvm") 2 64 (wn 0)).1 = Ok tt) by (by vm_compute).
    exact (run_pair (NewMachine (str "/dev/kvm") 2 64) (wn 0) (Ok tt) E).
  - exact (conj H1 H2).
Defined.

Lemma argv_every_branch_witness :
  argv_WriteAt args 0 (wn 64) =
  (Ok (Amd64.pa2ka (physRamBase + 8)),
   set_mem (write_at 0 (argv_image (K:=kernel) (O:=host) (H:=unit) args 0) (w_mem (wn 64))) (wn 64)) /\
  exists p w', argv_WriteAt args 0 (wn 16) = (Panic p, w').
Proof.
  split.
  - apply (proj1 (argv_every_branch args (wn 64) ltac:(done) ltac:(done))). done.
  - apply (proj2 (argv_every_branch args (wn 16) ltac:(done) ltac:(done))). done.
Defined.

Lemma argv_reaches_guest_witness :
  exists argv w', argv_WriteAt args 0 big = (Ok argv, w') /\
    let mem := w_mem w' in
    let base := Z.to_nat (Amd64.ka2pa argv - physRamBase) in
    cstring (drop (Z.to_nat (Amd64.ka2pa (le_dec (read_at (base + 8 * 1) 8 mem)) - physRamBase)) mem)
    = str "-v".
Proof.
  destruct (argv_reaches_guest args big) as (argv & w' & H1 & H2 & _).
  - by vm_compute.
  - split; by vm_compute.
  - apply (bool_decide_unpack _). by vm_compute.
  - exists argv, w'. split; [exact H1|]. exact (H2 1%nat (str "-v") eq_refl).
Defined.

Lemma LoadKernel_correct_witness :
  exists mem', LoadKernel (bytes_Reader file) args big =
    Amd64.SetupRegs (Amd64.pa2ka physKernBase) 2 (Amd64.pa2ka (physRamBase + 8)) (set_mem mem' big) /\
    read_at (Z.to_nat 0x8000) 16 mem' = file ++ replicate 8 x00.
Proof.
  destruct (LoadKernel_correct file (mkElf (Amd64.pa2ka physKernBase) [segment]) args big)
    as (mem' & H1 & _ & H2 & _).
  - by vm_compute.
  - by vm_compute.
  - by vm_compute.
  - constructor; [right|constructor]. apply (bool_decide_unpack _). by vm_compute.
  - by vm_compute.
  - split; by vm_compute.
  - repeat constructor.
  - exists mem'. split; [exact H1|]. exact (H2 segment (list_elem_of_here _ _) eq_refl).
Defined.

(** A reader that finds a second header, whose segment ends after the file. *)
Definition cut_off : Prog := mkProg PT_LOAD 8 (Amd64.pa2ka physKernBase + 16) 8 8.

Definition two_headers : ElfReader :=
  {| elf_NewFile _ := inl (mkElf (Amd64.pa2ka physKernBase) [segment; cut_off]) |}.

Lemma LoadKernel_refuses_witness :
  LoadKernel (bytes_Reader (str "no kernel")) args big =
  (Err (ErrorString (str "bad magic number")), big) /\
  exists n err w', LoadKernel (H0:=two_headers) (bytes_Reader file) args big =
                   (Err (load_error 1 cut_off n err), w').
Proof.
  split.
  - apply (proj1 (LoadKernel_refuses (str "no kernel") args big ltac:(by vm_compute) ltac:(by vm_compute))).
    by vm_compute.
  - destruct (LoadKernel_refuses (H0:=two_headers) file args big) as (_ & H & _);
      [by vm_compute..|].
    refine (H _ [segment] cut_off [] eq_refl eq_refl _ eq_refl _ _ _ _);
      [|split; by vm_compute..|left; by vm_compute].
    constructor; [right|constructor]. apply (bool_decide_unpack _). by vm_compute.
Defined.

End LoadDemo.
