(* ===== verification/CmdSpec.v ===== *)
(** * CmdSpec: what the whole program guarantees

    Theorems on [Cmd.v]: the memory size option, what [main] makes of a command
    line and how it fails, the confinement of a guest from the command line on,
    and the ioctls of the whole program against Linux's interface. *)

From S2P Require Import Prelude Effects Ioctl Structs World Abi Vm Path Container ContainerSpec.
From S2P Require Import Argv Machine Boot Load Build MachineSpec Flag Cmd Cpuid ArchAmd64 TestHost.

(** ** The memory size *)

Lemma span_digits_app ds rest :
  Forall (fun b => is_digit b = true) ds ->
  match rest with b :: _ => is_digit b = false | [] => True end ->
  span_digits (ds ++ rest) = (ds, rest).
Proof.
  intros Hds Hr. induction Hds as [|b ds Hb Hds IH]; simpl.
  - destruct rest as [|b rest]; [done|]. simpl. by rewrite Hr.
  - by rewrite Hb, IH.
Qed.

Lemma digits_value_bound ds n :
  0 <= n -> Forall (fun b => is_digit b = true) ds ->
  0 <= fold_left (fun n b => n * 10 + (bval b - 48)) ds n.
Proof.
  revert n. induction ds as [|b ds IH]; intros n Hn Hds; [done|].
  apply Forall_cons in Hds as [Hb Hds]. simpl. apply IH; [|done].
  apply bool_decide_eq_true in Hb. lia.
Qed.

(** Wrapping early or late is the same. *)
Lemma i64_mul x k : i64 (i64 x * k) = i64 (x * k).
Proof.
  unfold i64 at 1 3. replace (u64 (i64 x * k)) with (u64 (x * k)); [done|].
  unfold u64, umod. rewrite (Zmult_mod x), (Zmult_mod (i64 x)).
  change (i64 x mod 2 ^ 64) with (u64 (i64 x)). by rewrite u64_i64.
Qed.

(** The unit a modifier stands for; without one the number counts bytes. *)
Definition unit_of (rest : gostring) : option Z :=
  match rest with
  | [] => Some 1
  | m :: _ =>
      if decide (m = "G"%byte) then Some (2 ^ 30)
      else if decide (m = "M"%byte) then Some (2 ^ 20)
      else if decide (m = "K"%byte) then Some (2 ^ 10)
      else if decide (m = "B"%byte) then Some 1 else None
  end.

Lemma span_digits_spec s :
  exists ds rest, s = ds ++ rest /\ Forall (fun b => is_digit b = true) ds /\
    match rest with b :: _ => is_digit b = false | [] => True end.
Proof.
  induction s as [|b s (ds & rest & -> & Hds & Hr)]; [by exists [], []|].
  destruct (is_digit b) eqn:E; [|by exists [], (b :: ds ++ rest)].
  exists (b :: ds), rest. split_and!; [done|by constructor|done].
Qed.

(** An ASCII character is its own text; any other rune has a first byte that is
    not ASCII. *)
Lemma first_rune_ascii m rest : bval m < 0x80 -> first_rune (m :: rest) = [m].
Proof. intros Hm. cbn. by rewrite bool_decide_eq_true_2. Qed.

Lemma first_rune_other m rest c :
  0x80 <= bval m -> bval c < 0x80 -> first_rune (m :: rest) ≠ [c].
Proof.
  intros Hm Hc. cbn. rewrite bool_decide_eq_false_2 by lia.
  repeat case_match; intros E; try discriminate E.
Qed.

Lemma first_rune_is c m rest : bval c < 0x80 -> first_rune (m :: rest) = [c] <-> m = c.
Proof.
  intros Hc. split; [|intros ->; by apply first_rune_ascii].
  destruct (decide (bval m < 0x80)) as [Hm|Hm].
  - rewrite first_rune_ascii by done. congruence.
  - intros E. exfalso. eapply first_rune_other; [|exact Hc|exact E]. lia.
Qed.

(** The switch on the modifier. *)
Lemma parseMem_number ds rest :
  Forall (fun b => is_digit b = true) ds ->
  match rest with b :: _ => is_digit b = false | [] => True end ->
  ds ≠ [] -> digits_value ds < 2 ^ 63 ->
  parseMem (ds ++ rest) =
  match unit_of rest with
  | Some u => inl (i64 (digits_value ds * u))
  | None => inr (bad_modifier (first_rune rest))
  end.
Proof.
  intros Hds Hr Hne Hn. unfold parseMem. rewrite span_digits_app by done.
  assert (0 <= digits_value ds) by (by apply digits_value_bound).
  unfold Atoi. rewrite decide_False, decide_True by done. set (n := digits_value ds) in *.
  change (str "G") with ["G"%byte]. change (str "M") with ["M"%byte].
  change (str "K") with ["K"%byte]. change (str "B") with ["B"%byte].
  destruct rest as [|m rest]; cbn [unit_of].
  { rewrite Z.mul_1_r, (i64_small n) by lia. done. }
  repeat (let Hm := fresh "Hm" in destruct (decide (first_rune _ = _)) as [Hm|Hm];
          rewrite first_rune_is in Hm by (by vm_compute);
          [rewrite (decide_True (P:=m = _)) by done|rewrite (decide_False (P:=m = _)) by done]); f_equal; rewrite ?i64_mul, <- ?Z.mul_assoc, ?i64_mul, <- ?Z.mul_assoc; try done.
  rewrite Z.mul_1_r, (i64_small n); lia.
Qed.

(** C39: The memory size option, on every input.  An input is its longest run of
    leading digits and a rest.  Without digits it is a syntax error, the empty
    input included, and a number of at least [2^63] is out of range, whatever
    follows.  Otherwise the number counts bytes when nothing or a [B] follows,
    and [K], [M] and [G] multiply it, whatever comes after the letter; a
    product of at least [2^63] wraps around.  Any other first character of the
    rest, ASCII or not, is an error that names it. *)
Theorem parseMem_exact s :
  exists ds rest, s = ds ++ rest /\ Forall (fun b => is_digit b = true) ds /\
  match rest with b :: _ => is_digit b = false | [] => True end /\
  let n := digits_value ds in
  (ds = [] -> parseMem s = inr (num_error [] "invalid syntax")) /\
  (2 ^ 63 <= n -> parseMem s = inr (num_error ds "value out of range")) /\
  (ds ≠ [] -> n < 2 ^ 63 ->
   (forall u, unit_of rest = Some u ->
      parseMem s = inl (i64 (n * u)) /\ (n * u < 2 ^ 63 -> parseMem s = inl (n * u))) /\
   (unit_of rest = None -> parseMem s = inr (bad_modifier (first_rune rest))) /\
   (forall m r, rest = m :: r -> unit_of rest = None -> bval m < 0x80 ->
      parseMem s = inr (bad_modifier [m]))).
Proof.
  destruct (span_digits_spec s) as (ds & rest & -> & Hds & Hr).
  exists ds, rest. cbv zeta. split_and!; try done.
  - intros ->. unfold parseMem. by rewrite span_digits_app.
  - intros Hbig. unfold parseMem. rewrite span_digits_app by done. unfold Atoi.
    rewrite decide_False by (intros ->; by vm_compute in Hbig).
    by rewrite decide_False by lia.
  - intros Hne Hn. pose proof (parseMem_number ds rest Hds Hr Hne Hn) as E. split_and!.
    + intros u Hu. rewrite Hu in E. split; [done|]. intros Hlt. rewrite E, i64_small; [done|].
      assert (0 <= digits_value ds) by (by apply digits_value_bound).
      assert (0 < u) by (destruct rest; cbn in Hu; repeat case_decide; simplify_eq; lia). nia.
    + intros Hu. by rewrite Hu in E.
    + intros m r -> Hu Hm. by rewrite Hu, first_rune_ascii in E.
Qed.

(** ** What setting up adds to the trace: ioctls that pass the check *)

Section Quiet.
Context {K O F : Type} `{!KVM K, !KVMLaws K, !HostOS O F, !HostOSLaws O F}.
Abbreviation W := (World K O (Container F)).
Context `{!Arch K O (Container F), !ArchLaws K O (Container F)}.

(** The container is left alone and every event is an ioctl that passes the
    check: in particular nothing is opened for the guest. *)
Definition quiet (w w' : W) : Prop :=
  w_hand w' = w_hand w /\
  exists evs, w_trace w' = evs ++ w_trace w /\ Forall (fun e => ioctl_ok e = true) evs.

#[export] Instance quiet_preorder : PreOrder quiet.
Proof using Type.
  split.
  - intros w. split; [done|]. by exists [].
  - intros w1 w2 w3 (H1 & e1 & T1 & F1) (H2 & e2 & T2 & F2). split; [congruence|].
    exists (e2 ++ e1). rewrite T2, T1, app_assoc. split; [done|]. by apply Forall_app.
Qed.

Lemma quiet_same (w w' : W) : w_hand w' = w_hand w -> w_trace w' = w_trace w -> quiet w w'.
Proof using Type. intros H1 H2. split; [done|]. by exists []. Qed.

Lemma irq_quiet (w w' : W) : irq_frame w w' -> quiet w w'.
Proof using Type.
  intros (_ & Hh & _ & _ & _ & evs & He & Ht & _). split; [done|]. by exists evs.
Qed.

Lemma kernel_quiet {A} (m : M W A) : respects kernel_only m -> respects quiet m.
Proof using Type. intros Hm w. apply irq_quiet, kernel_only_irq_frame, Hm. Qed.

Lemma on_kernel_quiet {A} (f : K -> A * K) : respects quiet (on_kernel f).
Proof using Type. intros w. unfold on_kernel. destruct (f _). by apply quiet_same. Qed.

Lemma on_os_quiet {A} (f : O -> A * O) : respects quiet (on_os f).
Proof using Type. intros w. unfold on_os. destruct (f _). by apply quiet_same. Qed.

Lemma lift_sum_quiet {A} (r : A + error) : respects quiet (lift_sum r).
Proof using Type. destruct r; simpl; auto with respects typeclass_instances. Qed.

Lemma mem_slice_from_quiet off : respects quiet (mem_slice_from off).
Proof using Type.
  intros w. unfold mem_slice_from, mem_slice. case_decide; cbn; reflexivity.
Qed.

Lemma slice_copy_quiet s bs : respects quiet (slice_copy s bs).
Proof using Type. intros w. by apply quiet_same. Qed.

#[local] Hint Resolve on_kernel_quiet on_os_quiet lift_sum_quiet mem_slice_from_quiet
  slice_copy_quiet : respects.

Lemma NewMachine_quiet path n sz : respects quiet (NewMachine path n sz).
Proof using KVMLaws0 ArchLaws0.
  unfold NewMachine, NewVM, map_guest_ram, initMemory, new_vcpu, addVCPU, getAPIVersion,
    getVCPUMMmapSize, SetUserspaceMemoryRegion, first_byte_addr.
  respects_tac;
    first [apply respects_modify; intros w; by apply quiet_same
          |apply kernel_quiet; solve [auto with respects typeclass_instances]
          |intros w; apply irq_quiet, createIrqController_frame].
Qed.

(** Loading a kernel only stores into guest memory and makes ioctls. *)
Lemma LoadKernel_respects `{!ElfReader} (R : relation W) `{!PreOrder R} kernel args :
  (forall w w', kernel_only w w' -> R w w') -> (forall w mem, R w (set_mem mem w)) ->
  respects R (LoadKernel kernel args).
Proof using ArchLaws0.
  intros Hk Hm.
  assert (Hs : forall off, respects R (mem_slice_from (K:=K) (O:=O) (H:=Container F) off)).
  { intros off w. unfold mem_slice_from, mem_slice. case_decide; cbn; reflexivity. }
  assert (Hc : forall s bs, respects R (slice_copy (K:=K) (O:=O) (H:=Container F) s bs)).
  { intros s bs w. apply Hm. }
  assert (Hl : forall A (r : A + error), respects R (lift_sum r)).
  { intros A [a|e]; cbn; auto with respects typeclass_instances. }
  assert (Hst : forall l off, respects R (write_strings (K:=K) (O:=O) (H:=Container F) l off)).
  { induction l as [|a l IH]; intros off; cbn [write_strings]; respects_tac. }
  assert (Hpt : forall l off, respects R (write_pointers (K:=K) (O:=O) (H:=Container F) l off)).
  { induction l as [|a l IH]; intros off; cbn [write_pointers]; unfold PutUint64; respects_tac. }
  assert (Hz : forall lo hi, respects R (zero_fill (K:=K) (O:=O) (H:=Container F) lo hi)).
  { intros lo hi. unfold zero_fill. respects_tac. intros w. unfold mem_store.
    case_decide; [apply Hm|cbn; reflexivity]. }
  assert (Hld : forall ps i sz, respects R (load_progs (K:=K) (O:=O) (H:=Container F) kernel i sz ps)).
  { induction ps as [|p ps IH]; intros i sz; cbn [load_progs]; unfold load_prog; respects_tac. }
  unfold LoadKernel, argv_WriteAt. respects_step; [apply Hl|].
  respects_step; [apply Hld|]. respects_step.
  - respects_step; [apply Hst|]. destruct a1. respects_step; [apply Hpt|]. respects_tac.
  - respects_tac. intros w. apply Hk, SetupRegs_frame.
Qed.

Lemma load_quiet `{!ElfReader} kernel args : respects quiet (LoadKernel kernel args).
Proof using ArchLaws0.
  apply LoadKernel_respects; [apply _| |intros w mem; by apply quiet_same].
  intros w w' Hk. by apply irq_quiet, kernel_only_irq_frame.
Qed.

Lemma load_keeps_machine `{!ElfReader} kernel args (w w' : W) r :
  LoadKernel kernel args w = (r, w') -> w_mach w' = w_mach w.
Proof using ArchLaws0.
  set (R := fun w w' : W => w_mach w' = w_mach w).
  assert (PreOrder R) by (split; [done|intros x y z; unfold R; congruence]).
  apply (respects_run R), LoadKernel_respects; [apply _|by intros v v' (Hm & _)|done].
Qed.

End Quiet.

(** ** Every ioctl of a run passes the check *)

Definition abi_safe {K O H} {GA : GoArch} (w w' : World K O H) : Prop :=
  exists evs, w_trace w' = evs ++ w_trace w /\
              Forall (fun e => is_ioctl e = true -> ioctl_ok e = true) evs.

#[export] Instance abi_safe_preorder K O H {GA : GoArch} : PreOrder (@abi_safe K O H GA).
Proof.
  split.
  - intros w. by exists [].
  - intros w1 w2 w3 (e1 & T1 & F1) (e2 & T2 & F2).
    exists (e2 ++ e1). rewrite T2, T1, app_assoc. split; [done|]. by apply Forall_app.
Qed.

Lemma abi_safe_event {K O H} {GA : GoArch} (w : World K O H) e : is_ioctl e = false -> abi_safe w (add_event e w).
Proof.
  intros He. exists [e]. split; [done|]. apply Forall_singleton. by rewrite He.
Qed.

Lemma abi_safe_steps {K O F} `{!KVM K} {GA : GoArch} :
  handler_steps (@abi_safe K O (Container F) GA).
Proof.
  split; try apply _; try (intros; by exists []).
  - intros w w' (_ & _ & _ & _ & _ & evs & He & Ht & _). exists evs. split; [done|].
    eapply Forall_impl; [exact He|]. done.
  - intros w e He. apply abi_safe_event. by destruct e.
  - intros w p fl md _ _. by apply abi_safe_event.
Qed.

(** ** The whole program *)

Section Program.
Context {K O F : Type} `{!KVM K, !KVMLaws K, !HostOS O F, !HostOSLaws O F, !ElfReader}.
Abbreviation W := (World K O (Container F)).
Context `{!Arch K O (Container F), !ArchLaws K O (Container F)}.
Context (rekernel : list byte) (open_kernel : gostring -> O -> (ReaderAt + error) * O).

(** The directories [ds] are made absolute one after the other, from the world
    [w] to the world [w']. *)
Fixpoint abs_in_turn (ds : list gostring) (w : W) (ps : list gostring) (w' : W) : Prop :=
  match ds, ps with
  | [], [] => w' = w
  | d :: ds, p :: ps => exists w1, Abs d w = (Ok p, w1) /\ abs_in_turn ds w1 ps w'
  | _, _ => False
  end.

Lemma abs_all_turns ds (w w' : W) ps : abs_all ds w = (Ok ps, w') <-> abs_in_turn ds w ps w'.
Proof using Type.
  revert w ps. induction ds as [|d ds IH]; intros w ps; cbn [abs_all abs_in_turn].
  { destruct ps; (split; intros E; [|by subst]); [by injection E as ->|discriminate E]. }
  unfold mbind, M_bind, attempt. split.
  - destruct (Abs d w) as [[a|e|p] w1]; try done.
    destruct (abs_all ds w1) as [[ps'|e|p] w2] eqn:E; try done. intros [= <- <-].
    exists w1. split; [done|by apply IH].
  - destruct ps as [|p ps]; [done|]. intros (w1 & -> & E%IH). by rewrite E.
Qed.

Lemma abs_in_turn_os ds (w w' : W) ps : abs_in_turn ds w ps w' -> os_only w w'.
Proof using Type.
  revert w ps. induction ds as [|d ds IH]; intros w [|p ps] E; try done.
  { cbn in E. subst. unfold os_only. by destruct w. }
  destruct E as (w1 & E1 & E). pose proof (respects_run _ _ _ _ _ (Abs_os_only d) E1) as H1.
  apply IH in E. unfold os_only in *. by rewrite E, H1.
Qed.

Lemma abs_in_turn_clean ds (w w' : W) ps a : abs_in_turn ds w ps w' -> a ∈ ps -> clean_abs a.
Proof using HostOSLaws0.
  revert w ps. induction ds as [|d ds IH]; intros w [|p ps] E Ha; try done.
  { by apply elem_of_nil in Ha. }
  destruct E as (w1 & E1 & E). apply elem_of_cons in Ha as [->|Ha]; [by eapply Abs_clean|by eapply IH].
Qed.

(** The container [main] makes: the directories and the three standard files. *)
Definition started_container (ps : list gostring) : Container F :=
  mkContainer ps (<[0 := os_Stdin]> (<[1 := os_Stdout]> {[2 := os_Stderr]})) 3.

Lemma started_container_ok ps : fd_ok (started_container ps).
Proof using Type.
  split; [cbn; unfold fdMax; lia|]. cbn. intros fd. rewrite !lookup_insert, lookup_singleton.
  repeat case_decide; [lia..|]. by intros [].
Qed.

Lemma NewContainer_turns ds (w w' : W) ps :
  abs_in_turn ds w ps w' -> NewContainer ds w = (Ok (started_container ps), w').
Proof using Type. intros E%abs_all_turns. unfold NewContainer. by rewrite (run_bind_Ok _ _ _ _ _ E). Qed.

Lemma NewContainer_ok ds (w w' : W) c :
  NewContainer ds w = (Ok c, w') ->
  exists ps, c = started_container ps /\ abs_in_turn ds w ps w'.
Proof using Type.
  unfold NewContainer. intros E. apply bind_Ok_inv in E as (ps & w1 & E1 & E).
  injection E as <- <-. exists ps. split; [done|by apply abs_all_turns].
Qed.

(** The stages of [main] after [flag.Parse]. *)
Lemma main_flags_stages fl (w w' : W) cfg :
  main_flags rekernel open_kernel fl w = (Ok cfg, w') ->
  exists ps w1 n w2 kd w3,
    abs_in_turn (split_on colon (f_dir fl)) w ps w1 /\ parseMem (f_mem fl) = inl n /\
    NewMachine (str "/dev/kvm") 1 n (set_hand (started_container ps) w1) = (Ok tt, w2) /\
    kernel_data rekernel open_kernel (f_kernel fl) w2 = (Ok kd, w3) /\
    LoadKernel kd (f_args fl) w3 = (Ok tt, w') /\ cfg = boot_config w'.
Proof using Type.
  unfold main_flags. intros E. apply bind_Ok_inv in E as (c & w1 & E1 & E).
  apply NewContainer_ok in E1 as (ps & -> & E1).
  rewrite (run_bind_Ok _ _ _ tt (set_hand (started_container ps) w1)) in E by done.
  apply bind_Ok_inv in E as (n & w2 & E2 & E).
  destruct (parseMem (f_mem fl)) as [n'|e] eqn:Ep; [|done]. injection E2 as <- <-.
  apply bind_Ok_inv in E as ([] & w3 & E3 & E).
  apply bind_Ok_inv in E as (kd & w4 & E4 & E). unfold Boot in E.
  destruct (LoadKernel kd (f_args fl) w4) as [[[]|?|?] w5] eqn:E5; simplify_eq.
  by exists ps, w1, n', w3, kd, w4.
Qed.

Lemma kernel_data_quiet name : respects quiet (kernel_data (K:=K) (F:=F) rekernel open_kernel name).
Proof using Type.
  unfold kernel_data. case_decide; respects_tac; [apply on_os_quiet|apply lift_sum_quiet].
Qed.

(** What [main] has done when the first vcpu is about to boot. *)
Lemma main_flags_ok fl (w w' : W) cfg :
  main_flags rekernel open_kernel fl w = (Ok cfg, w') ->
  cfg = boot_config w' /\ fd_ok (w_hand w') /\
  (exists w1, abs_in_turn (split_on colon (f_dir fl)) w (dirs (w_hand w')) w1) /\
  (exists w1, NewContainer (split_on colon (f_dir fl)) w = (Ok (w_hand w'), w1)) /\
  exists evs, w_trace w' = evs ++ w_trace w /\ Forall (fun e => ioctl_ok e = true) evs.
Proof using KVMLaws0 ArchLaws0.
  intros (ps & w1 & n & w2 & kd & w3 & Ha & _ & E2 & E3 & E4 & ->)%main_flags_stages.
  pose proof (respects_run _ _ _ _ _ (NewMachine_quiet _ _ _) E2) as Q2.
  pose proof (respects_run _ _ _ _ _ (kernel_data_quiet _) E3) as Q3.
  pose proof (respects_run _ _ _ _ _ (load_quiet _ _) E4) as Q4.
  assert (quiet (set_hand (started_container ps) w1) w') as (Hh & evs & T & Fo)
    by (etrans; [exact Q2|]; by etrans).
  cbn in Hh, T. pose proof (abs_in_turn_os _ _ _ _ Ha) as Hos. unfold os_only in Hos.
  rewrite Hos in T. rewrite Hh. split_and!; [done|apply started_container_ok|by exists w1| |by exists evs].
  exists w1. by apply NewContainer_turns.
Qed.

Lemma main_ok argv (w w' : W) trace cfg :
  main rekernel open_kernel argv w = (Ok (Boots trace cfg), w') ->
  exists fl, flag_Parse argv = inl fl /\ trace = f_trace fl /\
             main_flags rekernel open_kernel fl w = (Ok cfg, w').
Proof using Type.
  unfold main. destruct (flag_Parse argv) as [fl|st]; [|done]. intros E.
  apply bind_Ok_inv in E as (c & w1 & E1 & E). injection E as <- <- <-. by exists fl.
Qed.

(** C1: Confinement from the command line on.  Start the program with nothing
    opened for a guest yet; let [main] get as far as booting the vcpus, and
    let the goroutines interleave in any way.  The directories given to [-dir]
    were made absolute in the world the program was started in; every file
    opened for the guest has a clean absolute name that begins with one of
    these absolute directories, and the table of descriptors is well formed. *)
Theorem revisor_confines_guest argv (w w' : W) trace cfg c :
  w_trace w = [] -> main rekernel open_kernel argv w = (Ok (Boots trace cfg), w') ->
  rtc (step Hypercall trace) cfg c ->
  exists fl ps w1, flag_Parse argv = inl fl /\ trace = f_trace fl /\
  abs_in_turn (split_on colon (f_dir fl)) w ps w1 /\
  fd_ok (w_hand (c_world c)) /\
  forall p flg md, EOpenFile p flg md ∈ w_trace (c_world c) ->
    clean_abs p /\ exists a, a ∈ ps /\ clean_abs a /\ HasPrefix p a = true.
Proof using KVMLaws0 ArchLaws0 HostOSLaws0.
  intros Ht E Hr. apply main_ok in E as (fl & Hfl & -> & E).
  apply main_flags_ok in E as (-> & Hok & (w1 & Ha) & _ & evs & T & Fo).
  exists fl, (dirs (w_hand w')), w1. split_and!; try done.
  - pose proof (reachable_respects _ _ _ (handler_run_steps _ evolves_steps) _ _ Hr Hok)
      as (_ & _ & _ & Hok'). by apply Hok'.
  - pose proof (reachable_respects _ _ confined (handler_run_steps _ confined_steps) _ _ Hr)
      as (_ & evs' & T' & Hall). cbn in T', Hall. intros p flg md Hin.
    rewrite T', T, Ht, app_nil_r in Hin. apply elem_of_app in Hin as [Hin|Hin].
    2: { rewrite Forall_forall in Fo. by specialize (Fo _ Hin). }
    rewrite Forall_forall in Hall. destruct (Hall _ Hin) as [Hc Hp]. split; [done|].
    apply existsb_exists in Hp as (a & Hin' & Hp). apply list_elem_of_In in Hin'.
    exists a. split_and!; [done|by eapply abs_in_turn_clean|done].
Qed.

(** C8: The program and the kernel agree on every ioctl, with two exceptions.
    Over the whole life of the program, from [main] through any interleaving of
    its goroutines, each ioctl is a request that Linux defines on the target
    the program is built for, with an argument of the type that Linux expects
    for it, and the memory behind the argument is at least as large as the
    request announces; the exceptions are the address of the identity map on
    amd64 and the request for single steps on arm64. *)
Theorem every_ioctl_typed argv (w w' : W) trace cfg c fd op t a :
  w_trace w = [] -> main rekernel open_kernel argv w = (Ok (Boots trace cfg), w') ->
  rtc (step Hypercall trace) cfg c ->
  EIoctl fd op t a ∈ w_trace (c_world c) ->
  ((op, HasType t) ∈ linux_abi GOARCH /\
   match arg_bytes t a with
   | Some n => 0 < ioc_size op <= n
   | None => ioc_size op = 0
   end) \/
  (GOARCH = amd64 /\ op = 0x4008ae48 /\ t = TU32) \/
  (GOARCH = arm64 /\ op = 0x4048ae9b /\ t = TDebugControl).
Proof using KVMLaws0 ArchLaws0 HostOSLaws0.
  intros Ht E Hr Hin. apply main_ok in E as (fl & _ & -> & E).
  apply main_flags_ok in E as (-> & _ & _ & _ & evs & T & Fo).
  pose proof (reachable_respects _ _ abi_safe (handler_run_steps _ abi_safe_steps) _ _ Hr)
    as (evs' & T' & Hall). cbn in T'.
  assert (Hok : ioctl_ok (EIoctl fd op t a) = true).
  { rewrite T', T, Ht, app_nil_r in Hin. rewrite Forall_forall in Hall, Fo.
    apply elem_of_app in Hin as [Hin|Hin]; [by apply (Hall _ Hin)|by apply Fo]. }
  apply ioctl_ok_inv in Hok as [Hok|Hd]; [by left|right].
  unfold known_defects in Hd. rewrite !elem_of_cons, elem_of_nil in Hd.
  destruct Hd as [Hd|[Hd|[]]]; injection Hd as ? ? ?; auto.
Qed.

(** ** What the command line decides *)

(** The kernel the program was told to load: the embedded one, or the file of
    that name, opened in the host state [o]. *)
Definition kernel_named (name : gostring) (o : O) (kd : ReaderAt) (o' : O) : Prop :=
  (name = str "rekernel" -> kd = bytes_Reader rekernel /\ o' = o) /\
  (name ≠ str "rekernel" -> open_kernel name o = (inl kd, o')).

Lemma kernel_data_named name (w w' : W) kd :
  kernel_data rekernel open_kernel name w = (Ok kd, w') ->
  kernel_named name (w_os w) kd (w_os w').
Proof using Type.
  unfold kernel_data, kernel_named. case_decide as Hn; intros E; split; intros Hn'; try done.
  { by injection E as -> ->. }
  apply bind_Ok_inv in E as (r & w1 & E1 & E). unfold on_os in E1.
  destruct (open_kernel name (w_os w)) as [r' o] eqn:Eo. injection E1 as -> <-.
  destruct r as [kd'|e]; [|done]. by injection E as -> <-.
Qed.

(** C15: [main] does what the command line says.  Take any sequence of proper
    settings, written in any of the ways the flags can be written, followed by
    the guest's arguments, and suppose that [main] gets as far as booting.
    Then the guest is traced exactly when the last [-trace] says so (it is not
    by default); the container holds the parts of the last [-dir] (the working
    directory by default), made absolute in the world of the start; the kernel
    was told of guest memory of the size of the last [-mem] (by default [2G]);
    there is one vcpu; and the kernel loaded is the last [-kernel], the
    embedded one by default, with the remaining arguments, untouched and in
    order. *)
Theorem main_obeys_command_line l rest argv (w w' : W) trace cfg :
  Forall proper l -> spells l rest argv ->
  main rekernel open_kernel argv w = (Ok (Boots trace cfg), w') ->
  ParseBool (given FTrace (str "false") l) = Some trace /\
  length (w_vcpus w') = 1%nat /\
  exists w1 n fd ram kd wk,
    abs_in_turn (split_on colon (given FDir (str ".") l)) w (dirs (w_hand w')) w1 /\
    parseMem (given FMem (str "2G") l) = inl n /\
    region_event fd ram ∈ w_trace w' /\ Slot ram = 0 /\
    GuestPhysAddr ram = physRamBase /\ MemorySize ram = u64 (Z.max 0 n) /\
    kernel_named (given FKernel (str "rekernel") l) (w_os w1) kd (w_os wk) /\
    LoadKernel kd rest wk = (Ok tt, w') /\ cfg = boot_config w'.
Proof using KVMLaws0 ArchLaws0 HostOSLaws0.
  intros Hl Hs E. apply main_ok in E as (fl & Hfl & -> & E).
  destruct (flag_Parse_spells l rest argv Hl Hs) as (b & Hb & Hp).
  rewrite Hp in Hfl. injection Hfl as <-. split; [done|].
  apply main_flags_stages in E as (ps & w1 & n & w2 & kd & w3 & Ha & Hn & E2 & E3 & E4 & ->).
  cbn [f_dir f_mem f_kernel f_args] in *.
  pose proof (respects_run _ _ _ _ _ (kernel_data_quiet _) E3) as (Q3 & e3 & T3 & _).
  pose proof (respects_run _ _ _ _ _ (load_quiet _ _) E4) as (Q4 & e4 & T4 & _).
  apply load_keeps_machine in E4 as Hm4. pose proof (kernel_data_named _ _ _ _ E3) as Hk.
  apply NewMachine_built in E2 as (_ & Hv & Hlen & Hh & Ho & _ & Hr & _).
  rewrite Ho in Hk.
  assert (Hm3 : w_mach w3 = w_mach w2).
  { revert E3. unfold kernel_data. case_decide; intros E3; [by injection E3 as _ ->|].
    apply bind_Ok_inv in E3 as (r & w5 & E5 & E3). unfold on_os in E5.
    destruct (open_kernel _ _) as [r' o]. injection E5 as -> <-.
    destruct r; [by injection E3 as _ <-|done]. }
  split; [unfold w_vcpus in *; rewrite Hm4, Hm3; lia|].
  exists w1, n, (vm_fd (m_vm (w_mach w2))), (ram_region w2), kd, w3.
  rewrite Q4, Q3, Hh. split_and!; try done; [rewrite T4, T3; set_solver|].
  cbn. unfold mem_len. rewrite Hlen. f_equal. lia.
Qed.

(** Every stage that fails ends [main]. *)
Lemma main_flags_fails fl (w w1 : W) ps :
  abs_in_turn (split_on colon (f_dir fl)) w ps w1 ->
  let wc := set_hand (started_container ps) w1 in
  (forall e, parseMem (f_mem fl) = inr e -> main_flags rekernel open_kernel fl w = (Err e, wc)) /\
  (forall n, parseMem (f_mem fl) = inl n ->
   (forall e w2, NewMachine (str "/dev/kvm") 1 n wc = (Err e, w2) ->
      main_flags rekernel open_kernel fl w = (Err e, w2)) /\
   (forall w2, NewMachine (str "/dev/kvm") 1 n wc = (Ok tt, w2) ->
    (forall e o, f_kernel fl ≠ str "rekernel" -> open_kernel (f_kernel fl) (w_os w2) = (inr e, o) ->
       main_flags rekernel open_kernel fl w = (Err e, set_os o w2)) /\
    (forall kd wk e w3, kernel_data rekernel open_kernel (f_kernel fl) w2 = (Ok kd, wk) ->
       LoadKernel kd (f_args fl) wk = (Err e, w3) ->
       main_flags rekernel open_kernel fl w = (Err e, w3)))).
Proof using Type.
  intros E%NewContainer_turns wc. unfold main_flags. rewrite (run_bind_Ok _ _ _ _ _ E).
  rewrite (run_bind_Ok _ _ _ tt wc) by done. split; [by intros e ->|].
  intros n ->. rewrite (run_bind_Ok _ _ _ n wc) by done. split.
  { intros e w2 En. unfold mbind, M_bind. by rewrite En. }
  intros w2 En. rewrite (run_bind_Ok _ _ _ _ _ En). split.
  - intros e o Hk Ho. unfold kernel_data. rewrite decide_False by done.
    unfold mbind, M_bind, on_os. by rewrite Ho.
  - intros kd wk e w3 Hk El. rewrite (run_bind_Ok _ _ _ _ _ Hk). unfold Boot. by rewrite El.
Qed.

(** A directory that cannot be made absolute. *)
Lemma abs_all_panics ds1 d ds2 (w w1 w2 : W) ps e :
  abs_in_turn ds1 w ps w1 -> Abs d w1 = (Err e, w2) ->
  abs_all (ds1 ++ d :: ds2) w = (Panic (PanicError e), w2).
Proof using Type.
  revert w ps. induction ds1 as [|d1 ds1 IH]; intros w [|p ps] E Ed; try done.
  { cbn in E. subst. cbn [app abs_all]. unfold mbind, M_bind, attempt. by rewrite Ed. }
  destruct E as (w0 & E0 & E). cbn [app abs_all]. unfold mbind, M_bind, attempt.
  rewrite E0. by rewrite (IH _ _ E Ed).
Qed.

(** C40: How [main] fails.  After any proper settings, an option that is none of
    the four ends the process, with status 0 for [help] and [h] and status 2
    otherwise, and the world is as it was.  On a command line that can be read: a directory that cannot be made
    absolute is a panic; then a memory size that is not accepted is an error
    before anything is asked of the kernel or printed; an error of
    [NewMachine], of opening the kernel file or of [LoadKernel] is passed on as
    it is, and no vcpu is started. *)
Theorem main_errors l rest argv (w : W) :
  Forall proper l -> spells l rest argv ->
  (forall two n v rest', option_name n -> n ∉ str <$> ["trace"; "kernel"; "dir"; "mem"]%string ->
     main rekernel open_kernel (concat (spell <$> l) ++ (dashes two ++ n ++ joined v) :: rest') w =
     (Ok (Exits (if decide (n = str "help" \/ n = str "h") then 0 else 2)), w)) /\
  (forall ds1 d ds2 ps w1 w2 e,
     split_on colon (given FDir (str ".") l) = ds1 ++ d :: ds2 ->
     abs_in_turn ds1 w ps w1 -> Abs d w1 = (Err e, w2) ->
     main rekernel open_kernel argv w = (Panic (PanicError e), w2)) /\
  (forall ps w1, abs_in_turn (split_on colon (given FDir (str ".") l)) w ps w1 ->
   let wc := set_hand (started_container ps) w1 in
   (forall e, parseMem (given FMem (str "2G") l) = inr e ->
      exists w2, main rekernel open_kernel argv w = (Err e, w2) /\
                 w_kv w2 = w_kv w /\ w_mach w2 = w_mach w /\ w_trace w2 = w_trace w) /\
   (forall n, parseMem (given FMem (str "2G") l) = inl n ->
    (forall e w2, NewMachine (str "/dev/kvm") 1 n wc = (Err e, w2) ->
       main rekernel open_kernel argv w = (Err e, w2)) /\
    (forall w2, NewMachine (str "/dev/kvm") 1 n wc = (Ok tt, w2) ->
     (forall e o, given FKernel (str "rekernel") l ≠ str "rekernel" ->
        open_kernel (given FKernel (str "rekernel") l) (w_os w2) = (inr e, o) ->
        main rekernel open_kernel argv w = (Err e, set_os o w2)) /\
     (forall kd wk e w3,
        kernel_data rekernel open_kernel (given FKernel (str "rekernel") l) w2 = (Ok kd, wk) ->
        LoadKernel kd rest wk = (Err e, w3) ->
        main rekernel open_kernel argv w = (Err e, w3))))).
Proof using Type.
  intros Hl Hs. destruct (flag_Parse_spells l rest argv Hl Hs) as (b & _ & Hp).
  split; [|split].
  - intros two n v rest' Hn Hu. unfold main. by rewrite flag_Parse_unknown.
  - intros ds1 d ds2 ps w1 w2 e Hd E Ed. unfold main. rewrite Hp.
    unfold main_flags, NewContainer. cbn [f_dir]. rewrite Hd. unfold mbind, M_bind.
    by rewrite (abs_all_panics _ _ _ _ _ _ _ _ E Ed).
  - intros ps w1 E wc. unfold main. rewrite Hp.
    destruct (main_flags_fails _ w w1 ps (E : abs_in_turn (split_on colon (f_dir
      (mkFlags b (given FKernel (str "rekernel") l) (given FDir (str ".") l)
         (given FMem (str "2G") l) rest))) w ps w1)) as [H1 H2].
    cbn [f_mem f_kernel f_args] in H1, H2. split.
    + intros e He. exists wc. unfold mbind, M_bind. rewrite (H1 e He). split; [done|].
      pose proof (abs_in_turn_os _ _ _ _ E) as Hos. unfold os_only in Hos. unfold wc. by rewrite Hos.
    + intros n Hn. destruct (H2 n Hn) as [H3 H4]. split.
      { intros e w2 En. unfold mbind, M_bind. by rewrite (H3 e w2 En). }
      intros w2 En. destruct (H4 w2 En) as [H5 H6]. split.
      * intros e o Hk Ho. unfold mbind, M_bind. by rewrite (H5 e o Hk Ho).
      * intros kd wk e w3 Hk El. unfold mbind, M_bind. by rewrite (H6 kd wk e w3 Hk El).
Qed.

End Program.

(** ** Witnesses *)

Module CmdDemo.
Import TestHost.
#[local] Existing Instance Amd64.arch.
#[local] Existing Instance Amd64.arch_laws.

(** The program is started on a host where nothing is set up yet, with the
    memory for a small kernel. *)
Definition fresh : Demo.W :=
  mkWorld (mkView (mkKernel Regs_zero Sregs_zero ∅ RunDemo.script) [] ∅)
          Machine_zero (mkContainer [] ∅ 0) (mkHost Demo.files ∅ []) [].

Definition image : list byte := magic ++ [x90; x90; x90; xf4].

Definition cmdline : list gostring := str <$> ["-dir=.:/srv"; "-mem"; "33K"; "a.txt"]%string.

Definition no_kernel (name : gostring) (o : host) : (ReaderAt + error) * host :=
  (inr (Errno 2), o).

Definition booted : config Demo.W :=
  match (main image no_kernel cmdline fresh).1 with
  | Ok (Boots _ c) => c | _ => boot_config fresh end.

Definition finished : config Demo.W :=
  default booted (run_schedule Hypercall false RunDemo.schedule booted).

Definition is_open_of (path : gostring) (e : event) : bool :=
  match e with EOpenFile p 0 0 => bool_decide (p = path) | _ => false end.

Lemma open_in_trace path l : existsb (is_open_of path) l = true -> EOpenFile path 0 0 ∈ l.
Proof.
  intros (e & He & Hp)%existsb_exists. apply list_elem_of_In in He.
  destruct e as [|p [| |] [| |]| | | | |]; try discriminate Hp.
  by apply bool_decide_eq_true in Hp as ->.
Qed.

Lemma main_booted :
  main image no_kernel cmdline fresh = (Ok (Boots false booted), (main image no_kernel cmdline fresh).2).
Proof.
  unfold booted.
  assert (is_Ok : match (main image no_kernel cmdline fresh).1 with
                  | Ok (Boots false _) => true | _ => false end
                  = true) by (by vm_compute).
  destruct (main image no_kernel cmdline fresh) as [[[st|[|] c]|e|p] w'];
    [discriminate is_Ok|discriminate is_Ok|done|discriminate is_Ok..].
Qed.

Lemma booted_finished : rtc (step Hypercall false) booted finished.
Proof.
  unfold finished.
  assert (is_Some (run_schedule Hypercall false RunDemo.schedule booted)) as [c Hc]
    by (apply (bool_decide_unpack _); by vm_compute).
  rewrite Hc. by eapply run_schedule_rtc.
Qed.

(** The guest's open names its first argument, at the bottom of memory; the
    program was started in [/work]. *)
Lemma revisor_confines_guest_witness :
  EOpenFile (str "/work/a.txt") 0 0 ∈ w_trace (c_world finished) /\
  clean_abs (str "/work/a.txt") /\
  exists a, a ∈ [str "/work"; str "/srv"] /\ clean_abs a /\
            HasPrefix (str "/work/a.txt") a = true.
Proof.
  assert (He : EOpenFile (str "/work/a.txt") 0 0 ∈ w_trace (c_world finished))
    by (apply open_in_trace; by vm_compute).
  split; [exact He|].
  destruct (revisor_confines_guest image no_kernel cmdline fresh _ false booted finished
              eq_refl main_booted booted_finished) as (fl & ps & w1 & Hfl & _ & Ha & _ & H).
  assert (Hd : split_on colon (f_dir fl) = [str "."; str "/srv"])
    by (injection Hfl as <-; by vm_compute).
  rewrite Hd in Ha. apply abs_all_turns in Ha.
  assert (Hps : (abs_all [str "."; str "/srv"] fresh).1 = Ok [str "/work"; str "/srv"])
    by (by vm_compute).
  rewrite Ha in Hps. injection Hps as ->. exact (H _ _ _ He).
Defined.

Definition is_run (e : event) : bool :=
  match e with
  | EIoctl fd op TVal a => bool_decide (fd = 10) && bool_decide (op = IIO kvmRun)
  | _ => false
  end.

Lemma run_in_trace l :
  existsb is_run l = true -> exists a, EIoctl 10 (IIO kvmRun) TVal a ∈ l.
Proof.
  intros (e & He & Hp)%existsb_exists. apply list_elem_of_In in He.
  destruct e as [fd op t a| | | | | |]; try discriminate Hp. destruct t; try discriminate Hp.
  apply andb_true_iff in Hp as [H1 H2]. apply bool_decide_eq_true in H1, H2. subst. by exists a.
Qed.

Lemma every_ioctl_typed_witness : (IIO kvmRun, HasType TVal) ∈ linux_abi amd64.
Proof.
  assert (Hl : existsb is_run (w_trace (c_world finished)) = true) by (by vm_compute).
  destruct (run_in_trace _ Hl) as [a Ha].
  destruct (every_ioctl_typed image no_kernel cmdline fresh _ false booted finished _ _ _ _
              eq_refl main_booted booted_finished Ha) as [[H _]|[(_ & _ & H)|(H & _)]];
    [exact H|discriminate H|discriminate H].
Defined.

Definition demo_settings : list setting :=
  [mkSetting false FDir (Joined (str ".:/srv")); mkSetting false FMem (Apart (str "33K"))].

Lemma main_obeys_command_line_witness :
  spells demo_settings [str "a.txt"] cmdline /\
  exists kd wk, LoadKernel kd [str "a.txt"] wk = (Ok tt, (main image no_kernel cmdline fresh).2) /\
                kd = bytes_Reader image.
Proof.
  assert (Hs : spells demo_settings [str "a.txt"] cmdline)
    by (right; split; [reflexivity|by vm_compute]).
  split; [exact Hs|].
  destruct (main_obeys_command_line image no_kernel demo_settings [str "a.txt"] cmdline fresh _
              false booted ltac:(by repeat constructor) Hs main_booted)
    as (_ & _ & w1 & n & fd & ram & kd & wk & _ & _ & _ & _ & _ & _ & [Hk _] & El & _).
  exists kd, wk. split; [exact El|]. exact (proj1 (Hk eq_refl)).
Defined.

Lemma main_errors_witness :
  (exists w2, main image no_kernel [str "-mem=2T"] fresh = (Err (bad_modifier (str "T")), w2) /\
              w_kv w2 = w_kv fresh) /\
  main image no_kernel [str "-mem=2T"; str "--memory"] fresh = (Ok (Exits 2), fresh).
Proof.
  destruct (main_errors image no_kernel [mkSetting false FMem (Joined (str "2T"))] []
              [str "-mem=2T"] fresh) as (H1 & _ & H3);
    [by repeat constructor|right; split; [exact I|by vm_compute]|].
  split.
  - assert (Ha : abs_in_turn [str "."] fresh [str "/work"] (abs_all [str "."] fresh).2)
      by (apply abs_all_turns; exact (run_pair (abs_all [str "."]) fresh (Ok [str "/work"]) eq_refl)).
    destruct (proj1 (H3 _ _ Ha) (bad_modifier (str "T")) ltac:(by vm_compute)) as (w2 & E & Hk & _).
    exists w2. split; [exact E|exact Hk].
  - apply (H1 true (str "memory") None []); [|apply (bool_decide_unpack _); by vm_compute].
    repeat split; try done. apply (bool_decide_unpack _). by vm_compute.
Defined.

End CmdDemo.
