(* ===== verification/ServiceSpec.v ===== *)
(** * ServiceSpec: the container implements the file service

    Refinement of [Service.v] by [Container.v]: the relation between the Go
    container and the abstract state, how a request is read off the registers
    and the memory of a guest, and the simulation of every hypercall. *)

From S2P Require Import Prelude Effects Ioctl Structs World Abi Vm Path Service Container.
From S2P Require Import ContainerSpec Machine Boot Load MachineSpec Flag Cmd CmdSpec.
From S2P Require Import Cpuid ArchAmd64 TestHost.

(** ** The refinement relation *)

(** The strings are the elements joined, the table is the log. *)
Record refines {F} (c : Container F) (s : fs F) : Prop := {
  ref_dirs : dirs c = render <$> fs_dirs s;
  ref_elems : Forall (Forall elem_ok) (fs_dirs s);
  ref_next : nextfd c = Z.of_nat (length (fs_log s));
  ref_limit : nextfd c <= fdMax;
  ref_table : forall fd, fdtable c !! fd = fs_lookup s fd }.

(** ** Reading a request *)

(** The registers of a call that hold guest-virtual addresses. *)
Definition pointers (num a0 a1 : Z) : list Z :=
  if decide (num = hypTime) then [a0; a1]
  else if decide (num = hypOpen) then [a0]
  else if decide (num ∈ [hypGetdents64; hypFstat; hypWrite; hypRead]) then [a1]
  else [].

(** The buffer of [n] bytes at guest-physical address [p]. *)
Definition buffer (p n : Z) : slice := mkSlice (u64 (p - physRamBase)) (u64 n).

Definition contents (b : slice) (mem : list byte) : list byte :=
  read_at (Z.to_nat (s_off b)) (Z.to_nat (s_len b)) mem.

(** The request of a call and the buffers its data goes to, from the registers,
    the physical addresses of the pointers and the memory. *)
Definition decode (num a0 a1 a2 : Z) (ps : list Z) (mem : list byte)
    : option (request * list slice) :=
  match ps with
  | [p0; p1] => if decide (num = hypTime) then Some (QTime, [buffer p0 8; buffer p1 8]) else None
  | [p] =>
      if decide (num = hypOpen) then
        Some (QOpen (cstring (drop (Z.to_nat (u64 (p - physRamBase))) mem)) (i64 a1) (u32 a2), [])
      else if decide (num = hypGetdents64) then Some (QDirents a0 (u64 a2), [buffer p a2])
      else if decide (num = hypFstat) then Some (QStat a0, [buffer p stat_size])
      else if decide (num = hypWrite) then Some (QWrite a0 (contents (buffer p a2) mem) a2, [])
      else if decide (num = hypRead) then Some (QRead a0 (u64 a2), [buffer p a2])
      else None
  | [] =>
      if decide (num = hypLseek) then Some (QSeek a0 (i64 a1) (i64 a2), [])
      else if decide (num = hypClose) then Some (QClose a0, [])
      else if decide (num = hypClearSignal) then Some (QNothing, [])
      else None
  | _ => None
  end.

(** The pieces of a reply go to the buffers, each cut to its buffer. *)
Fixpoint store_all (bufs : list slice) (data : list (list byte)) (mem : list byte) : list byte :=
  match bufs, data with
  | b :: bufs, d :: data =>
      store_all bufs data (write_at (Z.to_nat (s_off b)) (take (Z.to_nat (s_len b)) d) mem)
  | _, _ => mem
  end.

Definition returned {A} (r : outcome A) : bool :=
  match r with Ok _ => true | _ => false end.

Section Spec.
Context {K O F : Type} `{!KVM K, !HostOS O F, !HostOSLaws O F}.
Abbreviation W := (World K O (Container F)).
Context `{!Arch K O (Container F), !ArchLaws K O (Container F)}.
Implicit Types (w : W) (s : fs F).

Fixpoint translate (cpu : Z) (vas : list Z) : M W (list Z) :=
  match vas with
  | [] => mret []
  | v :: vas => p ← VtoP cpu v; ps ← translate cpu vas; mret (p :: ps)
  end.

(** A run of the handler is a request served: the host's files and the
    descriptors are as the service leaves them; when the call ends in an error
    or a panic no descriptor was given out or taken back; when it returns a
    value it is the service's reply to the request the guest made, with the
    service's data in the guest's buffers. *)
Definition answers (cpu num a0 a1 a2 : Z) w s (r : outcome Z * W) : Prop :=
  exists q rep s',
    serve q s (w_os w) = (rep, s', w_os r.2) /\
    refines (w_hand r.2) s' /\
    (returned r.1 = false -> s' = s) /\
    forall v, r.1 = Ok v -> exists w0 w1 ps bufs data,
      w_kv w0 = w_kv w /\ w_mach w0 = w_mach w /\
      translate cpu (pointers num a0 a1) w0 = (Ok ps, w1) /\
      decode num a0 a1 a2 ps (w_mem w1) = Some (q, bufs) /\
      rep = Some (v, data) /\
      (num = hypClearSignal \/ w_mem r.2 = store_all bufs data (w_mem w1)).

(** *** Steps *)

(** A run that failed without touching files or table. *)
Lemma answers_idle cpu num a0 a1 a2 w s r :
  refines (w_hand w) s -> w_os r.2 = w_os w -> w_hand r.2 = w_hand w ->
  (forall v, r.1 ≠ Ok v) -> answers cpu num a0 a1 a2 w s r.
Proof.
  intros Hs Ho Hh Hr. exists QNothing, (Some (0, [])), s. rewrite Ho, Hh.
  split_and!; [done..|]. intros v E. by destruct (Hr v).
Qed.

(** What an address translation leaves unchanged. *)
Lemma VtoP_keeps cpu v w :
  w_os (VtoP cpu v w).2 = w_os w /\ w_hand (VtoP cpu v w).2 = w_hand w.
Proof. destruct (VtoP_frame cpu v w) as (? & ? & ? & _). auto. Qed.

(** A window that was granted is the buffer the guest named. *)
Lemma Slice_buffer p n w b w' :
  Slice p (u64 (p + n)) w = (Ok b, w') -> b = buffer p n /\ w' = w.
Proof.
  unfold Slice. intros E. apply mem_slice_inv in E as (-> & -> & _ & Hb & _).
  split; [|done]. unfold buffer. f_equal. cbn in Hb.
  pose proof (u64_range (u64 (p + n) - physRamBase)) as Hy.
  pose proof (u64_range (p - physRamBase)) as Hx. unfold is_u, u64, umod in *.
  etrans; [symmetry; apply (Z.mod_small _ (2 ^ 64)); lia|].
  rewrite Zminus_mod_idemp_r, Zminus_mod_idemp_l.
  replace (_ - physRamBase - _) with ((p + n) mod 2 ^ 64 - p) by lia.
  rewrite Zminus_mod_idemp_l. f_equal. lia.
Qed.

Lemma Slice_out p q w r w' : Slice p q w = (r, w') -> w' = w /\ forall e, r ≠ Err e.
Proof. unfold Slice, mem_slice. case_decide; intros [= <- <-]; done. Qed.

(** The same, once the addresses are known. *)
Definition answers_at (num a0 a1 a2 : Z) (ps : list Z) (mem : list byte) (o : O) s
    (r : outcome Z * W) : Prop :=
  exists q rep s',
    serve q s o = (rep, s', w_os r.2) /\
    refines (w_hand r.2) s' /\
    (returned r.1 = false -> s' = s) /\
    forall v, r.1 = Ok v -> exists bufs data,
      decode num a0 a1 a2 ps mem = Some (q, bufs) /\ rep = Some (v, data) /\
      (num = hypClearSignal \/ w_mem r.2 = store_all bufs data mem).

Lemma answers_no_pointer cpu num a0 a1 a2 w s r :
  pointers num a0 a1 = [] ->
  answers_at num a0 a1 a2 [] (w_mem w) (w_os w) s r -> answers cpu num a0 a1 a2 w s r.
Proof.
  intros Hp (q & rep & s' & E & Hs & Hr0 & H). exists q, rep, s'. split_and!; [done..|].
  intros v Hv. destruct (H v Hv) as (bufs & data & Hd & Hr & Hm).
  exists w, w, [], bufs, data. by rewrite Hp.
Qed.

Lemma answers_pointer cpu num a0 a1 a2 va w s (k : Z -> M W Z) :
  pointers num a0 a1 = [va] -> refines (w_hand w) s ->
  (forall p w1, w_os w1 = w_os w -> refines (w_hand w1) s ->
     answers_at num a0 a1 a2 [p] (w_mem w1) (w_os w1) s (k p w1)) ->
  answers cpu num a0 a1 a2 w s ((VtoP cpu va ≫= k) w).
Proof using ArchLaws0.
  intros Hp Hs Hk. destruct (VtoP_keeps cpu va w) as [Ho Hh].
  destruct (VtoP cpu va w) as [[p|e|x] w1] eqn:E; cbn in Ho, Hh.
  - rewrite (run_bind_Ok _ _ _ _ _ E).
    destruct (Hk p w1 Ho) as (q & rep & s' & Es & Hs' & Hr0 & H); [by rewrite Hh|].
    exists q, rep, s'. rewrite <- Ho. split_and!; [done..|].
    intros v Hv. destruct (H v Hv) as (bufs & data & Hd & Hr & Hm).
    exists w, w1, [p], bufs, data. rewrite Hp. cbn [translate].
    by rewrite (run_bind_Ok _ _ _ _ _ E).
  - by destruct (VtoP_no_error cpu va w e w1).
  - rewrite (run_bind_Panic _ _ _ _ _ E). by apply answers_idle.
Qed.

(** *** The operations *)

Lemma with_file_answers num a0 a1 a2 ps q bufs fd w s (k : F -> M W Z) :
  refines (w_hand w) s -> decode num a0 a1 a2 ps (w_mem w) = Some (q, bufs) ->
  (fs_lookup s fd = None -> serve q s (w_os w) = (Some no_answer, s, w_os w)) ->
  (forall f, fs_lookup s fd = Some f ->
     answers_at num a0 a1 a2 ps (w_mem w) (w_os w) s (k f w)) ->
  answers_at num a0 a1 a2 ps (w_mem w) (w_os w) s (with_file fd k w).
Proof.
  intros Hs Hd Hn Hk. destruct (fdtable (w_hand w) !! fd) as [f|] eqn:E.
  - rewrite (with_file_Some _ _ _ _ E). apply Hk. by rewrite <- (ref_table _ _ Hs).
  - rewrite (with_file_None _ _ _ E). rewrite (ref_table _ _ Hs) in E.
    exists q, (Some no_answer), s. split_and!; [by apply Hn|done|done|].
    intros v [= <-]. exists bufs, []. split_and!; [done..|]. right. by destruct bufs.
Qed.

(** A buffer that is asked for: it is granted, or the handler panics in a state
    the service can explain. *)
Lemma buffer_answers num a0 a1 a2 ps mem o p n w s (k : slice -> M W Z) :
  (exists q rep, serve q s o = (rep, s, w_os w) /\ refines (w_hand w) s) ->
  answers_at num a0 a1 a2 ps mem o s (k (buffer p n) w) ->
  answers_at num a0 a1 a2 ps mem o s ((Slice p (u64 (p + n)) ≫= k) w).
Proof.
  intros (q & rep & Hq & Hs') Hk.
  destruct (Slice p (u64 (p + n)) w) as [[b|e|x] w'] eqn:E.
  - rewrite (run_bind_Ok _ _ _ _ _ E).
    by apply Slice_buffer in E as [-> ->].
  - apply Slice_out in E as [_ H]. by destruct (H e).
  - rewrite (run_bind_Panic _ _ _ _ _ E). apply Slice_out in E as [-> _].
    by exists q, rep, s.
Qed.

(** The host has not been called yet. *)
Lemma idle_explained w s :
  refines (w_hand w) s ->
  exists q rep, serve q s (w_os w) = (rep, s, w_os w) /\ refines (w_hand w) s.
Proof. intros Hs. by exists QNothing, (Some (0, [])). Qed.

(** A host call that fills the buffer. *)
Lemma fill_answers num a0 a1 a2 p q fd w s f (g : F -> Z -> O -> (list byte * option error) * O)
    (res : list byte * option error -> Z) (k : list byte * option error -> M W Z) :
  refines (w_hand w) s -> fs_lookup s fd = Some f ->
  decode num a0 a1 a2 [p] (w_mem w) = Some (q, [buffer p a2]) ->
  (forall o, serve q s o = with_open s o fd (fun f =>
     let '((data, err), o) := g f (u64 a2) o in (res (data, err), [data], o))) ->
  (forall de, k de = mret (res de)) ->
  answers_at num a0 a1 a2 [p] (w_mem w) (w_os w) s
    ((b ← Slice p (u64 (p + a2));
      '(data, err) ← on_os (g f (s_len b));
      slice_copy b data ;; k (data, err)) w).
Proof.
  intros Hs Hf Hd Hq Hk. apply buffer_answers; [by apply idle_explained|].
  unfold on_os, mbind, M_bind. cbn [s_len buffer].
  destruct (g f (u64 a2) (w_os w)) as [[data err] o] eqn:Eg. unfold slice_copy, modify.
  rewrite Hk. unfold mret, M_ret. exists q. eexists _, s. rewrite Hq. unfold with_open.
  rewrite Hf, Eg. split_and!; [done..|]. intros v [= <-]. exists [buffer p a2], [data].
  split_and!; [done..|]. by right.
Qed.

Lemma read_answers cpu a0 a1 a2 w s :
  refines (w_hand w) s ->
  answers cpu hypRead a0 a1 a2 w s (do_read cpu a0 a1 a2 w).
Proof using ArchLaws0.
  intros Hs. apply answers_pointer; [done..|]. intros p w1 Ho Hs1.
  eapply with_file_answers; [done|reflexivity|cbn; unfold with_open; by intros ->|].
  intros f Hf. eapply (fill_answers _ _ _ _ _ _ _ _ _ _ os_Read
    (fun '(data, err) => match err with
       | Some e => if errors_Is e EOF then 0 else no_answer.1
       | None => Z.of_nat (length data) end) (fun '(data, err) => _)); [done..|].
  intros [data [e|]]; [|done]. by destruct (errors_Is e EOF).
Qed.

Lemma getdents_answers cpu a0 a1 a2 w s :
  refines (w_hand w) s ->
  answers cpu hypGetdents64 a0 a1 a2 w s (do_getdents64 cpu a0 a1 a2 w).
Proof using ArchLaws0.
  intros Hs. apply answers_pointer; [done..|]. intros p w1 Ho Hs1.
  eapply with_file_answers; [done|reflexivity|cbn; unfold with_open; by intros ->|].
  intros f Hf. eapply (fill_answers _ _ _ _ _ _ _ _ _ _ os_ReadDirent
    (fun '(data, err) => match err with
       | Some _ => no_answer.1
       | None => Z.of_nat (length data) end) (fun '(data, err) => _)); [done..|].
  by intros [data [e|]].
Qed.

Lemma write_answers cpu a0 a1 a2 w s :
  refines (w_hand w) s ->
  answers cpu hypWrite a0 a1 a2 w s (do_write cpu a0 a1 a2 w).
Proof using ArchLaws0.
  intros Hs. apply answers_pointer; [done..|]. intros p w1 Ho Hs1.
  eapply with_file_answers; [done|reflexivity|cbn; unfold with_open; by intros ->|].
  intros f Hf. apply buffer_answers; [by apply idle_explained|].
  unfold on_os, mbind, M_bind, slice_bytes, gets.
  fold (contents (buffer p a2) (w_mem w1)).
  destruct (os_Write f (contents (buffer p a2) (w_mem w1)) (w_os w1)) as [[n err] o] eqn:Eg.
  exists (QWrite a0 (contents (buffer p a2) (w_mem w1)) a2), (Some (a2, [])), s.
  cbn [serve]. unfold with_open. rewrite Hf, Eg. split_and!; [done..|].
  intros v [= <-]. exists [], []. split_and!; [done..|]. by right.
Qed.

Lemma fstat_answers cpu a0 a1 a2 w s :
  refines (w_hand w) s ->
  answers cpu hypFstat a0 a1 a2 w s (do_fstat cpu a0 a1 w).
Proof using ArchLaws0.
  intros Hs. apply answers_pointer; [done..|]. intros p w1 Ho Hs1.
  eapply with_file_answers; [done|reflexivity|cbn; unfold with_open; by intros ->|].
  intros f Hf. destruct (os_Stat f (w_os w1)) as [r o] eqn:Er.
  assert (Hq : serve (QStat a0) s (w_os w1) =
    (Some (match r with inr _ => no_answer | inl i => (0, [stat_bytes (stat_of i)]) end), s, o)).
  { cbn [serve]. unfold with_open. rewrite Hf, Er. by destruct r. }
  rewrite (run_bind_Ok _ _ w1 r (set_os o w1)); [|unfold on_os; by rewrite Er].
  destruct r as [i|e].
  - apply buffer_answers; [by eauto|]. exists (QStat a0). eexists _, s.
    split_and!; [exact Hq|done|done|]. intros v [= <-]. eexists _, _.
    split_and!; [done..|]. by right.
  - exists (QStat a0), (Some no_answer), s. split_and!; [done..|].
    intros v [= <-]. exists [buffer p stat_size], []. split_and!; [done..|]. by right.
Qed.

Lemma lseek_answers cpu a0 a1 a2 w s :
  refines (w_hand w) s ->
  answers cpu hypLseek a0 a1 a2 w s (do_lseek a0 a1 a2 w).
Proof.
  intros Hs. apply answers_no_pointer; [done|].
  eapply with_file_answers; [done|reflexivity|cbn; unfold with_open; by intros ->|].
  intros f Hf. destruct (os_Seek f (i64 a1) (i64 a2) (w_os w)) as [r o] eqn:Er.
  rewrite (run_bind_Ok _ _ w r (set_os o w)); [|unfold on_os; by rewrite Er].
  exists (QSeek a0 (i64 a1) (i64 a2)), (Some (match r with inl n => (u64 n, []) | inr _ => no_answer end)), s.
  cbn [serve]. unfold with_open. rewrite Hf, Er.
  destruct r; (split_and!; [done..|]; intros v [= <-]; eexists _, _; split_and!; [done..|by right]).
Qed.

Lemma refines_close c s fd f :
  refines c s -> fs_lookup s fd = Some f ->
  refines (mkContainer (dirs c) (delete fd (fdtable c)) (nextfd c))
          (mkFs (fs_dirs s) (<[Z.to_nat fd := None]> (fs_log s))).
Proof.
  intros [H1 H2 H3 H4 H5] Hf. split; [done..| |done|]; cbn.
  { by rewrite length_insert. }
  intros fd'. unfold fs_lookup in *. cbn. case_decide; [|done].
  destruct (decide (fd = fd')) as [<-|Hn].
  - rewrite lookup_delete_eq, decide_True by done.
    destruct (fs_log s !! Z.to_nat fd) eqn:E; [|done].
    rewrite list_lookup_insert_eq; [done|]. by apply lookup_lt_Some in E.
  - rewrite lookup_delete_ne, H5 by done. case_decide; [|done].
    rewrite list_lookup_insert_ne; [done|]. lia.
Qed.

Lemma close_answers cpu a0 a1 a2 w s :
  refines (w_hand w) s ->
  answers cpu hypClose a0 a1 a2 w s (do_close a0 w).
Proof.
  intros Hs. apply answers_no_pointer; [done|].
  eapply with_file_answers; [done|reflexivity|cbn [serve]; by intros ->|].
  intros f Hf. exists (QClose a0). eexists _, _. cbn [serve]. rewrite Hf.
  split_and!; [done|by eapply refines_close|done|]. intros v [= <-]. eexists _, _.
  split_and!; [done..|]. by right.
Qed.

Lemma refines_open c s f :
  refines c s -> nextfd c < fdMax ->
  refines (mkContainer (dirs c) (<[nextfd c := f]> (fdtable c)) (u64 (nextfd c + 1)))
          (mkFs (fs_dirs s) (fs_log s ++ [Some f])).
Proof.
  intros [H1 H2 H3 H4 H5] Hn. unfold fdMax in *.
  assert (Hu : u64 (nextfd c + 1) = nextfd c + 1).
  { unfold u64, umod. apply Z.mod_small. lia. }
  split; [done..| | |]; cbn; rewrite ?Hu.
  - rewrite length_app. cbn. lia.
  - unfold fdMax. lia.
  - intros fd. unfold fs_lookup in *. cbn. destruct (decide (fd = nextfd c)) as [->|Hne].
    + rewrite lookup_insert_eq, decide_True, H3, Nat2Z.id by lia.
      by rewrite lookup_app_r, Nat.sub_diag by done.
    + rewrite lookup_insert_ne, H5 by done. case_decide; [|done].
      destruct (decide (fd < nextfd c)).
      * by rewrite lookup_app_l by lia.
      * rewrite (lookup_ge_None_2 (fs_log s)) by lia.
        rewrite (lookup_ge_None_2 (_ ++ _)); [done|]. rewrite length_app. cbn. lia.
Qed.

(** The prefix test on strings is the walk of the service. *)
Lemma CanAccess_grants c s path :
  refines c s -> Forall elem_ok path ->
  CanAccess c (render path) = existsb (fun d => grants d path) (fs_dirs s).
Proof.
  intros [H1 H2 _ _ _] Hp. unfold CanAccess. rewrite H1. clear H1.
  induction H2 as [|d ds Hd _ IH]; [done|].
  cbn [existsb fmap list_fmap]. rewrite IH. f_equal.
  apply eq_true_iff_eq. by rewrite HasPrefix_render, grants_covers.
Qed.

(** What [addFile] does is what the service does with a file it opened. *)
Lemma addFile_answers w s f :
  refines (w_hand w) s ->
  if decide (Z.of_nat (length (fs_log s)) < log_limit)
  then exists w', addFile f w = (Ok (Z.of_nat (length (fs_log s))), w') /\
       w_os w' = w_os w /\ w_mem w' = w_mem w /\
       refines (w_hand w') (mkFs (fs_dirs s) (fs_log s ++ [Some f]))
  else exists e, addFile f w = (Err e, w).
Proof.
  intros Hs. pose proof (ref_next _ _ Hs) as Hn. unfold addFile, mbind, M_bind, gets.
  cbn beta iota. case_decide as Hl; unfold log_limit, fdMax in *.
  - rewrite decide_False by lia. eexists. split_and!; [by rewrite <- Hn|done|done|].
    apply refines_open; [done|unfold fdMax; lia].
  - rewrite decide_True by lia. by eexists.
Qed.

(** The rest of an open, once its name is known. *)
Lemma open_name_answers a0 a1 a2 p w s :
  let name := cstring (drop (Z.to_nat (u64 (p - physRamBase))) (w_mem w)) in
  refines (w_hand w) s ->
  answers_at hypOpen a0 a1 a2 [p] (w_mem w) (w_os w) s
    ((r ← attempt (Abs name);
      match r with
      | inr e => panic_with (PanicError e)
      | inl abs =>
          c ← gets (fun w : W => w_hand w);
          if CanAccess c abs then
            emit (EOpenFile abs (i64 a1) (u32 a2)) ;;
            r ← on_os (os_OpenFile abs (i64 a1) (u32 a2));
            match r with
            | inr _ => mret errFail
            | inl f =>
                r ← attempt (addFile f);
                match r with
                | inr e =>
                    emit (ELog (match e with ErrorString m => m | _ => [] end)) ;;
                    mret errFail
                | inl fd => mret fd
                end
            end
          else
            emit (EStderr (blocked_msg abs)) ;;
            mret errFail
      end) w).
Proof using HostOSLaws0.
  intros name Hs. set (q := QOpen name (i64 a1) (u32 a2)).
  assert (Hend : forall r w' s', serve q s (w_os w) = (Some (r, []), s', w_os w') ->
    refines (w_hand w') s' -> w_mem w' = w_mem w ->
    answers_at hypOpen a0 a1 a2 [p] (w_mem w) (w_os w) s (Ok r, w')).
  { intros r w' s' Hq Hs' Hm. exists q, (Some (r, [])), s'. split_and!; [done..|].
    intros v [= <-]. exists [], []. auto. }
  pose proof (Abs_resolve name w) as HA. unfold attempt, mbind, M_bind, gets, emit, modify, on_os.
  destruct (resolve name (w_os w)) as [[path|] o] eqn:Er.
  2: { destruct HA as [e ->]. exists q, None, s. cbn [q serve]. by rewrite Er. }
  destruct HA as [-> Hp]. cbn beta iota. change (w_hand (set_os o w)) with (w_hand w).
  rewrite (CanAccess_grants _ _ _ Hs Hp).
  destruct (existsb _ _) eqn:Eg;
    [|by apply Hend with s; [cbn [q serve]; rewrite Er, Eg|..]].
  cbn [w_os add_event set_os].
  destruct (os_OpenFile (render path) (i64 a1) (u32 a2) o) as [[f|e] o'] eqn:Eo;
    [|by apply Hend with s; [cbn [q serve]; rewrite Er, Eg, Eo|..]].
  match goal with |- context [addFile f ?w'] =>
    pose proof (addFile_answers w' s f Hs) as Hf end.
  case_decide as Hl.
  - destruct Hf as (w' & -> & Ho & Hm & Hs'). cbn in Ho. eapply Hend; [|exact Hs'|exact Hm].
    cbn [q serve]. rewrite Er, Eg, Eo, decide_True by done. by rewrite Ho.
  - destruct Hf as [e ->]. apply Hend with s; [|done..].
    cbn [q serve]. by rewrite Er, Eg, Eo, decide_False.
Qed.

Lemma open_answers cpu a0 a1 a2 w s :
  refines (w_hand w) s ->
  answers cpu hypOpen a0 a1 a2 w s (do_open cpu a0 a1 a2 w).
Proof using ArchLaws0 HostOSLaws0.
  intros Hs. apply answers_pointer; [done..|]. intros p w1 Ho Hs1.
  destruct (SliceEnd p w1) as [[b|e|x] w'] eqn:E.
  - rewrite (run_bind_Ok _ _ _ _ _ E). unfold SliceEnd, mem_slice_from in E.
    apply mem_slice_inv in E as (-> & -> & Hb & Hb' & _). cbn in Hb, Hb'.
    rewrite (run_bind_Ok _ _ w1 (drop (Z.to_nat (u64 (p - physRamBase))) (w_mem w1)) w1);
      [by apply open_name_answers|].
    unfold slice_bytes, gets, read_at. cbn [s_off s_len]. do 2 f_equal. apply take_ge.
    rewrite length_drop. lia.
  - unfold SliceEnd, mem_slice_from, mem_slice in E. by case_decide.
  - rewrite (run_bind_Panic _ _ _ _ _ E). unfold SliceEnd, mem_slice_from, mem_slice in E.
    case_decide; simplify_eq. by exists QNothing, (Some (0, [])), s.
Qed.

(** The handler panics after it has asked for the time. *)
Lemma time_panics cpu num a0 a1 a2 w s o sec nsec w' x :
  refines (w_hand w) s -> os_Now (w_os w) = (sec, nsec, o) ->
  w_os w' = o -> w_hand w' = w_hand w ->
  answers cpu num a0 a1 a2 w s (Panic x, w').
Proof.
  intros Hs En Ho Hh. exists QTime. eexists _, s. cbn [serve fst snd].
  rewrite En, Hh, Ho. by split_and!.
Qed.

(** [PutUint64] on the buffer a guest named. *)
Lemma put_buffer (v p : Z) w (k : M W Z) :
  ((b ← Slice p (u64 (p + 8)); PutUint64 b v ;; k) w) =
    k (set_mem (store_all [buffer p 8] [le_enc 8 v] (w_mem w)) w) \/
  exists x, (b ← Slice p (u64 (p + 8)); PutUint64 b v ;; k) w = (Panic x, w).
Proof.
  destruct (Slice p (u64 (p + 8)) w) as [[b|e|x] w'] eqn:E.
  - left. rewrite (run_bind_Ok _ _ _ _ _ E). by apply Slice_buffer in E as [-> ->].
  - apply Slice_out in E as [_ H]. by destruct (H e).
  - right. rewrite (run_bind_Panic _ _ _ _ _ E). apply Slice_out in E as [-> _]. eauto.
Qed.

Lemma time_answers cpu a0 a1 a2 w s :
  refines (w_hand w) s ->
  answers cpu hypTime a0 a1 a2 w s (do_time cpu a0 a1 w).
Proof using ArchLaws0.
  intros Hs. unfold do_time. destruct (os_Now (w_os w)) as [[sec nsec] o] eqn:En.
  rewrite (run_bind_Ok _ _ w (sec, nsec) (set_os o w)); [|unfold on_os; by rewrite En].
  set (w0 := set_os o w). destruct (VtoP_keeps cpu a0 w0) as [Ho Hh].
  destruct (VtoP cpu a0 w0) as [[p0|e|x] w1] eqn:E0; cbn in Ho, Hh.
  2: by destruct (VtoP_no_error cpu a0 w0 e w1).
  2: { rewrite (run_bind_Panic _ _ _ _ _ E0). by eapply time_panics. }
  rewrite (run_bind_Ok _ _ _ _ _ E0). destruct (VtoP_keeps cpu a1 w1) as [Ho1 Hh1].
  destruct (VtoP cpu a1 w1) as [[p1|e|x] w2] eqn:E1; cbn in Ho1, Hh1.
  2: by destruct (VtoP_no_error cpu a1 w1 e w2).
  2: { rewrite (run_bind_Panic _ _ _ _ _ E1). eapply time_panics; [done..| |]; congruence. }
  rewrite (run_bind_Ok _ _ _ _ _ E1).
  match goal with |- context [PutUint64 _ (u64 sec) ;; ?k] =>
    destruct (put_buffer (u64 sec) p0 w2 k) as [->|[x ->]] end.
  2: { eapply time_panics; [done..| |]; congruence. }
  match goal with |- context [(PutUint64 _ (u64 nsec) ;; ?k)] =>
    match goal with |- context [(_ ≫= _) ?w3] =>
    destruct (put_buffer (u64 nsec) p1 w3 k) as [->|[x ->]] end end.
  2: { eapply time_panics; [done..| |]; cbn; congruence. }
  exists QTime. eexists _, s. cbn [serve]. rewrite En. split_and!.
  - cbn. by rewrite Ho1, Ho.
  - cbn. by rewrite Hh1, Hh.
  - done.
  - intros v [= <-]. exists w0, w2, [p0; p1]. eexists _, _. split_and!; [done|done| |done..|].
    + change (pointers hypTime a0 a1) with [a0; a1]. cbn [translate].
      unfold mbind, M_bind. by rewrite E0, E1.
    + by right.
Qed.

Lemma clear_signal_answers cpu a0 a1 a2 w s :
  refines (w_hand w) s ->
  answers cpu hypClearSignal a0 a1 a2 w s (do_clear_signal a0 w).
Proof using ArchLaws0.
  intros Hs. destruct (InjectIrq_frame (u32 a0) 0 w) as (_ & Hh & Ho & _).
  apply answers_no_pointer; [done|]. exists QNothing, (Some (0, [])), s.
  unfold do_clear_signal, attempt, mbind, M_bind.
  destruct (InjectIrq (u32 a0) 0 w) as [[]w1]; cbn in *; rewrite Ho, Hh;
    (split_and!; [done..|]; intros v [= <-]; exists [], []; auto).
Qed.

Lemma unknown_answers cpu num a0 a1 a2 w s :
  refines (w_hand w) s ->
  answers cpu num a0 a1 a2 w s ((pc ← GetPc cpu; fail (unknown_hypercall num pc)) w).
Proof using ArchLaws0.
  intros Hs. destruct (GetPc_frame cpu w) as (_ & Hh & Ho & _).
  apply answers_idle; [done|..]; unfold mbind, M_bind;
    by destruct (GetPc cpu w) as [[]w1].
Qed.

Create HintDb answers.
#[local] Hint Resolve time_answers getdents_answers fstat_answers write_answers lseek_answers
  open_answers read_answers close_answers clear_signal_answers unknown_answers : answers.

Lemma Hypercall_answers cpu num a0 a1 a2 a3 a4 a5 w s :
  refines (w_hand w) s ->
  answers cpu num a0 a1 a2 w s (Hypercall cpu num a0 a1 a2 a3 a4 a5 w).
Proof using ArchLaws0 HostOSLaws0.
  intros Hs. unfold Hypercall.
  repeat (case_decide as E; [subst num|clear E]); auto with answers.
  by apply answers_idle.
Qed.

(** C2: the hypercall handler refines the abstract file service.  In a state
    that represents an abstract one, whatever the guest passes, the descriptor
    table and the host's files are after the call as the service leaves them
    for some request, which did not change the descriptors if the call ended
    in an error or a panic; when the call returns a value, the request is the one
    that the guest's registers and memory denote, the value is the service's
    reply and guest memory holds the reply's data in the guest's buffers and
    is otherwise unchanged. *)
Theorem hypercall_refines_service cpu num a0 a1 a2 a3 a4 a5 w s :
  refines (w_hand w) s ->
  answers cpu num a0 a1 a2 w s (Hypercall cpu num a0 a1 a2 a3 a4 a5 w).
Proof using ArchLaws0 HostOSLaws0. apply Hypercall_answers. Qed.

(** ** Whole runs *)

(** What happened to the files and the descriptors is a sequence of requests. *)
Definition served (w w' : W) : Prop :=
  forall s, refines (w_hand w) s ->
  exists qs s', serve_all qs s (w_os w) = (s', w_os w') /\ refines (w_hand w') s'.

#[export] Instance served_preorder : PreOrder served.
Proof.
  split.
  - intros w s Hs. by exists [], s.
  - intros w1 w2 w3 H12 H23 s Hs. destruct (H12 s Hs) as (qs & s' & E & Hs').
    destruct (H23 s' Hs') as (qs' & s'' & E' & Hs''). exists (qs ++ qs'), s''.
    by rewrite serve_all_app, E.
Qed.

Lemma served_same (w w' : W) : w_hand w' = w_hand w -> w_os w' = w_os w -> served w w'.
Proof. intros Hh Ho s Hs. exists [], s. by rewrite Hh, Ho. Qed.

Lemma served_run_steps : run_steps served (Hypercall (K:=K) (O:=O) (F:=F)).
Proof using ArchLaws0 HostOSLaws0.
  split.
  - apply _.
  - intros w w' (_ & Hh & Ho & _). by apply served_same.
  - intros w e _. by apply served_same.
  - intros cpu num a0 a1 a2 a3 a4 a5 w s Hs.
    destruct (Hypercall_answers cpu num a0 a1 a2 a3 a4 a5 w s Hs) as (q & rep & s' & E & Hs' & _ & _).
    exists [q], s'. cbn [serve_all]. by rewrite E.
Qed.

End Spec.

Section Program.
Context {K O F : Type} `{!KVM K, !KVMLaws K, !HostOS O F, !HostOSLaws O F, !ElfReader}.
Abbreviation W := (World K O (Container F)).
Context `{!Arch K O (Container F), !ArchLaws K O (Container F)}.
Context (rekernel : list byte) (open_kernel : gostring -> O -> (ReaderAt + error) * O).

(** The service at the start: the three standard files. *)
Definition fs_start (ds : list (list gostring)) : fs F :=
  mkFs ds [Some os_Stdin; Some os_Stdout; Some os_Stderr].

(** The names given for the directories, resolved one after the other. *)
Fixpoint resolve_all (names : list gostring) (o : O) : option (list (list gostring)) * O :=
  match names with
  | [] => (Some [], o)
  | n :: names =>
      match resolve n o with
      | (None, o) => (None, o)
      | (Some d, o) =>
          let '(ds, o) := resolve_all names o in ((d ::.) <$> ds, o)
      end
  end.

Lemma abs_all_resolve names (w w' : W) ps :
  abs_all names w = (Ok ps, w') ->
  exists ds, (resolve_all names (w_os w)).1 = Some ds /\ ps = render <$> ds /\
             Forall (Forall elem_ok) ds.
Proof using HostOSLaws0.
  revert w ps. induction names as [|n names IH]; intros w ps E; cbn [abs_all] in E.
  { injection E as <- <-. by exists []. }
  apply bind_Ok_inv in E as (r & w1 & E1 & E). pose proof (Abs_resolve n w) as HA.
  unfold attempt in E1. cbn [resolve_all].
  destruct (resolve n (w_os w)) as [[d|] o]; [destruct HA as [HA Hd]|destruct HA as [e HA]];
    rewrite HA in E1; simplify_eq.
  apply bind_Ok_inv in E as (ps' & w2 & E2 & E). injection E as <- <-.
  apply IH in E2 as (ds & Er & -> & Hds). cbn in Er. exists (d :: ds).
  destruct (resolve_all names o) as [ds' o']. cbn in Er. subst ds'.
  split_and!; [done..|by constructor].
Qed.

Lemma NewContainer_refines names (w w' : W) c :
  NewContainer names w = (Ok c, w') ->
  exists ds, (resolve_all names (w_os w)).1 = Some ds /\ refines c (fs_start ds).
Proof using HostOSLaws0.
  unfold NewContainer. intros E. apply bind_Ok_inv in E as (ps & w1 & E1 & E).
  injection E as <- <-. apply abs_all_resolve in E1 as (ds & Er & -> & Hds).
  exists ds. split; [done|]. split; [done..| |]; cbn.
  - unfold fdMax. lia.
  - intros fd. unfold fs_lookup, fs_start. cbn. rewrite !lookup_insert, lookup_singleton.
    repeat case_decide; subst; try done; try lia.
    rewrite lookup_ge_None_2; [done|]. cbn. lia.
Qed.

(** C3: The whole program refines the file service.  When [main] has got as far
    as booting, the container represents a service that has just started with
    the directories of the command line; and in every configuration that any
    interleaving of the goroutines reaches, whether the guest's calls
    succeeded, failed or panicked, the host's files and the container are what
    the service makes of some sequence of requests. *)
Theorem program_refines_service argv (w w' : W) trace cfg c :
  main rekernel open_kernel argv w = (Ok (Boots trace cfg), w') ->
  rtc (step Hypercall trace) cfg c ->
  exists fl ds qs s,
    flag_Parse argv = inl fl /\
    (resolve_all (split_on colon (f_dir fl)) (w_os w)).1 = Some ds /\
    refines (w_hand w') (fs_start ds) /\
    serve_all qs (fs_start ds) (w_os w') = (s, w_os (c_world c)) /\
    refines (w_hand (c_world c)) s.
Proof using KVMLaws0 ArchLaws0 HostOSLaws0.
  intros E Hr. apply main_ok in E as (fl & Hfl & -> & E).
  apply main_flags_ok in E as (-> & _ & _ & (w1 & Hc) & _).
  apply NewContainer_refines in Hc as (ds & Hds & Hs).
  destruct (reachable_respects _ _ served served_run_steps _ _ Hr _ Hs) as (qs & s & E & Hs').
  by exists fl, ds, qs, s.
Qed.

End Program.

(** ** Witnesses *)

Module ServiceDemo.
Import TestHost.
#[local] Existing Instance Amd64.arch.
#[local] Existing Instance Amd64.arch_laws.

(** The service with [/work/a.txt] open as descriptor 3. *)
Definition service3 : fs gostring :=
  mkFs [[str "work"]] (Some <$> [str "stdin"; str "stdout"; str "stderr"; str "/work/a.txt"]).

Lemma container3_refines : refines Demo.container3 service3.
Proof.
  split; [done| |done|done|].
  - repeat constructor; try done. apply (bool_decide_unpack _). by vm_compute.
  - intros fd. unfold Demo.container3, Demo.std_files, fs_lookup. cbn [fdtable].
    rewrite !lookup_insert, lookup_singleton. repeat case_decide; subst; try done; try lia.
    rewrite lookup_ge_None_2; [done|]. cbn. lia.
Qed.

(** A read of four bytes: the request is read off the registers, the service
    replies with the first four bytes of the file. *)
Lemma hypercall_refines_service_witness :
  let r := Hypercall 0 hypRead 3 physRamBase 4 0 0 0 Demo.w_file in
  (exists w', r = (Ok 4, w')) /\
  exists s' (w1 : Demo.W) ps bufs data,
    translate 0 [physRamBase] w1 = (Ok ps, (translate 0 [physRamBase] w1).2) /\
    decode hypRead 3 physRamBase 4 ps (w_mem (translate 0 [physRamBase] w1).2) =
      Some (QRead 3 4, bufs) /\
    serve (QRead 3 4) service3 (w_os Demo.w_file) = (Some (4, data), s', w_os r.2) /\
    refines (w_hand r.2) s'.
Proof.
  intros r. assert (Hr : r.1 = Ok 4) by (by vm_compute). split.
  { exists r.2. clearbody r. destruct r as [o w']. cbn in *. by subst o. }
  destruct (hypercall_refines_service 0 hypRead 3 physRamBase 4 0 0 0 Demo.w_file service3
              container3_refines) as (q & rep & s' & Hq & Hs & _ & H).
  destruct (H 4 Hr) as (w0 & w1 & ps & bufs & data & _ & _ & Ht & Hd & -> & _).
  change (pointers hypRead 3 physRamBase) with [physRamBase] in Ht.
  assert (q = QRead 3 4) as ->.
  { destruct ps as [|p [|p' [|]]]; try discriminate Hd; by injection Hd as <- _. }
  exists s', w0, ps, bufs, data. rewrite Ht. split_and!; done.
Defined.

(** The guest of the command line demonstration opens one file. *)
Lemma program_refines_service_witness :
  exists qs s,
    serve_all qs (fs_start (F:=gostring) [[str "work"]; [str "srv"]])
      (w_os (main CmdDemo.image CmdDemo.no_kernel CmdDemo.cmdline CmdDemo.fresh).2) =
      (s, w_os (c_world CmdDemo.finished)) /\
    length (fs_log s) = 4%nat.
Proof.
  destruct (program_refines_service CmdDemo.image CmdDemo.no_kernel CmdDemo.cmdline
              CmdDemo.fresh _ false CmdDemo.booted CmdDemo.finished CmdDemo.main_booted
              CmdDemo.booted_finished) as (fl & ds & qs & s & Hfl & Hd & _ & Hq & Hs).
  assert (ds = [[str "work"]; [str "srv"]]) as ->.
  { apply (inj Some). rewrite <- Hd. injection Hfl as <-. by vm_compute. }
  exists qs, s. split; [exact Hq|]. pose proof (ref_next _ _ Hs) as Hn.
  assert (E : Z.of_nat (length (fs_log s)) = 4) by (rewrite <- Hn; by vm_compute).
  clear -E. lia.
Defined.

End ServiceDemo.
